(* ===== verification/_CoqProject ===== *)
-Q . S2P
Prelude.v
PyDecimal.v
PyTime.v
PyJson.v
TimeFacts.v
ReceiptIO.v
ExecutionModels.v
ExecutionServices.v
ExecutionCommands.v
ExecutionFacts.v
ExecutionTheorems.v
AgentModels.v
AgentStore.v
AgentSpec.v
AgentRefinement.v
AgentRuns.v
AgentInvariants.v
AgentTheorems.v
AgentEffects.v
AgentTrail.v
AgentIntents.v
AutonomyControl.v
AutonomyTheorems.v
Identity.v
AuthorityAdmin.v
AuthorityTransition.v
Deliberation.v
CognitionFlow.v
CognitionTheorems.v
CapitalTruth.v
DataQuality.v
Instances.v
ExecutionWitnesses.v
AgentInstances.v
AgentWitnesses.v
AutonomyWitnesses.v
PolicyExamples.v
