(* ===== verification/Prelude.v ===== *)
(** * FinHarness verification

    FinHarness is a personal-capital harness: an agent may observe a Capital
    World, hold missions under a principal's constitution, and ask for
    simulated effects within delegations; every step leaves a receipt.  This
    library models the parts that decide what may happen and that record what
    did happen, all under [src/src/finharness/], and proves what makes them
    correct.

    ** Parts and how they interact

    - Receipt files ([statecore/receipt_io.py]) keep JSON artifacts: paths are
      contained under a root, files are replaced atomically, created
      exclusively, or swapped against an expected content hash and state.
    - The execution kernel ([execution/], [statecore/execution_models.py],
      [statecore/store.py]) turns an order draft into a checked, approved,
      staged, submitted and reconciled order.  Each service checks a
      capability, writes a receipt and commits rows in separate transactions.
      Broker adapters come from a registry that admits simulated ones only.
    - The capital agent ([capital_agent.py]) is a store of nine kinds of
      hashed artifacts.  It admits an effect intent against mission,
      delegation, constitution and current world, and executes an admitted
      intent by calling the execution kernel once.
    - Autonomy admission ([autonomy_control.py]) decides whether an agent
      action is effective, a candidate, blocked or escalated, from its class,
      the requested autonomy, the runtime and a mandate.
    - Authority: administration commands need a human administrator
      ([authority_administration.py], [identity.py]); eligibility transitions
      need a human attestation ([authority_transition.py],
      [authority_eligibility_policy.py]).
    - Cognition: the flow that writes options and a plan, evaluates the plan
      and its context, and records the eligibility that follows
      ([agent_cognition_flow.py], [deliberation_receipts.py],
      [plan_draft_evaluator.py], [evaluation_report.py], [context_trust.py],
      [context_use_policy.py], [agent_run_receipts.py]).
    - Evidence policies: capital truth per use case ([capital_truth.py]) and
      market-data readiness ([data_quality_policy.py]).

    ** Files

    Language and library layer:
    - [Prelude]: the state-and-exception monad [M] (a raising call keeps what
      it wrote), [Respects] and [wp] reasoning with their tactics, Python
      strings, finite maps.
    - [PyDecimal]: [decimal.Decimal] with the default 28-digit context,
      printing and parsing.  [PyTime]: [datetime] instants in microseconds,
      [isoformat], [fromisoformat].  [TimeFacts]: their round trip.
      [PyJson]: JSON values, [json.dumps], [repr].
    - [ReceiptIO]: the environment class [PyEnv] (clock, uuid4, SHA-256,
      working directory) and the receipt-file helpers.

    Execution kernel:
    - [ExecutionModels]: the tables as records in finite maps ([db]) with
      CHECKs and foreign keys, and [write_records]; class [Database] for what
      the SQL engine decides.  [ExecutionServices]: [execution/services.py],
      [receipts.py] and [capabilities.py].  [ExecutionCommands]: [broker.py],
      [adapters/simulated_broker.py], [commands.py].
    - [ExecutionFacts], [ExecutionTheorems]: runs of arbitrary calls (returning
      or raising) keep the tables well formed and the audit rows append-only;
      an order is submitted at most once; capabilities fail closed; staging
      and simulated submission do what they promise; and what goes wrong when
      ids collide, staging fails, a draft is approved again, or quantities are
      compared as text.

    Capital agent:
    - [AgentModels], [AgentStore]: artifacts and every operation of
      [CapitalAgentStore]; its state pairs the artifact directories with the
      kernel state.
    - [AgentSpec]: an abstract agent, with one inductive step per kind of
      artifact change.  [AgentRefinement], [AgentRuns]: every operation
      simulates it; [agent_step] is any call, returning or raising.
    - [AgentInvariants], [AgentTheorems]: what never changes, lifecycles,
      budgets and limits, by rule induction on the specification, carried over
      by the refinement.  [AgentEffects]: admission is exact, and interleaved
      admissions overrun a budget.  [AgentTrail]: an effect reaches the kernel
      at most once, leaves a claim when it fails and a complete trail when it
      succeeds; a sale never oversells with adapters that report no more than
      was ordered; without an adapter an effect completes unfilled.
      [AgentIntents]: replay of requests.

    Policies:
    - [AutonomyControl], [AutonomyTheorems]; [Identity], [AuthorityAdmin];
      [AuthorityTransition]; [Deliberation], [CognitionFlow],
      [CognitionTheorems]; [CapitalTruth]; [DataQuality]: each with an exact
      characterization of what is admitted.

    Concrete runs:
    - [Instances], [AgentInstances]: environments, engines and set-ups;
      [ExecutionWitnesses], [AgentWitnesses], [AutonomyWitnesses],
      [PolicyExamples]: the theorems applied to them, and examples of
      particular runs.

    ** Conventions and bounds

    - Strings hold code points below 256; case mapping is that of ASCII.
      Decimals are finite and arithmetic rounds to 28 digits as the default
      context does; exponent limits are not modelled.  Integers are unbounded
      as in Python.  [fromisoformat] reads the extended calendar format with
      hours, optional minutes and seconds, a fraction of any length after a dot
      or a comma and an offset; basic and week dates, a fraction after hours or
      minutes and an empty fraction read as errors.
    - The clock, uuids, SHA-256 and directories are parameters ([PyEnv]); no
      theorem assumes that the clock advances, that uuids differ or that
      SHA-256 is injective unless it says so.
    - What the SQL engine decides (which row [first()] returns, how a text
      column compares with a number, whether table models run validators) is
      the class [Database]; [DatabaseLaws] states only that [first()] returns
      one of the matching rows if there is one.  The theorem on the quantity
      CHECK names the text comparison it assumes.
    - Broker adapters are any record of operations; the registry accepts any of
      kind [simulated].  What a theorem needs of their reports is a hypothesis,
      and [SimulatedBrokerAdapter] is shown to meet it.
    - Artifact files are typed: a file is a readable record of its kind or
      [Unreadable].  Artifact ids are plain file names.  Symbolic links,
      temporary files and fsync are not modelled, nor is a plain [write_text]
      that is cut short.
    - Calls run to completion one after the other, except in the theorem on
      interleaved admissions, which splits the call where the code does.
    - All recursion is structural; fuel occurs only in printing digits and in
      reducing a quotient, bounded by the number of digits.
    - A pydantic [ValidationError] is its base [ValueError].

    ** Not modelled

    The resolution of the Capital World from imports (the agent takes a
    resolved world), proposals and reviews, mandates and grants, identity
    mutation receipts, the runtime job queue (Rust) and its worker, imports,
    planning views, agent shell and tools, HTTP routes, market-data providers,
    user interfaces and scripts.  Next in the plan: the runtime worker, the
    mandate and grant lifecycles behind [AuthorityAdmin], identity mutation
    claims on top of the compare-and-swap, and snapshot differences. *)
From Stdlib Require Export Ascii String ZArith Lia.
From stdpp Require Export base gmap strings list sorting.

(** ** Exceptions and the state/exception monad

    A Python call that mutates state and may raise is a computation
    [M S A]: it always returns the state it leaves behind, also when it
    raises, because the files and committed rows it wrote stay written. *)

Inductive exn_kind :=
  | ValueError
  | ExecutionCapabilityDeniedError
  | StateCoreStoreError
  | NoResultFound
  | CapitalAgentConflictError
  | CapitalAgentNotFoundError
  | EffectAdmissionDenied
  | EffectRecoveryRequired
  | AuthorityAdministrationDeniedError
  | IdentitySubstitutionError
  | BrowserMutationBindingError
  | ReceiptIntegrityError
  | ReceiptPathError.

#[export] Instance exn_kind_eq_dec : EqDecision exn_kind.
Proof. solve_decision. Defined.

Record exn := Exn { exn_of : exn_kind; exn_msg : string }.

#[export] Instance exn_eq_dec : EqDecision exn.
Proof. solve_decision. Defined.

Definition M (S A : Type) : Type := S → S * (exn + A).

#[export] Instance M_ret S : MRet (M S) := λ A a s, (s, inr a).
#[export] Instance M_bind S : MBind (M S) := λ A B f m s,
  match m s with
  | (s', inl e) => (s', inl e)
  | (s', inr a) => f a s'
  end.

Definition raise {S A} (k : exn_kind) (msg : string) : M S A :=
  λ s, (s, inl (Exn k msg)).
Definition throw {S A} (e : exn) : M S A := λ s, (s, inl e).
Definition gets {S A} (f : S → A) : M S A := λ s, (s, inr (f s)).
Definition modify {S} (f : S → S) : M S unit := λ s, (f s, inr tt).

(** [try m except e: raise (h e)] *)
Definition catch {S A} (m : M S A) (h : exn → M S A) : M S A := λ s,
  match m s with
  | (s', inl e) => h e s'
  | (s', inr a) => (s', inr a)
  end.

(** Raise unless the Boolean holds. *)
Definition require {S} (b : bool) (k : exn_kind) (msg : string) : M S unit :=
  if b then mret tt else raise k msg.

Definition of_option {S A} (o : option A) (k : exn_kind) (msg : string) : M S A :=
  match o with Some a => mret a | None => raise k msg end.

Definition of_sum {S A} (r : exn + A) : M S A := λ s, (s, r).

(** Run a computation on a component of a larger state. *)
Definition zoom {S T A} (get : T → S) (put : S → T → T) (m : M S A) : M T A := λ t,
  let '(s', r) := m (get t) in (put s' t, r).

(** [for x in l: body x] *)
Fixpoint for_each {S A} (l : list A) (body : A → M S unit) : M S unit :=
  match l with
  | [] => mret tt
  | x :: l' => body x ;; for_each l' body
  end.

(** [[f x for x in l]] with an [f] that may raise *)
Fixpoint traverse {A B} (f : A → exn + B) (l : list A) : exn + list B :=
  match l with
  | [] => inr []
  | x :: l' =>
      match f x with
      | inl e => inl e
      | inr y => match traverse f l' with inl e => inl e | inr ys => inr (y :: ys) end
      end
  end.

(** Sequencing of calls that may raise and keep no state. *)
Definition sum_bind {A B} (r : exn + A) (f : A → exn + B) : exn + B :=
  match r with inl e => inl e | inr a => f a end.

Definition is_ok {A} (r : exn + A) : bool := match r with inr _ => true | inl _ => false end.

Definition get_ok {A} (d : A) (r : exn + A) : A := match r with inr a => a | inl _ => d end.

(** ** Reasoning about computations *)

Section Monad.
Context {S : Type}.

Lemma bind_ok {A B} (m : M S A) (f : A → M S B) s s' b :
    (m ≫= f) s = (s', inr b) ↔ ∃ a s1, m s = (s1, inr a) ∧ f a s1 = (s', inr b).
Proof. unfold mbind, M_bind. destruct (m s) as [s1 [e|a]]; naive_solver. Qed.

Lemma bind_err {A B} (m : M S A) (f : A → M S B) s s' e :
    (m ≫= f) s = (s', inl e) ↔
    m s = (s', inl e) ∨ ∃ a s1, m s = (s1, inr a) ∧ f a s1 = (s', inl e).
Proof. unfold mbind, M_bind. destruct (m s) as [s1 [e'|a]]; naive_solver. Qed.

Lemma bind_step {A B} (m : M S A) (f : A → M S B) s s1 a :
    m s = (s1, inr a) → (m ≫= f) s = f a s1.
Proof. unfold mbind, M_bind. by intros ->. Qed.

Lemma bind_fail {A B} (m : M S A) (f : A → M S B) s s1 e :
    m s = (s1, inl e) → (m ≫= f) s = (s1, inl e).
Proof. unfold mbind, M_bind. by intros ->. Qed.

Lemma ret_ok {A} (a : A) (s s' : S) r : mret (M := M S) a s = (s', r) ↔ s' = s ∧ r = inr a.
Proof. unfold mret, M_ret. naive_solver. Qed.

Lemma gets_ok {A} (f : S → A) s s' r : gets f s = (s', r) ↔ s' = s ∧ r = inr (f s).
Proof. unfold gets. naive_solver. Qed.

Lemma modify_ok (f : S → S) s s' r : modify f s = (s', r) ↔ s' = f s ∧ r = inr tt.
Proof. unfold modify. naive_solver. Qed.

Lemma raise_ok {A} k msg (s s' : S) (r : exn + A) :
    raise k msg s = (s', r) ↔ s' = s ∧ r = inl (Exn k msg).
Proof. unfold raise. naive_solver. Qed.

Lemma require_ok b k msg (s s' : S) :
    require b k msg s = (s', inr tt) ↔ s' = s ∧ b = true.
Proof. unfold require. destruct b; rewrite ?ret_ok, ?raise_ok; naive_solver. Qed.

Lemma of_option_ok {A} (o : option A) k msg (s s' : S) a :
    of_option o k msg s = (s', inr a) ↔ s' = s ∧ o = Some a.
Proof. unfold of_option. destruct o; rewrite ?ret_ok, ?raise_ok; naive_solver. Qed.

Lemma of_sum_ok {A} (r r' : exn + A) (s s' : S) :
    of_sum r s = (s', r') ↔ s' = s ∧ r = r'.
Proof. unfold of_sum. naive_solver. Qed.

Lemma bind_assoc {A B C} (m : M S A) (f : A → M S B) (g : B → M S C) s :
    ((m ≫= f) ≫= g) s = (m ≫= λ a, f a ≫= g) s.
Proof. unfold mbind, M_bind. by destruct (m s) as [? [|]]. Qed.
End Monad.

(** A run that is known to return. *)
Lemma run_ok {S A} (d : A) (m : M S A) s :
  is_ok (m s).2 = true → m s = ((m s).1, inr (get_ok d (m s).2)).
Proof. by destruct (m s) as [s' [e|a]]. Qed.

(** *** Relations every computation respects

    [Respects R m]: whatever [m] does, normally or by raising, relates the
    initial to the final state by [R].  With [R s s' := I s → I s'] this is
    preservation of the invariant [I]; with other preorders it says what is
    never overwritten.  The rules below are hints of [respects]. *)

Definition Respects {S A} (R : relation S) (m : M S A) : Prop := ∀ s, R s (m s).1.

Definition keeps {S} (I : S → Prop) : relation S := λ s s', I s → I s'.
#[export] Instance keeps_preorder {S} (I : S → Prop) : PreOrder (keeps I).
Proof. unfold keeps. split; [by intros s|intros a b c; auto]. Qed.
#[export] Instance unchanged_preorder {S A} (f : S → A) : PreOrder (λ s s', f s' = f s).
Proof. split; [by intros s|intros a b c; congruence]. Qed.

Section Respects.
Context {S : Type} (R : relation S) `{!PreOrder R}.

Lemma respects_ret {A} (a : A) : Respects R (mret a).
Proof. intros s. reflexivity. Qed.
Lemma respects_raise {A} k msg : Respects R (raise (S := S) (A := A) k msg).
Proof. intros s. reflexivity. Qed.
Lemma respects_throw {A} e : Respects R (throw (S := S) (A := A) e).
Proof. intros s. reflexivity. Qed.
Lemma respects_gets {A} (f : S → A) : Respects R (gets f).
Proof. intros s. reflexivity. Qed.
Lemma respects_require b k msg : Respects R (require b k msg).
Proof. intros s. by destruct b. Qed.
Lemma respects_of_option {A} (o : option A) k msg : Respects R (of_option o k msg).
Proof. intros s. by destruct o. Qed.
Lemma respects_of_sum {A} (r : exn + A) : Respects R (of_sum r).
Proof. intros s. reflexivity. Qed.
Lemma respects_bind {A B} (m : M S A) (f : A → M S B) :
    Respects R m → (∀ a, Respects R (f a)) → Respects R (m ≫= f).
Proof.
    intros Hm Hf s. specialize (Hm s). unfold mbind, M_bind.
    destruct (m s) as [s1 [e|a]]; simpl in *; [done|]. etrans; [done|apply Hf].
Qed.
Lemma respects_catch {A} (m : M S A) (h : exn → M S A) :
    Respects R m → (∀ e, Respects R (h e)) → Respects R (catch m h).
Proof.
    intros Hm Hh s. specialize (Hm s). unfold catch.
    destruct (m s) as [s1 [e|a]]; simpl in *; [|done]. etrans; [done|apply Hh].
Qed.
Lemma respects_for_each {A} (l : list A) (body : A → M S unit) :
    (∀ x, Respects R (body x)) → Respects R (for_each l body).
Proof.
    intros Hb. induction l; simpl; [apply respects_ret|by apply respects_bind].
Qed.
End Respects.

Create HintDb respects.
#[export] Hint Resolve respects_ret respects_raise respects_throw respects_gets
  respects_require respects_of_option respects_of_sum : respects.

(** Decompose a [Respects] goal along the structure of the computation. *)
Ltac respects_step :=
  lazymatch goal with
  | |- Respects _ (_ ≫= _) => apply respects_bind; [apply _| |intros ?]
  | |- Respects _ (catch _ _) => apply respects_catch; [apply _| |intros ?]
  | |- Respects _ (for_each _ _) => apply respects_for_each; [apply _|intros ?]
  | |- Respects _ (mret _) => apply respects_ret; apply _
  | |- Respects _ (raise _ _) => apply respects_raise; apply _
  | |- Respects _ (throw _) => apply respects_throw; apply _
  | |- Respects _ (gets _) => apply respects_gets; apply _
  | |- Respects _ (require _ _ _) => apply respects_require; apply _
  | |- Respects _ (of_option _ _ _) => apply respects_of_option; apply _
  | |- Respects _ (of_sum _) => apply respects_of_sum; apply _
  | |- Respects _ (match ?x with _ => _ end) => destruct x
  | |- Respects _ (let x := _ in _) => cbv zeta
  end.
Ltac respects := repeat first [respects_step | solve [eauto 2 with respects]].

(** Decompose a hypothesis that says how a computation ended. *)
Ltac minv_one H :=
  lazymatch type of H with
  | (_ ≫= _) _ = (_, inr _) =>
      let a := fresh "a" in let s1 := fresh "s" in let H1 := fresh "H" in
      apply bind_ok in H as (a & s1 & H1 & H)
  | mret _ _ = (_, _) => apply ret_ok in H as [? ?]
  | gets _ _ = (_, _) => apply gets_ok in H as [? ?]
  | modify _ _ = (_, _) => apply modify_ok in H as [? ?]
  | raise _ _ _ = (_, _) => apply raise_ok in H as [? ?]
  | require _ _ _ _ = (_, inr ?x) => destruct x; apply require_ok in H as [? ?]
  | of_option _ _ _ _ = (_, inr _) => apply of_option_ok in H as [? ?]
  | of_sum _ _ = (_, _) => apply of_sum_ok in H as [? ?]
  end.
Ltac minv :=
  repeat match goal with
  | H : _ = (_, _) |- _ => progress minv_one H; simplify_eq
  | H : (_, _) = (_, _) |- _ => progress simplify_eq
  end.

(** *** What holds when a computation ends

    [wp m Q s]: from [s], [m] ends in a state and with a result (a value or
    an exception) that satisfy [Q]. *)

Definition wp {S A} (m : M S A) (Q : S → exn + A → Prop) (s : S) : Prop := Q (m s).1 (m s).2.

Section WP.
Context {S : Type}.
Implicit Types s : S.

Lemma wp_intro {A} (m : M S A) Q s s' r : m s = (s', r) → Q s' r → wp m Q s.
Proof. unfold wp. by intros ->. Qed.
Lemma wp_elim {A} (m : M S A) Q s s' r : m s = (s', r) → wp m Q s → Q s' r.
Proof. unfold wp. by intros ->. Qed.
Lemma wp_mono {A} (m : M S A) (Q Q' : S → exn + A → Prop) s :
  (∀ s' r, Q s' r → Q' s' r) → wp m Q s → wp m Q' s.
Proof. unfold wp. auto. Qed.
Lemma wp_bind {A B} (m : M S A) (f : A → M S B) Q s :
  wp m (λ s' r, match r with inl e => Q s' (inl e) | inr a => wp (f a) Q s' end) s →
  wp (m ≫= f) Q s.
Proof. unfold wp, mbind, M_bind. by destruct (m s) as [s' [e|a]]. Qed.
Lemma wp_catch {A} (m : M S A) (h : exn → M S A) Q s :
  wp m (λ s' r, match r with inl e => wp (h e) Q s' | inr a => Q s' (inr a) end) s →
  wp (catch m h) Q s.
Proof. unfold wp, catch. by destruct (m s) as [s' [e|a]]. Qed.
Lemma wp_ret {A} (a : A) Q s : Q s (inr a) → wp (mret a) Q s.
Proof. done. Qed.
Lemma wp_raise {A} k msg (Q : S → exn + A → Prop) s : Q s (inl (Exn k msg)) → wp (raise k msg) Q s.
Proof. done. Qed.
Lemma wp_of_sum {A} (r : exn + A) Q s : (∀ r', r = r' → Q s r') → wp (of_sum r) Q s.
Proof. unfold wp. simpl. auto. Qed.
Lemma wp_require b k msg Q s :
  (b = true → Q s (inr tt)) → (b = false → Q s (inl (Exn k msg))) → wp (require b k msg) Q s.
Proof. unfold wp, require. destruct b; simpl; auto. Qed.
Lemma wp_of_option {A} (o : option A) k msg Q s :
  (∀ a, o = Some a → Q s (inr a)) → (o = None → Q s (inl (Exn k msg))) →
  wp (of_option o k msg) Q s.
Proof. unfold wp, of_option. destruct o; simpl; auto. Qed.
End WP.

(** One step of symbolic execution. *)
Ltac wp_step :=
  lazymatch goal with
  | |- wp (_ ≫= _) _ _ => apply wp_bind
  | |- wp (mret _) _ _ => apply wp_ret
  | |- wp (raise _ _) _ _ => apply wp_raise
  | |- wp (catch _ _) _ _ => apply wp_catch
  | |- wp (of_sum _) _ _ => apply wp_of_sum; intros [?|?] ?
  | |- wp (require _ _ _) _ _ => apply wp_require; intros ?
  | |- wp (of_option _ _ _) _ _ => apply wp_of_option; [intros ? ?|intros ?]
  | |- wp (if ?b then _ else _) _ _ => destruct b eqn:?
  | |- wp (match ?x with _ => _ end) _ _ => destruct x eqn:?
  end.

(** ** Python strings

    A [string] is a Python [str] whose code points are below 256. *)

Definition code (c : ascii) : nat := nat_of_ascii c.

(** [str.isspace] of one code point *)
Definition is_space (c : ascii) : bool :=
  let n := code c in
  ((9 <=? n) && (n <=? 13)) || ((28 <=? n) && (n <=? 32)) || (n =? 133) || (n =? 160).
Definition is_upper (c : ascii) : bool := (65 <=? code c) && (code c <=? 90).
Definition is_lower (c : ascii) : bool := (97 <=? code c) && (code c <=? 122).
(** [str.isalpha], [str.isdigit] and [str.isascii] of one ASCII code point *)
Definition is_alpha (c : ascii) : bool := is_upper c || is_lower c.
Definition is_digit (c : ascii) : bool := (48 <=? code c) && (code c <=? 57).
Definition is_ascii (c : ascii) : bool := code c <? 128.
Definition upper_char (c : ascii) : ascii :=
  if is_lower c then ascii_of_nat (code c - 32) else c.
Definition lower_char (c : ascii) : ascii :=
  if is_upper c then ascii_of_nat (code c + 32) else c.

Definition chars (s : string) : list ascii := list_ascii_of_string s.
Definition of_chars (l : list ascii) : string := string_of_list_ascii l.

Fixpoint drop_space (l : list ascii) : list ascii :=
  match l with
  | c :: l' => if is_space c then drop_space l' else l
  | [] => []
  end.

(** [str.strip()] *)
Definition strip (s : string) : string :=
  of_chars (rev (drop_space (rev (drop_space (chars s))))).
(** [str.upper()] and [str.lower()] on ASCII letters *)
Definition upper (s : string) : string := of_chars (map upper_char (chars s)).
Definition lower (s : string) : string := of_chars (map lower_char (chars s)).
(** [not s.strip()] *)
Definition blank (s : string) : bool := String.eqb (strip s) "".

(** [s.split(sep)] for a one-character separator *)
Fixpoint split_chars (sep : ascii) (cur l : list ascii) : list (list ascii) :=
  match l with
  | [] => [rev cur]
  | c :: l' => if Ascii.eqb c sep then rev cur :: split_chars sep [] l'
               else split_chars sep (c :: cur) l'
  end.
Definition split_on (sep : ascii) (s : string) : list string :=
  map of_chars (split_chars sep [] (chars s)).
(** [sep.join(l)] *)
Definition join (sep : string) (l : list string) : string := String.concat sep l.
(** [s[:n]] *)
Definition take_str (n : nat) (s : string) : string := of_chars (take n (chars s)).
(** [s.replace(c, "")] for a one-character [c] *)
Definition remove_char (c : ascii) (s : string) : string :=
  of_chars (List.filter (λ d, negb (Ascii.eqb d c)) (chars s)).
(** [prefix <= s] as in [s.startswith(prefix)] *)
Definition starts_with (p s : string) : bool := String.prefix p s.

Definition mem (s : string) (l : list string) : bool := existsb (String.eqb s) l.
Definition streq (a b : string) : bool := String.eqb a b.

Lemma of_chars_chars s : of_chars (chars s) = s.
Proof. apply string_of_list_ascii_of_string. Qed.
Lemma chars_of_chars l : chars (of_chars l) = l.
Proof. apply list_ascii_of_string_of_list_ascii. Qed.
Lemma chars_inj s t : chars s = chars t → s = t.
Proof. intros E. by rewrite <-(of_chars_chars s), <-(of_chars_chars t), E. Qed.
Lemma chars_app s t : chars (s +:+ t) = chars s ++ chars t.
Proof. induction s; simpl; [done|]. unfold chars in *. simpl. by rewrite IHs. Qed.

Lemma streq_true a b : streq a b = true ↔ a = b.
Proof. apply String.eqb_eq. Qed.
Lemma streq_false a b : streq a b = false ↔ a ≠ b.
Proof. apply String.eqb_neq. Qed.
Lemma streq_refl a : streq a a = true.
Proof. apply String.eqb_refl. Qed.
Lemma mem_true s l : mem s l = true ↔ s ∈ l.
Proof.
  unfold mem. rewrite existsb_exists. setoid_rewrite String.eqb_eq.
  rewrite list_elem_of_In. naive_solver.
Qed.

Lemma drop_space_head l c l' : drop_space l = c :: l' → is_space c = false.
Proof. induction l; simpl; [done|]. destruct (is_space a) eqn:E; naive_solver. Qed.
Lemma drop_space_idem l : drop_space (drop_space l) = drop_space l.
Proof.
  destruct (drop_space l) as [|c l'] eqn:E; [done|].
  apply drop_space_head in E. simpl. by rewrite E.
Qed.
Lemma drop_space_suffix l : ∃ k, l = k ++ drop_space l.
Proof.
  induction l as [|c l [k IH]]; [by exists []|]. simpl.
  destruct (is_space c); [exists (c :: k); simpl; by f_equal|by exists []].
Qed.
Lemma drop_space_app_last l c :
  is_space c = false → ∃ l', drop_space (l ++ [c]) = l' ++ [c].
Proof.
  intros Hc. induction l as [|d l IH]; simpl.
  - rewrite Hc. by exists [].
  - destruct (is_space d); [done|]. by exists (d :: l).
Qed.

Lemma strip_idem s : strip (strip s) = strip s.
Proof.
  unfold strip. rewrite chars_of_chars. f_equal.
  set (a := drop_space (chars s)).
  assert (Hd : drop_space (rev (drop_space (rev a))) = rev (drop_space (rev a))).
  { destruct a as [|c a'] eqn:Ea; [done|].
    assert (Hc : is_space c = false) by (subst a; by eapply drop_space_head).
    simpl. destruct (drop_space_app_last (rev a') c Hc) as [l' ->].
    rewrite rev_app_distr. simpl. by rewrite Hc. }
  rewrite Hd, rev_involutive. by rewrite drop_space_idem.
Qed.

Lemma blank_true s : blank s = true ↔ strip s = "".
Proof. apply String.eqb_eq. Qed.
Lemma blank_false s : blank s = false ↔ strip s ≠ "".
Proof. apply String.eqb_neq. Qed.
Lemma blank_strip s : blank (strip s) = blank s.
Proof. unfold blank. by rewrite strip_idem. Qed.

#[export] Hint Rewrite strip_idem blank_strip of_chars_chars chars_of_chars streq_refl : fin.

(** ** Small tools on Booleans and lists *)

Lemma if_true {A} (b : bool) (x y : A) : b = true → (if b then x else y) = x.
Proof. by intros ->. Qed.
Lemma if_false {A} (b : bool) (x y : A) : b = false → (if b then x else y) = y.
Proof. by intros ->. Qed.

Lemma app_nil_iff {A} (l l' : list A) : l ++ l' = [] ↔ l = [] ∧ l' = [].
Proof. split; [apply app_eq_nil|by intros [-> ->]]. Qed.

(** Turn Boolean tests of the code into propositions. *)
Ltac bool_simpl :=
  repeat match goal with
  | H : _ && _ = true |- _ => apply andb_true_iff in H as [? ?]
  | H : _ || _ = false |- _ => apply orb_false_iff in H as [? ?]
  | H : negb _ = true |- _ => apply negb_true_iff in H
  | H : negb _ = false |- _ => apply negb_false_iff in H
  | H : streq _ _ = true |- _ => apply streq_true in H
  | H : streq _ _ = false |- _ => apply streq_false in H
  | H : mem _ _ = true |- _ => apply mem_true in H
  | H : bool_decide _ = true |- _ => apply bool_decide_eq_true in H
  | H : bool_decide _ = false |- _ => apply bool_decide_eq_false in H
  end.

(** ** Finite maps *)

Lemma map_Forall_alter {A} (P : string → A → Prop) (f : A → A) i (m : gmap string A) :
  (∀ x, P i x → P i (f x)) → map_Forall P m → map_Forall P (alter f i m).
Proof.
  intros Hf HP k x. rewrite lookup_alter_Some. intros [(<- & y & Hy & ->)|[_ Hx]]; eauto.
Qed.

Lemma size_filter_insert {A} (P : string * A → Prop) `{∀ x, Decision (P x)}
    (m : gmap string A) i x :
  m !! i = None →
  size (filter P (<[i := x]> m)) = (if decide (P (i, x)) then 1 else 0) + size (filter P m).
Proof.
  intros Hi. rewrite map_filter_insert. case_decide.
  - rewrite map_size_insert_None; [done|]. apply map_lookup_filter_None. by left.
  - by rewrite delete_id.
Qed.

Lemma length_filter_perm {A} (f : A → bool) (l l' : list A) :
  l ≡ₚ l' → length (List.filter f l) = length (List.filter f l').
Proof. induction 1; simpl; repeat case_match; simpl; congruence. Qed.

(** ** Reachability by steps *)

Section Steps.
Context {S : Type} (step : relation S).

Lemma rtc_invariant (I : S → Prop) s s' :
    (∀ a b, step a b → I a → I b) → rtc step s s' → I s → I s'.
Proof. intros Hs. induction 1; eauto. Qed.
End Steps.
