(* ===== verification/PyDecimal.v ===== *)
(** Python's [decimal.Decimal] as the sources use it: finite values, the
    default context (28 significant digits, round half even), comparison,
    [+], [-], [*], [/], [str] and the constructor from a string. *)
From S2P Require Import Prelude.

(** ** Digits of a natural number *)

Fixpoint digits_fuel (fuel : nat) (n : N) (acc : list ascii) : list ascii :=
  match fuel with
  | O => acc
  | S f =>
      let acc := ascii_of_N (48 + n mod 10) :: acc in
      if (n <? 10)%N then acc else digits_fuel f (n / 10) acc
  end.
Definition N_digits (n : N) : list ascii := digits_fuel (S (N.size_nat n)) n [].

Definition digit_val (c : ascii) : N := (N_of_ascii c - 48)%N.
Definition digits_N (l : list ascii) : N :=
  fold_left (λ acc c, (acc * 10 + digit_val c)%N) l 0%N.

(** [len(str(n))] *)
Definition ndigits (n : N) : nat := length (N_digits n).

(** [str(n)] of a non-negative [int], and [str(z)] *)
Definition N_str (n : N) : string := of_chars (N_digits n).
Definition Z_str (z : Z) : string :=
  if (z <? 0)%Z then "-" +:+ N_str (Z.to_N (- z)) else N_str (Z.to_N z).

Lemma digit_val_char k : (k < 10)%N → digit_val (ascii_of_N (48 + k)) = k.
Proof. intros H. unfold digit_val. rewrite N_ascii_embedding; lia. Qed.

Lemma is_digit_char k : (k < 10)%N → is_digit (ascii_of_N (48 + k)) = true.
Proof.
  intros H. unfold is_digit, code, nat_of_ascii. rewrite N_ascii_embedding by lia.
  rewrite andb_true_iff, !Nat.leb_le. lia.
Qed.

Lemma fold_digits l a :
  fold_left (λ acc c, (acc * 10 + digit_val c)%N) l a
  = (a * 10 ^ N.of_nat (length l) + digits_N l)%N.
Proof.
  unfold digits_N. revert a. induction l as [|c l IH]; intros a; simpl; [lia|].
  rewrite (IH (a * 10 + digit_val c)%N), (IH (0 * 10 + digit_val c)%N).
  replace (N.of_nat (S (length l))) with (N.succ (N.of_nat (length l))) by lia.
  rewrite N.pow_succ_r'. lia.
Qed.

Lemma digits_N_app l1 l2 :
  digits_N (l1 ++ l2) = (digits_N l1 * 10 ^ N.of_nat (length l2) + digits_N l2)%N.
Proof. unfold digits_N at 1. by rewrite fold_left_app, fold_digits. Qed.

Lemma digits_N_cons c l :
  digits_N (c :: l) = (digit_val c * 10 ^ N.of_nat (length l) + digits_N l)%N.
Proof. apply (digits_N_app [c] l). Qed.

(** The fuel [S (N.size_nat n)] is enough: [n < 2 ^ N.size n]. *)
Lemma digits_fuel_spec fuel n acc :
  (n < 2 ^ N.of_nat fuel)%N → (0 < fuel)%nat →
  digits_N (digits_fuel fuel n acc) =
    (n * 10 ^ N.of_nat (length acc) + digits_N acc)%N.
Proof.
  revert n acc. induction fuel as [|f IH]; intros n acc Hn Hf; [lia|].
  cbn [digits_fuel]. destruct (N.ltb_spec n 10) as [H|H].
  - rewrite digits_N_cons, digit_val_char by (apply N.mod_lt; lia).
    by rewrite N.mod_small.
  - assert (Hd : (n / 10 < 2 ^ N.of_nat f)%N).
    { apply N.Div0.div_lt_upper_bound.
      replace (N.of_nat (S f)) with (N.succ (N.of_nat f)) in Hn by lia.
      rewrite N.pow_succ_r' in Hn. lia. }
    assert (0 < f)%nat. { destruct f; [|lia]. simpl in Hn. lia. }
    rewrite IH by done. rewrite digits_N_cons, digit_val_char by (apply N.mod_lt; lia).
    cbn [length]. replace (N.of_nat (S (length acc))) with (N.succ (N.of_nat (length acc))) by lia.
    rewrite N.pow_succ_r'. pose proof (N.div_mod n 10). nia.
Qed.

Lemma size_nat_bound n : (n < 2 ^ N.of_nat (S (N.size_nat n)))%N.
Proof.
  assert (H : ∀ p, (N.pos p < 2 ^ N.of_nat (Pos.size_nat p))%N).
  { induction p as [p IH|p IH|]; cbn [Pos.size_nat]; [| |simpl; lia];
      rewrite Nat2N.inj_succ, N.pow_succ_r'; lia. }
  rewrite Nat2N.inj_succ, N.pow_succ_r'. destruct n as [|p]; [simpl; lia|].
  specialize (H p). simpl. lia.
Qed.

Lemma digits_N_digits n : digits_N (N_digits n) = n.
Proof.
  unfold N_digits. rewrite digits_fuel_spec; [|apply size_nat_bound|lia].
  change (digits_N []) with 0%N. simpl. rewrite N.pow_0_r. lia.
Qed.

Lemma digits_fuel_all fuel n acc :
  Forall (λ c, is_digit c = true) acc →
  Forall (λ c, is_digit c = true) (digits_fuel fuel n acc).
Proof.
  revert n acc. induction fuel as [|f IH]; intros n acc Ha; simpl; [done|].
  assert (Forall (λ c, is_digit c = true) (ascii_of_N (48 + n mod 10) :: acc)).
  { constructor; [apply is_digit_char, N.mod_lt; lia|done]. }
  destruct (n <? 10)%N; auto.
Qed.
Lemma N_digits_all n : Forall (λ c, is_digit c = true) (N_digits n).
Proof. apply digits_fuel_all. constructor. Qed.
Lemma N_digits_nonempty n : N_digits n ≠ [].
Proof.
  unfold N_digits. simpl.
  destruct (n <? 10)%N; [done|].
  assert (H : ∀ f m a, a ≠ [] → digits_fuel f m a ≠ []).
  { induction f as [|f IH]; simpl; intros m a Ha; [done|]. destruct (m <? 10)%N; [done|].
    by apply IH. }
  by apply H.
Qed.

Lemma digits_N_bound l :
  Forall (λ c, is_digit c = true) l → (digits_N l < 10 ^ N.of_nat (length l))%N.
Proof.
  induction l as [|c l IH]; intros H; [reflexivity|].
  inversion_clear H as [|? ? Hc Hl]. rewrite digits_N_cons. specialize (IH Hl).
  assert (digit_val c < 10)%N.
  { unfold is_digit, code, nat_of_ascii in Hc. unfold digit_val.
    rewrite andb_true_iff, !Nat.leb_le in Hc. lia. }
  cbn [length]. replace (N.of_nat (S (length l))) with (N.succ (N.of_nat (length l))) by lia.
  rewrite N.pow_succ_r'. nia.
Qed.
Lemma ndigits_bound n : (n < 10 ^ N.of_nat (ndigits n))%N.
Proof. rewrite <-(digits_N_digits n) at 1. apply digits_N_bound, N_digits_all. Qed.

(** ** The type and its context *)

Record dec := Dec { dneg : bool; dcoef : N; dexp : Z }.

#[export] Instance dec_eq_dec : EqDecision dec.
Proof. solve_decision. Defined.

(** [Decimal(n)] and [Decimal(n).scaleb(e)] *)
Definition dec_of_Z (z : Z) : dec := Dec (z <? 0)%Z (Z.abs_N z) 0.
Definition dzero : dec := Dec false 0 0.

Definition prec : nat := 28.

(** Rounding of a result to the context precision, half even. *)
Definition dec_fix (d : dec) : dec :=
  let k := ndigits (dcoef d) in
  if (k <=? prec)%nat then d else
  let e := N.of_nat (k - prec) in
  let p := (10 ^ e)%N in
  let q := (dcoef d / p)%N in
  let r := (dcoef d mod p)%N in
  let q' := if ((p <? 2 * r) || ((2 * r =? p) && N.odd q))%N then (q + 1)%N else q in
  if (q' =? 10 ^ N.of_nat prec)%N
  then Dec (dneg d) (q' / 10) (dexp d + Z.of_N e + 1)
  else Dec (dneg d) q' (dexp d + Z.of_N e).

(** The signed coefficient of [d] at the exponent [e <= dexp d]. *)
Definition scaled (d : dec) (e : Z) : Z :=
  ((if dneg d then -1 else 1) * Z.of_N (dcoef d) * 10 ^ (dexp d - e))%Z.

Definition dcmp (a b : dec) : comparison :=
  let e := Z.min (dexp a) (dexp b) in (scaled a e ?= scaled b e)%Z.
Definition dle (a b : dec) : bool := match dcmp a b with Gt => false | _ => true end.
Definition dlt (a b : dec) : bool := match dcmp a b with Lt => true | _ => false end.
Definition deq (a b : dec) : bool := match dcmp a b with Eq => true | _ => false end.

Definition dec_add (a b : dec) : dec :=
  let e := Z.min (dexp a) (dexp b) in
  let z := (scaled a e + scaled b e)%Z in
  let neg := if (z =? 0)%Z
             then (dcoef a =? 0)%N && (dcoef b =? 0)%N && dneg a && dneg b
             else (z <? 0)%Z in
  dec_fix (Dec neg (Z.abs_N z) e).

(** Unary minus: a zero loses its sign. *)
Definition dec_neg (a : dec) : dec :=
  dec_fix (if (dcoef a =? 0)%N then Dec false 0 (dexp a)
           else Dec (negb (dneg a)) (dcoef a) (dexp a)).

Definition dec_mul (a b : dec) : dec :=
  dec_fix (Dec (xorb (dneg a) (dneg b)) (dcoef a * dcoef b) (dexp a + dexp b)).

(** Strip trailing zeros while the exponent is below the ideal one. *)
Fixpoint dec_reduce (fuel : nat) (c : N) (e ideal : Z) : N * Z :=
  match fuel with
  | O => (c, e)
  | S f => if ((e <? ideal)%Z && (c mod 10 =? 0)%N)
           then dec_reduce f (c / 10) (e + 1) ideal else (c, e)
  end.

(** Division by a non-zero divisor. *)
Definition dec_div (a b : dec) : dec :=
  let neg := xorb (dneg a) (dneg b) in
  let ideal := (dexp a - dexp b)%Z in
  if (dcoef a =? 0)%N then dec_fix (Dec neg 0 ideal) else
  let shift := (Z.of_nat (ndigits (dcoef b)) - Z.of_nat (ndigits (dcoef a))
                + Z.of_nat prec + 1)%Z in
  let e := (ideal - shift)%Z in
  let num := if (0 <=? shift)%Z then (dcoef a * 10 ^ Z.to_N shift)%N else dcoef a in
  let den := if (0 <=? shift)%Z then dcoef b else (dcoef b * 10 ^ Z.to_N (- shift))%N in
  let q := (num / den)%N in
  let r := (num mod den)%N in
  if (r =? 0)%N
  then let '(c, e') := dec_reduce (ndigits q) q e ideal in dec_fix (Dec neg c e')
  else dec_fix (Dec neg (if (q mod 5 =? 0)%N then (q + 1)%N else q) e).

(** [x or Decimal("0")] *)
Definition or_zero (o : option dec) : dec :=
  match o with
  | Some d => if (dcoef d =? 0)%N then dzero else d
  | None => dzero
  end.

Definition d_pos (d : dec) : bool := dlt dzero d.
Definition d_nonneg (d : dec) : bool := dle dzero d.

Lemma dec_fix_small d : (ndigits (dcoef d) <= prec)%nat → dec_fix d = d.
Proof. intros H. unfold dec_fix. by rewrite (proj2 (Nat.leb_le _ _) H). Qed.
Lemma dec_fix_sign d : dneg (dec_fix d) = dneg d.
Proof. unfold dec_fix. repeat case_match; done. Qed.

Lemma scaled_nonneg d e : dneg d = false → (0 <= scaled d e)%Z.
Proof. intros H. unfold scaled. rewrite H. apply Z.mul_nonneg_nonneg; [lia|]. apply Z.pow_nonneg; lia. Qed.

Lemma dle_scaled a b :
  dle a b = true ↔
  (scaled a (Z.min (dexp a) (dexp b)) <= scaled b (Z.min (dexp a) (dexp b)))%Z.
Proof. unfold dle, dcmp. rewrite Z.le_ngt, <-Z.compare_gt_iff, Z.compare_antisym.
  rewrite (Z.compare_antisym (scaled a _)). destruct (_ ?= _)%Z; naive_solver. Qed.

Lemma dcmp_antisym a b : dcmp b a = CompOpp (dcmp a b).
Proof. unfold dcmp. rewrite Z.min_comm. apply Z.compare_antisym. Qed.
Lemma dlt_dle a b : dlt b a = false → dle a b = true.
Proof. unfold dlt, dle. rewrite (dcmp_antisym a b). by destruct (dcmp a b). Qed.
Lemma dle_not_dlt a b : dle a b = true → dlt b a = false.
Proof. unfold dlt, dle. rewrite (dcmp_antisym a b). by destruct (dcmp a b). Qed.
Lemma dle_false a b : dle a b = false → dlt b a = true.
Proof. unfold dlt, dle. rewrite (dcmp_antisym a b). by destruct (dcmp a b). Qed.

Lemma d_nonneg_sign d : dneg d = false → d_nonneg d = true.
Proof.
  intros H. unfold d_nonneg. apply dle_scaled. unfold scaled at 1. simpl.
  rewrite Z.mul_0_l. by apply scaled_nonneg.
Qed.

Lemma d_pos_inv d : d_pos d = true → dneg d = false ∧ dcoef d ≠ 0%N.
Proof.
  unfold d_pos, dlt, dcmp. intros E. destruct (_ ?= _)%Z eqn:Ec; try done.
  apply Z.compare_lt_iff in Ec. unfold scaled in Ec. cbn [dneg dcoef dexp dzero] in Ec.
  set (e := Z.min 0 (dexp d)) in *. rewrite Z.mul_0_r, Z.mul_0_l in Ec.
  assert (Hp : (0 <= 10 ^ (dexp d - e))%Z) by (apply Z.pow_nonneg; lia).
  set (p := (10 ^ (dexp d - e))%Z) in *. clearbody p. fold (Z.lt 0 ((if dneg d then -1 else 1) * Z.of_N (dcoef d) * p)) in Ec.
  destruct (dneg d); [nia|]. split; [done|]. intros E0. rewrite E0 in Ec. lia.
Qed.
Lemma dle_pos_sign a b : d_pos a = true → dle a b = true → dneg b = false.
Proof.
  intros [Hn Hc]%d_pos_inv Hle%dle_scaled. destruct (dneg b) eqn:Hb; [|done].
  set (e := Z.min (dexp a) (dexp b)) in *. unfold scaled in Hle. rewrite Hn, Hb in Hle.
  assert (0 < 10 ^ (dexp a - e))%Z by (apply Z.pow_pos_nonneg; lia).
  assert (0 <= 10 ^ (dexp b - e))%Z by (apply Z.pow_nonneg; lia). nia.
Qed.

(** Comparison does not depend on the common exponent. *)
Lemma scaled_shift d m e : (e <= m)%Z → (m <= dexp d)%Z → scaled d e = (scaled d m * 10 ^ (m - e))%Z.
Proof.
  intros H1 H2. unfold scaled. rewrite <-!Z.mul_assoc, <-Z.pow_add_r by lia.
  by replace (dexp d - m + (m - e))%Z with (dexp d - e)%Z by lia.
Qed.
Lemma dle_scaled_at a b e :
  (e <= dexp a)%Z → (e <= dexp b)%Z → dle a b = true ↔ (scaled a e <= scaled b e)%Z.
Proof.
  intros Ha Hb. rewrite dle_scaled. set (m := Z.min (dexp a) (dexp b)).
  rewrite (scaled_shift a m e), (scaled_shift b m e) by lia.
  apply Z.mul_le_mono_pos_r, Z.pow_pos_nonneg; lia.
Qed.
Lemma dle_refl a : dle a a = true.
Proof. by apply dle_scaled. Qed.
Lemma dle_trans a b c : dle a b = true → dle b c = true → dle a c = true.
Proof.
  set (e := Z.min (dexp a) (Z.min (dexp b) (dexp c))).
  rewrite !(dle_scaled_at _ _ e) by lia. lia.
Qed.
Lemma d_pos_dle d : d_pos d = true → dle dzero d = true.
Proof. unfold d_pos, dlt, dle. by destruct (dcmp dzero d). Qed.

(** Subtracting no more than what is there never goes below zero. *)
Lemma dec_sub_nonneg a b :
  (ndigits (dcoef b) <= prec)%nat → dle b a = true →
  d_nonneg (dec_add a (dec_neg b)) = true.
Proof.
  intros Hb Hle. apply d_nonneg_sign.
  assert (Hn : dec_neg b =
    if (dcoef b =? 0)%N then Dec false 0 (dexp b) else Dec (negb (dneg b)) (dcoef b) (dexp b)).
  { unfold dec_neg. apply dec_fix_small. destruct (N.eqb_spec (dcoef b) 0); simpl; [|done].
    vm_compute. lia. }
  rewrite Hn. clear Hn. apply dle_scaled in Hle. unfold dec_add. rewrite dec_fix_sign.
  set (b' := if (dcoef b =? 0)%N then _ else _).
  assert (He : dexp b' = dexp b) by (subst b'; by destruct (dcoef b =? 0)%N).
  rewrite He. rewrite Z.min_comm in Hle. set (e := Z.min _ _) in *.
  assert (Hs : scaled b' e = (- scaled b e)%Z).
  { subst b'. unfold scaled. destruct (N.eqb_spec (dcoef b) 0) as [E|E]; simpl.
    - rewrite E. lia.
    - destruct (dneg b); simpl; lia. }
  rewrite Hs. simpl. destruct (Z.eqb_spec (scaled a e + - scaled b e) 0) as [E|E].
  - subst b'. destruct (dcoef b =? 0)%N eqn:E0; simpl; [by rewrite !andb_false_r|].
    by rewrite E0, !andb_false_r.
  - apply Z.ltb_ge. lia.
Qed.

Example dec_div_third : dec_div (dec_of_Z 1) (dec_of_Z 3)
  = Dec false 3333333333333333333333333333 (-28).
Proof. reflexivity. Qed.
Example dec_div_exact : dec_div (dec_of_Z 100) (dec_of_Z 8) = Dec false 125 (-1).
Proof. reflexivity. Qed.

(** ** Printing and parsing

    [str(d)] is rendered from an integer part, a fraction part and an
    exponent; [Decimal(s)] reads the same shape back. *)

Definition zeros (n : nat) : list ascii := repeat "0"%char n.

(** The parts [Decimal.__str__] prints: plain notation when the exponent is
    not positive and the adjusted exponent is at least -6, scientific
    notation with one leading digit otherwise. *)
Definition dec_parts (d : dec) : list ascii * list ascii * Z :=
  let ds := N_digits (dcoef d) in
  let n := Z.of_nat (length ds) in
  let left := (dexp d + n)%Z in
  let dot := if ((dexp d <=? 0) && (-6 <? left))%Z then left else 1%Z in
  let e := (left - dot)%Z in
  if (dot <=? 0)%Z then (["0"%char], zeros (Z.to_nat (- dot)) ++ ds, e)
  else if (n <=? dot)%Z then (ds ++ zeros (Z.to_nat (dot - n)), [], e)
  else (take (Z.to_nat dot) ds, drop (Z.to_nat dot) ds, e).

Definition render_exp (e : Z) : list ascii :=
  if (e =? 0)%Z then []
  else "E"%char :: (if (e <? 0)%Z then "-"%char else "+"%char) :: N_digits (Z.abs_N e).
Definition render_frac (f : list ascii) : list ascii :=
  match f with [] => [] | _ => "."%char :: f end.
Definition dec_chars (d : dec) : list ascii :=
  let '(i, f, e) := dec_parts d in
  (if dneg d then ["-"%char] else []) ++ i ++ render_frac f ++ render_exp e.
(** [str(d)] *)
Definition dec_str (d : dec) : string := of_chars (dec_chars d).

Fixpoint span_digits (l : list ascii) : list ascii * list ascii :=
  match l with
  | c :: l' => if is_digit c then let '(a, b) := span_digits l' in (c :: a, b) else ([], l)
  | [] => ([], [])
  end.

Definition parse_sign (l : list ascii) : bool * list ascii :=
  match l with
  | c :: l' => if Ascii.eqb c "-"%char then (true, l')
               else if Ascii.eqb c "+"%char then (false, l') else (false, l)
  | [] => (false, [])
  end.
Definition parse_frac (l : list ascii) : list ascii * list ascii :=
  match l with
  | c :: l' => if Ascii.eqb c "."%char then span_digits l' else ([], l)
  | [] => ([], [])
  end.
Definition parse_exp (l : list ascii) : option Z :=
  match l with
  | [] => Some 0%Z
  | c :: l' =>
      if Ascii.eqb c "E"%char || Ascii.eqb c "e"%char then
        let '(neg, l1) := parse_sign l' in
        let '(ds, rest) := span_digits l1 in
        match ds, rest with
        | _ :: _, [] => Some (if neg then (- Z.of_N (digits_N ds))%Z else Z.of_N (digits_N ds))
        | _, _ => None
        end
      else None
  end.
Definition dec_parse_chars (l : list ascii) : option dec :=
  let '(neg, l1) := parse_sign l in
  let '(i, l2) := span_digits l1 in
  let '(f, l3) := parse_frac l2 in
  match i ++ f, parse_exp l3 with
  | [], _ | _, None => None
  | ds, Some e => Some (Dec neg (digits_N ds) (e - Z.of_nat (length f)))
  end.
(** [Decimal(s)] for the finite numeric syntax *)
Definition dec_parse (s : string) : option dec := dec_parse_chars (chars (strip s)).

Definition no_digit_head (l : list ascii) : Prop :=
  match l with [] => True | c :: _ => is_digit c = false end.

Lemma span_digits_app l r :
  Forall (λ c, is_digit c = true) l → no_digit_head r → span_digits (l ++ r) = (l, r).
Proof.
  intros Hl Hr. induction Hl as [|c l Hc Hl IH]; simpl.
  - destruct r as [|c r]; simpl in *; [done|]. by rewrite Hr.
  - by rewrite Hc, IH.
Qed.
Lemma span_digits_all l : Forall (λ c, is_digit c = true) l → span_digits l = (l, []).
Proof. intros H. rewrite <-(app_nil_r l) at 1. by apply span_digits_app. Qed.

Lemma zeros_all n : Forall (λ c, is_digit c = true) (zeros n).
Proof. induction n; simpl; constructor; done. Qed.
Lemma digits_N_zeros n l : digits_N (zeros n ++ l) = digits_N l.
Proof.
  induction n as [|n IH]; [done|]. cbn [zeros repeat app]. rewrite digits_N_cons.
  fold (zeros n). rewrite IH. replace (digit_val "0"%char) with 0%N by reflexivity. lia.
Qed.

Lemma is_digit_not_sign c : is_digit c = true → c ≠ "-"%char ∧ c ≠ "+"%char.
Proof. intros H. split; intros ->; discriminate. Qed.

Lemma parse_exp_render e : parse_exp (render_exp e) = Some e.
Proof.
  unfold render_exp. destruct (Z.eqb_spec e 0) as [->|He]; [done|].
  assert (Hd := N_digits_all (Z.abs_N e)).
  assert (Hv := digits_N_digits (Z.abs_N e)).
  assert (Hn := N_digits_nonempty (Z.abs_N e)).
  destruct (Z.ltb_spec e 0); simpl; rewrite span_digits_all by done;
    destruct (N_digits (Z.abs_N e)); try done; rewrite Hv; f_equal; lia.
Qed.

Lemma parse_sign_render (neg : bool) c l :
  is_digit c = true →
  parse_sign ((if neg then ["-"%char] else []) ++ c :: l) = (neg, c :: l).
Proof.
  intros Hc. apply is_digit_not_sign in Hc as [H1 H2]. destruct neg; simpl; [done|].
  destruct (Ascii.eqb_spec c "-"%char); [done|]. by destruct (Ascii.eqb_spec c "+"%char).
Qed.

Lemma dec_parse_render neg i f e :
  Forall (λ c, is_digit c = true) i → Forall (λ c, is_digit c = true) f → i ≠ [] →
  dec_parse_chars ((if neg : bool then ["-"%char] else []) ++ i ++ render_frac f ++ render_exp e)
  = Some (Dec neg (digits_N (i ++ f)) (e - Z.of_nat (length f))).
Proof.
  intros Hi Hf Hne. destruct i as [|c i]; [done|].
  unfold dec_parse_chars. change ((c :: i) ++ ?r) with (c :: (i ++ r)).
  rewrite parse_sign_render by (by inversion Hi).
  change (c :: (i ++ ?r)) with ((c :: i) ++ r).
  assert (Hexp : no_digit_head (render_exp e)).
  { unfold render_exp. by destruct (e =? 0)%Z. }
  assert (Hfr : no_digit_head (render_frac f ++ render_exp e)) by (by destruct f).
  rewrite span_digits_app by done.
  assert (Hp : parse_frac (render_frac f ++ render_exp e) = (f, render_exp e)).
  { destruct f as [|c' f]; cbn [render_frac app parse_frac].
    - unfold render_exp. destruct (e =? 0)%Z; [done|]. by destruct (e <? 0)%Z.
    - change (Ascii.eqb "."%char "."%char) with true. cbn [andb].
      apply (span_digits_app (c' :: f)); done. }
  rewrite Hp, parse_exp_render. done.
Qed.

(** Reading back what [str] prints gives the same sign, digits and exponent. *)
Lemma dec_parse_chars_str d : dec_parse_chars (dec_chars d) = Some d.
Proof.
  assert (Hall := N_digits_all (dcoef d)). assert (Hv := digits_N_digits (dcoef d)).
  assert (Hne := N_digits_nonempty (dcoef d)).
  unfold dec_chars, dec_parts. set (ds := N_digits (dcoef d)) in *.
  set (n := Z.of_nat (length ds)). set (left := (dexp d + n)%Z).
  set (dot := if (_ && _)%Z then left else 1%Z).
  assert (Hdot : dot = left ∧ (dexp d <= 0)%Z ∨ dot = 1%Z).
  { subst dot. destruct (dexp d <=? 0)%Z eqn:E1; simpl; [|by right].
    apply Z.leb_le in E1. destruct (-6 <? left)%Z; auto. }
  assert (Hn : (0 < n)%Z) by (subst n; destruct ds; [done|simpl; lia]).
  destruct d as [neg c x]; simpl in *.
  destruct (Z.leb_spec dot 0); [|destruct (Z.leb_spec n dot)].
  - rewrite dec_parse_render; [|by repeat constructor|apply Forall_app; split; [apply zeros_all|done]|done].
    do 2 f_equal.
    + change (["0"%char] ++ ?l) with (zeros 1 ++ l). by rewrite !digits_N_zeros.
    + unfold zeros. rewrite length_app, repeat_length. lia.
  - assert (dot = n) as Hdn by lia. rewrite Hdn, Z.sub_diag. simpl. rewrite app_nil_r.
    change (ds ++ render_exp ?e) with (ds ++ render_frac [] ++ render_exp e).
    rewrite dec_parse_render by done. rewrite app_nil_r, Hv. simpl. do 2 f_equal. lia.
  - rewrite dec_parse_render.
    + rewrite take_drop, Hv. do 2 f_equal. rewrite length_drop. lia.
    + by apply Forall_take.
    + by apply Forall_drop.
    + destruct ds; [done|]. destruct (Z.to_nat dot) eqn:E; [lia|done].
Qed.

Lemma drop_space_solid l : Forall (λ c, is_space c = false) l → drop_space l = l.
Proof. intros H. destruct H as [|c l Hc]; simpl; [done|]. by rewrite Hc. Qed.
Lemma strip_solid l : Forall (λ c, is_space c = false) l → strip (of_chars l) = of_chars l.
Proof.
  intros H. unfold strip. rewrite chars_of_chars, (drop_space_solid l) by done.
  rewrite drop_space_solid by by apply Forall_rev. by rewrite rev_involutive.
Qed.

Lemma is_digit_solid c : is_digit c = true → is_space c = false.
Proof.
  unfold is_digit, is_space. intros [H1 H2]%andb_true_iff. apply Nat.leb_le in H1, H2.
  repeat rewrite orb_false_iff. rewrite !andb_false_iff, !Nat.leb_gt, !Nat.eqb_neq. lia.
Qed.
Lemma digits_solid l :
  Forall (λ c, is_digit c = true) l → Forall (λ c, is_space c = false) l.
Proof. intros H. eapply Forall_impl; [done|]. apply is_digit_solid. Qed.

Lemma dec_chars_solid d : Forall (λ c, is_space c = false) (dec_chars d).
Proof.
  unfold dec_chars. destruct (dec_parts d) as [[i f] e] eqn:E.
  assert (Hi : Forall (λ c, is_digit c = true) i ∧ Forall (λ c, is_digit c = true) f).
  { assert (Hall := N_digits_all (dcoef d)). unfold dec_parts in E.
    repeat case_match; simplify_eq; split; repeat apply Forall_app_2;
      auto using zeros_all, Forall_take, Forall_drop; repeat constructor. }
  destruct Hi as [Hi Hf]. repeat apply Forall_app_2; auto using digits_solid.
  - destruct (dneg d); repeat constructor.
  - destruct f; simpl; [constructor|]. constructor; [done|]. by apply digits_solid.
  - unfold render_exp. case_match; [constructor|]. constructor; [done|].
    constructor; [by case_match|]. apply digits_solid, N_digits_all.
Qed.

Lemma dec_parse_str d : dec_parse (dec_str d) = Some d.
Proof.
  unfold dec_parse, dec_str. rewrite strip_solid by apply dec_chars_solid.
  rewrite chars_of_chars. apply dec_parse_chars_str.
Qed.

Lemma dec_str_inj a b : dec_str a = dec_str b → a = b.
Proof. intros H. apply (inj Some). by rewrite <-!dec_parse_str, H. Qed.

Example dec_str_ex1 : dec_str (Dec true 12345 (-2)) = "-123.45".
Proof. reflexivity. Qed.
Example dec_str_ex2 : dec_str (Dec false 1 (-7)) = "1E-7".
Proof. reflexivity. Qed.
Example dec_str_ex3 : dec_str (Dec false 12 3) = "1.2E+4".
Proof. reflexivity. Qed.
Example dec_str_ex4 : dec_str (Dec false 0 (-2)) = "0.00".
Proof. reflexivity. Qed.
