(* ===== verification/PyTime.v ===== *)
(** Python's [datetime] as the sources use it: an aware UTC instant is its
    number of microseconds since 1970-01-01T00:00:00Z; [isoformat],
    [strftime("%Y%m%dT%H%M%SZ")] and [fromisoformat] of the extended calendar
    format: [YYYY-MM-DD], any separator, [HH[:MM[:SS[.f+]]]] (the fraction
    after a dot or a comma, cut off after six digits) and an optional offset.
    Basic and week-date inputs of [fromisoformat] are outside the model and
    read as errors, and so do a fraction after hours or minutes, which the
    documentation excludes, and an empty fraction. *)
From S2P Require Import Prelude PyDecimal.
Local Open Scope Z_scope.

(** Days since the epoch of a proleptic Gregorian date, and back. *)
Definition days_from_civil (y m d : Z) : Z :=
  let y' := if m <=? 2 then y - 1 else y in
  let era := y' / 400 in
  let yoe := y' - era * 400 in
  let doy := (153 * (if 2 <? m then m - 3 else m + 9) + 2) / 5 + d - 1 in
  let doe := yoe * 365 + yoe / 4 - yoe / 100 + doy in
  era * 146097 + doe - 719468.

Definition civil_from_days (z : Z) : Z * Z * Z :=
  let z := z + 719468 in
  let era := z / 146097 in
  let doe := z - era * 146097 in
  let yoe := (doe - doe / 1460 + doe / 36524 - doe / 146096) / 365 in
  let doy := doe - (365 * yoe + yoe / 4 - yoe / 100) in
  let mp := (5 * doy + 2) / 153 in
  let d := doy - (153 * mp + 2) / 5 + 1 in
  let m := if mp <? 10 then mp + 3 else mp - 9 in
  ((if m <=? 2 then yoe + era * 400 + 1 else yoe + era * 400), m, d).

Definition leap (y : Z) : bool :=
  (y mod 4 =? 0) && (negb (y mod 100 =? 0) || (y mod 400 =? 0)).
Definition days_in_month (y m : Z) : Z :=
  if m =? 2 then (if leap y then 29 else 28)
  else if (m =? 4) || (m =? 6) || (m =? 9) || (m =? 11) then 30 else 31.

Definition us_per_day : Z := 86400000000.

(** Zero-padded decimal of the given width. *)
Definition pad (w : nat) (z : Z) : string :=
  let s := N_digits (Z.to_N z) in of_chars (zeros (w - List.length s) ++ s).

Definition clock_fields (t : Z) : Z * Z * Z * Z :=
  let us := t mod us_per_day in
  (us / 3600000000, us / 60000000 mod 60, us / 1000000 mod 60, us mod 1000000).

(** [datetime.isoformat()] of an aware UTC instant *)
Definition isoformat (t : Z) : string :=
  let '(y, m, d) := civil_from_days (t / us_per_day) in
  let '(hh, mm, ss, us) := clock_fields t in
  pad 4 y +:+ "-" +:+ pad 2 m +:+ "-" +:+ pad 2 d +:+ "T" +:+
  pad 2 hh +:+ ":" +:+ pad 2 mm +:+ ":" +:+ pad 2 ss +:+
  (if us =? 0 then "" else "." +:+ pad 6 us) +:+ "+00:00".

(** [datetime.strftime("%Y%m%dT%H%M%SZ")] *)
Definition strftime_stamp (t : Z) : string :=
  let '(y, m, d) := civil_from_days (t / us_per_day) in
  let '(hh, mm, ss, _) := clock_fields t in
  pad 4 y +:+ pad 2 m +:+ pad 2 d +:+ "T" +:+ pad 2 hh +:+ pad 2 mm +:+ pad 2 ss +:+ "Z".

(** ** Parsing *)

(** A fixed number of decimal digits. *)
Definition take_num (w : nat) (l : list ascii) : option (Z * list ascii) :=
  let ds := take w l in
  if (List.length ds =? w)%nat && forallb is_digit ds
  then Some (Z.of_N (digits_N ds), drop w l) else None.

Definition expect (c : ascii) (l : list ascii) : option (list ascii) :=
  match l with c' :: l' => if Ascii.eqb c c' then Some l' else None | [] => None end.

Definition parse_date (l : list ascii) : option (Z * list ascii) :=
  '(y, l) ← take_num 4 l; l ← expect "-" l;
  '(m, l) ← take_num 2 l; l ← expect "-" l;
  '(d, l) ← take_num 2 l;
  if (1 <=? y) && (1 <=? m) && (m <=? 12) && (1 <=? d) && (d <=? days_in_month y m)
  then Some (days_from_civil y m d, l) else None.

Definition fraction_mark (c : ascii) : bool := Ascii.eqb c "." || Ascii.eqb c ",".

(** A dot or a comma and digits, of which the first six count *)
Definition parse_micros (l : list ascii) : option (Z * list ascii) :=
  match l with
  | c :: l' =>
      if fraction_mark c then
        let '(ds, rest) := span_digits l' in
        match ds with
        | [] => None
        | _ => Some (Z.of_N (digits_N (take 6 (ds ++ zeros 6))), rest)
        end
      else Some (0, l)
  | [] => Some (0, [])
  end.

(** [HH[:MM[:SS[.f+]]]]: hours, minutes, seconds, microseconds *)
Definition parse_hms (l : list ascii) : option (Z * Z * Z * Z * list ascii) :=
  '(hh, l) ← take_num 2 l;
  match expect ":" l with
  | None => Some (hh, 0, 0, 0, l)
  | Some l =>
      '(mm, l) ← take_num 2 l;
      match expect ":" l with
      | None => Some (hh, mm, 0, 0, l)
      | Some l => '(ss, l) ← take_num 2 l; '(us, l) ← parse_micros l; Some (hh, mm, ss, us, l)
      end
  end.
Definition hms_us (hh mm ss us : Z) : Z := (hh * 60 + mm) * 60000000 + (ss * 1000000 + us).

(** A time of day in microseconds *)
Definition parse_clock (l : list ascii) : option (Z * list ascii) :=
  '(hh, mm, ss, us, l) ← parse_hms l;
  if (hh <=? 23) && (mm <=? 59) && (ss <=? 59) then Some (hms_us hh mm ss us, l) else None.

(** [Z], a signed [HH[:MM[:SS[.f+]]]] below a day, or nothing (a naive value) *)
Definition parse_offset (l : list ascii) : option (option Z) :=
  match l with
  | [] => Some None
  | c :: l' =>
      if Ascii.eqb c "Z" then match l' with [] => Some (Some 0) | _ => None end
      else if Ascii.eqb c "+" || Ascii.eqb c "-" then
        match parse_hms l' with
        | Some (hh, mm, ss, us, []) =>
            let v := hms_us hh mm ss us in
            if v <? us_per_day then Some (Some (if Ascii.eqb c "-" then - v else v)) else None
        | _ => None
        end
      else None
  end.

(** [datetime.fromisoformat(s)]: the wall-clock microseconds and the UTC
    offset, [None] for the offset of a naive value *)
Definition fromisoformat (s : string) : option (Z * option Z) :=
  '(days, l) ← parse_date (chars s);
  match l with
  | [] => Some (days * us_per_day, None)
  | _ :: l =>
      '(us, l) ← parse_clock l;
      off ← parse_offset l;
      Some (days * us_per_day + us, off)
  end.

Example iso_ex1 : isoformat 1784379845123456 = "2026-07-18T13:04:05.123456+00:00".
Proof. reflexivity. Qed.
Example iso_ex2 : fromisoformat (isoformat 1784379845123456) = Some (1784379845123456, Some 0).
Proof. reflexivity. Qed.
Example iso_ex3 : fromisoformat "2026-07-18T15:04:05+02:00" = Some (1784387045000000, Some 7200000000).
Proof. reflexivity. Qed.
Example iso_ex4 : fromisoformat "2026-02-30T00:00:00Z" = None.
Proof. reflexivity. Qed.
Example iso_ex5 : fromisoformat "2026-07-18 12:30:01,1234567-05:30"
  = Some (1784377801123456, Some (-19800000000)).
Proof. reflexivity. Qed.
Example iso_ex6 : fromisoformat "2026-07-18T12+02" = Some (1784376000000000, Some 7200000000).
Proof. reflexivity. Qed.
Example iso_ex7 : fromisoformat "2026-07-18T12:30:01.+00:00" = None.
Proof. reflexivity. Qed.
Example stamp_ex : strftime_stamp 1784379845123456 = "20260718T130405Z".
Proof. reflexivity. Qed.

(** [value.replace("Z", "+00:00")] *)
Definition replace_Z (value : string) : string :=
  of_chars (flat_map (λ c, if Ascii.eqb c "Z"%char then chars "+00:00" else [c]) (chars value)).
