(* ===== verification/PyJson.v ===== *)
(** JSON values and [json.dumps] with its separators, key sorting and ASCII
    escaping; the two renderings the sources use; [repr]. *)
From S2P Require Import Prelude PyDecimal.

Inductive json :=
  | JNull
  | JBool (b : bool)
  | JInt (z : Z)
  | JStr (s : string)
  | JArr (l : list json)
  | JObj (l : list (string * json)).

Definition hex_digit (n : nat) : ascii :=
  ascii_of_nat (if (n <? 10)%nat then 48 + n else 87 + n).

(** One code point as [json.dumps] writes it with [ensure_ascii]. *)
Definition escape_char (c : ascii) : list ascii :=
  let n := code c in
  if n =? 34 then ["\"; "034"]%char
  else if n =? 92 then ["\"; "\"]%char
  else if n =? 10 then ["\"; "n"]%char
  else if n =? 13 then ["\"; "r"]%char
  else if n =? 9 then ["\"; "t"]%char
  else if n =? 12 then ["\"; "f"]%char
  else if n =? 8 then ["\"; "b"]%char
  else if (n <? 32) || (126 <? n)
  then ["\"; "u"; "0"; "0"; hex_digit (n / 16); hex_digit (n mod 16)]%char
  else [c].
Definition quote (s : string) : string :=
  of_chars (["034"%char] ++ flat_map escape_char (chars s) ++ ["034"%char]).

(** [sort_keys=True]: insertion by code-point order of the keys *)
Fixpoint insert_key {A} (kv : string * A) (l : list (string * A)) : list (string * A) :=
  match l with
  | [] => [kv]
  | kv' :: l' => if String.leb kv.1 kv'.1 then kv :: l else kv' :: insert_key kv l'
  end.
Fixpoint sort_keys {A} (l : list (string * A)) : list (string * A) :=
  match l with [] => [] | kv :: l' => insert_key kv (sort_keys l') end.

Fixpoint dumps (item_sep key_sep : string) (sort : bool) (j : json) : string :=
  match j with
  | JNull => "null"
  | JBool true => "true"
  | JBool false => "false"
  | JInt z => Z_str z
  | JStr s => quote s
  | JArr l => "[" +:+ join item_sep (map (dumps item_sep key_sep sort) l) +:+ "]"
  | JObj l =>
      let kvs := map (λ '(k, v), (k, dumps item_sep key_sep sort v)) l in
      let kvs := if sort then sort_keys kvs else kvs in
      "{" +:+ join item_sep (map (λ '(k, v), quote k +:+ key_sep +:+ v) kvs) +:+ "}"
  end.

(** [json.dumps(x)] *)
Definition json_dumps (j : json) : string := dumps ", " ": " false j.
(** [json.dumps(x, sort_keys=True, separators=(",", ":"))] *)
Definition json_canonical (j : json) : string := dumps "," ":" true j.

Definition jopt {A} (f : A → json) (o : option A) : json :=
  match o with Some a => f a | None => JNull end.
Definition jstrs (l : list string) : json := JArr (map JStr l).
Definition jdec (d : dec) : json := JStr (dec_str d).

(** [payload.get(key)] of a dict *)
Fixpoint obj_get (key : string) (l : list (string * json)) : option json :=
  match l with
  | [] => None
  | (k, v) :: l' => if streq k key then Some v else obj_get key l'
  end.

(** ** Python renderings *)

(** [repr(value)] *)
Definition repr_char (q c : ascii) : list ascii :=
  let n := code c in
  if Ascii.eqb c q || (n =? 92) then ["\"%char; c]
  else if n =? 10 then ["\"; "n"]%char
  else if n =? 13 then ["\"; "r"]%char
  else if n =? 9 then ["\"; "t"]%char
  else if (n <? 32) || ((127 <=? n) && (n <=? 160)) || (n =? 173)
  then ["\"; "x"; hex_digit (n / 16); hex_digit (n mod 16)]%char
  else [c].
Definition repr_str (s : string) : string :=
  let single := "'"%char in
  let double := "034"%char in
  let q := if existsb (Ascii.eqb single) (chars s) && negb (existsb (Ascii.eqb double) (chars s))
           then double else single in
  of_chars (q :: flat_map (repr_char q) (chars s) ++ [q]).
Fixpoint repr (j : json) : string :=
  match j with
  | JNull => "None"
  | JBool true => "True"
  | JBool false => "False"
  | JInt z => Z_str z
  | JStr s => repr_str s
  | JArr l => "[" +:+ join ", " (map repr l) +:+ "]"
  | JObj l => "{" +:+ join ", " (map (λ '(k, v), repr_str k +:+ ": " +:+ repr v) l) +:+ "}"
  end.

Example canonical_ex :
  json_canonical (JObj [("b", JArr [JInt 1; JNull]); ("a", JStr "x")])
  = of_chars (chars "{" ++ chars (quote "a") ++ chars ":" ++ chars (quote "x") ++ chars ","
      ++ chars (quote "b") ++ chars ":[1,null]}").
Proof. reflexivity. Qed.
