(* ===== verification/TimeFacts.v ===== *)
(** Timestamps round trip: what [isoformat] prints, [fromisoformat] reads
    back, so normalizing a UTC timestamp twice is normalizing it once. *)
From S2P Require Import Prelude PyDecimal PyTime.
Local Open Scope Z_scope.

(** ** Dates

    The calendar repeats after 400 years; inside one such era the identities
    are decided by evaluation. *)

Definition zrange (n : nat) : list Z := map Z.of_nat (seq 0 n).
Lemma zrange_in n z : 0 <= z < Z.of_nat n → z ∈ zrange n.
Proof.
  intros Hz. apply list_elem_of_fmap. exists (Z.to_nat z). split; [lia|].
  apply elem_of_seq. lia.
Qed.

Lemma forallb_zrange f n z : forallb f (zrange n) = true → 0 <= z < Z.of_nat n → f z = true.
Proof. rewrite forallb_forall. intros Hf Hz. by apply Hf, list_elem_of_In, zrange_in. Qed.
Definition forallb2 (f : Z → Z → bool) (n1 n2 : nat) : bool :=
  forallb (λ x, forallb (f x) (zrange n2)) (zrange n1).
Lemma forallb2_zrange f n1 n2 x y :
  forallb2 f n1 n2 = true → 0 <= x < Z.of_nat n1 → 0 <= y < Z.of_nat n2 → f x y = true.
Proof.
  intros Hf Hx Hy. apply (forallb_zrange _ _ x) in Hf; [|done].
  by apply (forallb_zrange _ _ y) in Hf.
Qed.

(** The year of an era starts in March. *)
Definition year_of (yoe m : Z) : Z := if m <=? 2 then yoe + 1 else yoe.
Definition year_start (yoe : Z) : Z := yoe * 365 + yoe / 4 - yoe / 100.
Definition day_of_year (m d : Z) : Z := (153 * (if 2 <? m then m - 3 else m + 9) + 2) / 5 + d - 1.
Definition year_of_day (doe : Z) : Z := (doe - doe / 1460 + doe / 36524 - doe / 146096) / 365.

Lemma year_of_day_mono a b : a <= b → year_of_day a <= year_of_day b.
Proof.
  intros Hab. apply Z.div_le_mono; [done|]. Z.to_euclidean_division_equations. lia.
Qed.

(** The first and the last day of each of the 400 years lie in that year. *)
Definition year_ok (yoe : Z) : bool :=
  let last := year_start yoe + (if leap (yoe + 1) then 365 else 364) in
  (year_of_day (year_start yoe) =? yoe) && (year_of_day last =? yoe) && (last <? 146097).
Lemma year_check : forallb year_ok (zrange 400) = true.
Proof. vm_compute. reflexivity. Qed.

(** Day of the year to month and day, for every month and day of a leap year. *)
Definition month_ok (m d : Z) : bool :=
  negb ((1 <=? m) && (1 <=? d) && (d <=? days_in_month 4 m)) ||
  let doy := day_of_year m d in
  let mp := (5 * doy + 2) / 153 in
  (0 <=? doy) && (doy <=? (if (m =? 2) && (d =? 29) then 365 else 364)) &&
  (doy - (153 * mp + 2) / 5 + 1 =? d) && ((if mp <? 10 then mp + 3 else mp - 9) =? m).
Lemma month_check : forallb2 month_ok 13 32 = true.
Proof. vm_compute. reflexivity. Qed.

Lemma month_inverse m d :
  1 <= m <= 12 → 1 <= d <= days_in_month 4 m →
  let doy := day_of_year m d in
  let mp := (5 * doy + 2) / 153 in
  0 <= doy <= (if (m =? 2) && (d =? 29) then 365 else 364) ∧
  doy - (153 * mp + 2) / 5 + 1 = d ∧ (if mp <? 10 then mp + 3 else mp - 9) = m.
Proof.
  intros Hm Hd. assert (d < 32). { unfold days_in_month in Hd. repeat case_match; lia. }
  pose proof (forallb2_zrange _ _ _ m d month_check ltac:(lia) ltac:(lia)) as Hc.
  unfold month_ok in Hc. apply orb_true_iff in Hc as [Hc|Hc].
  { apply negb_true_iff in Hc.
    assert ((1 <=? m) && (1 <=? d) && (d <=? days_in_month 4 m) = true); [|congruence].
    rewrite !andb_true_iff, !Z.leb_le. lia. }
  cbv zeta in *. rewrite !andb_true_iff, !Z.leb_le, !Z.eqb_eq in Hc. tauto.
Qed.

Lemma days_in_month_leap y m : days_in_month y m <= days_in_month 4 m.
Proof. unfold days_in_month. repeat case_match; try done; lia. Qed.

Lemma year_inverse yoe m d :
  0 <= yoe < 400 → 1 <= m <= 12 → 1 <= d <= days_in_month (year_of yoe m) m →
  year_of_day (year_start yoe + day_of_year m d) = yoe ∧
  0 <= year_start yoe + day_of_year m d < 146097.
Proof.
  intros Hy Hm Hd. pose proof (days_in_month_leap (year_of yoe m) m).
  destruct (month_inverse m d Hm ltac:(lia)) as [Hdoy _].
  pose proof (forallb_zrange _ _ yoe year_check ltac:(lia)) as Hc. unfold year_ok in Hc.
  rewrite !andb_true_iff, !Z.eqb_eq, Z.ltb_lt in Hc. destruct Hc as [[Hs Hl] Hb].
  set (last := if leap (yoe + 1) then 365 else 364) in *.
  assert (Hlast : day_of_year m d <= last).
  { subst last. destruct ((m =? 2) && (d =? 29)) eqn:E; [|case_match; lia].
    apply andb_true_iff in E as [->%Z.eqb_eq ->%Z.eqb_eq]. unfold days_in_month, year_of in Hd.
    simpl in Hd. case_match; lia. }
  pose proof (year_of_day_mono (year_start yoe) (year_start yoe + day_of_year m d) ltac:(lia)).
  pose proof (year_of_day_mono (year_start yoe + day_of_year m d) (year_start yoe + last) ltac:(lia)).
  split; [lia|]. unfold year_start in *. Z.to_euclidean_division_equations. lia.
Qed.

Lemma mod_era y k n : n ∈ [4; 100; 400] → (y + k * 400) mod n = y mod n.
Proof.
  intros Hn. assert (∃ q, 400 = q * n ∧ n ≠ 0) as (q & -> & Hn0).
  { repeat (apply elem_of_cons in Hn as [->|Hn]; [by first [exists 100; by split | exists 4; by split | exists 1; by split]|]).
    by apply elem_of_nil in Hn. }
  rewrite Z.mul_assoc. by apply Z_mod_plus_full.
Qed.
Lemma days_in_month_era y k m : days_in_month (y + k * 400) m = days_in_month y m.
Proof. unfold days_in_month, leap. by rewrite !mod_era by set_solver. Qed.

Lemma civil_from_days_from_civil y m d :
  1 <= m <= 12 → 1 <= d <= days_in_month y m →
  civil_from_days (days_from_civil y m d) = (y, m, d).
Proof.
  intros Hm Hd. unfold days_from_civil. set (y' := if m <=? 2 then y - 1 else y).
  set (era := y' / 400). set (yoe := y' - era * 400).
  assert (Hyoe : 0 <= yoe < 400).
  { subst yoe era. pose proof (Z.div_mod y' 400). pose proof (Z.mod_pos_bound y' 400). lia. }
  assert (Hy : y = year_of yoe m + era * 400).
  { subst yoe y'. unfold year_of. destruct (m <=? 2); lia. }
  rewrite Hy, days_in_month_era in Hd.
  pose proof (days_in_month_leap (year_of yoe m) m).
  destruct (year_inverse yoe m d Hyoe Hm Hd) as [Hyear Hdoe].
  destruct (month_inverse m d Hm ltac:(lia)) as (_ & Hday & Hmonth).
  fold (year_start yoe) (day_of_year m d). unfold civil_from_days.
  set (doe := year_start yoe + day_of_year m d) in *.
  replace (era * 146097 + doe - 719468 + 719468) with (doe + era * 146097) by lia.
  assert (He : (doe + era * 146097) / 146097 = era).
  { rewrite Z.div_add by lia. rewrite Z.div_small by lia. lia. }
  rewrite He. replace (doe + era * 146097 - era * 146097) with doe by lia.
  fold (year_of_day doe). rewrite Hyear.
  replace (doe - (365 * yoe + yoe / 4 - yoe / 100)) with (day_of_year m d)
    by (subst doe; unfold year_start; lia).
  rewrite Hday, Hmonth. f_equal. f_equal. rewrite Hy. unfold year_of. destruct (m <=? 2); lia.
Qed.

(** ** Fixed-width numbers *)

Lemma digits_fuel_length fuel n acc w :
  (n < 10 ^ N.of_nat (S w))%N → (List.length (digits_fuel fuel n acc) <= S w + List.length acc)%nat.
Proof.
  revert n acc w. induction fuel as [|f IH]; intros n acc w Hn; simpl; [lia|].
  destruct (N.ltb_spec n 10) as [H|H]; [simpl; lia|].
  destruct w as [|w].
  { change (10 ^ N.of_nat 1)%N with 10%N in Hn. lia. }
  etrans; [apply (IH _ _ w)|simpl; lia].
  apply N.Div0.div_lt_upper_bound. rewrite Nat2N.inj_succ, N.pow_succ_r' in Hn. lia.
Qed.

Lemma pad_digits w z :
  (0 < w)%nat → 0 <= z < 10 ^ Z.of_nat w →
  List.length (chars (pad w z)) = w ∧ Forall (λ c, is_digit c = true) (chars (pad w z)) ∧
  Z.of_N (digits_N (chars (pad w z))) = z.
Proof.
  intros Hw Hz. unfold pad. rewrite chars_of_chars. destruct w as [|w]; [lia|].
  assert (Hl : (List.length (N_digits (Z.to_N z)) <= S w)%nat).
  { unfold N_digits. etrans; [apply (digits_fuel_length _ _ _ w)|simpl; lia].
    rewrite <-(N2Z.id (10 ^ N.of_nat (S w))). apply Z2N.inj_lt; [lia|lia|].
    rewrite N2Z.inj_pow, nat_N_Z. simpl Z.of_N at 1. lia. }
  split; [|split].
  - rewrite length_app. unfold zeros. rewrite repeat_length. lia.
  - apply Forall_app. split; [apply zeros_all|apply N_digits_all].
  - rewrite digits_N_zeros, digits_N_digits. lia.
Qed.

Lemma take_num_pad w z l :
  (0 < w)%nat → 0 <= z < 10 ^ Z.of_nat w → take_num w (chars (pad w z) ++ l) = Some (z, l).
Proof.
  intros Hw Hz. destruct (pad_digits w z Hw Hz) as (Hl & Hd & Hv). unfold take_num.
  rewrite take_app_length', drop_app_length' by done. rewrite Hl, Nat.eqb_refl, Hv. simpl.
  rewrite if_true; [done|]. apply forallb_forall. intros c Hc.
  rewrite Forall_forall in Hd. by apply Hd, list_elem_of_In.
Qed.

Lemma take_num_spec w l v l' : take_num w l = Some (v, l') → 0 <= v < 10 ^ Z.of_nat w.
Proof.
  unfold take_num. destruct (_ && _) eqn:E; [|done]. intros [= <- _].
  apply andb_true_iff in E as [E1 E2]. apply Nat.eqb_eq in E1.
  assert (Hd : Forall (λ c, is_digit c = true) (take w l)).
  { apply Forall_forall. intros c Hc. rewrite forallb_forall in E2. by apply E2, list_elem_of_In. }
  apply digits_N_bound in Hd. rewrite E1 in Hd. apply N2Z.inj_lt in Hd.
  rewrite N2Z.inj_pow, nat_N_Z in Hd. change (Z.of_N 10) with 10 in Hd. lia.
Qed.

(** ** Instants *)

(** What [fromisoformat] can produce: a calendar day of the years 1 to 9999
    and a time of day. *)
Definition instant (t : Z) : Prop :=
  ∃ y m d us, t = days_from_civil y m d * us_per_day + us ∧ 1 <= y <= 9999 ∧ 1 <= m <= 12 ∧
    1 <= d <= days_in_month y m ∧ 0 <= us < us_per_day.

Lemma expect_eq c l : expect c (c :: l) = Some l.
Proof. simpl. by rewrite Ascii.eqb_refl. Qed.

Lemma parse_date_print y m d l :
  1 <= y <= 9999 → 1 <= m <= 12 → 1 <= d <= days_in_month y m →
  parse_date (chars (pad 4 y) ++ "-"%char :: chars (pad 2 m) ++ "-"%char :: chars (pad 2 d) ++ l)
  = Some (days_from_civil y m d, l).
Proof.
  intros Hy Hm Hd. assert (days_in_month y m <= 31).
  { unfold days_in_month. repeat case_match; lia. }
  unfold parse_date. rewrite take_num_pad by (simpl; lia). cbn [mbind option_bind].
  rewrite expect_eq. cbn [mbind option_bind].
  rewrite take_num_pad by (simpl; lia). cbn [mbind option_bind].
  rewrite expect_eq. cbn [mbind option_bind].
  rewrite take_num_pad by (simpl; lia). cbn [mbind option_bind].
  rewrite if_true; [done|]. rewrite !andb_true_iff, !Z.leb_le. lia.
Qed.

Definition print_micros (us : Z) : list ascii :=
  if us =? 0 then [] else "."%char :: chars (pad 6 us).

(** What follows a printed time: an offset, or nothing. *)
Definition ends_time (l : list ascii) : Prop :=
  match l with [] => True | c :: _ => is_digit c = false ∧ fraction_mark c = false end.

Lemma parse_micros_print us l :
  0 <= us < 1000000 → ends_time l → parse_micros (print_micros us ++ l) = Some (us, l).
Proof.
  intros Hus Hl. unfold print_micros. destruct (Z.eqb_spec us 0) as [->|].
  - destruct l as [|c l]; [done|]. simpl. by rewrite (proj2 Hl).
  - destruct (pad_digits 6 us) as (Hlen & Hd & Hv); [lia|simpl; lia|].
    rewrite <-app_comm_cons. cbn [parse_micros]. change (fraction_mark ".") with true. cbv beta iota.
    rewrite span_digits_app; [|done|destruct l; [done|apply Hl]].
    destruct (chars (pad 6 us)) as [|c ds] eqn:E; [done|]. rewrite <-E in *.
    rewrite take_app_length' by done. by rewrite Hv.
Qed.

Lemma parse_hms_print hh mm ss us l :
  0 <= hh <= 23 → 0 <= mm <= 59 → 0 <= ss <= 59 → 0 <= us < 1000000 → ends_time l →
  parse_hms (chars (pad 2 hh) ++ ":"%char :: chars (pad 2 mm) ++ ":"%char ::
             chars (pad 2 ss) ++ print_micros us ++ l) = Some (hh, mm, ss, us, l).
Proof.
  intros Hh Hm Hs Hu Hl. unfold parse_hms.
  rewrite take_num_pad by (simpl; lia). cbn [mbind option_bind]. rewrite expect_eq.
  rewrite take_num_pad by (simpl; lia). cbn [mbind option_bind]. rewrite expect_eq.
  rewrite take_num_pad by (simpl; lia). cbn [mbind option_bind].
  by rewrite parse_micros_print by done.
Qed.

Lemma parse_clock_print hh mm ss us l :
  0 <= hh <= 23 → 0 <= mm <= 59 → 0 <= ss <= 59 → 0 <= us < 1000000 → ends_time l →
  parse_clock (chars (pad 2 hh) ++ ":"%char :: chars (pad 2 mm) ++ ":"%char ::
               chars (pad 2 ss) ++ print_micros us ++ l)
  = Some ((hh * 60 + mm) * 60000000 + (ss * 1000000 + us), l).
Proof.
  intros Hh Hm Hs Hu Hl. unfold parse_clock. rewrite parse_hms_print by done.
  cbn [mbind option_bind]. by rewrite if_true by lia.
Qed.

Lemma isoformat_chars t y m d :
  civil_from_days (t / us_per_day) = (y, m, d) →
  let '(hh, mm, ss, us) := clock_fields t in
  chars (isoformat t) =
    chars (pad 4 y) ++ "-"%char :: chars (pad 2 m) ++ "-"%char :: chars (pad 2 d) ++
    "T"%char :: chars (pad 2 hh) ++ ":"%char :: chars (pad 2 mm) ++ ":"%char ::
    chars (pad 2 ss) ++ print_micros us ++ chars "+00:00".
Proof.
  intros E. unfold clock_fields, isoformat. rewrite E. unfold clock_fields, print_micros.
  rewrite !chars_app.
  destruct (_ =? 0); rewrite ?chars_app; reflexivity.
Qed.

Lemma clock_fields_spec t :
  let '(hh, mm, ss, us) := clock_fields t in
  0 <= hh <= 23 ∧ 0 <= mm <= 59 ∧ 0 <= ss <= 59 ∧ 0 <= us < 1000000 ∧
  (hh * 60 + mm) * 60000000 + (ss * 1000000 + us) = t mod us_per_day.
Proof.
  unfold clock_fields. pose proof (Z.mod_pos_bound t us_per_day ltac:(reflexivity)) as Hb.
  set (u := t mod us_per_day) in *. unfold us_per_day in Hb.
  Z.to_euclidean_division_equations. lia.
Qed.

Lemma fromisoformat_isoformat t :
  instant t → fromisoformat (isoformat t) = Some (t, Some 0).
Proof.
  intros (y & m & d & u & -> & Hy & Hm & Hd & Hu).
  set (t := days_from_civil y m d * us_per_day + u).
  assert (Hdiv : t / us_per_day = days_from_civil y m d).
  { subst t. rewrite Z.div_add_l by done. rewrite Z.div_small by done. lia. }
  assert (Hmod : t mod us_per_day = u).
  { subst t. rewrite Z.add_comm, Z_mod_plus_full. by apply Z.mod_small. }
  pose proof (isoformat_chars t y m d) as Hc. rewrite Hdiv in Hc.
  specialize (Hc (civil_from_days_from_civil y m d Hm Hd)).
  pose proof (clock_fields_spec t) as Hf. destruct (clock_fields t) as [[[hh mm] ss] us].
  destruct Hf as (Hhh & Hmm & Hss & Hus & Hsum). rewrite Hmod in Hsum.
  unfold fromisoformat. rewrite Hc, parse_date_print by done. cbn [mbind option_bind].
  rewrite parse_clock_print; [|done..|]; [|done].
  cbn [mbind option_bind]. rewrite Hsum. reflexivity.
Qed.

Lemma parse_date_range l days l' :
  parse_date l = Some (days, l') →
  ∃ y m d, days = days_from_civil y m d ∧ 1 <= y <= 9999 ∧ 1 <= m <= 12 ∧
    1 <= d <= days_in_month y m.
Proof.
  unfold parse_date. intros E.
  apply bind_Some in E as ([y l1] & Ey & E). apply bind_Some in E as (l2 & _ & E).
  apply bind_Some in E as ([m l3] & _ & E). apply bind_Some in E as (l4 & _ & E).
  apply bind_Some in E as ([d l5] & _ & E). apply take_num_spec in Ey. simpl in Ey.
  case_match eqn:Ec; simplify_eq. rewrite !andb_true_iff, !Z.leb_le in Ec.
  exists y, m, d. split; [done|]. lia.
Qed.

Lemma span_digits_digits l : Forall (λ c, is_digit c = true) (span_digits l).1.
Proof.
  induction l as [|c l IH]; simpl; [done|]. destruct (is_digit c) eqn:E; [|done].
  destruct (span_digits l). by constructor.
Qed.

Lemma parse_micros_range l us l' : parse_micros l = Some (us, l') → 0 <= us < 1000000.
Proof.
  unfold parse_micros. intros E. destruct l as [|c l]; [simplify_eq; lia|].
  destruct (fraction_mark c); [|simplify_eq; lia].
  pose proof (span_digits_digits l) as Hds.
  destruct (span_digits l) as [[|d ds] rest]; [done|]. injection E as <- <-.
  assert (Hd : Forall (λ c, is_digit c = true) (take 6 ((d :: ds) ++ zeros 6))).
  { apply Forall_take, Forall_app. split; [exact Hds|apply zeros_all]. }
  apply digits_N_bound in Hd. rewrite length_take, length_app in Hd.
  rewrite Nat.min_l in Hd by (simpl; lia). simpl in Hd. lia.
Qed.

Lemma parse_hms_range l hh mm ss us l' :
  parse_hms l = Some (hh, mm, ss, us, l') → 0 <= hh ∧ 0 <= mm ∧ 0 <= ss ∧ 0 <= us < 1000000.
Proof.
  unfold parse_hms. intros E.
  apply bind_Some in E as ([h l1] & Eh & E). apply take_num_spec in Eh.
  destruct (expect ":" l1) as [l2|]; [|simplify_eq; lia].
  apply bind_Some in E as ([m l3] & Em & E). apply take_num_spec in Em.
  destruct (expect ":" l3) as [l4|]; [|simplify_eq; lia].
  apply bind_Some in E as ([s l5] & Es & E). apply take_num_spec in Es.
  apply bind_Some in E as ([u l6] & Eu & E). apply parse_micros_range in Eu. simplify_eq. lia.
Qed.

Lemma parse_clock_range l us l' : parse_clock l = Some (us, l') → 0 <= us < us_per_day.
Proof.
  unfold parse_clock. intros E.
  apply bind_Some in E as ([[[[hh mm] ss] u] l1] & Eh & E). apply parse_hms_range in Eh.
  case_match eqn:Ec; simplify_eq. rewrite !andb_true_iff, !Z.leb_le in Ec.
  unfold hms_us, us_per_day. lia.
Qed.

Lemma fromisoformat_instant s t off : fromisoformat s = Some (t, off) → instant t.
Proof.
  unfold fromisoformat. intros E. apply bind_Some in E as ([days l] & Ed & E).
  apply parse_date_range in Ed as (y & m & d & -> & Hy & Hm & Hd). destruct l as [|c l].
  - simplify_eq. exists y, m, d, 0. split; [lia|]. do 3 (split; [done|]). done.
  - apply bind_Some in E as ([us l'] & Ec & E). apply bind_Some in E as (o & _ & E). simplify_eq.
    apply parse_clock_range in Ec. by exists y, m, d, us.
Qed.
