(* ===== verification/ReceiptIO.v ===== *)
(** The process environment the sources read (clock, uuid4, SHA-256, paths)
    and the receipt-file helpers of [statecore/receipt_io.py]: path
    containment, atomic replacement, exclusive creation and the
    compare-and-swap that serializes terminal transitions. *)
From S2P Require Import Prelude PyDecimal PyTime PyJson.

(** ** Environment

    Successive clock readings and uuid draws are functions of how many were
    made before; [sha256_hex] is [hashlib.sha256(...).hexdigest()]. *)
Class PyEnv := {
  clock : nat → Z;
  uuid4_hex : nat → string;
  sha256_hex : string → string;
  cwd : string;
  project_root : string;
}.

Record sys := Sys {
  sys_ticks : nat;                    (** clock readings so far *)
  sys_uuids : nat;                    (** uuids drawn so far *)
  sys_files : gmap string json;       (** receipt files by absolute path *)
}.

Section Environment.
Context `{PyEnv}.

(** [datetime.now(UTC)] *)
Definition now : M sys Z :=
    t ← gets (λ s, clock (sys_ticks s));
    modify (λ s, Sys (S (sys_ticks s)) (sys_uuids s) (sys_files s)) ;; mret t.
(** [uuid4().hex] *)
Definition uuid4 : M sys string :=
    u ← gets (λ s, uuid4_hex (sys_uuids s));
    modify (λ s, Sys (sys_ticks s) (S (sys_uuids s)) (sys_files s)) ;; mret u.
Definition now_utc : M sys string := t ← now; mret (isoformat t).
Definition stamp : M sys string := t ← now; mret (strftime_stamp t).

(** ** Paths *)

Definition slash : ascii := "/"%char.

(** The components of a path after resolving [.], [..] and empty parts. *)
Definition normalize (l : list string) : list string :=
    rev (fold_left (λ acc c,
      if streq c "" || streq c "." then acc
      else if streq c ".." then tail acc else c :: acc) l []).
Definition render_path (l : list string) : string := "/" +:+ join "/" l.
Definition absolute (p : string) : string :=
    if starts_with "/" p then p else cwd +:+ "/" +:+ p.
(** [os.path.realpath] on a tree without symbolic links *)
Definition realpath (p : string) : string :=
    render_path (normalize (split_on slash (absolute p))).
(** [Path(root).joinpath(...)]: an absolute part replaces what precedes it *)
Definition joinpath (root : string) (parts : list string) : string :=
    fold_left (λ acc p, if starts_with "/" p then p else acc +:+ "/" +:+ p) parts root.

Definition resolve_under (root : string) (parts : list string) : exn + string :=
    let root_real := realpath root in
    let candidate := realpath (joinpath root_real parts) in
    if negb (streq candidate root_real) && negb (starts_with (root_real +:+ "/") candidate)
    then inl (Exn ReceiptPathError ("receipt path " +:+ candidate +:+
                " escapes its allowed root " +:+ root_real))
    else inr candidate.

Fixpoint strip_prefix (p l : list string) : option (list string) :=
    match p, l with
    | [], l => Some l
    | a :: p', b :: l' => if streq a b then strip_prefix p' l' else None
    | _ :: _, [] => None
    end.

(** [_display_path]: relative to the project root when it lies under it *)
Definition display_path (p : string) : string :=
    let comps := normalize (split_on slash (absolute p)) in
    match strip_prefix (normalize (split_on slash (absolute project_root))) comps with
    | Some [] => "."
    | Some rel => join "/" rel
    | None => render_path comps
    end.

(** Replace the file at [path] by a complete new one. *)
Definition atomic_write_json (path : string) (payload : json) : M sys unit :=
    modify (λ s, Sys (sys_ticks s) (sys_uuids s) (<[path := payload]> (sys_files s))).

(** ** Hashed payloads *)

Definition canonical_json_sha256 (payload : json) : string :=
    sha256_hex (json_canonical payload).

(** What the hashing helpers need to know about a payload: the claimed
    [content_sha256], the rest of it, and its ["state"]. *)
Class Payload (P : Type) := {
    claimed_sha : P → option string;
    unhashed : P → json;
    payload_state : P → option string;
  }.

(** A file that exists is readable JSON or not. *)
Inductive slot (P : Type) := Readable (p : P) | Unreadable.
Arguments Readable {_} _.
Arguments Unreadable {_}.

  Section Hashed.
Context {P : Type} `{!Payload P}.

Definition require_valid_json_content_hash (payload : P) (label : string) : exn + string :=
      match claimed_sha payload with
      | Some claimed =>
          if streq claimed (canonical_json_sha256 (unhashed payload)) then inr claimed
          else inl (Exn ReceiptIntegrityError (label +:+ " content hash mismatch"))
      | None => inl (Exn ReceiptIntegrityError (label +:+ " content hash mismatch"))
      end.

Definition read_json_object (name : string) : M (gmap string (slot P)) P :=
      o ← gets (λ d, d !! name);
      match o with
      | Some (Readable p) => mret p
      | _ => raise ReceiptIntegrityError ("locked receipt is unreadable: " +:+ name)
      end.

Definition durable_compare_and_swap_json (name expected_content_sha256 expected_state : string)
        (payload : P) : M (gmap string (slot P)) bool :=
      of_sum (require_valid_json_content_hash payload "replacement receipt") ;;
      current ← read_json_object name;
      current_hash ← of_sum (require_valid_json_content_hash current "locked receipt");
      if negb (streq current_hash expected_content_sha256) ||
         negb (bool_decide (payload_state current = Some expected_state))
      then mret false
      else modify (<[name := Readable payload]>) ;; mret true.

Definition durable_create_json_exclusive (name : string) (payload : P)
        : M (gmap string (slot P)) bool :=
      o ← gets (λ d : gmap string (slot P), d !! name);
      match o with
      | Some _ => mret false
      | None => modify (<[name := Readable payload]>) ;; mret true
      end.
  End Hashed.
End Environment.

Arguments Readable {_} _.
Arguments Unreadable {_}.

(** A receipt as the JSON object that is stored. *)
Definition as_str (j : option json) : option string :=
  match j with Some (JStr s) => Some s | _ => None end.
#[export] Instance json_payload : Payload (list (string * json)) := {|
  claimed_sha l := as_str (obj_get "content_sha256" l);
  unhashed l := JObj (List.filter (λ kv, negb (streq kv.1 "content_sha256")) l);
  payload_state l := as_str (obj_get "state" l);
|}.

(** ** Facts about path resolution *)

Lemma split_chars_app sep cur l1 l2 :
  split_chars sep cur (l1 ++ sep :: l2) = split_chars sep cur l1 ++ split_chars sep [] l2.
Proof.
  revert cur. induction l1 as [|c l1 IH]; intros cur; simpl.
  - by rewrite Ascii.eqb_refl.
  - destruct (Ascii.eqb c sep); simpl; by rewrite IH.
Qed.

Lemma split_chars_none sep cur l :
  sep ∉ l → split_chars sep cur l = [rev cur ++ l].
Proof.
  revert cur. induction l as [|c l IH]; intros cur Hl; simpl; [by rewrite app_nil_r|].
  destruct (Ascii.eqb_spec c sep) as [->|Hc]; [set_solver|].
  rewrite IH by set_solver. simpl. by rewrite <-app_assoc.
Qed.

Lemma split_chars_no_sep sep cur l c :
  sep ∉ cur → c ∈ split_chars sep cur l → sep ∉ c.
Proof.
  revert cur. induction l as [|d l IH]; intros cur Hcur; simpl.
  - intros ->%list_elem_of_singleton. rewrite list_elem_of_In, <-in_rev, <-list_elem_of_In. done.
  - destruct (Ascii.eqb_spec d sep) as [->|Hd].
    + intros [->|Hc]%elem_of_cons; [|by apply (IH []); [set_solver|]].
      rewrite list_elem_of_In, <-in_rev, <-list_elem_of_In. done.
    + apply IH. set_solver.
Qed.

Lemma split_on_app s t :
  split_on slash (s +:+ "/" +:+ t) = split_on slash s ++ split_on slash t.
Proof.
  unfold split_on. rewrite !chars_app. change (chars "/" ++ chars t) with (slash :: chars t).
  by rewrite split_chars_app, map_app.
Qed.

(** A component name: no slash, not empty and not a dot segment. *)
Definition plain (c : string) : Prop :=
  slash ∉ chars c ∧ c ≠ "" ∧ c ≠ "." ∧ c ≠ "..".

Lemma split_on_no_slash s c : c ∈ split_on slash s → slash ∉ chars c.
Proof.
  unfold split_on. intros Hc. apply list_elem_of_In, in_map_iff in Hc as (l & <- & Hl).
  rewrite chars_of_chars. apply list_elem_of_In in Hl. by eapply split_chars_no_sep, Hl; set_solver.
Qed.

Lemma normalize_plain l :
  Forall (λ c, slash ∉ chars c) l → Forall plain (normalize l).
Proof.
  intros Hl. unfold normalize. apply Forall_rev.
  assert (Hacc : Forall plain []) by constructor. revert Hacc.
  generalize (@nil string) as acc. induction Hl as [|c l Hc Hl IH]; intros acc Hacc; simpl; [done|].
  apply IH. destruct (streq c "") eqn:E1; simpl; [done|].
  destruct (streq c ".") eqn:E2; simpl; [done|].
  destruct (streq c "..") eqn:E3; [destruct Hacc; simpl; [constructor|done]|].
  bool_simpl. by repeat constructor.
Qed.

Lemma join_cons a l : l ≠ [] → join "/" (a :: l) = a +:+ "/" +:+ join "/" l.
Proof. by destruct l. Qed.

Lemma split_join l :
  l ≠ [] → Forall plain l → split_on slash (join "/" l) = l.
Proof.
  intros Hne Hl. induction Hl as [|a l [Ha _] Hl IH]; [done|].
  destruct l as [|b l].
  - simpl. unfold split_on. rewrite split_chars_none by done. simpl. by rewrite of_chars_chars.
  - rewrite join_cons by done. rewrite split_on_app, IH by done.
    unfold split_on. rewrite split_chars_none by done. simpl. by rewrite of_chars_chars.
Qed.

Lemma split_render l :
  l ≠ [] → Forall plain l → split_on slash (render_path l) = "" :: l.
Proof.
  intros. unfold render_path. change ("/" +:+ join "/" l) with ("" +:+ "/" +:+ join "/" l).
  rewrite split_on_app, split_join by done. done.
Qed.

Lemma starts_with_app p s : starts_with p s = true → ∃ t, s = p +:+ t.
Proof.
  unfold starts_with. revert s. induction p as [|c p IH]; intros s Hs; [by exists s|].
  destruct s as [|d s]; simpl in Hs; [done|].
  destruct (ascii_dec c d) as [->|]; [|done].
  apply IH in Hs as [t ->]. by exists t.
Qed.

Section Containment.
Context `{PyEnv}.

Definition components (p : string) : list string := normalize (split_on slash (absolute p)).

Lemma components_plain p : Forall plain (components p).
Proof.
    apply normalize_plain, Forall_forall. intros c. apply split_on_no_slash.
Qed.

Lemma render_prefix_components R C t :
    Forall plain R → Forall plain C →
    render_path C = (render_path R +:+ "/") +:+ t → ∃ rel, C = R ++ rel.
Proof.
    intros HR HC E. destruct (decide (C = [])) as [->|HCn].
    { apply (f_equal (λ s, length (chars s))) in E. unfold render_path in E.
      rewrite !chars_app, !length_app in E. simpl in E. lia. }
    destruct (decide (R = [])) as [->|HRn]; [by exists C|].
    assert (E' : split_on slash (render_path C) = split_on slash (render_path R +:+ "/" +:+ t)).
    { rewrite E. f_equal. apply chars_inj. by rewrite !chars_app, <-app_assoc. }
    rewrite split_on_app, !split_render in E' by done. injection E' as ->. by eexists.
Qed.

Lemma resolve_under_ok root parts c :
    resolve_under root parts = inr c →
    c = realpath (joinpath (realpath root) parts) ∧
    (c = realpath root ∨ ∃ t, c = (realpath root +:+ "/") +:+ t).
Proof.
    unfold resolve_under. intros E. case_match eqn:Eq; simplify_eq. split; [done|].
    apply andb_false_iff in Eq as [Eq|Eq]; bool_simpl; [by left|right].
    by apply starts_with_app.
Qed.
End Containment.

(** C10: path containment of [resolve_under].  Whatever the parts are (also
    ["../"] segments and absolute parts), a path that is returned consists of
    the components of the resolved root followed by plain component names
    only: it cannot leave the receipt root. *)
Theorem resolve_under_contained `{PyEnv} (root : string) (parts : list string) (c : string)
    (Hres : resolve_under root parts = inr c) :
  ∃ rel, c = render_path (components root ++ rel) ∧ Forall plain (components root ++ rel).
Proof.
  apply resolve_under_ok in Hres as [Hc [Hroot|[t Ht]]].
  - exists []. rewrite app_nil_r. split; [by rewrite Hroot|apply components_plain].
  - assert (HC := components_plain (joinpath (realpath root) parts)).
    rewrite Hc in Ht. apply render_prefix_components in Ht as [rel Hrel];
      [|apply components_plain|done].
    exists rel. change (components root) with (normalize (split_on slash (absolute root))).
    rewrite <-Hrel. by split.
Qed.

(** ** Facts about the compare-and-swap *)

Section Swap.
Context `{PyEnv} {P : Type} `{!Payload P}.
  Implicit Types (d : gmap string (slot P)) (p : P).

Definition hash_valid (p : P) : bool :=
    bool_decide (claimed_sha p = Some (canonical_json_sha256 (unhashed p))).

Lemma require_hash_valid p label :
    hash_valid p = true →
    require_valid_json_content_hash p label = inr (canonical_json_sha256 (unhashed p)).
Proof.
    unfold hash_valid, require_valid_json_content_hash. intros ->%bool_decide_eq_true.
    by rewrite streq_refl.
Qed.
Lemma require_hash_ok p label h :
    require_valid_json_content_hash p label = inr h → hash_valid p = true ∧ claimed_sha p = Some h.
Proof.
    unfold hash_valid, require_valid_json_content_hash. intros E.
    repeat case_match; simplify_eq. bool_simpl. subst. split; [by apply bool_decide_eq_true|done].
Qed.

Lemma cas_true name h st p d d' :
    durable_compare_and_swap_json name h st p d = (d', inr true) →
    d' = <[name := Readable p]> d ∧ hash_valid p = true ∧
    ∃ cur, d !! name = Some (Readable cur) ∧ claimed_sha cur = Some h ∧
           payload_state cur = Some st ∧ hash_valid cur = true.
Proof.
    unfold durable_compare_and_swap_json, read_json_object. intros E. minv.
    apply require_hash_ok in H2 as [Hp _]. 
    destruct (d !! name) as [[cur|]|] eqn:Hd; minv.
    apply require_hash_ok in H3 as [Hcur Hcl].
    destruct (_ || _) eqn:Et; minv. bool_simpl. subst. split; [done|]. eauto 10.
Qed.

Lemma cas_match name h st p d cur :
    hash_valid p = true → d !! name = Some (Readable cur) → hash_valid cur = true →
    claimed_sha cur = Some h → payload_state cur = Some st →
    durable_compare_and_swap_json name h st p d = (<[name := Readable p]> d, inr true).
Proof.
    intros Hp Hd Hcur Hh Hst. unfold durable_compare_and_swap_json, read_json_object.
    unfold mbind, M_bind, of_sum, gets. rewrite require_hash_valid by done. rewrite Hd.
    unfold mret at 1, M_ret at 1. rewrite require_hash_valid by done.
    apply bool_decide_eq_true in Hcur. rewrite Hcur in Hh. injection Hh as <-.
    rewrite if_false; [done|]. rewrite streq_refl. simpl.
    apply negb_false_iff. by apply bool_decide_eq_true.
Qed.

Lemma cas_not_true name h st p d d' r :
    durable_compare_and_swap_json name h st p d = (d', r) → r ≠ inr true → d' = d.
Proof.
    unfold durable_compare_and_swap_json, read_json_object, mbind, M_bind, of_sum, gets, mret, M_ret,
      raise, modify.
    repeat case_match; naive_solver.
Qed.

Lemma cas_mismatch name h st p d cur :
    hash_valid p = true → d !! name = Some (Readable cur) → hash_valid cur = true →
    claimed_sha cur ≠ Some h ∨ payload_state cur ≠ Some st →
    durable_compare_and_swap_json name h st p d = (d, inr false).
Proof.
    intros Hp Hd Hcur Hne. unfold durable_compare_and_swap_json, read_json_object.
    unfold mbind, M_bind, of_sum, gets. rewrite require_hash_valid by done. rewrite Hd.
    unfold mret at 1, M_ret at 1. rewrite require_hash_valid by done.
    apply bool_decide_eq_true in Hcur. rewrite Hcur in Hne. rewrite if_true; [done|].
    apply orb_true_iff. destruct Hne as [Hne|Hne]; [left|right]; apply negb_true_iff.
    - apply streq_false. congruence.
    - by apply bool_decide_eq_false.
Qed.
End Swap.

(** C6: a compare-and-swap has one winner.  Two writers prepared their
    replacement from the same version (same content hash and state) of a
    file.  When the first one succeeds with a replacement that differs from
    that version in hash or state, the second returns [False] and changes
    nothing, whatever it wanted to write. *)
Theorem compare_and_swap_one_winner `{PyEnv} {P} `{!Payload P}
    (name h st : string) (p1 p2 : P) (d d1 : gmap string (slot P))
    (Hdiff : claimed_sha p1 ≠ Some h ∨ payload_state p1 ≠ Some st)
    (Hp2 : hash_valid p2 = true)
    (Hfirst : durable_compare_and_swap_json name h st p1 d = (d1, inr true)) :
  durable_compare_and_swap_json name h st p2 d1 = (d1, inr false) ∧
  d1 = <[name := Readable p1]> d.
Proof.
  apply cas_true in Hfirst as (-> & Hp1 & _). split; [|done].
  apply (cas_mismatch name h st p2 _ p1); [done| |done|done]. apply lookup_insert_eq.
Qed.
