(* ===== verification/ExecutionModels.v ===== *)
(** The tables of the execution kernel ([statecore/execution_models.py]) with
    their primary keys, foreign keys and CHECK constraints, and the
    transactional insert helper [write_records] of [statecore/store.py]. *)
From S2P Require Import Prelude PyDecimal PyTime PyJson ReceiptIO.

(** ** The database engine

    [sql_first ids] is the row a SELECT without ORDER BY yields first among
    the rows with these primary keys; [sql_quantity_check text] is the verdict
    of [CHECK (quantity > 0)] on the stored text of the column;
    [table_validation] says whether constructing a table model runs its field
    validators. *)
Class Database := {
  sql_first : gset string → option string;
  sql_quantity_check : string → bool;
  table_validation : bool;
}.

(** A SELECT yields one of the matching rows, and nothing when none matches. *)
Class DatabaseLaws `{Database} := {
  sql_first_none ids : sql_first ids = None ↔ ids = ∅;
  sql_first_elem ids k : sql_first ids = Some k → k ∈ ids;
}.

Inductive ExecutionEnvironment := PAPER | LIVE.
#[export] Instance ExecutionEnvironment_eq_dec : EqDecision ExecutionEnvironment.
Proof. solve_decision. Defined.

Definition environment_value (e : ExecutionEnvironment) : string :=
  match e with PAPER => "paper" | LIVE => "live" end.
(** [ExecutionEnvironment(value)] *)
Definition parse_environment (value : string) : exn + ExecutionEnvironment :=
  if streq value "paper" then inr PAPER
  else if streq value "live" then inr LIVE
  else inl (Exn ValueError (value +:+ " is not a valid ExecutionEnvironment")).

Definition ORDER_DRAFT_STATUSES : list string :=
  ["draft"; "pretrade_check_pending"; "pretrade_check_passed"; "pretrade_check_blocked";
   "approval_pending"; "approved"; "rejected"; "staged"; "cancelled"].
Definition ORDER_SIDES : list string := ["buy"; "sell"].
Definition ORDER_TYPES : list string := ["market"; "limit"; "stop"; "stop_limit"].
Definition ORDER_TIFS : list string := ["day"; "gtc"; "ioc"; "fok"].
Definition EXECUTION_ORDER_STATUSES : list string :=
  ["staged"; "submit_pending"; "submitted"; "acknowledged"; "partial_fill"; "filled";
   "rejected"; "cancelled"; "expired"].
Definition EXECUTION_REPORT_TYPES : list string :=
  ["submit_ack"; "cancel_ack"; "fill"; "partial_fill"; "reject"; "cancel_reject";
   "simulated_submit_ack"; "simulated_fill"; "simulated_reject"].
Definition FILL_STATUSES : list string := ["none"; "partial"; "filled"; "rejected"; "cancelled"].
Definition PRETRADE_CHECK_STATUSES : list string := ["pass"; "warn"; "block"; "pending"].
Definition APPROVAL_DECISIONS : list string := ["approved"; "rejected"; "deferred"].
Definition RECONCILIATION_STATUSES : list string := ["matched"; "unmatched"; "pending"].

(** ** Rows

    The columns every operation leaves at their constant default
    ([schema_version] and the [validation_findings] of a draft) are left
    out. *)

Record BrokerConnection := {
  bc_broker_connection_id : string;
  bc_environment : ExecutionEnvironment;
  bc_broker_name : string;
  bc_adapter_kind : string;
  bc_enabled : bool;
  bc_network_enabled : bool;
  bc_credential_ref : option string;
  bc_created_at_utc : string;
}.

Record ExecutionAccount := {
  ea_execution_account_id : string;
  ea_broker_connection_id : string;
  ea_environment : ExecutionEnvironment;
  ea_account_label : string;
  ea_base_currency : string;
  ea_funded : bool;
  ea_external_account_ref : option string;
  ea_created_at_utc : string;
}.

Record OrderDraft := {
  od_order_draft_id : string;
  od_proposal_id : option string;
  od_environment : ExecutionEnvironment;
  od_execution_account_id : string;
  od_instrument_ref : string;
  od_symbol : string;
  od_side : string;
  od_order_type : string;
  od_quantity : dec;
  od_limit_price : option dec;
  od_stop_price : option dec;
  od_time_in_force : string;
  od_currency : string;
  od_rationale : string;
  od_source_kind : string;
  od_source_ref : string;
  od_draft_status : string;
  od_receipt_ref : option string;
  od_created_at_utc : string;
}.

Record PreTradeCheck := {
  ptc_pretrade_check_id : string;
  ptc_order_draft_id : string;
  ptc_check_status : string;
  ptc_findings_json : string;
  ptc_required_approval_level : string;
  ptc_receipt_ref : option string;
  ptc_created_at_utc : string;
}.

Record ApprovalRecord := {
  ar_approval_id : string;
  ar_order_draft_id : string;
  ar_decision : string;
  ar_reviewer_id : string;
  ar_rationale : string;
  ar_receipt_ref : option string;
  ar_created_at_utc : string;
}.

Record ExecutionOrder := {
  eo_execution_order_id : string;
  eo_order_draft_id : string;
  eo_broker_connection_id : string;
  eo_environment : ExecutionEnvironment;
  eo_broker_order_ref : option string;
  eo_execution_status : string;
  eo_submitted_at_utc : option string;
  eo_receipt_ref : option string;
  eo_created_at_utc : string;
}.

Record ExecutionReport := {
  er_execution_report_id : string;
  er_execution_order_id : string;
  er_report_type : string;
  er_fill_status : string;
  er_filled_quantity : dec;
  er_average_fill_price : option dec;
  er_broker_event_ref : option string;
  er_receipt_ref : option string;
  er_created_at_utc : string;
}.

Record PositionDelta := {
  pd_position_delta_id : string;
  pd_execution_report_id : string;
  pd_execution_account_id : string;
  pd_symbol : string;
  pd_delta_quantity : dec;
  pd_post_execution_quantity : dec;
  pd_receipt_ref : option string;
  pd_created_at_utc : string;
}.

Record ReconciliationReport := {
  rr_reconciliation_id : string;
  rr_execution_account_id : string;
  rr_reconciliation_status : string;
  rr_expected_positions_json : string;
  rr_actual_positions_json : string;
  rr_discrepancies_json : string;
  rr_receipt_ref : option string;
  rr_created_at_utc : string;
}.

Record ReceiptIndex := {
  ri_receipt_id : string;
  ri_kind : string;
  ri_path : string;
  ri_created_at_utc : string;
  ri_refs : list string;
}.

(** *** Field validators of the table models *)

Definition OrderDraft_require_context (d : OrderDraft) : bool :=
  negb (blank (od_symbol d)) && negb (blank (od_instrument_ref d)) && negb (blank (od_rationale d)).
Definition ApprovalRecord_require_reviewer_context (a : ApprovalRecord) : bool :=
  negb (blank (ar_reviewer_id a)) && negb (blank (ar_rationale a)).
Definition PositionDelta_require_symbol (p : PositionDelta) : bool := negb (blank (pd_symbol p)).

(** Construct a table model: its validators run when the ORM runs them. *)
Definition construct {S} `{Database} (valid : bool) (msg : string) : M S unit :=
  require (negb table_validation || valid) ValueError msg.

(** ** Tables *)

Record db := Db {
  t_broker_connections : gmap string BrokerConnection;
  t_execution_accounts : gmap string ExecutionAccount;
  t_order_drafts : gmap string OrderDraft;
  t_pretrade_checks : gmap string PreTradeCheck;
  t_approval_records : gmap string ApprovalRecord;
  t_execution_orders : gmap string ExecutionOrder;
  t_execution_reports : gmap string ExecutionReport;
  t_position_deltas : gmap string PositionDelta;
  t_reconciliation_reports : gmap string ReconciliationReport;
  t_receipt_index : gmap string ReceiptIndex;
}.

Definition empty_db : db := Db ∅ ∅ ∅ ∅ ∅ ∅ ∅ ∅ ∅ ∅.

Definition has {A} (m : gmap string A) (k : string) : bool :=
  match m !! k with Some _ => true | None => false end.

Lemma has_true {A} (m : gmap string A) k : has m k = true ↔ is_Some (m !! k).
Proof. unfold has. destruct (m !! k); split; try done; intros [? ?]; done. Qed.
Lemma has_false {A} (m : gmap string A) k : has m k = false ↔ m !! k = None.
Proof. unfold has. by destruct (m !! k). Qed.
Lemma has_insert {A} (m : gmap string A) i x k : has m k = true → has (<[i := x]> m) k = true.
Proof. rewrite !has_true. intros ?. apply lookup_insert_is_Some'. by right. Qed.
Lemma has_alter {A} (f : A → A) (m : gmap string A) i k : has (alter f i m) k = has m k.
Proof.
  unfold has. rewrite lookup_alter. case_decide; subst; [by destruct (m !! k)|done].
Qed.

(** A row as [session.add] receives it. *)
Inductive row :=
  | RowBrokerConnection (r : BrokerConnection)
  | RowExecutionAccount (r : ExecutionAccount)
  | RowOrderDraft (r : OrderDraft)
  | RowPreTradeCheck (r : PreTradeCheck)
  | RowApprovalRecord (r : ApprovalRecord)
  | RowExecutionOrder (r : ExecutionOrder)
  | RowExecutionReport (r : ExecutionReport)
  | RowPositionDelta (r : PositionDelta)
  | RowReconciliationReport (r : ReconciliationReport)
  | RowReceiptIndex (r : ReceiptIndex).

Section Constraints.
Context `{Database}.

(** The CHECK constraints of each table; the environment column of the
    enumeration type always meets its CHECK. *)
Definition check_OrderDraft (r : OrderDraft) : bool :=
    mem (od_side r) ORDER_SIDES && mem (od_order_type r) ORDER_TYPES &&
    mem (od_time_in_force r) ORDER_TIFS && mem (od_draft_status r) ORDER_DRAFT_STATUSES &&
    sql_quantity_check (dec_str (od_quantity r)).
Definition check_PreTradeCheck (r : PreTradeCheck) : bool :=
    mem (ptc_check_status r) PRETRADE_CHECK_STATUSES.
Definition check_ApprovalRecord (r : ApprovalRecord) : bool :=
    mem (ar_decision r) APPROVAL_DECISIONS.
Definition check_ExecutionOrder (r : ExecutionOrder) : bool :=
    mem (eo_execution_status r) EXECUTION_ORDER_STATUSES.
Definition check_ExecutionReport (r : ExecutionReport) : bool :=
    mem (er_report_type r) EXECUTION_REPORT_TYPES && mem (er_fill_status r) FILL_STATUSES.
Definition check_ReconciliationReport (r : ReconciliationReport) : bool :=
    mem (rr_reconciliation_status r) RECONCILIATION_STATUSES.

(** The foreign keys of each table. *)
Definition fk_ExecutionAccount (d : db) (r : ExecutionAccount) : bool :=
    has (t_broker_connections d) (ea_broker_connection_id r).
Definition fk_OrderDraft (d : db) (r : OrderDraft) : bool :=
    has (t_execution_accounts d) (od_execution_account_id r).
Definition fk_PreTradeCheck (d : db) (r : PreTradeCheck) : bool :=
    has (t_order_drafts d) (ptc_order_draft_id r).
Definition fk_ApprovalRecord (d : db) (r : ApprovalRecord) : bool :=
    has (t_order_drafts d) (ar_order_draft_id r).
Definition fk_ExecutionOrder (d : db) (r : ExecutionOrder) : bool :=
    has (t_order_drafts d) (eo_order_draft_id r) &&
    has (t_broker_connections d) (eo_broker_connection_id r).
Definition fk_ExecutionReport (d : db) (r : ExecutionReport) : bool :=
    has (t_execution_orders d) (er_execution_order_id r).
Definition fk_PositionDelta (d : db) (r : PositionDelta) : bool :=
    has (t_execution_reports d) (pd_execution_report_id r) &&
    has (t_execution_accounts d) (pd_execution_account_id r).
Definition fk_ReconciliationReport (d : db) (r : ReconciliationReport) : bool :=
    has (t_execution_accounts d) (rr_execution_account_id r).

(** [INSERT]: the primary key is new, the CHECKs and foreign keys hold. *)
Definition insert_row (r : row) (d : db) : option db :=
    match d with
    | Db bc ea od ptc ar eo er pd rr ri =>
        match r with
        | RowBrokerConnection r =>
            if negb (has bc (bc_broker_connection_id r))
            then Some (Db (<[bc_broker_connection_id r := r]> bc) ea od ptc ar eo er pd rr ri)
            else None
        | RowExecutionAccount r =>
            if negb (has ea (ea_execution_account_id r)) && fk_ExecutionAccount d r
            then Some (Db bc (<[ea_execution_account_id r := r]> ea) od ptc ar eo er pd rr ri)
            else None
        | RowOrderDraft r =>
            if negb (has od (od_order_draft_id r)) && check_OrderDraft r && fk_OrderDraft d r
            then Some (Db bc ea (<[od_order_draft_id r := r]> od) ptc ar eo er pd rr ri)
            else None
        | RowPreTradeCheck r =>
            if negb (has ptc (ptc_pretrade_check_id r)) && check_PreTradeCheck r && fk_PreTradeCheck d r
            then Some (Db bc ea od (<[ptc_pretrade_check_id r := r]> ptc) ar eo er pd rr ri)
            else None
        | RowApprovalRecord r =>
            if negb (has ar (ar_approval_id r)) && check_ApprovalRecord r && fk_ApprovalRecord d r
            then Some (Db bc ea od ptc (<[ar_approval_id r := r]> ar) eo er pd rr ri)
            else None
        | RowExecutionOrder r =>
            if negb (has eo (eo_execution_order_id r)) && check_ExecutionOrder r && fk_ExecutionOrder d r
            then Some (Db bc ea od ptc ar (<[eo_execution_order_id r := r]> eo) er pd rr ri)
            else None
        | RowExecutionReport r =>
            if negb (has er (er_execution_report_id r)) && check_ExecutionReport r && fk_ExecutionReport d r
            then Some (Db bc ea od ptc ar eo (<[er_execution_report_id r := r]> er) pd rr ri)
            else None
        | RowPositionDelta r =>
            if negb (has pd (pd_position_delta_id r)) && fk_PositionDelta d r
            then Some (Db bc ea od ptc ar eo er (<[pd_position_delta_id r := r]> pd) rr ri)
            else None
        | RowReconciliationReport r =>
            if negb (has rr (rr_reconciliation_id r)) && check_ReconciliationReport r
               && fk_ReconciliationReport d r
            then Some (Db bc ea od ptc ar eo er pd (<[rr_reconciliation_id r := r]> rr) ri)
            else None
        | RowReceiptIndex r =>
            if negb (has ri (ri_receipt_id r))
            then Some (Db bc ea od ptc ar eo er pd rr (<[ri_receipt_id r := r]> ri))
            else None
        end
    end.
End Constraints.

(** *** In-place updates of a row *)

Definition set_draft_status (st : string) (d : OrderDraft) : OrderDraft :=
  {| od_order_draft_id := od_order_draft_id d; od_proposal_id := od_proposal_id d;
     od_environment := od_environment d; od_execution_account_id := od_execution_account_id d;
     od_instrument_ref := od_instrument_ref d; od_symbol := od_symbol d; od_side := od_side d;
     od_order_type := od_order_type d; od_quantity := od_quantity d;
     od_limit_price := od_limit_price d; od_stop_price := od_stop_price d;
     od_time_in_force := od_time_in_force d; od_currency := od_currency d;
     od_rationale := od_rationale d; od_source_kind := od_source_kind d;
     od_source_ref := od_source_ref d; od_draft_status := st;
     od_receipt_ref := od_receipt_ref d; od_created_at_utc := od_created_at_utc d |}.

Definition set_order (status : string) (submitted : option string) (receipt : option string)
    (o : ExecutionOrder) : ExecutionOrder :=
  {| eo_execution_order_id := eo_execution_order_id o; eo_order_draft_id := eo_order_draft_id o;
     eo_broker_connection_id := eo_broker_connection_id o; eo_environment := eo_environment o;
     eo_broker_order_ref := eo_broker_order_ref o; eo_execution_status := status;
     eo_submitted_at_utc := submitted; eo_receipt_ref := receipt;
     eo_created_at_utc := eo_created_at_utc o |}.
Definition set_order_status (status : string) (o : ExecutionOrder) : ExecutionOrder :=
  set_order status (eo_submitted_at_utc o) (eo_receipt_ref o) o.
Definition set_order_submitted (at_utc : string) (o : ExecutionOrder) : ExecutionOrder :=
  set_order "submitted" (Some at_utc) (eo_receipt_ref o) o.
Definition set_order_receipt (ref : string) (o : ExecutionOrder) : ExecutionOrder :=
  set_order (eo_execution_status o) (eo_submitted_at_utc o) (Some ref) o.

Definition alter_drafts (f : OrderDraft → OrderDraft) (id : string) (d : db) : db :=
  match d with
  | Db bc ea od ptc ar eo er pd rr ri => Db bc ea (alter f id od) ptc ar eo er pd rr ri
  end.
Definition alter_orders (f : ExecutionOrder → ExecutionOrder) (id : string) (d : db) : db :=
  match d with
  | Db bc ea od ptc ar eo er pd rr ri => Db bc ea od ptc ar (alter f id eo) er pd rr ri
  end.

(** What [session.add] does with a record: insert a new row, or write the
    changed [receipt_ref] of an order loaded earlier. *)
Inductive pending :=
  | Insert (r : row)
  | UpdateOrderReceipt (execution_order_id receipt_ref : string).

Definition flush_one `{Database} (p : pending) (d : db) : option db :=
  match p with
  | Insert r => insert_row r d
  | UpdateOrderReceipt id ref =>
      if has (t_execution_orders d) id then Some (alter_orders (set_order_receipt ref) id d) else None
  end.
Fixpoint flush_all `{Database} (l : list pending) (d : db) : option db :=
  match l with
  | [] => Some d
  | p :: l' => d' ← flush_one p d; flush_all l' d'
  end.

(** ** The state of the kernel: the database, the receipt files and clock *)

Record kernel_state := Kernel { k_db : db; k_sys : sys }.
Definition with_db (d : db) (k : kernel_state) : kernel_state := Kernel d (k_sys k).
Definition with_sys (s : sys) (k : kernel_state) : kernel_state := Kernel (k_db k) s.
Definition on_sys {A} (m : M sys A) : M kernel_state A := zoom k_sys with_sys m.

Definition PRODUCTION_IMPORT_KINDS : list string :=
  ["personal_finance_export"; "beancount_ledger"; "broker_read"; "broker_read_import"].

(** A receipt index row of a production import may not be written here. *)
Definition reject_unmanifested_production_import (records : list pending) : bool :=
  existsb (λ p, match p with
                | Insert (RowReceiptIndex r) => mem (ri_kind r) PRODUCTION_IMPORT_KINDS
                | _ => false
                end) records.

(** [write_records]: one transaction; a violated constraint rolls it back. *)
Definition write_records `{Database} (records : list pending) : M kernel_state unit :=
  if reject_unmanifested_production_import records
  then raise StateCoreStoreError "production import receipts require materialize_import_batch"
  else
    d ← gets k_db;
    match flush_all records d with
    | Some d' => modify (with_db d')
    | None => raise StateCoreStoreError "state-core atomic write failed: IntegrityError"
    end.
