(* ===== verification/ExecutionServices.v ===== *)
(** The execution services ([execution/services.py]) with the capability
    vocabulary ([execution/capabilities.py]) and the receipt writer
    ([execution/receipts.py]). *)
From S2P Require Import Prelude PyDecimal PyTime PyJson ReceiptIO ExecutionModels.

(** ** Capabilities *)

Inductive ExecutionCapabilityName :=
  | cap_create_order_draft
  | cap_run_pretrade_check
  | cap_record_approval
  | cap_stage_execution_order
  | cap_submit_simulated_order
  | cap_submit_live_order
  | cap_manage_broker_credentials.

Record ExecutionCapabilities := {
  can_create_order_draft : bool;
  can_run_pretrade_check : bool;
  can_record_approval : bool;
  can_stage_execution_order : bool;
  can_submit_simulated_order : bool;
  can_submit_live_order : bool;
  can_manage_broker_credentials : bool;
}.

Definition DEFAULT_EXECUTION_CAPABILITIES : ExecutionCapabilities :=
  Build_ExecutionCapabilities true true true true true false false.
Definition DENY_ALL_EXECUTION_CAPABILITIES : ExecutionCapabilities :=
  Build_ExecutionCapabilities false false false false false false false.

Definition capability_name (c : ExecutionCapabilityName) : string :=
  match c with
  | cap_create_order_draft => "create_order_draft"
  | cap_run_pretrade_check => "run_pretrade_check"
  | cap_record_approval => "record_approval"
  | cap_stage_execution_order => "stage_execution_order"
  | cap_submit_simulated_order => "submit_simulated_order"
  | cap_submit_live_order => "submit_live_order"
  | cap_manage_broker_credentials => "manage_broker_credentials"
  end.

(** [getattr(capabilities, capability)] *)
Definition has_capability (cs : ExecutionCapabilities) (c : ExecutionCapabilityName) : bool :=
  match c with
  | cap_create_order_draft => can_create_order_draft cs
  | cap_run_pretrade_check => can_run_pretrade_check cs
  | cap_record_approval => can_record_approval cs
  | cap_stage_execution_order => can_stage_execution_order cs
  | cap_submit_simulated_order => can_submit_simulated_order cs
  | cap_submit_live_order => can_submit_live_order cs
  | cap_manage_broker_credentials => can_manage_broker_credentials cs
  end.

Definition capability_denied (c : ExecutionCapabilityName) : string :=
  "Execution capability is disabled: " +:+ capability_name c.

Definition require_execution_capability {S} (cs : ExecutionCapabilities)
    (c : ExecutionCapabilityName) : M S unit :=
  require (has_capability cs c) ExecutionCapabilityDeniedError (capability_denied c).

Section Services.
Context `{PyEnv} `{Database}.

(** ** Receipts *)

Definition _stamp : M kernel_state string := on_sys stamp.
Definition _now_utc : M kernel_state string := on_sys now_utc.

(** [f"{prefix}_{_stamp()}_{uuid4().hex[:8]}"] *)
Definition _new_id (prefix : string) : M kernel_state string :=
    st ← _stamp; u ← on_sys uuid4;
    mret (prefix +:+ "_" +:+ st +:+ "_" +:+ take_str 8 u).

(** The last dotted segment of a receipt kind. *)
Definition kind_tail (kind : string) : string := List.last (split_on "."%char kind) "".

Definition receipt_id_of (kind st short : string) : string :=
    "exec_" +:+ kind_tail kind +:+ "_" +:+ st +:+ "_" +:+ short.

Definition _execution_receipt_id (kind artifact_id : string) : M kernel_state string :=
    st ← _stamp;
    short ← (if streq artifact_id "" then u ← on_sys uuid4; mret (take_str 8 u)
             else mret (take_str 8 (remove_char "-"%char artifact_id)));
    mret (receipt_id_of kind st short).

Definition write_execution_receipt (receipt_root kind artifact_id : string)
      (payload : list (string * json)) : M kernel_state (string * string) :=
    receipt_id ← _execution_receipt_id kind artifact_id;
    created ← _now_utc;
    target ← of_sum (resolve_under receipt_root ["receipts"; receipt_id +:+ ".json"]);
    on_sys (atomic_write_json target
      (JObj [("receipt_id", JStr receipt_id); ("kind", JStr kind);
             ("artifact_id", JStr artifact_id); ("created_at_utc", JStr created);
             ("refs", JArr []); ("payload", JObj payload)])) ;;
    mret (receipt_id, target).

(** The index row every service writes beside its own row. *)
Definition receipt_index (receipt_id kind receipt_path created : string) (refs : list string)
      : ReceiptIndex :=
    {| ri_receipt_id := receipt_id; ri_kind := kind; ri_path := display_path receipt_path;
       ri_created_at_utc := created; ri_refs := refs |}.

(** ** Order drafts *)

(** The keyword arguments of [create_order_draft]. *)
Record DraftRequest := {
    dr_execution_account_id : string;
    dr_instrument_ref : string;
    dr_symbol : string;
    dr_side : string;
    dr_order_type : string;
    dr_quantity : dec;
    dr_rationale : string;
    dr_environment : string;
    dr_time_in_force : string;
    dr_limit_price : option dec;
    dr_stop_price : option dec;
    dr_proposal_id : option string;
    dr_source_kind : string;
    dr_source_ref : string;
  }.

Definition draft_row (r : DraftRequest) (env : ExecutionEnvironment)
      (draft_id created : string) (receipt_ref : option string) : OrderDraft :=
    {| od_order_draft_id := draft_id; od_proposal_id := dr_proposal_id r; od_environment := env;
       od_execution_account_id := dr_execution_account_id r;
       od_instrument_ref := dr_instrument_ref r; od_symbol := dr_symbol r; od_side := dr_side r;
       od_order_type := dr_order_type r; od_quantity := dr_quantity r;
       od_limit_price := dr_limit_price r; od_stop_price := dr_stop_price r;
       od_time_in_force := dr_time_in_force r; od_currency := "USD";
       od_rationale := dr_rationale r; od_source_kind := dr_source_kind r;
       od_source_ref := dr_source_ref r; od_draft_status := "draft";
       od_receipt_ref := receipt_ref; od_created_at_utc := created |}.

Definition create_order_draft (capabilities : ExecutionCapabilities) (receipt_root : string)
      (r : DraftRequest) : M kernel_state OrderDraft :=
    require_execution_capability capabilities cap_create_order_draft ;;
    draft_id ← _new_id "od";
    created ← _now_utc;
    env ← of_sum (parse_environment (dr_environment r));
    construct (OrderDraft_require_context (draft_row r env draft_id created None))
      "order draft requires symbol, instrument_ref, and rationale" ;;
    '(receipt_id, receipt_path) ← write_execution_receipt receipt_root
      "execution.order_draft.created" draft_id
      [("side", JStr (dr_side r)); ("symbol", JStr (dr_symbol r));
       ("order_type", JStr (dr_order_type r)); ("quantity", jdec (dr_quantity r));
       ("environment", JStr (dr_environment r))];
    let draft := draft_row r env draft_id created (Some receipt_id) in
    write_records
      [Insert (RowOrderDraft draft);
       Insert (RowReceiptIndex (receipt_index receipt_id "execution.order_draft.created"
                 receipt_path created [draft_id]))] ;;
    mret draft.

(** ** Pre-trade checks *)

Definition finding := list (string * json).

Definition severity_is (s : string) (f : finding) : bool :=
    match obj_get "severity" f with Some (JStr s') => streq s' s | _ => false end.

(** The loop over the findings, which stops at the first block. *)
Fixpoint pretrade_status (status : string) (fs : list finding) : string :=
    match fs with
    | [] => status
    | f :: fs' =>
        if severity_is "block" f then "block"
        else if severity_is "warn" f then pretrade_status "warn" fs'
        else pretrade_status status fs'
    end.

Definition or_nil {A} (o : option (list A)) : list A :=
    match o with Some l => l | None => [] end.

(** Set the status of a draft in its own committed session, if it exists. *)
Definition update_draft_status (order_draft_id status : string) : M kernel_state unit :=
    modify (λ k, with_db (alter_drafts (set_draft_status status) order_draft_id (k_db k)) k).

Definition run_pretrade_check (capabilities : ExecutionCapabilities)
      (receipt_root order_draft_id : string) (findings : option (list finding))
      (required_approval_level : string) : M kernel_state PreTradeCheck :=
    require_execution_capability capabilities cap_run_pretrade_check ;;
    check_id ← _new_id "ptc";
    created ← _now_utc;
    let findings_json := json_dumps (JArr (map JObj (or_nil findings))) in
    let status := pretrade_status "pass" (or_nil findings) in
    '(receipt_id, receipt_path) ← write_execution_receipt receipt_root
      "execution.pretrade_check.recorded" check_id
      [("order_draft_id", JStr order_draft_id); ("status", JStr status)];
    let check :=
      {| ptc_pretrade_check_id := check_id; ptc_order_draft_id := order_draft_id;
         ptc_check_status := status; ptc_findings_json := findings_json;
         ptc_required_approval_level := required_approval_level;
         ptc_receipt_ref := Some receipt_id; ptc_created_at_utc := created |} in
    update_draft_status order_draft_id
      (if streq status "pass" then "pretrade_check_passed" else "pretrade_check_blocked") ;;
    write_records
      [Insert (RowPreTradeCheck check);
       Insert (RowReceiptIndex (receipt_index receipt_id "execution.pretrade_check.recorded"
                 receipt_path created [check_id; order_draft_id]))] ;;
    mret check.

(** ** Approvals *)

Definition approval_row (approval_id order_draft_id decision reviewer_id rationale created : string)
      (receipt_ref : option string) : ApprovalRecord :=
    {| ar_approval_id := approval_id; ar_order_draft_id := order_draft_id; ar_decision := decision;
       ar_reviewer_id := reviewer_id; ar_rationale := rationale; ar_receipt_ref := receipt_ref;
       ar_created_at_utc := created |}.

Definition record_approval (capabilities : ExecutionCapabilities)
      (receipt_root order_draft_id decision reviewer_id rationale : string)
      : M kernel_state ApprovalRecord :=
    require_execution_capability capabilities cap_record_approval ;;
    approval_id ← _new_id "appr";
    created ← _now_utc;
    construct (ApprovalRecord_require_reviewer_context
        (approval_row approval_id order_draft_id decision reviewer_id rationale created None))
      "approval requires reviewer_id and rationale" ;;
    '(receipt_id, receipt_path) ← write_execution_receipt receipt_root
      "execution.approval.recorded" approval_id
      [("order_draft_id", JStr order_draft_id); ("decision", JStr decision);
       ("reviewer_id", JStr reviewer_id)];
    let approval := approval_row approval_id order_draft_id decision reviewer_id rationale created
                      (Some receipt_id) in
    update_draft_status order_draft_id (if streq decision "approved" then "approved" else "rejected") ;;
    write_records
      [Insert (RowApprovalRecord approval);
       Insert (RowReceiptIndex (receipt_index receipt_id "execution.approval.recorded"
                 receipt_path created [approval_id; order_draft_id]))] ;;
    mret approval.

(** ** Staging *)

(** [select(PreTradeCheck).where(order_draft_id == id).first()] *)
Definition first_check (d : db) (order_draft_id : string) : option PreTradeCheck :=
    k ← sql_first (dom (filter (λ '(_, c), ptc_order_draft_id c = order_draft_id)
                          (t_pretrade_checks d)));
    t_pretrade_checks d !! k.
Definition first_approval (d : db) (order_draft_id : string) : option ApprovalRecord :=
    k ← sql_first (dom (filter (λ '(_, a), ar_order_draft_id a = order_draft_id)
                          (t_approval_records d)));
    t_approval_records d !! k.

(** The preconditions [stage_execution_order] checks in one session. *)
Definition staging_preconditions (order_draft_id : string) (d : db)
      : exn + ExecutionEnvironment :=
    match t_order_drafts d !! order_draft_id with
    | None => inl (Exn ValueError ("order draft not found: " +:+ order_draft_id))
    | Some draft =>
        if mem (od_draft_status draft) ["rejected"; "cancelled"]
        then inl (Exn ValueError ("cannot stage " +:+ od_draft_status draft +:+ " draft: "
                                  +:+ order_draft_id))
        else if negb (streq (od_draft_status draft) "approved")
        then inl (Exn ValueError ("draft must be approved before staging: current status="
                                  +:+ od_draft_status draft))
        else match first_check d order_draft_id with
        | None => inl (Exn ValueError ("no PreTradeCheck found for draft: " +:+ order_draft_id))
        | Some ptc =>
            if streq (ptc_check_status ptc) "block"
            then inl (Exn ValueError ("cannot stage blocked pretrade check: " +:+ order_draft_id))
            else match first_approval d order_draft_id with
            | None => inl (Exn ValueError ("no ApprovalRecord found for draft: " +:+ order_draft_id))
            | Some _ => inr (od_environment draft)
            end
        end
    end.

Definition stage_execution_order (capabilities : ExecutionCapabilities)
      (receipt_root order_draft_id broker_connection_id environment : string)
      : M kernel_state ExecutionOrder :=
    require_execution_capability capabilities cap_stage_execution_order ;;
    d ← gets k_db;
    actual_env ← of_sum (staging_preconditions order_draft_id d);
    order_id ← _new_id "eo";
    created ← _now_utc;
    '(receipt_id, receipt_path) ← write_execution_receipt receipt_root
      "execution.order.staged" order_id
      [("order_draft_id", JStr order_draft_id);
       ("broker_connection_id", JStr broker_connection_id); ("environment", JStr environment)];
    let order :=
      {| eo_execution_order_id := order_id; eo_order_draft_id := order_draft_id;
         eo_broker_connection_id := broker_connection_id; eo_environment := actual_env;
         eo_broker_order_ref := None; eo_execution_status := "staged";
         eo_submitted_at_utc := None; eo_receipt_ref := Some receipt_id;
         eo_created_at_utc := created |} in
    update_draft_status order_draft_id "staged" ;;
    write_records
      [Insert (RowExecutionOrder order);
       Insert (RowReceiptIndex (receipt_index receipt_id "execution.order.staged"
                 receipt_path created [order_id; order_draft_id]))] ;;
    mret order.

(** ** Submission *)

Definition submission_precondition (execution_order_id : string) (d : db) : exn + unit :=
    match t_execution_orders d !! execution_order_id with
    | None => inl (Exn ValueError ("execution order not found: " +:+ execution_order_id))
    | Some o =>
        if streq (eo_execution_status o) "staged" then inr tt
        else inl (Exn ValueError ("cannot submit order with status '" +:+ eo_execution_status o
               +:+ "': must be 'staged', got '" +:+ eo_execution_status o +:+ "'"))
    end.

Definition update_order (f : ExecutionOrder → ExecutionOrder) (execution_order_id : string)
      : M kernel_state unit :=
    modify (λ k, with_db (alter_orders f execution_order_id (k_db k)) k).

Definition submit_execution_order (capabilities : ExecutionCapabilities)
      (receipt_root execution_order_id broker_connection_id : string)
      : M kernel_state ExecutionOrder :=
    require_execution_capability capabilities cap_submit_simulated_order ;;
    d ← gets k_db;
    of_sum (submission_precondition execution_order_id d) ;;
    created ← _now_utc;
    '(attempted_id, attempted_path) ← write_execution_receipt receipt_root
      "execution.order.submit_attempted" execution_order_id
      [("broker_connection_id", JStr broker_connection_id); ("attempted_at_utc", JStr created)];
    let attempted_index := receipt_index attempted_id "execution.order.submit_attempted"
                             attempted_path created [execution_order_id] in
    d ← gets k_db;
    order ← of_option (t_execution_orders d !! execution_order_id) NoResultFound
              "No row was found when one was required";
    update_order (set_order_submitted created) execution_order_id ;;
    '(submitted_id, submitted_path) ← write_execution_receipt receipt_root
      "execution.order.submitted" execution_order_id
      [("broker_connection_id", JStr broker_connection_id); ("submitted_at_utc", JStr created)];
    let submitted_index := receipt_index submitted_id "execution.order.submitted"
                             submitted_path created [execution_order_id] in
    write_records
      [UpdateOrderReceipt execution_order_id submitted_id;
       Insert (RowReceiptIndex attempted_index); Insert (RowReceiptIndex submitted_index)] ;;
    mret (set_order_receipt submitted_id (set_order_submitted created order)).

(** ** Execution reports *)

Definition record_execution_report (receipt_root execution_order_id report_type fill_status : string)
      (filled_quantity average_fill_price : option dec) (broker_event_ref : option string)
      : M kernel_state ExecutionReport :=
    report_id ← _new_id "er";
    created ← _now_utc;
    '(receipt_id, receipt_path) ← write_execution_receipt receipt_root
      "execution.report.recorded" report_id
      [("execution_order_id", JStr execution_order_id); ("report_type", JStr report_type);
       ("fill_status", JStr fill_status); ("filled_quantity", jdec (or_zero filled_quantity))];
    let report :=
      {| er_execution_report_id := report_id; er_execution_order_id := execution_order_id;
         er_report_type := report_type; er_fill_status := fill_status;
         er_filled_quantity := or_zero filled_quantity;
         er_average_fill_price := average_fill_price; er_broker_event_ref := broker_event_ref;
         er_receipt_ref := Some receipt_id; er_created_at_utc := created |} in
    (if streq fill_status "filled" then update_order (set_order_status "filled") execution_order_id
     else if streq fill_status "partial"
     then update_order (set_order_status "partial_fill") execution_order_id
     else mret tt) ;;
    write_records
      [Insert (RowExecutionReport report);
       Insert (RowReceiptIndex (receipt_index receipt_id "execution.report.recorded"
                 receipt_path created [report_id; execution_order_id]))] ;;
    mret report.

(** ** Position deltas and reconciliation *)

Definition delta_row (delta_id execution_report_id execution_account_id symbol : string)
      (delta_quantity post_execution_quantity : dec) (created : string)
      (receipt_ref : option string) : PositionDelta :=
    {| pd_position_delta_id := delta_id; pd_execution_report_id := execution_report_id;
       pd_execution_account_id := execution_account_id; pd_symbol := symbol;
       pd_delta_quantity := delta_quantity;
       pd_post_execution_quantity := post_execution_quantity;
       pd_receipt_ref := receipt_ref; pd_created_at_utc := created |}.

Definition record_position_delta (receipt_root execution_report_id execution_account_id symbol : string)
      (delta_quantity post_execution_quantity : dec) : M kernel_state PositionDelta :=
    delta_id ← _new_id "pd";
    created ← _now_utc;
    construct (PositionDelta_require_symbol (delta_row delta_id execution_report_id
        execution_account_id symbol delta_quantity post_execution_quantity created None))
      "position delta requires symbol" ;;
    '(receipt_id, receipt_path) ← write_execution_receipt receipt_root
      "execution.position_delta.recorded" delta_id
      [("symbol", JStr symbol); ("delta_quantity", jdec delta_quantity);
       ("post_execution_quantity", jdec post_execution_quantity)];
    let delta := delta_row delta_id execution_report_id execution_account_id symbol delta_quantity
                   post_execution_quantity created (Some receipt_id) in
    write_records
      [Insert (RowPositionDelta delta);
       Insert (RowReceiptIndex (receipt_index receipt_id "execution.position_delta.recorded"
                 receipt_path created [delta_id; execution_report_id]))] ;;
    mret delta.

Definition record_reconciliation (receipt_root execution_account_id : string)
      (expected_positions actual_positions discrepancies : option (list finding))
      : M kernel_state ReconciliationReport :=
    rec_id ← _new_id "rec";
    created ← _now_utc;
    let js o := json_dumps (JArr (map JObj (or_nil o))) in
    let status := match or_nil discrepancies with [] => "matched" | _ => "unmatched" end in
    '(receipt_id, receipt_path) ← write_execution_receipt receipt_root
      "execution.reconciliation.recorded" rec_id
      [("execution_account_id", JStr execution_account_id); ("status", JStr status)];
    let rec :=
      {| rr_reconciliation_id := rec_id; rr_execution_account_id := execution_account_id;
         rr_reconciliation_status := status;
         rr_expected_positions_json := js expected_positions;
         rr_actual_positions_json := js actual_positions;
         rr_discrepancies_json := js discrepancies;
         rr_receipt_ref := Some receipt_id; rr_created_at_utc := created |} in
    write_records
      [Insert (RowReconciliationReport rec);
       Insert (RowReceiptIndex (receipt_index receipt_id "execution.reconciliation.recorded"
                 receipt_path created [rec_id; execution_account_id]))] ;;
    mret rec.
End Services.
