(* ===== verification/ExecutionCommands.v ===== *)
(** Broker adapters and their registry ([execution/broker.py]), the simulated
    adapter ([execution/adapters/simulated_broker.py]) and the submit command
    that wires them to the services ([execution/commands.py]). *)
From S2P Require Import Prelude PyDecimal PyTime PyJson ReceiptIO ExecutionModels ExecutionServices.

(** The [BrokerAdapter] protocol as a record of operations. *)
Record BrokerAdapter := {
  ba_environment : ExecutionEnvironment;
  ba_adapter_kind : string;
  ba_submit_order : ExecutionOrder → OrderDraft → M sys ExecutionReport;
  ba_cancel_order : ExecutionOrder → M sys (option ExecutionReport);
}.

Abbreviation registry := (gmap string BrokerAdapter).

Definition register_broker_adapter (broker_connection_id : string) (adapter : BrokerAdapter)
    : M registry unit :=
  require (streq (ba_adapter_kind adapter) "simulated") ValueError
    ("Only simulated broker adapters are supported, got adapter_kind="
     +:+ repr_str (ba_adapter_kind adapter)) ;;
  modify (<[broker_connection_id := adapter]>).
Definition resolve_broker_adapter (broker_connection_id : string) (r : registry)
    : option BrokerAdapter := r !! broker_connection_id.
Definition clear_broker_registry : M registry unit := modify (λ _, ∅).

(** ** The simulated adapter *)

Section Simulated.
Context `{PyEnv}.

Record SimulatedConfig := {
    sim_environment : ExecutionEnvironment;
    sim_simulate_fill : bool;
    sim_fill_price_offset : option dec;
  }.

Definition _fill_price (cfg : SimulatedConfig) (draft : OrderDraft) : dec :=
    match od_limit_price draft with
    | Some p => p
    | None => dec_add (Dec false 10000 (-2)) (or_zero (sim_fill_price_offset cfg))
    end.

(** [f"{prefix}_{%Y%m%dT%H%M%S%fZ}_{uuid4().hex[:8]}"] *)
Definition sim_new_id (prefix : string) : M sys string :=
    t ← now; u ← uuid4;
    mret (prefix +:+ "_" +:+ take_str 15 (strftime_stamp t) +:+ pad 6 (t mod 1000000)
          +:+ "Z_" +:+ take_str 8 u).

Definition sim_report (report_id order_id report_type fill_status : string) (filled : dec)
      (price : option dec) (event_ref created : string) : ExecutionReport :=
    {| er_execution_report_id := report_id; er_execution_order_id := order_id;
       er_report_type := report_type; er_fill_status := fill_status;
       er_filled_quantity := filled; er_average_fill_price := price;
       er_broker_event_ref := Some event_ref; er_receipt_ref := None;
       er_created_at_utc := created |}.

Definition sim_submit_order (cfg : SimulatedConfig) (order : ExecutionOrder) (draft : OrderDraft)
      : M sys ExecutionReport :=
    report_id ← sim_new_id "er_sim";
    created ← now_utc;
    let oid := eo_execution_order_id order in
    if sim_simulate_fill cfg
    then mret (sim_report report_id oid "simulated_fill" "filled" (od_quantity draft)
                 (Some (_fill_price cfg draft)) ("simulated:fill:" +:+ oid) created)
    else mret (sim_report report_id oid "simulated_submit_ack" "none" dzero None
                 ("simulated:ack:" +:+ oid) created).

Definition sim_cancel_order (order : ExecutionOrder) : M sys (option ExecutionReport) :=
    report_id ← sim_new_id "er_sim_cxl";
    created ← now_utc;
    let oid := eo_execution_order_id order in
    mret (Some (sim_report report_id oid "simulated_submit_ack" "cancelled" dzero None
                  ("simulated:cxl:" +:+ oid) created)).

Definition SimulatedBrokerAdapter (cfg : SimulatedConfig) : BrokerAdapter :=
    {| ba_environment := sim_environment cfg; ba_adapter_kind := "simulated";
       ba_submit_order := sim_submit_order cfg; ba_cancel_order := sim_cancel_order |}.
End Simulated.

(** ** The submit command *)

Section Commands.
Context `{PyEnv} `{Database}.

Definition submit_order (reg : registry) (capabilities : ExecutionCapabilities)
      (receipt_root execution_order_id : string) : M kernel_state ExecutionReport :=
    require_execution_capability capabilities cap_submit_simulated_order ;;
    d ← gets k_db;
    order ← of_option (t_execution_orders d !! execution_order_id) NoResultFound
              "No row was found when one was required";
    let broker_id := eo_broker_connection_id order in
    draft ← of_option (t_order_drafts d !! eo_order_draft_id order) NoResultFound
              "No row was found when one was required";
    match resolve_broker_adapter broker_id reg with
    | None =>
        submit_execution_order capabilities receipt_root execution_order_id broker_id ;;
        record_execution_report receipt_root execution_order_id "simulated_submit_ack" "none"
          None None (Some ("no_adapter:" +:+ execution_order_id))
    | Some adapter =>
        submit_execution_order capabilities receipt_root execution_order_id broker_id ;;
        report ← on_sys (ba_submit_order adapter order draft);
        record_execution_report receipt_root execution_order_id (er_report_type report)
          (er_fill_status report) (Some (er_filled_quantity report))
          (er_average_fill_price report) (er_broker_event_ref report)
    end.
End Commands.
