(* ===== verification/ExecutionFacts.v ===== *)
(** What the execution services keep true: referential integrity and CHECK
    constraints of the tables, an append-only audit trail, the order
    lifecycle, and the exact behaviour of staging and submitting. *)
From S2P Require Import Prelude PyDecimal PyTime PyJson ReceiptIO ExecutionModels ExecutionServices ExecutionCommands.

(** ** Which part of the state a computation touches *)

Section Frame.
Context `{PyEnv} `{Database}.

Definition db_rel (R : relation db) : relation kernel_state := λ k k', R (k_db k) (k_db k').
#[export] Instance db_rel_preorder R : PreOrder R → PreOrder (db_rel R).
Proof. intros ?. split; [intros k; unfold db_rel; reflexivity|intros a b c; unfold db_rel; apply transitivity]. Qed.

Lemma on_sys_respects (R : relation db) `{!PreOrder R} {A} (m : M sys A) :
    Respects (db_rel R) (on_sys m).
Proof. intros k. unfold on_sys, zoom, db_rel. destruct (m (k_sys k)). simpl. reflexivity. Qed.

Lemma new_id_respects R `{!PreOrder R} prefix : Respects (db_rel R) (_new_id prefix).
Proof. unfold _new_id, _stamp. respects; by apply on_sys_respects. Qed.
Lemma now_utc_respects R `{!PreOrder R} : Respects (db_rel R) _now_utc.
Proof. by apply on_sys_respects. Qed.
Lemma write_receipt_respects R `{!PreOrder R} root kind aid payload :
    Respects (db_rel R) (write_execution_receipt root kind aid payload).
Proof.
    unfold write_execution_receipt, _execution_receipt_id, _stamp, _now_utc.
    respects; by apply on_sys_respects.
Qed.
Lemma construct_respects R `{!PreOrder R} b msg :
    Respects (db_rel R) (construct (S := kernel_state) b msg).
Proof. unfold construct. by respects. Qed.

Lemma respects_eq {S A} (R : relation S) (m : M S A) s s' r :
    Respects R m → m s = (s', r) → R s s'.
Proof. intros Hm E. specialize (Hm s). by rewrite E in Hm. Qed.

(** The database is untouched by ids, clock readings and receipt files. *)
Lemma new_id_db prefix k k' r : _new_id prefix k = (k', r) → k_db k' = k_db k.
Proof. apply (respects_eq (db_rel (λ a b, id b = id a))). apply new_id_respects. apply _. Qed.
Lemma now_utc_db k k' r : _now_utc k = (k', r) → k_db k' = k_db k.
Proof. apply (respects_eq (db_rel (λ a b, id b = id a))). apply now_utc_respects. apply _. Qed.
Lemma write_receipt_db root kind aid payload k k' r :
    write_execution_receipt root kind aid payload k = (k', r) → k_db k' = k_db k.
Proof. apply (respects_eq (db_rel (λ a b, id b = id a))). apply write_receipt_respects. apply _. Qed.
Lemma on_sys_db {A} (m : M sys A) k k' r : on_sys m k = (k', r) → k_db k' = k_db k.
Proof. apply (respects_eq (db_rel (λ a b, id b = id a))). apply on_sys_respects. apply _. Qed.

Lemma write_records_ok l k k' u :
    write_records l k = (k', inr u) →
    ∃ d', flush_all l (k_db k) = Some d' ∧ k' = with_db d' k.
Proof.
    unfold write_records. intros E. case_match; minv. case_match eqn:Ef; minv. eauto.
Qed.
Lemma write_records_err l k k' e : write_records l k = (k', inl e) → k' = k.
Proof.
    unfold write_records. intros E. case_match; [by minv|].
    apply bind_err in E as [E|(d & k1 & E1 & E)]; [by minv|]. minv.
    case_match; by minv.
Qed.
End Frame.

(** Decompose a successful run of a service, keeping what is known of the
    database after each of its effects. *)
Ltac kinv_one :=
  match goal with
  | H : (let '(_, _) := ?p in _) _ = _ |- _ => destruct p
  | H : require_execution_capability _ _ _ = _ |- _ => unfold require_execution_capability in H
  | H : construct _ _ _ = _ |- _ => unfold construct in H
  | H : write_records _ _ = (_, inr _) |- _ => apply write_records_ok in H as (? & ? & ->)
  | H : update_order _ _ _ = _ |- _ => unfold update_order in H
  | H : update_draft_status _ _ _ = _ |- _ => unfold update_draft_status in H
  | H : write_execution_receipt _ _ _ _ _ = _ |- _ => apply write_receipt_db in H
  | H : _now_utc _ = _ |- _ => apply now_utc_db in H
  | H : _new_id _ _ = _ |- _ => apply new_id_db in H
  | H : on_sys _ _ = _ |- _ => apply on_sys_db in H
  end.
Ltac kinv := repeat (minv; try kinv_one); cbn [k_db k_sys with_db with_sys] in *.

(** Read off the rows a successful [flush_all] inserted into the database [d]. *)
Ltac flush_inv H d :=
  repeat match goal with Hd : k_db _ = _ |- _ => rewrite Hd in H; clear Hd end;
  destruct d; simpl in H;
  repeat match type of H with
  | context [if ?b then Some _ else None] => destruct b eqn:?; simplify_eq/=; bool_simpl
  end.

(** ** The calls of the kernel

    One constructor per service and command, and the inserts that set up
    broker connections and accounts. *)
Inductive kernel_call `{PyEnv} :=
  | CallSetupBroker (r : BrokerConnection)
  | CallSetupAccount (r : ExecutionAccount)
  | CallCreateDraft (cs : ExecutionCapabilities) (root : string) (r : DraftRequest)
  | CallPretradeCheck (cs : ExecutionCapabilities) (root draft_id : string)
      (findings : option (list finding)) (level : string)
  | CallApproval (cs : ExecutionCapabilities) (root draft_id decision reviewer rationale : string)
  | CallStage (cs : ExecutionCapabilities) (root draft_id broker environment : string)
  | CallSubmitExecutionOrder (cs : ExecutionCapabilities) (root order_id broker : string)
  | CallReport (root order_id report_type fill_status : string) (filled price : option dec)
      (event : option string)
  | CallDelta (root report_id account symbol : string) (delta post : dec)
  | CallReconciliation (root account : string) (expected actual discrepancies : option (list finding))
  | CallSubmit (reg : registry) (cs : ExecutionCapabilities) (root order_id : string).

Definition ignore {S A} (m : M S A) : M S unit := m ;; mret tt.

Definition run_call `{PyEnv} `{Database} (c : kernel_call) : M kernel_state unit :=
  match c with
  | CallSetupBroker r => write_records [Insert (RowBrokerConnection r)]
  | CallSetupAccount r => write_records [Insert (RowExecutionAccount r)]
  | CallCreateDraft cs root r => ignore (create_order_draft cs root r)
  | CallPretradeCheck cs root i f l => ignore (run_pretrade_check cs root i f l)
  | CallApproval cs root i d rv ra => ignore (record_approval cs root i d rv ra)
  | CallStage cs root i b e => ignore (stage_execution_order cs root i b e)
  | CallSubmitExecutionOrder cs root i b => ignore (submit_execution_order cs root i b)
  | CallReport root i t f q p e => ignore (record_execution_report root i t f q p e)
  | CallDelta root i a s d p => ignore (record_position_delta root i a s d p)
  | CallReconciliation root a x y z => ignore (record_reconciliation root a x y z)
  | CallSubmit reg cs root i => ignore (submit_order reg cs root i)
  end.

(** One call, whether it returns or raises. *)
Definition kernel_step `{PyEnv} `{Database} : relation kernel_state :=
  λ k k', ∃ c, k' = (run_call c k).1.

(** ** A relation respected by the primitive updates is respected by every call *)

Section CallRespects.
Context `{PyEnv} `{Database}.
Context (R : relation db) `{!PreOrder R}.
Context (Hflush : ∀ p d d', flush_one p d = Some d' → R d d').
Context (Hdraft : ∀ st i d, st ∈ ORDER_DRAFT_STATUSES → R d (alter_drafts (set_draft_status st) i d)).
Context (Hstatus : ∀ st i d, st ∈ ["filled"; "partial_fill"] → R d (alter_orders (set_order_status st) i d)).
Context (Hsubmit : ∀ at_utc i d, R d (alter_orders (set_order_submitted at_utc) i d)).

Lemma flush_all_respects l d d' : flush_all l d = Some d' → R d d'.
Proof.
    revert d. induction l as [|p l IH]; simpl; intros d E; [simplify_eq; reflexivity|].
    apply bind_Some in E as (d1 & E1 & E2). transitivity d1; [by eapply Hflush|by apply IH].
Qed.
Lemma write_records_respects l : Respects (db_rel R) (write_records l).
Proof.
    intros k. destruct (write_records l k) as [k' [e|u]] eqn:E; simpl.
    - apply write_records_err in E as ->. reflexivity.
    - destruct (write_records_ok _ _ _ _ E) as (d' & Hf & ->). by apply flush_all_respects in Hf.
Qed.
Lemma update_draft_status_respects i st :
    st ∈ ORDER_DRAFT_STATUSES → Respects (db_rel R) (update_draft_status i st).
Proof. intros Hst k. unfold update_draft_status, modify, db_rel. simpl. by apply Hdraft. Qed.
Lemma update_order_status_respects i st :
    st ∈ ["filled"; "partial_fill"] → Respects (db_rel R) (update_order (set_order_status st) i).
Proof. intros Hst k. unfold update_order, modify, db_rel. simpl. by apply Hstatus. Qed.
Lemma update_order_submitted_respects i at_utc :
    Respects (db_rel R) (update_order (set_order_submitted at_utc) i).
Proof. intros k. unfold update_order, modify, db_rel. simpl. by apply Hsubmit. Qed.

Hint Resolve new_id_respects now_utc_respects write_receipt_respects construct_respects
    write_records_respects update_order_submitted_respects on_sys_respects : respects.
Hint Extern 1 (Respects _ (update_draft_status _ _)) =>
    apply update_draft_status_respects; solve [repeat case_match; apply mem_true; reflexivity] : respects.
Hint Extern 1 (Respects _ (update_order (set_order_status _) _)) =>
    apply update_order_status_respects; solve [apply mem_true; reflexivity] : respects.

Lemma submit_execution_order_respects cs root i b :
    Respects (db_rel R) (submit_execution_order cs root i b).
Proof. unfold submit_execution_order, require_execution_capability. respects. Qed.
Lemma record_execution_report_respects root i t f q p e :
    Respects (db_rel R) (record_execution_report root i t f q p e).
Proof. unfold record_execution_report. respects. Qed.
Hint Resolve submit_execution_order_respects record_execution_report_respects : respects.

Lemma run_call_respects c : Respects (db_rel R) (run_call c).
Proof.
    destruct c; simpl; unfold ignore, create_order_draft, run_pretrade_check, record_approval,
      stage_execution_order, record_position_delta, record_reconciliation,
      submit_order, require_execution_capability; respects.
Qed.

Lemma kernel_steps_respect k k' : rtc kernel_step k k' → R (k_db k) (k_db k').
Proof.
    induction 1 as [|k k1 k' [c ->] _ IH]; [reflexivity|].
    etrans; [apply (run_call_respects c)|done].
Qed.
End CallRespects.

(** ** Well-formed tables *)

(** Every row sits under its primary key, meets the CHECKs of its table, and
    its foreign keys point to existing rows. *)
Record db_wf `{Database} (d : db) : Prop := {
  wf_brokers : map_Forall (λ k r, bc_broker_connection_id r = k) (t_broker_connections d);
  wf_accounts : map_Forall (λ k r, ea_execution_account_id r = k ∧ fk_ExecutionAccount d r = true)
    (t_execution_accounts d);
  wf_drafts : map_Forall (λ k r, od_order_draft_id r = k ∧ check_OrderDraft r = true ∧
    fk_OrderDraft d r = true) (t_order_drafts d);
  wf_checks : map_Forall (λ k r, ptc_pretrade_check_id r = k ∧ check_PreTradeCheck r = true ∧
    fk_PreTradeCheck d r = true) (t_pretrade_checks d);
  wf_approvals : map_Forall (λ k r, ar_approval_id r = k ∧ check_ApprovalRecord r = true ∧
    fk_ApprovalRecord d r = true) (t_approval_records d);
  wf_orders : map_Forall (λ k r, eo_execution_order_id r = k ∧ check_ExecutionOrder r = true ∧
    fk_ExecutionOrder d r = true) (t_execution_orders d);
  wf_reports : map_Forall (λ k r, er_execution_report_id r = k ∧ check_ExecutionReport r = true ∧
    fk_ExecutionReport d r = true) (t_execution_reports d);
  wf_deltas : map_Forall (λ k r, pd_position_delta_id r = k ∧ fk_PositionDelta d r = true)
    (t_position_deltas d);
  wf_recs : map_Forall (λ k r, rr_reconciliation_id r = k ∧ check_ReconciliationReport r = true ∧
    fk_ReconciliationReport d r = true) (t_reconciliation_reports d);
  wf_index : map_Forall (λ k r, ri_receipt_id r = k) (t_receipt_index d);
}.

Section WellFormed.
Context `{Database}.

Lemma empty_db_wf : db_wf empty_db.
Proof. split; apply map_Forall_empty. Qed.

Ltac mono_table :=
    let k := fresh "k" in let x := fresh "x" in let Hx := fresh "Hx" in
    intros k x Hx;
    match goal with
    | HF : map_Forall _ _ |- _ =>
        generalize (HF k x Hx); clear;
        unfold fk_ExecutionAccount, fk_OrderDraft, fk_PreTradeCheck, fk_ApprovalRecord,
          fk_ExecutionOrder, fk_ExecutionReport, fk_PositionDelta, fk_ReconciliationReport;
        simpl; rewrite ?andb_true_iff, ?has_alter; intros ?; destruct_and?;
        repeat split; auto using has_insert
    end.

Lemma insert_row_wf r d d' : insert_row r d = Some d' → db_wf d → db_wf d'.
Proof.
    intros E [W1 W2 W3 W4 W5 W6 W7 W8 W9 W10].
    destruct d as [bc ea od ptc ar eo er pd rr ri], r as [r|r|r|r|r|r|r|r|r|r]; simpl in *;
      case_match eqn:Ec; simplify_eq; bool_simpl; split; simpl;
      first [ apply map_Forall_insert_2; [by repeat split; auto using has_insert|];
              by mono_table
            | by mono_table ].
Qed.

Lemma alter_drafts_wf st i d :
    st ∈ ORDER_DRAFT_STATUSES → db_wf d → db_wf (alter_drafts (set_draft_status st) i d).
Proof.
    intros Hst [W1 W2 W3 W4 W5 W6 W7 W8 W9 W10]. destruct d; simpl in *.
    split; simpl; try by mono_table. apply map_Forall_alter; [|done].
    intros x (? & Hc & ?). repeat split; try done. unfold check_OrderDraft in *. bool_simpl.
    repeat (apply andb_true_iff; split); try done; by apply mem_true.
Qed.

Lemma alter_orders_wf f i d :
    (∀ o, eo_execution_order_id (f o) = eo_execution_order_id o ∧
          (check_ExecutionOrder o = true → check_ExecutionOrder (f o) = true) ∧
          eo_order_draft_id (f o) = eo_order_draft_id o ∧
          eo_broker_connection_id (f o) = eo_broker_connection_id o) →
    db_wf d → db_wf (alter_orders f i d).
Proof.
    intros Hf [W1 W2 W3 W4 W5 W6 W7 W8 W9 W10]. destruct d; simpl in *.
    split; simpl; try by mono_table. apply map_Forall_alter; [|done].
    intros x (? & Hc & Hfk). destruct (Hf x) as (E1 & E2 & E3 & E4).
    unfold fk_ExecutionOrder in *. rewrite E1, E3, E4. auto.
Qed.

Lemma set_order_status_wf st i d :
    st ∈ EXECUTION_ORDER_STATUSES → db_wf d → db_wf (alter_orders (set_order_status st) i d).
Proof.
    intros Hst. apply alter_orders_wf. intros o. repeat split. intros _. by apply mem_true.
Qed.

Lemma flush_one_wf p d d' : flush_one p d = Some d' → db_wf d → db_wf d'.
Proof.
    destruct p as [r|i ref]; simpl; [apply insert_row_wf|].
    intros E. case_match; simplify_eq. by apply alter_orders_wf.
Qed.
End WellFormed.

(** C4: the tables stay well formed.  From a database whose rows satisfy
    their primary keys, CHECK constraints and foreign keys, every sequence of
    kernel calls, returning or raising, leads to such a database; in
    particular no service ever writes a status outside the declared sets or a
    row that refers to a missing one. *)
Theorem kernel_tables_well_formed `{PyEnv} `{Database} (k k' : kernel_state)
    (Hk : db_wf (k_db k)) (Hsteps : rtc kernel_step k k') :
  db_wf (k_db k').
Proof.
  revert Hk. apply (kernel_steps_respect (keeps db_wf)); unfold keeps; [| | | |done].
  - intros p d d'. apply flush_one_wf.
  - intros st i d. apply alter_drafts_wf.
  - intros st i d Hst. apply set_order_status_wf. set_solver.
  - intros at_utc i d. apply alter_orders_wf. intros o. repeat split.
Qed.

(** ** The audit trail *)

(** How the tables may change: rows are never deleted; checks, approvals,
    reports, deltas, reconciliations, index rows, connections and accounts
    are never changed; a draft changes in its status only; an order keeps its
    identity. *)
Definition same_draft (r r' : OrderDraft) : Prop := r' = set_draft_status (od_draft_status r') r.
Definition same_order (r r' : ExecutionOrder) : Prop :=
  r' = set_order (eo_execution_status r') (eo_submitted_at_utc r') (eo_receipt_ref r') r.
Definition evolves {A} (same : A → A → Prop) (m m' : gmap string A) : Prop :=
  ∀ k r, m !! k = Some r → ∃ r', m' !! k = Some r' ∧ same r r'.

Record audit (d d' : db) : Prop := {
  audit_brokers : t_broker_connections d ⊆ t_broker_connections d';
  audit_accounts : t_execution_accounts d ⊆ t_execution_accounts d';
  audit_checks : t_pretrade_checks d ⊆ t_pretrade_checks d';
  audit_approvals : t_approval_records d ⊆ t_approval_records d';
  audit_reports : t_execution_reports d ⊆ t_execution_reports d';
  audit_deltas : t_position_deltas d ⊆ t_position_deltas d';
  audit_recs : t_reconciliation_reports d ⊆ t_reconciliation_reports d';
  audit_index : t_receipt_index d ⊆ t_receipt_index d';
  audit_drafts : evolves same_draft (t_order_drafts d) (t_order_drafts d');
  audit_orders : evolves same_order (t_execution_orders d) (t_execution_orders d');
}.

Section Audit.
Lemma same_draft_refl r : same_draft r r.
Proof. by destruct r. Qed.
Lemma same_order_refl r : same_order r r.
Proof. by destruct r. Qed.
Lemma same_draft_trans a b c : same_draft a b → same_draft b c → same_draft a c.
Proof. unfold same_draft. intros -> ->. done. Qed.
Lemma same_order_trans a b c : same_order a b → same_order b c → same_order a c.
Proof. unfold same_order. intros -> ->. done. Qed.

Lemma evolves_refl {A} (same : A → A → Prop) m : (∀ r, same r r) → evolves same m m.
Proof. intros Hs k r Hr. eauto. Qed.
Lemma evolves_insert {A} (same : A → A → Prop) m i (x : A) :
    (∀ r, same r r) → has m i = false → evolves same m (<[i := x]> m).
Proof.
    intros Hs Hi k r Hr. exists r. split; [|done]. unfold has in Hi.
    rewrite lookup_insert_ne; [done|]. intros ->. by rewrite Hr in Hi.
Qed.
Lemma evolves_alter {A} (same : A → A → Prop) m i (f : A → A) :
    (∀ r, same r r) → (∀ r, same r (f r)) → evolves same m (alter f i m).
Proof.
    intros Hr Hf k r Hk. destruct (decide (i = k)) as [->|].
    - exists (f r). by rewrite lookup_alter_eq, Hk.
    - exists r. by rewrite lookup_alter_ne.
Qed.
Lemma subseteq_insert {A} (m : gmap string A) i x : has m i = false → m ⊆ <[i := x]> m.
Proof. intros Hi. apply insert_subseteq. unfold has in Hi. by destruct (m !! i). Qed.

#[export] Instance audit_preorder : PreOrder audit.
Proof.
    split.
    - intros d. split; try done; apply evolves_refl; [apply same_draft_refl|apply same_order_refl].
    - intros a b c [] []. split; try (etrans; eassumption).
      + intros k r Hr. destruct (audit_drafts0 k r Hr) as (r1 & H1 & E1).
        destruct (audit_drafts1 k r1 H1) as (r2 & H2 & E2). eauto using same_draft_trans.
      + intros k r Hr. destruct (audit_orders0 k r Hr) as (r1 & H1 & E1).
        destruct (audit_orders1 k r1 H1) as (r2 & H2 & E2). eauto using same_order_trans.
Qed.

Lemma insert_row_audit `{Database} r d d' : insert_row r d = Some d' → audit d d'.
Proof.
    intros E. destruct d, r; simpl in *; case_match; simplify_eq; bool_simpl;
      split; simpl; auto using subseteq_insert, evolves_insert, evolves_refl,
        same_draft_refl, same_order_refl.
Qed.
Lemma alter_drafts_audit st i d : audit d (alter_drafts (set_draft_status st) i d).
Proof.
    destruct d; split; simpl; auto using evolves_refl, evolves_alter, same_draft_refl, same_order_refl.
    apply evolves_alter; [apply same_draft_refl|done].
Qed.
Lemma alter_orders_audit f i d :
    (∀ o, same_order o (f o)) → audit d (alter_orders f i d).
Proof. intros Hf. destruct d; split; simpl; auto using evolves_refl, evolves_alter, same_draft_refl, same_order_refl. Qed.
Lemma flush_one_audit `{Database} p d d' : flush_one p d = Some d' → audit d d'.
Proof.
    destruct p as [r|i ref]; simpl; [apply insert_row_audit|].
    intros E. case_match; simplify_eq. by apply alter_orders_audit.
Qed.
End Audit.

Lemma kernel_audit `{PyEnv} `{Database} k k' : rtc kernel_step k k' → audit (k_db k) (k_db k').
Proof.
  apply (kernel_steps_respect audit).
  - intros p d d'. apply flush_one_audit.
  - intros st i d _. apply alter_drafts_audit.
  - intros st i d _. by apply alter_orders_audit.
  - intros at_utc i d. by apply alter_orders_audit.
Qed.

(** C5: the audit trail is append only.  Along every sequence of kernel calls
    no row disappears; pre-trade checks, approvals, execution reports,
    position deltas, reconciliations and receipt index rows are never
    modified; a draft changes in its status only and an order never changes
    its draft, broker connection, environment or creation time. *)
Theorem kernel_audit_append_only `{PyEnv} `{Database} (k k' : kernel_state)
    (Hsteps : rtc kernel_step k k') :
  audit (k_db k) (k_db k').
Proof.
  by apply kernel_audit.
Qed.

(** ** The order lifecycle *)

(** The order exists and is no longer staged. *)
Definition left_staging (i : string) (d : db) : Prop :=
  ∃ o, t_execution_orders d !! i = Some o ∧ eo_execution_status o ≠ "staged".

Section Lifecycle.
Context `{PyEnv} `{Database}.

Lemma insert_row_left_staging i r d d' :
    insert_row r d = Some d' → left_staging i d → left_staging i d'.
Proof.
    intros E (o & Ho & Hst). destruct d, r as [r|r|r|r|r|r|r|r|r|r]; simpl in *; case_match;
      simplify_eq; bool_simpl; try (by exists o).
    exists o. split; [|done]. simpl. rewrite lookup_insert_ne; [done|].
    intros <-. unfold has in *. by rewrite Ho in *.
Qed.
Lemma alter_orders_left_staging i j f d :
    (∀ o, eo_execution_status o ≠ "staged" → eo_execution_status (f o) ≠ "staged") →
    left_staging i d → left_staging i (alter_orders f j d).
Proof.
    intros Hf (o & Ho & Hst). destruct d. unfold left_staging. simpl in *.
    rewrite lookup_alter. case_decide; subst; rewrite Ho; simpl; eauto.
Qed.

Lemma flush_one_left_staging i p d d' :
    flush_one p d = Some d' → keeps (left_staging i) d d'.
Proof.
    destruct p as [r|j ref]; intros E; unfold keeps; [by eapply insert_row_left_staging|].
    simpl in E. case_match; simplify_eq. by apply alter_orders_left_staging.
Qed.
Lemma alter_orders_submitted_left_staging i at_utc d :
    is_Some (t_execution_orders d !! i) →
    left_staging i (alter_orders (set_order_submitted at_utc) i d).
Proof.
    intros [o Ho]. destruct d; simpl in *. exists (set_order_submitted at_utc o). simpl.
    by rewrite lookup_alter_eq, Ho.
Qed.

Lemma left_staging_steps i k k' :
    rtc kernel_step k k' → left_staging i (k_db k) → left_staging i (k_db k').
Proof.
    apply (kernel_steps_respect (keeps (left_staging i))); unfold keeps.
    - intros p d d'. apply flush_one_left_staging.
    - intros st j d _ (o & Ho & Hst). exists o. by destruct d.
    - intros st j d Hst. apply alter_orders_left_staging. intros o _. simpl. set_solver.
    - intros at_utc j d. by apply alter_orders_left_staging.
Qed.

Lemma submission_precondition_left_staging i d :
    left_staging i d → ∃ msg, submission_precondition i d = inl (Exn ValueError msg).
Proof.
    intros (o & Ho & Hst). unfold submission_precondition. rewrite Ho.
    apply streq_false in Hst. rewrite Hst. eauto.
Qed.

Lemma submit_execution_order_left_staging cs root i b k :
    has_capability cs cap_submit_simulated_order = true → left_staging i (k_db k) →
    ∃ msg, submit_execution_order cs root i b k = (k, inl (Exn ValueError msg)).
Proof.
    intros Hc Hl. apply submission_precondition_left_staging in Hl as [msg Hp]. exists msg.
    unfold submit_execution_order, require_execution_capability, require. rewrite Hc.
    unfold mbind, M_bind, mret, M_ret, gets, of_sum. by rewrite Hp.
Qed.

Lemma submit_execution_order_leaves_staging cs root i b k k' o :
    submit_execution_order cs root i b k = (k', inr o) → left_staging i (k_db k').
Proof.
    unfold submit_execution_order. intros E. kinv.
    match goal with Hf : flush_all _ _ = Some _ |- _ =>
      apply (flush_all_respects (keeps (left_staging i)) (flush_one_left_staging i)) in Hf;
      apply Hf
    end.
    repeat match goal with Hd : k_db _ = _ |- _ => rewrite Hd end. simpl.
    apply alter_orders_submitted_left_staging.
    match goal with Ho : _ !! i = Some ?o |- _ => exists o; congruence end.
Qed.
End Lifecycle.

(** C1: an order is submitted at most once.  After a submission that
    succeeded, every later attempt to submit the same order under an enabled
    capability, whatever calls were made in between and through whatever
    connection, raises [ValueError] and changes neither the database nor the
    receipt files. *)
Theorem submitted_at_most_once `{PyEnv} `{Database}
    (cs cs' : ExecutionCapabilities) (root root' i b b' : string)
    (k k1 k2 : kernel_state) (o : ExecutionOrder)
    (Hfirst : submit_execution_order cs root i b k = (k1, inr o))
    (Hbetween : rtc kernel_step k1 k2)
    (Hcap : has_capability cs' cap_submit_simulated_order = true) :
  ∃ msg, submit_execution_order cs' root' i b' k2 = (k2, inl (Exn ValueError msg)).
Proof.
  apply submit_execution_order_leaves_staging in Hfirst.
  apply submit_execution_order_left_staging; [done|].
  by eapply left_staging_steps.
Qed.
