(* ===== verification/ExecutionTheorems.v ===== *)
(** The behaviour of the execution services call by call: denied
    capabilities, the pre-trade verdict, staging, the registry, simulated
    submission, and what the receipt ids, the separate commits and the textual
    quantity CHECK lead to. *)
From S2P Require Import Prelude PyDecimal PyTime PyJson ReceiptIO ExecutionModels ExecutionServices ExecutionCommands ExecutionFacts.

(** ** Capabilities *)

(** The capability a call requires. *)
Definition call_capability `{PyEnv} (c : kernel_call)
    : option (ExecutionCapabilities * ExecutionCapabilityName) :=
  match c with
  | CallCreateDraft cs _ _ => Some (cs, cap_create_order_draft)
  | CallPretradeCheck cs _ _ _ _ => Some (cs, cap_run_pretrade_check)
  | CallApproval cs _ _ _ _ _ => Some (cs, cap_record_approval)
  | CallStage cs _ _ _ _ => Some (cs, cap_stage_execution_order)
  | CallSubmitExecutionOrder cs _ _ _ | CallSubmit _ cs _ _ => Some (cs, cap_submit_simulated_order)
  | _ => None
  end.

(** C29: a disabled capability fails closed.  Every gated call whose
    capability flag is off raises [ExecutionCapabilityDeniedError] naming the
    capability before any effect: tables, receipt files, clock and uuid
    source are exactly as before. *)
Theorem denied_capability_no_effect `{PyEnv} `{Database} (c : kernel_call)
    (cs : ExecutionCapabilities) (name : ExecutionCapabilityName) (k : kernel_state)
    (Hcall : call_capability c = Some (cs, name)) (Hoff : has_capability cs name = false) :
  run_call c k = (k, inl (Exn ExecutionCapabilityDeniedError (capability_denied name))).
Proof.
  destruct c; simpl in Hcall; simplify_eq; simpl;
    unfold ignore, create_order_draft, run_pretrade_check, record_approval, stage_execution_order,
      submit_execution_order, submit_order, require_execution_capability, require;
    by rewrite Hoff.
Qed.

(** ** Pre-trade checks *)

Lemma pretrade_status_block st fs :
  st ≠ "block" → pretrade_status st fs = "block" ↔ existsb (severity_is "block") fs = true.
Proof.
  revert st. induction fs as [|f fs IH]; simpl; intros st Hst; [by split|].
  destruct (severity_is "block" f); simpl; [by split|].
  destruct (severity_is "warn" f); by apply IH.
Qed.
Lemma pretrade_status_pass st fs :
  pretrade_status st fs = "pass" ↔
  st = "pass" ∧ existsb (λ f, severity_is "block" f || severity_is "warn" f) fs = false.
Proof.
  revert st. induction fs as [|f fs IH]; simpl; intros st; [naive_solver|].
  destruct (severity_is "block" f); simpl; [naive_solver|].
  destruct (severity_is "warn" f); simpl; rewrite IH; naive_solver.
Qed.
Lemma pretrade_status_range fs :
  pretrade_status "pass" fs ∈ ["pass"; "warn"; "block"].
Proof.
  assert (H : ∀ st, st ∈ ["pass"; "warn"] → pretrade_status st fs ∈ ["pass"; "warn"; "block"]).
  { induction fs as [|f fs IH]; simpl; intros st Hst; [set_solver|].
    destruct (severity_is "block" f); [set_solver|].
    destruct (severity_is "warn" f); apply IH; set_solver. }
  apply H. set_solver.
Qed.

(** C30: the pre-trade verdict is the worst severity.  The loop with its early
    exit records [block] exactly when some finding blocks, [pass] exactly
    when no finding blocks or warns, and [warn] otherwise, independently of
    the order of the findings; the recorded check carries that verdict and
    the draft moves to [pretrade_check_passed] only for [pass]. *)
Theorem pretrade_verdict_is_worst `{PyEnv} `{Database}
    (cs : ExecutionCapabilities) (root i : string) (findings : option (list finding))
    (level : string) (k k' : kernel_state) (c : PreTradeCheck)
    (Hrun : run_pretrade_check cs root i findings level k = (k', inr c)) :
  let fs := or_nil findings in
  (ptc_check_status c = "block" ↔ existsb (severity_is "block") fs = true) ∧
  (ptc_check_status c = "pass" ↔
     existsb (λ f, severity_is "block" f || severity_is "warn" f) fs = false) ∧
  ptc_check_status c ∈ ["pass"; "warn"; "block"] ∧
  t_pretrade_checks (k_db k') !! ptc_pretrade_check_id c = Some c ∧
  od_draft_status <$> t_order_drafts (k_db k') !! i =
    Some (if streq (ptc_check_status c) "pass" then "pretrade_check_passed"
          else "pretrade_check_blocked").
Proof.
  unfold run_pretrade_check in Hrun. kinv.
  match goal with Hf : flush_all _ _ = Some _ |- _ => rename Hf into Hflush end. simpl.
  split; [by apply pretrade_status_block|].
  split; [rewrite pretrade_status_pass; naive_solver|].
  split; [apply pretrade_status_range|].
  flush_inv Hflush (k_db k). rewrite lookup_insert_eq. split; [done|].
  unfold fk_PreTradeCheck in *. simpl in *. rewrite has_alter in *.
  match goal with Hh : has _ i = true |- _ => apply has_true in Hh as [dr Hdr] end.
  by rewrite lookup_alter_eq, Hdr.
Qed.

(** ** Staging *)

Section Staging.
Context `{PyEnv} `{Database} `{!DatabaseLaws}.

Lemma first_check_elem d i c :
    first_check d i = Some c →
    ∃ kc, t_pretrade_checks d !! kc = Some c ∧ ptc_order_draft_id c = i.
Proof.
    unfold first_check. intros (kc & Hk & Hc)%bind_Some. exists kc. split; [done|].
    apply sql_first_elem, elem_of_dom in Hk as [c' Hc'].
    apply map_lookup_filter_Some in Hc' as [? ?]. by simplify_eq.
Qed.
Lemma first_approval_elem d i a :
    first_approval d i = Some a →
    ∃ ka, t_approval_records d !! ka = Some a ∧ ar_order_draft_id a = i.
Proof.
    unfold first_approval. intros (ka & Hk & Ha)%bind_Some. exists ka. split; [done|].
    apply sql_first_elem, elem_of_dom in Hk as [a' Ha'].
    apply map_lookup_filter_Some in Ha' as [? ?]. by simplify_eq.
Qed.
Lemma first_check_none d i :
    first_check d i = None → ∀ kc c, t_pretrade_checks d !! kc = Some c → ptc_order_draft_id c ≠ i.
Proof.
    unfold first_check. intros E kc c Hc Hi.
    destruct (sql_first _) as [k0|] eqn:Es; simpl in E.
    - apply sql_first_elem, elem_of_dom in Es as [c' Hc'].
      apply map_lookup_filter_Some in Hc' as [? ?]. congruence.
    - apply sql_first_none in Es. apply (f_equal (λ X, kc ∈ X)) in Es.
      assert (kc ∈ (∅ : gset string)); [|set_solver]. rewrite <-Es.
      apply elem_of_dom. exists c. by apply map_lookup_filter_Some.
Qed.

(** What the preconditions of staging establish. *)
Lemma staging_preconditions_ok i d env :
    staging_preconditions i d = inr env →
    ∃ draft, t_order_drafts d !! i = Some draft ∧ od_draft_status draft = "approved" ∧
      od_environment draft = env ∧
      (∃ kc c, t_pretrade_checks d !! kc = Some c ∧ ptc_order_draft_id c = i ∧
               ptc_check_status c ≠ "block") ∧
      (∃ ka a, t_approval_records d !! ka = Some a ∧ ar_order_draft_id a = i).
Proof.
    unfold staging_preconditions. intros E.
    destruct (t_order_drafts d !! i) as [draft|]; [|done]. exists draft.
    destruct (mem _ _); [done|]. destruct (streq (od_draft_status draft) _) eqn:Est; [|done].
    destruct (first_check d i) as [c|] eqn:Ec; [|done].
    destruct (streq (ptc_check_status c) _) eqn:Eb; [done|].
    destruct (first_approval d i) as [a|] eqn:Ea; [|done]. simplify_eq/=. bool_simpl.
    apply first_check_elem in Ec as (kc & ? & ?). apply first_approval_elem in Ea as (ka & ? & ?).
    naive_solver.
Qed.
(** What a staging call that returned did. *)
Lemma stage_execution_order_ok cs root i b environment k k' o :
    stage_execution_order cs root i b environment k = (k', inr o) →
    ∃ draft,
      t_order_drafts (k_db k) !! i = Some draft ∧ od_draft_status draft = "approved" ∧
      (∃ kc c, t_pretrade_checks (k_db k) !! kc = Some c ∧ ptc_order_draft_id c = i ∧
               ptc_check_status c ≠ "block") ∧
      (∃ ka a, t_approval_records (k_db k) !! ka = Some a ∧ ar_order_draft_id a = i) ∧
      has (t_broker_connections (k_db k)) b = true ∧
      eo_order_draft_id o = i ∧ eo_broker_connection_id o = b ∧
      eo_environment o = od_environment draft ∧ eo_execution_status o = "staged" ∧
      t_execution_orders (k_db k) !! eo_execution_order_id o = None ∧
      t_execution_orders (k_db k') =
        <[eo_execution_order_id o := o]> (t_execution_orders (k_db k)) ∧
      t_order_drafts (k_db k') =
        <[i := set_draft_status "staged" draft]> (t_order_drafts (k_db k)).
Proof.
  intros Hrun. unfold stage_execution_order in Hrun. kinv.
  match goal with Hp : staging_preconditions _ _ = _ |- _ =>
    apply staging_preconditions_ok in Hp as (draft & Hd & Hst & Henv & Hc & Ha) end.
  exists draft. match goal with Hf : flush_all _ _ = Some _ |- _ => rename Hf into Hflush end.
  flush_inv Hflush (k_db k). unfold fk_ExecutionOrder in *. simpl in *. bool_simpl.
  repeat split; try done.
  - by apply has_false.
  - apply map_eq. intros j. rewrite lookup_alter, lookup_insert. case_decide; [|done].
    subst. by rewrite Hd.
Qed.
End Staging.

(** C11: staging admits approved, checked drafts only, and does exactly one
    thing.  When [stage_execution_order] returns, the draft existed with
    status [approved], a pre-trade check of it that is not blocked and an
    approval record of it are on file, and the broker connection exists; the
    new order is staged, takes its environment from the draft (not from the
    argument), has a fresh id, is the only order added, and the draft is now
    [staged]. *)
Theorem staging_sound `{PyEnv} `{Database} `{!DatabaseLaws}
    (cs : ExecutionCapabilities) (root i b environment : string)
    (k k' : kernel_state) (o : ExecutionOrder)
    (Hrun : stage_execution_order cs root i b environment k = (k', inr o)) :
  ∃ draft,
    t_order_drafts (k_db k) !! i = Some draft ∧ od_draft_status draft = "approved" ∧
    (∃ kc c, t_pretrade_checks (k_db k) !! kc = Some c ∧ ptc_order_draft_id c = i ∧
             ptc_check_status c ≠ "block") ∧
    (∃ ka a, t_approval_records (k_db k) !! ka = Some a ∧ ar_order_draft_id a = i) ∧
    has (t_broker_connections (k_db k)) b = true ∧
    eo_order_draft_id o = i ∧ eo_broker_connection_id o = b ∧
    eo_environment o = od_environment draft ∧ eo_execution_status o = "staged" ∧
    t_execution_orders (k_db k) !! eo_execution_order_id o = None ∧
    t_execution_orders (k_db k') =
      <[eo_execution_order_id o := o]> (t_execution_orders (k_db k)) ∧
    t_order_drafts (k_db k') =
      <[i := set_draft_status "staged" draft]> (t_order_drafts (k_db k)).
Proof. by apply (stage_execution_order_ok cs root i b environment). Qed.

(** ** The registry of adapters *)

(** C31: the registry holds simulated adapters only.  Registration of any
    other kind raises and leaves the registry alone, so from a registry of
    simulated adapters no registration or reset reaches one with another
    kind. *)
Theorem registry_only_simulated (r : registry) (broker_connection_id : string)
    (adapter : BrokerAdapter)
    (Hr : map_Forall (λ _ a, ba_adapter_kind a = "simulated") r) :
  map_Forall (λ _ a, ba_adapter_kind a = "simulated")
    (register_broker_adapter broker_connection_id adapter r).1 ∧
  map_Forall (λ _ a, ba_adapter_kind a = "simulated") (clear_broker_registry r).1 ∧
  (ba_adapter_kind adapter ≠ "simulated" →
     ∃ msg, register_broker_adapter broker_connection_id adapter r = (r, inl (Exn ValueError msg))) ∧
  (ba_adapter_kind adapter = "simulated" →
     resolve_broker_adapter broker_connection_id
       (register_broker_adapter broker_connection_id adapter r).1 = Some adapter).
Proof.
  unfold register_broker_adapter, require, resolve_broker_adapter.
  destruct (streq (ba_adapter_kind adapter) "simulated") eqn:E; bool_simpl; simpl.
  - split_and!; [by apply map_Forall_insert_2|apply map_Forall_empty|done|].
    intros _. apply lookup_insert_eq.
  - split_and!; [done|apply map_Forall_empty|by eauto|done].
Qed.

(** ** Submission through the simulated adapter *)

Section Submission.
Context `{PyEnv} `{Database}.

Lemma alter_insert {A} (f : A → A) i x (m : gmap string A) :
    m !! i = Some x → alter f i m = <[i := f x]> m.
Proof.
    intros Hx. apply map_eq. intros j. rewrite lookup_alter, lookup_insert.
    case_decide; [subst; by rewrite Hx|done].
Qed.

Lemma submission_precondition_ok i d u :
    submission_precondition i d = inr u →
    ∃ o, t_execution_orders d !! i = Some o ∧ eo_execution_status o = "staged".
Proof.
    unfold submission_precondition. intros E. repeat case_match; simplify_eq. bool_simpl. eauto.
Qed.

Lemma submit_execution_order_ok cs root i b k k' o' :
    submit_execution_order cs root i b k = (k', inr o') →
    ∃ o, t_execution_orders (k_db k) !! i = Some o ∧ eo_execution_status o = "staged" ∧
      t_execution_orders (k_db k') = <[i := o']> (t_execution_orders (k_db k)) ∧
      same_order o o' ∧ eo_execution_status o' = "submitted" ∧ is_Some (eo_submitted_at_utc o') ∧
      t_order_drafts (k_db k') = t_order_drafts (k_db k) ∧
      t_execution_reports (k_db k') = t_execution_reports (k_db k).
Proof.
    unfold submit_execution_order. intros E. kinv.
    match goal with Hp : submission_precondition _ _ = _ |- _ =>
      apply submission_precondition_ok in Hp as (o & Ho & Hst) end.
    match goal with Hf : flush_all _ _ = Some _ |- _ => rename Hf into Hflush end.
    assert (o = a3) as <-. { repeat match goal with Hd : k_db _ = _ |- _ => rewrite Hd in * end. congruence. }
    exists o. flush_inv Hflush (k_db k).
    rewrite (alter_insert (set_order_submitted _) _ o) by done.
    erewrite alter_insert by apply lookup_insert_eq. rewrite insert_insert_eq.
    repeat split; eauto.
Qed.

Lemma record_execution_report_ok root i t f q p e k k' rep :
    record_execution_report root i t f q p e k = (k', inr rep) →
    er_execution_order_id rep = i ∧ er_report_type rep = t ∧ er_fill_status rep = f ∧
    er_filled_quantity rep = or_zero q ∧ er_average_fill_price rep = p ∧
    er_broker_event_ref rep = e ∧
    t_execution_reports (k_db k) !! er_execution_report_id rep = None ∧
    t_execution_reports (k_db k') =
      <[er_execution_report_id rep := rep]> (t_execution_reports (k_db k)) ∧
    t_execution_orders (k_db k') =
      (if streq f "filled" then alter (set_order_status "filled") i
       else if streq f "partial" then alter (set_order_status "partial_fill") i else id)
        (t_execution_orders (k_db k)).
Proof.
    unfold record_execution_report. intros E.
    destruct (streq f "filled"); [|destruct (streq f "partial")]; kinv;
      match goal with Hf : flush_all _ _ = Some _ |- _ => rename Hf into Hflush end;
      flush_inv Hflush (k_db k); repeat split; by apply has_false.
Qed.

Lemma sim_submit_value cfg o d k k' rep :
    on_sys (sim_submit_order cfg o d) k = (k', inr rep) →
    er_report_type rep = (if sim_simulate_fill cfg then "simulated_fill" else "simulated_submit_ack") ∧
    er_fill_status rep = (if sim_simulate_fill cfg then "filled" else "none") ∧
    er_filled_quantity rep = (if sim_simulate_fill cfg then od_quantity d else dzero) ∧
    er_average_fill_price rep = (if sim_simulate_fill cfg then Some (_fill_price cfg d) else None).
Proof.
    unfold on_sys, zoom. destruct (sim_submit_order cfg o d (k_sys k)) as [s' r] eqn:E.
    intros ?; simplify_eq. unfold sim_submit_order in E. minv.
    destruct (sim_simulate_fill cfg); by minv.
Qed.

Lemma record_execution_report_drafts root i t f q p e k k' rep :
    record_execution_report root i t f q p e k = (k', inr rep) →
    t_order_drafts (k_db k') = t_order_drafts (k_db k).
Proof.
    unfold record_execution_report. intros E.
    destruct (streq f "filled"); [|destruct (streq f "partial")]; kinv;
      match goal with Hf : flush_all _ _ = Some _ |- _ => rename Hf into Hflush end;
      by flush_inv Hflush (k_db k).
Qed.

(** What a submission through the simulated adapter that returned did. *)
Lemma simulated_submission_ok reg cfg cs root i k k' o draft rep :
  t_execution_orders (k_db k) !! i = Some o →
  t_order_drafts (k_db k) !! eo_order_draft_id o = Some draft →
  resolve_broker_adapter (eo_broker_connection_id o) reg = Some (SimulatedBrokerAdapter cfg) →
  submit_order reg cs root i k = (k', inr rep) →
  eo_execution_status o = "staged" ∧
  t_execution_reports (k_db k') !! er_execution_report_id rep = Some rep ∧
  er_execution_order_id rep = i ∧
  t_order_drafts (k_db k') = t_order_drafts (k_db k) ∧
  (∃ o', t_execution_orders (k_db k') = <[i := o']> (t_execution_orders (k_db k)) ∧
     same_order o o' ∧ is_Some (eo_submitted_at_utc o') ∧
     eo_execution_status o' = if sim_simulate_fill cfg then "filled" else "submitted") ∧
  (if sim_simulate_fill cfg
   then er_fill_status rep = "filled" ∧
        er_filled_quantity rep = or_zero (Some (od_quantity draft)) ∧
        er_average_fill_price rep =
          Some (match od_limit_price draft with
                | Some p => p
                | None => dec_add (Dec false 10000 (-2)) (or_zero (sim_fill_price_offset cfg))
                end)
   else er_fill_status rep = "none" ∧ er_filled_quantity rep = dzero ∧
        er_average_fill_price rep = None).
Proof.
  intros Ho Hd Hreg Hrun. unfold submit_order, require_execution_capability in Hrun. minv.
  rewrite Hreg in Hrun. minv.
  match goal with Hs : submit_execution_order _ _ _ _ _ = (_, inr ?r) |- _ =>
    rename r into o1; apply submit_execution_order_ok in Hs as (o0 & Ho0 & Hst & Horders & Hsame & Hst' & Hsub & Hdrafts & _) end.
  match goal with Hs : on_sys _ _ = _ |- _ =>
    change (ba_submit_order (SimulatedBrokerAdapter cfg)) with (sim_submit_order cfg) in Hs;
    pose proof (on_sys_db _ _ _ _ Hs) as Hdb; apply sim_submit_value in Hs as (Et & Ef & Eq & Ep) end.
  pose proof (record_execution_report_drafts _ _ _ _ _ _ _ _ _ _ Hrun) as Hdr.
  rewrite Hdb, Hdrafts in Hdr.
  apply record_execution_report_ok in Hrun as (Hi & Ht & Hf & Hq & Hp & _ & _ & Hreps & Hords).
  simplify_eq. rewrite Hreps, lookup_insert_eq, Hf, Hq, Hp, Ef, Eq, Ep. rewrite Hdb, Horders, Ef in Hords.
  repeat split; try done.
  - destruct (sim_simulate_fill cfg); simpl in Hords.
    + eexists. rewrite (alter_insert _ _ o1), insert_insert_eq in Hords by apply lookup_insert_eq.
      split; [done|]. split; [|done]. by eapply same_order_trans.
    + eexists. eauto.
  - by destruct (sim_simulate_fill cfg).
Qed.
End Submission.

(** C12: submitting through the simulated adapter.  When [submit_order]
    returns for an order whose connection resolves to a simulated adapter, the
    order was staged; a filling adapter yields a stored [filled] report for
    the whole quantity of the draft at its limit price, or at 100.00 plus the
    configured offset for a draft without one, and the order ends [filled];
    a non-filling adapter yields a zero-quantity acknowledgement and the
    order ends [submitted].  The draft table is untouched and no other order
    changes. *)
Theorem simulated_submission `{PyEnv} `{Database}
    (reg : registry) (cfg : SimulatedConfig) (cs : ExecutionCapabilities) (root i : string)
    (k k' : kernel_state) (o : ExecutionOrder) (draft : OrderDraft) (rep : ExecutionReport)
    (Ho : t_execution_orders (k_db k) !! i = Some o)
    (Hd : t_order_drafts (k_db k) !! eo_order_draft_id o = Some draft)
    (Hreg : resolve_broker_adapter (eo_broker_connection_id o) reg = Some (SimulatedBrokerAdapter cfg))
    (Hrun : submit_order reg cs root i k = (k', inr rep)) :
  eo_execution_status o = "staged" ∧
  t_execution_reports (k_db k') !! er_execution_report_id rep = Some rep ∧
  er_execution_order_id rep = i ∧
  t_order_drafts (k_db k') = t_order_drafts (k_db k) ∧
  (∃ o', t_execution_orders (k_db k') = <[i := o']> (t_execution_orders (k_db k)) ∧
     same_order o o' ∧ is_Some (eo_submitted_at_utc o') ∧
     eo_execution_status o' = if sim_simulate_fill cfg then "filled" else "submitted") ∧
  (if sim_simulate_fill cfg
   then er_fill_status rep = "filled" ∧
        er_filled_quantity rep = or_zero (Some (od_quantity draft)) ∧
        er_average_fill_price rep =
          Some (match od_limit_price draft with
                | Some p => p
                | None => dec_add (Dec false 10000 (-2)) (or_zero (sim_fill_price_offset cfg))
                end)
   else er_fill_status rep = "none" ∧ er_filled_quantity rep = dzero ∧
        er_average_fill_price rep = None).
Proof. by eapply simulated_submission_ok. Qed.

(** ** Approving a draft again *)

Section Approval.
Context `{PyEnv} `{Database} `{!DatabaseLaws}.

Lemma record_approval_ok cs root i decision reviewer rationale k k' a :
    record_approval cs root i decision reviewer rationale k = (k', inr a) →
    ar_order_draft_id a = i ∧
    t_order_drafts (k_db k') = alter (set_draft_status
      (if streq decision "approved" then "approved" else "rejected")) i (t_order_drafts (k_db k)) ∧
    is_Some (t_order_drafts (k_db k) !! i) ∧
    t_approval_records (k_db k') = <[ar_approval_id a := a]> (t_approval_records (k_db k)) ∧
    t_pretrade_checks (k_db k') = t_pretrade_checks (k_db k) ∧
    t_execution_orders (k_db k') = t_execution_orders (k_db k).
Proof.
    unfold record_approval. intros E. kinv.
    match goal with Hf : flush_all _ _ = Some _ |- _ => rename Hf into Hflush end.
    flush_inv Hflush (k_db k). unfold fk_ApprovalRecord in *. simpl in *. rewrite has_alter in *.
    repeat split. by apply has_true.
Qed.

Lemma first_approval_some d i ka a :
    t_approval_records d !! ka = Some a → ar_order_draft_id a = i → is_Some (first_approval d i).
Proof.
    intros Ha Hi. unfold first_approval. destruct (sql_first _) as [k0|] eqn:Es; simpl.
    - apply sql_first_elem, elem_of_dom in Es as [c' Hc'].
      apply map_lookup_filter_Some in Hc' as [-> _]. by eexists.
    - apply sql_first_none in Es. assert (Hin : ka ∈ (∅ : gset string)); [|set_solver].
      rewrite <-Es. apply elem_of_dom. exists a. by apply map_lookup_filter_Some.
Qed.

(** Only the check the query returns decides, once the draft is approved and
    an approval is on file. *)
Lemma staging_preconditions_approved d i draft :
    t_order_drafts d !! i = Some draft → od_draft_status draft = "approved" →
    is_Some (first_approval d i) →
    (∃ env, staging_preconditions i d = inr env) ↔
    ∃ c, first_check d i = Some c ∧ ptc_check_status c ≠ "block".
Proof.
    intros Hd Hst [a Ha]. unfold staging_preconditions. rewrite Hd, Hst, Ha. simpl.
    destruct (first_check d i) as [c|]; [|naive_solver].
    destruct (streq (ptc_check_status c) "block") eqn:E; bool_simpl; naive_solver.
Qed.
End Approval.

(** C33: an approval reopens a draft that was executed already.  Let a draft
    have an order, in whatever status the draft and the order are.  After a
    recorded approval the draft is [approved] and may be staged if and only if
    the one check the query returns is not blocked, whatever other checks of
    the draft say.  When it is staged and submitted to a filling simulated
    adapter, a second order of the same draft is filled with the whole
    quantity of the draft, beside the first order, which is unchanged. *)
Theorem approval_reopens_draft `{PyEnv} `{Database} `{!DatabaseLaws}
    (cs cs' cs'' : ExecutionCapabilities) (root root' root'' i j b reviewer rationale environment : string)
    (k k1 : kernel_state) (o : ExecutionOrder) (draft : OrderDraft) (a : ApprovalRecord)
    (Hdraft : t_order_drafts (k_db k) !! i = Some draft)
    (Horder : t_execution_orders (k_db k) !! j = Some o) (Hof : eo_order_draft_id o = i)
    (Happ : record_approval cs root i "approved" reviewer rationale k = (k1, inr a)) :
  od_draft_status <$> t_order_drafts (k_db k1) !! i = Some "approved" ∧
  ((∃ env, staging_preconditions i (k_db k1) = inr env) ↔
   ∃ c, first_check (k_db k) i = Some c ∧ ptc_check_status c ≠ "block") ∧
  (∀ k2 o2 k3 reg cfg rep,
     stage_execution_order cs' root' i b environment k1 = (k2, inr o2) →
     resolve_broker_adapter b reg = Some (SimulatedBrokerAdapter cfg) → sim_simulate_fill cfg = true →
     submit_order reg cs'' root'' (eo_execution_order_id o2) k2 = (k3, inr rep) →
     eo_execution_order_id o2 ≠ j ∧
     t_execution_orders (k_db k3) !! j = Some o ∧
     (∃ o3, t_execution_orders (k_db k3) !! eo_execution_order_id o2 = Some o3 ∧
        eo_order_draft_id o3 = i ∧ eo_execution_status o3 = "filled") ∧
     er_execution_order_id rep = eo_execution_order_id o2 ∧
     er_filled_quantity rep = or_zero (Some (od_quantity draft))).
Proof.
  apply record_approval_ok in Happ as (Ha & Hdrafts & _ & Happs & Hchecks & Hords). simpl in Hdrafts.
  assert (Hd1 : t_order_drafts (k_db k1) !! i = Some (set_draft_status "approved" draft)).
  { by rewrite Hdrafts, lookup_alter_eq, Hdraft. }
  split; [by rewrite Hd1|]. split.
  - rewrite (staging_preconditions_approved _ _ _ Hd1); [|done|].
    + unfold first_check. by rewrite Hchecks.
    + eapply first_approval_some; [|exact Ha]. rewrite Happs. apply lookup_insert_eq.
  - intros k2 o2 k3 reg cfg rep Hst Hreg Hfill Hsub.
    apply stage_execution_order_ok in Hst as (dr & Hdr & _ & _ & _ & _ & Hoi & Hob & _ & _ & Hfresh & Ho2 & Hd2).
    assert (dr = set_draft_status "approved" draft) as -> by congruence.
    assert (Hne : eo_execution_order_id o2 ≠ j) by (intros <-; congruence).
    destruct (simulated_submission_ok reg cfg cs'' root'' (eo_execution_order_id o2) k2 k3 o2 (set_draft_status "staged" draft) rep)
      as (_ & _ & Hri & _ & (o3 & Ho3 & Hsame & _ & Hst3) & Hq).
    + by rewrite Ho2, lookup_insert_eq.
    + by rewrite Hd2, Hoi, lookup_insert_eq.
    + by rewrite Hob.
    + done.
    + rewrite Hfill in Hst3, Hq. destruct Hq as (_ & Hq & _). split_and!; try done.
      * by rewrite Ho3, lookup_insert_ne, Ho2, lookup_insert_ne, Hords by done.
      * exists o3. rewrite Ho3, lookup_insert_eq. split_and!; [done| |done].
        rewrite Hsame. by destruct o2.
Qed.

(** ** Receipt ids *)

Section Stamps.
Lemma pad_chars w z : Forall (λ c, is_digit c = true) (chars (pad w z)).
Proof.
    unfold pad. rewrite chars_of_chars. apply Forall_app_2; [apply zeros_all|apply N_digits_all].
Qed.
Lemma pad_length w z : (w ≤ length (chars (pad w z)))%nat.
Proof. unfold pad. rewrite chars_of_chars, length_app. unfold zeros. rewrite repeat_length. lia. Qed.

Definition not_dash (c : ascii) : Prop := c ≠ "-"%char.
Lemma digits_not_dash l : Forall (λ c, is_digit c = true) l → Forall not_dash l.
Proof. intros Hl. eapply Forall_impl; [done|]. by intros c Hc ->. Qed.

Lemma stamp_no_dash t : Forall not_dash (chars (strftime_stamp t)).
Proof.
    unfold strftime_stamp. destruct (civil_from_days _) as [[y m] d].
    destruct (clock_fields t) as [[[hh mm] ss] us]. rewrite !chars_app.
    repeat apply Forall_app_2; try (apply digits_not_dash, pad_chars); by repeat constructor.
Qed.
Lemma stamp_length t : (5 ≤ length (chars (strftime_stamp t)))%nat.
Proof.
    unfold strftime_stamp. destruct (civil_from_days _) as [[y m] d].
    destruct (clock_fields t) as [[[hh mm] ss] us]. rewrite !chars_app, !length_app.
    pose proof (pad_length 4 y). pose proof (pad_length 2 m). lia.
Qed.

Lemma remove_dash_id l : Forall not_dash l →
    List.filter (λ d, negb (Ascii.eqb d "-"%char)) l = l.
Proof.
    intros Hl. induction Hl as [|c l Hc Hl IH]; simpl; [done|].
    destruct (Ascii.eqb_spec c "-"%char); [done|]. simpl. by rewrite IH.
Qed.

(** The eight characters of an artifact id that enter its receipt id are
    its prefix and the leading digits of the year and month. *)
Lemma draft_id_short t u :
    take_str 8 (remove_char "-"%char ("od" +:+ "_" +:+ strftime_stamp t +:+ "_" +:+ u))
    = "od_" +:+ take_str 5 (strftime_stamp t).
Proof.
    generalize (strftime_stamp t) (stamp_no_dash t) (stamp_length t). intros st Hd Hl.
    apply chars_inj. unfold take_str, remove_char. rewrite !chars_app, !chars_of_chars.
    rewrite !List.filter_app, (remove_dash_id (chars st)) by done. simpl. unfold take_str.
    by rewrite take_app_le.
Qed.
End Stamps.

Section ReceiptIds.
Context `{PyEnv} `{Database}.

Definition tick (n u : nat) (k : kernel_state) : kernel_state :=
    Kernel (k_db k) (Sys (n + sys_ticks (k_sys k)) (u + sys_uuids (k_sys k)) (sys_files (k_sys k))).

Lemma new_id_run prefix k :
    _new_id prefix k =
    (tick 1 1 k, inr (prefix +:+ "_" +:+ strftime_stamp (clock (sys_ticks (k_sys k))) +:+ "_"
                      +:+ take_str 8 (uuid4_hex (sys_uuids (k_sys k))))).
Proof. by destruct k as [d [t u f]]. Qed.

Lemma stamp_run k :
    _stamp k = (tick 1 0 k, inr (strftime_stamp (clock (sys_ticks (k_sys k))))).
Proof. by destruct k as [d [t u f]]. Qed.

Lemma write_receipt_id root kind aid payload k k' rid path :
    aid ≠ "" → write_execution_receipt root kind aid payload k = (k', inr (rid, path)) →
    rid = receipt_id_of kind (strftime_stamp (clock (sys_ticks (k_sys k))))
            (take_str 8 (remove_char "-"%char aid)).
Proof.
    intros Haid E. unfold write_execution_receipt, _execution_receipt_id in E. minv.
    apply streq_false in Haid. rewrite Haid in *. minv. rewrite stamp_run in *. by simplify_eq.
Qed.

(** The receipt id every draft created in the second [st] gets. *)
Definition draft_receipt_id (st : string) : string :=
    receipt_id_of "execution.order_draft.created" st ("od_" +:+ take_str 5 st).

Lemma create_order_draft_receipt st cs root r k k' d :
    (∀ n, strftime_stamp (clock n) = st) →
    create_order_draft cs root r k = (k', inr d) →
    has (t_receipt_index (k_db k)) (draft_receipt_id st) = false ∧
    has (t_receipt_index (k_db k')) (draft_receipt_id st) = true.
Proof.
    intros Hst E. unfold create_order_draft in E. minv. unfold require_execution_capability in *.
    rewrite new_id_run in *. simplify_eq.
    match goal with Hw : write_execution_receipt _ _ _ _ _ = (_, inr ?p) |- _ =>
      destruct p as [rid path]; pose proof (write_receipt_db _ _ _ _ _ _ _ Hw) as Hdb;
      apply write_receipt_id in Hw; [|done];
      assert (Hrid : rid = draft_receipt_id st)
        by (unfold draft_receipt_id; by rewrite Hw, draft_id_short, !Hst);
      clear Hw end.
    revert Hrid. generalize (draft_receipt_id st). intros rid' ->. kinv.
    match goal with Hf : flush_all _ _ = Some _ |- _ => rename Hf into Hflush end.
    unfold tick in *. cbn [k_db] in *. flush_inv Hflush (k_db k). split; [done|]. apply has_true. by rewrite lookup_insert_eq.
Qed.
End ReceiptIds.

(** C37: at most one order draft per second.  The receipt id of a draft
    depends only on the second in which the receipt is written, because the
    eight characters taken from the draft id are its prefix and the first
    digits of the date.  So while the clock stays within one second, after one
    draft was created no later [create_order_draft] succeeds, whatever the
    request and whatever calls were made in between: the index insert
    violates its primary key. *)
Theorem one_draft_per_second `{PyEnv} `{Database}
    (st : string) (cs cs' : ExecutionCapabilities) (root root' : string) (r r' : DraftRequest)
    (k k1 k2 : kernel_state) (d : OrderDraft)
    (Hsecond : ∀ n, strftime_stamp (clock n) = st)
    (Hfirst : create_order_draft cs root r k = (k1, inr d))
    (Hbetween : rtc kernel_step k1 k2) :
  ∃ e, (create_order_draft cs' root' r' k2).2 = inl e.
Proof.
  destruct (create_order_draft cs' root' r' k2) as [k3 [e|d']] eqn:E; [by exists e|].
  apply (create_order_draft_receipt st) in E as [Hfree _]; [|done].
  apply (create_order_draft_receipt st) in Hfirst as [_ Hused]; [|done].
  apply kernel_audit, audit_index in Hbetween. apply has_true in Hused as [x Hx].
  apply has_false in Hfree. apply (lookup_weaken _ _ _ _ Hx) in Hbetween. congruence.
Qed.

(** ** Separate commits *)

Section Staging_failure.
Context `{PyEnv} `{Database}.

Lemma write_receipt_resolves root kind aid payload k p :
    let rid := receipt_id_of kind (strftime_stamp (clock (sys_ticks (k_sys k))))
                 (take_str 8 (remove_char "-"%char aid)) in
    aid ≠ "" → resolve_under root ["receipts"; rid +:+ ".json"] = inr p →
    ∃ k', write_execution_receipt root kind aid payload k = (k', inr (rid, p)).
Proof.
    intros rid Haid Hp. apply streq_false in Haid.
    assert (E1 : _execution_receipt_id kind aid k = (tick 1 0 k, inr rid)).
    { unfold _execution_receipt_id. erewrite bind_step by apply stamp_run. by rewrite Haid. }
    assert (∃ k2 c, _now_utc (tick 1 0 k) = (k2, inr c)) as (k2 & c & E2) by by do 2 eexists.
    unfold write_execution_receipt.
    rewrite (bind_step _ _ _ _ _ E1), (bind_step _ _ _ _ _ E2), Hp.
    by eexists.
Qed.

(** The ids a staging call started in [k] draws. *)
Definition next_order_id (k : kernel_state) : string :=
    "eo" +:+ "_" +:+ strftime_stamp (clock (sys_ticks (k_sys k))) +:+ "_"
    +:+ take_str 8 (uuid4_hex (sys_uuids (k_sys k))).
Definition next_staged_receipt (k : kernel_state) : string :=
    receipt_id_of "execution.order.staged" (strftime_stamp (clock (2 + sys_ticks (k_sys k))))
      (take_str 8 (remove_char "-"%char (next_order_id k))).

Lemma flush_unknown_broker o ri d :
    has (t_broker_connections d) (eo_broker_connection_id o) = false →
    flush_all [Insert (RowExecutionOrder o); Insert (RowReceiptIndex ri)] d = None.
Proof.
    intros Hb. destruct d; simpl in *. unfold fk_ExecutionOrder. simpl. rewrite Hb.
    by rewrite !andb_false_r.
Qed.
End Staging_failure.

(** C36: a failed staging strands the draft.  [stage_execution_order] commits
    the draft status before the order row.  When the broker connection does
    not exist, the call raises [StateCoreStoreError] and no order is written,
    but the approved draft is left [staged], and staging it again raises
    [ValueError] also for an existing connection. *)
Theorem failed_staging_strands_draft `{PyEnv} `{Database}
    (cs cs' : ExecutionCapabilities) (root root' i b b' environment environment' : string)
    (k : kernel_state) (env : ExecutionEnvironment)
    (Hcap : has_capability cs cap_stage_execution_order = true)
    (Hcap' : has_capability cs' cap_stage_execution_order = true)
    (Hpre : staging_preconditions i (k_db k) = inr env)
    (Hbroker : has (t_broker_connections (k_db k)) b = false)
    (Hroot : is_ok (resolve_under root ["receipts"; next_staged_receipt k +:+ ".json"]) = true) :
  ∃ k' msg msg',
    stage_execution_order cs root i b environment k = (k', inl (Exn StateCoreStoreError msg)) ∧
    t_execution_orders (k_db k') = t_execution_orders (k_db k) ∧
    od_draft_status <$> t_order_drafts (k_db k') !! i = Some "staged" ∧
    stage_execution_order cs' root' i b' environment' k' = (k', inl (Exn ValueError msg')).
Proof.
  assert (Hi : is_Some (t_order_drafts (k_db k) !! i)).
  { unfold staging_preconditions in Hpre. by destruct (t_order_drafts (k_db k) !! i). }
  destruct Hi as [draft Hi].
  set (order_id := next_order_id k). set (k2 := tick 1 0 (tick 1 1 k)).
  destruct (resolve_under root _) as [e|p] eqn:Hp; [done|]. clear Hroot.
  destruct (write_receipt_resolves root "execution.order.staged" order_id
    [("order_draft_id", JStr i); ("broker_connection_id", JStr b); ("environment", JStr environment)]
    k2 p) as (k3 & Hw); [done|exact Hp|].
  pose proof (write_receipt_db _ _ _ _ _ _ _ Hw) as Hdb3.
  set (k4 := with_db (alter_drafts (set_draft_status "staged") i (k_db k3)) k3).
  assert (Hdb4 : k_db k4 = alter_drafts (set_draft_status "staged") i (k_db k)) by (simpl; by rewrite Hdb3).
  assert (Hst4 : od_draft_status <$> t_order_drafts (k_db k4) !! i = Some "staged").
  { rewrite Hdb4. destruct (k_db k); simpl in *. by rewrite lookup_alter_eq, Hi. }
  exists k4. do 2 eexists. split; [|split; [|split; [done|]]].
  - unfold stage_execution_order, require_execution_capability, require. rewrite Hcap.
    erewrite bind_step by done. erewrite bind_step by done. rewrite Hpre.
    erewrite bind_step by done. erewrite bind_step by apply new_id_run.
    fold (next_order_id k). fold order_id.
    erewrite bind_step by (by destruct k as [? [? ? ?]]).
    erewrite bind_step by (exact Hw). cbv beta iota zeta. erewrite bind_step by done.
    apply bind_fail. unfold write_records. rewrite if_false by done.
    erewrite bind_step by done. rewrite flush_unknown_broker; [done|].
    change (k_db _) with (k_db k4). rewrite Hdb4. by destruct (k_db k).
  - rewrite Hdb4. by destruct (k_db k).
  - unfold stage_execution_order, require_execution_capability, require. rewrite Hcap'.
    erewrite bind_step by done. erewrite bind_step by done.
    unfold staging_preconditions. apply fmap_Some in Hst4 as (dr & Hdr & Hst). rewrite Hdr, <-Hst.
    simpl. done.
Qed.

(** ** The textual quantity CHECK *)

Section QuantityText.
Lemma dec_chars_head d :
    ∃ c rest, dec_chars d = (if dneg d then ["-"%char] else []) ++ c :: rest ∧ is_digit c = true.
Proof.
    assert (Hall := N_digits_all (dcoef d)). assert (Hne := N_digits_nonempty (dcoef d)).
    unfold dec_chars, dec_parts. destruct (N_digits (dcoef d)) as [|c ds] eqn:E; [done|].
    inversion Hall; subst.
    set (dot := if _ && _ then _ else 1%Z).
    destruct (Z.leb_spec dot 0); [by do 2 eexists|].
    destruct (_ <=? dot)%Z; [by do 2 eexists|].
    destruct (Z.to_nat dot) eqn:E3; [lia|]. by do 2 eexists.
Qed.

Lemma dec_chars_zero d : dec_chars d = ["0"%char] → d = dzero.
Proof.
    intros E. apply dec_str_inj. unfold dec_str. by rewrite E.
Qed.

Lemma ltb_zero_digit c rest :
    is_digit c = true → String.ltb "0" (of_chars (c :: rest)) =
    negb (Ascii.eqb c "0"%char && (length rest =? 0)%nat).
Proof.
    intros Hc. unfold of_chars. cbn [string_of_list_ascii]. unfold String.ltb. cbn [String.compare].
    unfold is_digit, code in Hc. apply andb_true_iff in Hc as [H1 H2]. apply Nat.leb_le in H1, H2.
    unfold Ascii.compare. destruct (N.compare_spec (N_of_ascii "0") (N_of_ascii c)) as [E|E|E].
    - assert (c = "0"%char) as -> by (by rewrite <-(ascii_N_embedding c), <-E).
      by destruct rest.
    - destruct (Ascii.eqb_spec c "0"%char) as [->|]; [by apply N.lt_irrefl in E|done].
    - exfalso. change (N_of_ascii "0") with 48%N in E. unfold nat_of_ascii in H1. lia.
Qed.
End QuantityText.

(** The same request for another quantity. *)
Definition with_quantity (q : dec) (r : DraftRequest) : DraftRequest :=
  {| dr_execution_account_id := dr_execution_account_id r; dr_instrument_ref := dr_instrument_ref r;
     dr_symbol := dr_symbol r; dr_side := dr_side r; dr_order_type := dr_order_type r;
     dr_quantity := q; dr_rationale := dr_rationale r; dr_environment := dr_environment r;
     dr_time_in_force := dr_time_in_force r; dr_limit_price := dr_limit_price r;
     dr_stop_price := dr_stop_price r; dr_proposal_id := dr_proposal_id r;
     dr_source_kind := dr_source_kind r; dr_source_ref := dr_source_ref r |}.

Section DraftInsert.
Context `{PyEnv} `{Database} (Htext : ∀ s, sql_quantity_check s = String.ltb "0" s).

(** Text comparison with the literal [0]. *)
Lemma quantity_text d : sql_quantity_check (dec_str d) = negb (dneg d) && negb (bool_decide (d = dzero)).
Proof.
    rewrite Htext. unfold dec_str. destruct (dec_chars_head d) as (c & rest & E & Hc).
    destruct (dneg d) eqn:Hn; simpl in E; rewrite E.
    - done.
    - rewrite ltb_zero_digit by done. simpl. f_equal.
      destruct (bool_decide_reflect (d = dzero)) as [->|Hd].
      + vm_compute in E. by simplify_eq.
      + destruct (Ascii.eqb_spec c "0"%char) as [->|]; [|done]. destruct rest; [|done].
        by apply dec_chars_zero in E.
Qed.

(** A receipt with another payload gets the same id and path. *)
Lemma write_receipt_payload root kind aid p p' k k1 r :
    write_execution_receipt root kind aid p k = (k1, inr r) →
    ∃ k1', write_execution_receipt root kind aid p' k = (k1', inr r) ∧ k_db k1' = k_db k1.
Proof.
    unfold write_execution_receipt. intros E.
    apply bind_ok in E as (rid & s1 & E1 & E). apply bind_ok in E as (cr & s2 & E2 & E).
    apply bind_ok in E as (tg & s3 & E3 & E). apply bind_ok in E as (u & s4 & E4 & E).
    apply ret_ok in E as [-> [= ->]]. apply of_sum_ok in E3 as [-> E3].
    apply on_sys_db in E4. eexists (with_sys _ s2). split; [|symmetry; exact E4].
    rewrite (bind_step _ _ _ _ _ E1), (bind_step _ _ _ _ _ E2), E3. reflexivity.
Qed.

(** Storing a draft and its receipt depends on the quantity by its CHECK only. *)
Lemma flush_draft_quantity r q env i created ref y d d' :
    flush_all [Insert (RowOrderDraft (draft_row r env i created ref)); Insert (RowReceiptIndex y)] d
      = Some d' →
    sql_quantity_check (dec_str (dr_quantity r)) = true ∧
    (sql_quantity_check (dec_str q) = true →
     ∃ d'', flush_all [Insert (RowOrderDraft (draft_row (with_quantity q r) env i created ref));
                       Insert (RowReceiptIndex y)] d = Some d'' ∧
       t_order_drafts d'' !! i = Some (draft_row (with_quantity q r) env i created ref)).
Proof.
    intros E. destruct d. cbn in E |- *. unfold check_OrderDraft, fk_OrderDraft in *. cbn in *.
    destruct (sql_quantity_check (dec_str (dr_quantity r)));
      [|by rewrite !andb_false_r in E; simpl in E]. split; [done|]. intros ->.
    rewrite !andb_true_r in *. destruct (_ && _); [|done]. cbn in *. destruct (has _ _); [done|].
    eexists. split; [done|]. apply lookup_insert_eq.
Qed.
End DraftInsert.

(** C40: what [CHECK (quantity > 0)] keeps out.  The quantity column stores the
    decimal as text, and an engine that compares the text with the text of the
    literal [0] accepts exactly the decimals without a minus sign other than
    the literal [0].  So a created draft never has a negative quantity or the
    quantity [0]; but a request that is accepted for some quantity is accepted
    for every other one of this kind, also for a zero written with an exponent,
    such as [Decimal("0.00")], and the draft is stored with it. *)
Theorem quantity_check_is_textual `{PyEnv} `{Database}
    (cs : ExecutionCapabilities) (root : string) (r : DraftRequest) (k k' : kernel_state) (d : OrderDraft)
    (Htext : ∀ s, sql_quantity_check s = String.ltb "0" s)
    (Hrun : create_order_draft cs root r k = (k', inr d)) :
  dneg (dr_quantity r) = false ∧ dr_quantity r ≠ dzero ∧
  ∀ q, dneg q = false → q ≠ dzero →
    ∃ k'' d', create_order_draft cs root (with_quantity q r) k = (k'', inr d') ∧
      od_quantity d' = q ∧ t_order_drafts (k_db k'') !! od_order_draft_id d' = Some d'.
Proof.
  unfold create_order_draft in Hrun.
  apply bind_ok in Hrun as (u0 & s0 & E0 & Hrun). apply bind_ok in Hrun as (i & s1 & E1 & Hrun).
  apply bind_ok in Hrun as (cr & s2 & E2 & Hrun). apply bind_ok in Hrun as (env & s3 & E3 & Hrun).
  apply bind_ok in Hrun as (u4 & s4 & E4 & Hrun). apply bind_ok in Hrun as ([rid path] & s5 & E5 & Hrun).
  cbv beta iota zeta in Hrun. apply bind_ok in Hrun as (u6 & s6 & E6 & Hrun).
  apply ret_ok in Hrun as [-> [= ->]].
  unfold write_records in E6. rewrite if_false in E6 by done.
  apply bind_ok in E6 as (d5 & s5' & Eg & E6). apply gets_ok in Eg as [-> [= ->]].
  destruct (flush_all _ _) as [d6|] eqn:Hf; [|done].
  assert (Hq := λ q, flush_draft_quantity r q env i cr (Some rid) _ _ _ Hf).
  destruct (Hq dzero) as [Hr _]. rewrite quantity_text in Hr by done. bool_simpl.
  split_and!; [done|done|]. intros q Hneg Hz. destruct (Hq q) as [_ Hnew].
  destruct Hnew as (d7 & Hf7 & Hl7). { rewrite quantity_text, Hneg by done. by rewrite bool_decide_false. }
  destruct (write_receipt_payload _ _ _ _
    [("side", JStr (dr_side r)); ("symbol", JStr (dr_symbol r)); ("order_type", JStr (dr_order_type r));
     ("quantity", jdec q); ("environment", JStr (dr_environment r))] _ _ _ E5) as (s5' & E5' & Hdb).
  exists (with_db d7 s5'), (draft_row (with_quantity q r) env i cr (Some rid)). split; [|by split].
  unfold create_order_draft.
  rewrite (bind_step _ _ _ _ _ E0), (bind_step _ _ _ _ _ E1), (bind_step _ _ _ _ _ E2).
  rewrite (bind_step _ _ _ _ _ E3), (bind_step _ _ _ _ _ E4), (bind_step _ _ _ _ _ E5').
  cbv beta iota zeta. unfold write_records. rewrite if_false by done.
  erewrite bind_step by (erewrite bind_step by done; rewrite Hdb, Hf7; reflexivity). done.
Qed.
