(* ===== verification/AgentModels.v ===== *)
(** The durable artifacts of the capital agent ([capital_agent.py]): nine
    kinds of record with their pydantic constraints, their JSON form, and the
    view of the Capital World ([statecore/capital_world.py],
    [statecore/personal_finance_models.py]) the agent works against. *)
From S2P Require Import Prelude PyDecimal PyTime PyJson ReceiptIO.

(** ** The Capital World, as far as the agent reads it *)

Record Position := {
  pos_symbol : string;
  pos_quantity : dec;
  pos_market_value : option dec;
  pos_unit_price : option dec;
  pos_valuation_status : string;
}.

Record CapitalWorldTrust := {
  tr_status : string;
  tr_evidence_integrity : string;
  tr_completeness : string;
  tr_valuation_status : string;
  tr_blockers : list string;
}.

Record CapitalWorld := {
  world_id : string;
  basis_digest : string;
  trust : CapitalWorldTrust;
  positions : list Position;
}.

(** [not trust.blockers and trust.valuation_status == "admitted"] *)
Definition world_admitted (w : CapitalWorld) : bool :=
  match tr_blockers (trust w) with
  | [] => streq (tr_valuation_status (trust w)) "admitted"
  | _ => false
  end.

(** ** Literal types *)

Inductive MissionState := MissionActive | MissionPaused | MissionClosed.
Inductive DelegationState := DelegationActive | DelegationRevoked.
Inductive ExecutionState := ExecutionClaimed | ExecutionCompleted | ExecutionFailed.
Inductive EffectType := simulated_order.
Inductive OrderSide := SideBuy | SideSell.
Inductive OrderType := TypeMarket | TypeLimit.

#[export] Instance MissionState_eq_dec : EqDecision MissionState.
Proof. solve_decision. Defined.
#[export] Instance DelegationState_eq_dec : EqDecision DelegationState.
Proof. solve_decision. Defined.
#[export] Instance ExecutionState_eq_dec : EqDecision ExecutionState.
Proof. solve_decision. Defined.
#[export] Instance EffectType_eq_dec : EqDecision EffectType.
Proof. solve_decision. Defined.
#[export] Instance OrderSide_eq_dec : EqDecision OrderSide.
Proof. solve_decision. Defined.
#[export] Instance OrderType_eq_dec : EqDecision OrderType.
Proof. solve_decision. Defined.

Definition mission_state (s : MissionState) : string :=
  match s with MissionActive => "active" | MissionPaused => "paused" | MissionClosed => "closed" end.
Definition delegation_state (s : DelegationState) : string :=
  match s with DelegationActive => "active" | DelegationRevoked => "revoked" end.
Definition execution_state (s : ExecutionState) : string :=
  match s with
  | ExecutionClaimed => "claimed" | ExecutionCompleted => "completed" | ExecutionFailed => "failed"
  end.
Definition effect_type (e : EffectType) : string :=
  match e with simulated_order => "simulated_order" end.
Definition side_value (s : OrderSide) : string := match s with SideBuy => "buy" | SideSell => "sell" end.
Definition type_value (t : OrderType) : string :=
  match t with TypeMarket => "market" | TypeLimit => "limit" end.

(** ** Artifacts *)

Record PrincipalConstitution := {
  pc_constitution_id : string;
  pc_principal_id : string;
  pc_goals : list string;
  pc_liquidity_floor : dec;
  pc_max_simulated_notional : dec;
  pc_prohibited_effects : list string;
  pc_supersedes : option string;
  pc_created_at_utc : string;
}.

Record AgentMission := {
  am_mission_id : string;
  am_principal_id : string;
  am_agent_id : string;
  am_objective : string;
  am_success_conditions : list string;
  am_constitution_ref : string;
  am_current_world_id : string;
  am_current_world_basis_digest : string;
  am_state : MissionState;
  am_checkpoint_ref : option string;
  am_stop_reason : option string;
  am_created_at_utc : string;
  am_updated_at_utc : string;
  am_closed_at_utc : option string;
}.

Record BeliefArtifact := {
  bl_belief_id : string;
  bl_mission_id : string;
  bl_claim : string;
  bl_confidence : dec;
  bl_evidence_refs : list string;
  bl_counter_evidence_refs : list string;
  bl_review_condition : string;
  bl_created_at_utc : string;
}.

Record MissionCheckpoint := {
  mc_checkpoint_id : string;
  mc_mission_id : string;
  mc_world_id : string;
  mc_world_basis_digest : string;
  mc_belief_refs : list string;
  mc_effect_refs : list string;
  mc_note : string;
  mc_created_at_utc : string;
}.

Record DelegationEnvelope := {
  dg_delegation_id : string;
  dg_constitution_ref : string;
  dg_principal_id : string;
  dg_agent_id : string;
  dg_allowed_effects : list EffectType;
  dg_max_notional : dec;
  dg_max_uses : Z;
  dg_expires_at_utc : string;
  dg_state : DelegationState;
  dg_created_at_utc : string;
  dg_updated_at_utc : string;
  dg_revoked_at_utc : option string;
  dg_revoked_reason : option string;
}.

Record EffectIntent := {
  ei_effect_intent_id : string;
  ei_idempotency_key : string;
  ei_effect_type : EffectType;
  ei_mission_id : string;
  ei_delegation_id : string;
  ei_principal_id : string;
  ei_agent_id : string;
  ei_world_id : string;
  ei_world_basis_digest : string;
  ei_execution_account_id : string;
  ei_broker_connection_id : string;
  ei_instrument_ref : string;
  ei_symbol : string;
  ei_side : OrderSide;
  ei_order_type : OrderType;
  ei_quantity : dec;
  ei_reference_price : dec;
  ei_currency : string;
  ei_rationale : string;
  ei_created_at_utc : string;
}.

(** [EffectIntent.notional] *)
Definition notional (i : EffectIntent) : dec := dec_mul (ei_quantity i) (ei_reference_price i).

Record EffectAdmission := {
  ad_admission_id : string;
  ad_effect_intent_ref : string;
  ad_effect_intent_id : string;
  ad_mission_id : string;
  ad_delegation_id : string;
  ad_constitution_ref : string;
  ad_world_id : string;
  ad_world_basis_digest : string;
  ad_verified_reference_price : dec;
  ad_admitted_notional : dec;
  ad_created_at_utc : string;
}.

Record EffectExecutionRecord := {
  ex_execution_id : string;
  ex_effect_intent_ref : string;
  ex_admission_ref : string;
  ex_state : ExecutionState;
  ex_runtime_job_id : option string;
  ex_runtime_attempt_id : option string;
  ex_order_draft_id : option string;
  ex_execution_order_id : option string;
  ex_execution_report_id : option string;
  ex_position_delta_id : option string;
  ex_reconciliation_id : option string;
  ex_failure_reason : option string;
  ex_recovery_evidence_refs : list string;
  ex_created_at_utc : string;
  ex_updated_at_utc : string;
}.

Record ConsequenceRecord := {
  cq_consequence_id : string;
  cq_mission_id : string;
  cq_execution_ref : string;
  cq_world_before_id : string;
  cq_world_before_basis_digest : string;
  cq_world_after_id : string;
  cq_world_after_basis_digest : string;
  cq_expected_change : list (string * json);
  cq_observed_change : list (string * json);
  cq_discrepancies : list (list (string * json));
  cq_created_at_utc : string;
}.

(** ** UTC timestamps and text *)

(** [_parse_utc]: an ISO-8601 text with offset zero, as an instant *)
Definition _parse_utc (value name : string) : exn + Z :=
  match fromisoformat value with
  | None => inl (Exn ValueError (name +:+ " must be ISO-8601"))
  | Some (wall, Some offset) =>
      if (offset =? 0)%Z then inr (wall - offset)%Z
      else inl (Exn ValueError (name +:+ " must be UTC"))
  | Some (_, None) => inl (Exn ValueError (name +:+ " must be UTC"))
  end.

Definition _text (value name : string) : exn + string :=
  if streq (strip value) "" then inl (Exn ValueError (name +:+ " must not be blank"))
  else inr (strip value).

(** [tuple(_text(item, name) for item in items)] *)
Definition texts (items : list string) (name : string) : exn + list string :=
  traverse (λ item, _text item name) items.

(** [tuple(sorted(set(items)))] *)
Fixpoint insert_new (s : string) (l : list string) : list string :=
  match l with
  | [] => [s]
  | t :: l' =>
      match String.compare s t with
      | Lt => s :: l
      | Eq => l
      | Gt => t :: insert_new s l'
      end
  end.
Definition sorted_set (l : list string) : list string := foldr insert_new [] l.

(** ** The interface of an artifact kind

    [art_validate] is the pydantic validation of the model: the field
    constraints, and the normalized value (only an expiry is rewritten).
    [art_json] is [model_dump(mode="json", exclude={"content_sha256"})]. *)
Class Artifact (A : Type) := {
  art_name : string;
  art_dir : string;
  art_id : A → string;
  art_json : A → list (string * json);
  art_validate : A → exn + A;
  art_state : A → option string;
}.

Definition constrained {A} (a : A) (ok : bool) (msg : string) : exn + A :=
  if ok then inr a else inl (Exn ValueError msg).

#[export] Instance constitution_artifact : Artifact PrincipalConstitution := {|
  art_name := "PrincipalConstitution";
  art_dir := "constitutions";
  art_id := pc_constitution_id;
  art_json a :=
    [("schema_version", JStr "finharness.principal_constitution.v1");
     ("constitution_id", JStr (pc_constitution_id a)); ("principal_id", JStr (pc_principal_id a));
     ("goals", jstrs (pc_goals a)); ("liquidity_floor", jdec (pc_liquidity_floor a));
     ("max_simulated_notional", jdec (pc_max_simulated_notional a));
     ("prohibited_effects", jstrs (pc_prohibited_effects a));
     ("supersedes", jopt JStr (pc_supersedes a)); ("created_at_utc", JStr (pc_created_at_utc a))];
  art_validate a := constrained a
    (d_nonneg (pc_liquidity_floor a) && d_pos (pc_max_simulated_notional a))
    "liquidity_floor must be >= 0 and max_simulated_notional > 0";
  art_state _ := None;
|}.

#[export] Instance mission_artifact : Artifact AgentMission := {|
  art_name := "AgentMission";
  art_dir := "missions";
  art_id := am_mission_id;
  art_json a :=
    [("schema_version", JStr "finharness.agent_mission.v1");
     ("mission_id", JStr (am_mission_id a)); ("principal_id", JStr (am_principal_id a));
     ("agent_id", JStr (am_agent_id a)); ("objective", JStr (am_objective a));
     ("success_conditions", jstrs (am_success_conditions a));
     ("constitution_ref", JStr (am_constitution_ref a));
     ("current_world_id", JStr (am_current_world_id a));
     ("current_world_basis_digest", JStr (am_current_world_basis_digest a));
     ("state", JStr (mission_state (am_state a)));
     ("checkpoint_ref", jopt JStr (am_checkpoint_ref a));
     ("stop_reason", jopt JStr (am_stop_reason a));
     ("created_at_utc", JStr (am_created_at_utc a)); ("updated_at_utc", JStr (am_updated_at_utc a));
     ("closed_at_utc", jopt JStr (am_closed_at_utc a))];
  art_validate a := inr a;
  art_state a := Some (mission_state (am_state a));
|}.

#[export] Instance belief_artifact : Artifact BeliefArtifact := {|
  art_name := "BeliefArtifact";
  art_dir := "beliefs";
  art_id := bl_belief_id;
  art_json a :=
    [("schema_version", JStr "finharness.agent_belief.v1");
     ("belief_id", JStr (bl_belief_id a)); ("mission_id", JStr (bl_mission_id a));
     ("claim", JStr (bl_claim a)); ("confidence", jdec (bl_confidence a));
     ("evidence_refs", jstrs (bl_evidence_refs a));
     ("counter_evidence_refs", jstrs (bl_counter_evidence_refs a));
     ("review_condition", JStr (bl_review_condition a));
     ("created_at_utc", JStr (bl_created_at_utc a))];
  art_validate a := constrained a
    (d_nonneg (bl_confidence a) && dle (bl_confidence a) (dec_of_Z 1))
    "confidence must be between 0 and 1";
  art_state _ := None;
|}.

#[export] Instance checkpoint_artifact : Artifact MissionCheckpoint := {|
  art_name := "MissionCheckpoint";
  art_dir := "checkpoints";
  art_id := mc_checkpoint_id;
  art_json a :=
    [("schema_version", JStr "finharness.agent_mission_checkpoint.v1");
     ("checkpoint_id", JStr (mc_checkpoint_id a)); ("mission_id", JStr (mc_mission_id a));
     ("world_id", JStr (mc_world_id a)); ("world_basis_digest", JStr (mc_world_basis_digest a));
     ("belief_refs", jstrs (mc_belief_refs a)); ("effect_refs", jstrs (mc_effect_refs a));
     ("note", JStr (mc_note a)); ("created_at_utc", JStr (mc_created_at_utc a))];
  art_validate a := inr a;
  art_state _ := None;
|}.

(** [DelegationEnvelope.utc_expiry] rewrites the expiry to canonical form. *)
Definition set_expiry (value : string) (a : DelegationEnvelope) : DelegationEnvelope :=
  {| dg_delegation_id := dg_delegation_id a; dg_constitution_ref := dg_constitution_ref a;
     dg_principal_id := dg_principal_id a; dg_agent_id := dg_agent_id a;
     dg_allowed_effects := dg_allowed_effects a; dg_max_notional := dg_max_notional a;
     dg_max_uses := dg_max_uses a; dg_expires_at_utc := value; dg_state := dg_state a;
     dg_created_at_utc := dg_created_at_utc a; dg_updated_at_utc := dg_updated_at_utc a;
     dg_revoked_at_utc := dg_revoked_at_utc a; dg_revoked_reason := dg_revoked_reason a |}.
Definition validate_delegation (a : DelegationEnvelope) : exn + DelegationEnvelope :=
  match _parse_utc (dg_expires_at_utc a) "expires_at_utc" with
  | inl e => inl e
  | inr t => constrained (set_expiry (isoformat t) a)
               (d_pos (dg_max_notional a) && (0 <? dg_max_uses a)%Z)
               "max_notional and max_uses must be > 0"
  end.

#[export] Instance delegation_artifact : Artifact DelegationEnvelope := {|
  art_name := "DelegationEnvelope";
  art_dir := "delegations";
  art_id := dg_delegation_id;
  art_json a :=
    [("schema_version", JStr "finharness.delegation_envelope.v1");
     ("delegation_id", JStr (dg_delegation_id a)); ("constitution_ref", JStr (dg_constitution_ref a));
     ("principal_id", JStr (dg_principal_id a)); ("agent_id", JStr (dg_agent_id a));
     ("allowed_effects", jstrs (map effect_type (dg_allowed_effects a)));
     ("max_notional", jdec (dg_max_notional a)); ("max_uses", JInt (dg_max_uses a));
     ("expires_at_utc", JStr (dg_expires_at_utc a));
     ("state", JStr (delegation_state (dg_state a)));
     ("created_at_utc", JStr (dg_created_at_utc a)); ("updated_at_utc", JStr (dg_updated_at_utc a));
     ("revoked_at_utc", jopt JStr (dg_revoked_at_utc a));
     ("revoked_reason", jopt JStr (dg_revoked_reason a))];
  art_validate := validate_delegation;
  art_state a := Some (delegation_state (dg_state a));
|}.

#[export] Instance intent_artifact : Artifact EffectIntent := {|
  art_name := "EffectIntent";
  art_dir := "effect-intents";
  art_id := ei_effect_intent_id;
  art_json a :=
    [("schema_version", JStr "finharness.effect_intent.v1");
     ("effect_intent_id", JStr (ei_effect_intent_id a));
     ("idempotency_key", JStr (ei_idempotency_key a));
     ("effect_type", JStr (effect_type (ei_effect_type a)));
     ("mission_id", JStr (ei_mission_id a)); ("delegation_id", JStr (ei_delegation_id a));
     ("principal_id", JStr (ei_principal_id a)); ("agent_id", JStr (ei_agent_id a));
     ("world_id", JStr (ei_world_id a)); ("world_basis_digest", JStr (ei_world_basis_digest a));
     ("execution_account_id", JStr (ei_execution_account_id a));
     ("broker_connection_id", JStr (ei_broker_connection_id a));
     ("instrument_ref", JStr (ei_instrument_ref a)); ("symbol", JStr (ei_symbol a));
     ("side", JStr (side_value (ei_side a))); ("order_type", JStr (type_value (ei_order_type a)));
     ("quantity", jdec (ei_quantity a)); ("reference_price", jdec (ei_reference_price a));
     ("currency", JStr (ei_currency a)); ("rationale", JStr (ei_rationale a));
     ("created_at_utc", JStr (ei_created_at_utc a))];
  art_validate a := constrained a (d_pos (ei_quantity a) && d_pos (ei_reference_price a))
    "quantity and reference_price must be > 0";
  art_state _ := None;
|}.

#[export] Instance admission_artifact : Artifact EffectAdmission := {|
  art_name := "EffectAdmission";
  art_dir := "effect-admissions";
  art_id := ad_admission_id;
  art_json a :=
    [("schema_version", JStr "finharness.effect_admission.v1");
     ("admission_id", JStr (ad_admission_id a));
     ("effect_intent_ref", JStr (ad_effect_intent_ref a));
     ("effect_intent_id", JStr (ad_effect_intent_id a)); ("mission_id", JStr (ad_mission_id a));
     ("delegation_id", JStr (ad_delegation_id a)); ("constitution_ref", JStr (ad_constitution_ref a));
     ("world_id", JStr (ad_world_id a)); ("world_basis_digest", JStr (ad_world_basis_digest a));
     ("verified_reference_price", jdec (ad_verified_reference_price a));
     ("admitted_notional", jdec (ad_admitted_notional a));
     ("created_at_utc", JStr (ad_created_at_utc a))];
  art_validate a := constrained a (d_pos (ad_verified_reference_price a))
    "verified_reference_price must be > 0";
  art_state _ := None;
|}.

#[export] Instance execution_artifact : Artifact EffectExecutionRecord := {|
  art_name := "EffectExecutionRecord";
  art_dir := "effect-executions";
  art_id := ex_execution_id;
  art_json a :=
    [("schema_version", JStr "finharness.effect_execution.v1");
     ("execution_id", JStr (ex_execution_id a)); ("effect_intent_ref", JStr (ex_effect_intent_ref a));
     ("admission_ref", JStr (ex_admission_ref a)); ("state", JStr (execution_state (ex_state a)));
     ("runtime_job_id", jopt JStr (ex_runtime_job_id a));
     ("runtime_attempt_id", jopt JStr (ex_runtime_attempt_id a));
     ("order_draft_id", jopt JStr (ex_order_draft_id a));
     ("execution_order_id", jopt JStr (ex_execution_order_id a));
     ("execution_report_id", jopt JStr (ex_execution_report_id a));
     ("position_delta_id", jopt JStr (ex_position_delta_id a));
     ("reconciliation_id", jopt JStr (ex_reconciliation_id a));
     ("failure_reason", jopt JStr (ex_failure_reason a));
     ("recovery_evidence_refs", jstrs (ex_recovery_evidence_refs a));
     ("created_at_utc", JStr (ex_created_at_utc a)); ("updated_at_utc", JStr (ex_updated_at_utc a))];
  art_validate a := inr a;
  art_state a := Some (execution_state (ex_state a));
|}.

#[export] Instance consequence_artifact : Artifact ConsequenceRecord := {|
  art_name := "ConsequenceRecord";
  art_dir := "consequences";
  art_id := cq_consequence_id;
  art_json a :=
    [("schema_version", JStr "finharness.consequence_record.v1");
     ("consequence_id", JStr (cq_consequence_id a)); ("mission_id", JStr (cq_mission_id a));
     ("execution_ref", JStr (cq_execution_ref a)); ("world_before_id", JStr (cq_world_before_id a));
     ("world_before_basis_digest", JStr (cq_world_before_basis_digest a));
     ("world_after_id", JStr (cq_world_after_id a));
     ("world_after_basis_digest", JStr (cq_world_after_basis_digest a));
     ("expected_change", JObj (cq_expected_change a));
     ("observed_change", JObj (cq_observed_change a));
     ("discrepancies", JArr (map JObj (cq_discrepancies a)));
     ("created_at_utc", JStr (cq_created_at_utc a))];
  art_validate a := inr a;
  art_state _ := None;
|}.

(** ** Copies with changed fields ([model_copy(update=...)]) *)

Definition set_mission (state : MissionState) (world digest : string)
    (checkpoint stop_reason : option string) (updated : string) (closed : option string)
    (a : AgentMission) : AgentMission :=
  {| am_mission_id := am_mission_id a; am_principal_id := am_principal_id a;
     am_agent_id := am_agent_id a; am_objective := am_objective a;
     am_success_conditions := am_success_conditions a; am_constitution_ref := am_constitution_ref a;
     am_current_world_id := world; am_current_world_basis_digest := digest;
     am_state := state; am_checkpoint_ref := checkpoint; am_stop_reason := stop_reason;
     am_created_at_utc := am_created_at_utc a; am_updated_at_utc := updated;
     am_closed_at_utc := closed |}.

Definition set_revoked (at_utc reason : string) (a : DelegationEnvelope) : DelegationEnvelope :=
  {| dg_delegation_id := dg_delegation_id a; dg_constitution_ref := dg_constitution_ref a;
     dg_principal_id := dg_principal_id a; dg_agent_id := dg_agent_id a;
     dg_allowed_effects := dg_allowed_effects a; dg_max_notional := dg_max_notional a;
     dg_max_uses := dg_max_uses a; dg_expires_at_utc := dg_expires_at_utc a;
     dg_state := DelegationRevoked; dg_created_at_utc := dg_created_at_utc a;
     dg_updated_at_utc := at_utc; dg_revoked_at_utc := Some at_utc;
     dg_revoked_reason := Some reason |}.

Definition set_runtime (job : string) (attempt : option string) (updated : string)
    (a : EffectExecutionRecord) : EffectExecutionRecord :=
  {| ex_execution_id := ex_execution_id a; ex_effect_intent_ref := ex_effect_intent_ref a;
     ex_admission_ref := ex_admission_ref a; ex_state := ex_state a;
     ex_runtime_job_id := Some job; ex_runtime_attempt_id := attempt;
     ex_order_draft_id := ex_order_draft_id a; ex_execution_order_id := ex_execution_order_id a;
     ex_execution_report_id := ex_execution_report_id a;
     ex_position_delta_id := ex_position_delta_id a; ex_reconciliation_id := ex_reconciliation_id a;
     ex_failure_reason := ex_failure_reason a;
     ex_recovery_evidence_refs := ex_recovery_evidence_refs a;
     ex_created_at_utc := ex_created_at_utc a; ex_updated_at_utc := updated |}.

Definition set_reconciled (state : ExecutionState) (failure : option string) (evidence : list string)
    (updated : string) (a : EffectExecutionRecord) : EffectExecutionRecord :=
  {| ex_execution_id := ex_execution_id a; ex_effect_intent_ref := ex_effect_intent_ref a;
     ex_admission_ref := ex_admission_ref a; ex_state := state;
     ex_runtime_job_id := ex_runtime_job_id a; ex_runtime_attempt_id := ex_runtime_attempt_id a;
     ex_order_draft_id := ex_order_draft_id a; ex_execution_order_id := ex_execution_order_id a;
     ex_execution_report_id := ex_execution_report_id a;
     ex_position_delta_id := ex_position_delta_id a; ex_reconciliation_id := ex_reconciliation_id a;
     ex_failure_reason := failure; ex_recovery_evidence_refs := evidence;
     ex_created_at_utc := ex_created_at_utc a; ex_updated_at_utc := updated |}.

Definition set_completed (draft order report delta reconciliation updated : string)
    (a : EffectExecutionRecord) : EffectExecutionRecord :=
  {| ex_execution_id := ex_execution_id a; ex_effect_intent_ref := ex_effect_intent_ref a;
     ex_admission_ref := ex_admission_ref a; ex_state := ExecutionCompleted;
     ex_runtime_job_id := ex_runtime_job_id a; ex_runtime_attempt_id := ex_runtime_attempt_id a;
     ex_order_draft_id := Some draft; ex_execution_order_id := Some order;
     ex_execution_report_id := Some report; ex_position_delta_id := Some delta;
     ex_reconciliation_id := Some reconciliation; ex_failure_reason := ex_failure_reason a;
     ex_recovery_evidence_refs := ex_recovery_evidence_refs a;
     ex_created_at_utc := ex_created_at_utc a; ex_updated_at_utc := updated |}.
