(* ===== verification/AgentStore.v ===== *)
(** The artifact store of the capital agent and its operations
    ([capital_agent.py], class [CapitalAgentStore]). *)
From S2P Require Import Prelude PyDecimal PyTime PyJson ReceiptIO ExecutionModels ExecutionServices ExecutionCommands AgentModels.

(** ** Sealed artifacts and the directories that hold them *)

(** An artifact with its [content_sha256]. *)
Record sealed (A : Type) := Sealed { body : A; content_sha256 : string }.
Arguments Sealed {_} _ _.
Arguments body {_} _.
Arguments content_sha256 {_} _.

#[export] Instance sealed_payload `{Artifact A} : Payload (sealed A) := {|
  claimed_sha s := Some (content_sha256 s);
  unhashed s := JObj (art_json (body s));
  payload_state s := art_state (body s);
|}.

(** A directory: the files [<id>.json] by [id].  A file that is not JSON of
    the artifact's schema is [Unreadable]. *)
Abbreviation directory A := (gmap string (slot (sealed A))).

Record agent_store := Store {
  f_constitutions : directory PrincipalConstitution;
  f_missions : directory AgentMission;
  f_beliefs : directory BeliefArtifact;
  f_checkpoints : directory MissionCheckpoint;
  f_delegations : directory DelegationEnvelope;
  f_intents : directory EffectIntent;
  f_admissions : directory EffectAdmission;
  f_executions : directory EffectExecutionRecord;
  f_consequences : directory ConsequenceRecord;
}.
Definition empty_store : agent_store := Store ∅ ∅ ∅ ∅ ∅ ∅ ∅ ∅ ∅.

(** Which directory holds a kind of artifact ([_DIR]). *)
Class Stored (A : Type) `{Artifact A} := {
  files : agent_store → directory A;
  set_files : directory A → agent_store → agent_store;
}.
#[export] Instance stored_constitutions : Stored PrincipalConstitution := {|
  files := f_constitutions;
  set_files m '(Store _ mi be ch de it ad ex co) := Store m mi be ch de it ad ex co |}.
#[export] Instance stored_missions : Stored AgentMission := {|
  files := f_missions;
  set_files m '(Store pc _ be ch de it ad ex co) := Store pc m be ch de it ad ex co |}.
#[export] Instance stored_beliefs : Stored BeliefArtifact := {|
  files := f_beliefs;
  set_files m '(Store pc mi _ ch de it ad ex co) := Store pc mi m ch de it ad ex co |}.
#[export] Instance stored_checkpoints : Stored MissionCheckpoint := {|
  files := f_checkpoints;
  set_files m '(Store pc mi be _ de it ad ex co) := Store pc mi be m de it ad ex co |}.
#[export] Instance stored_delegations : Stored DelegationEnvelope := {|
  files := f_delegations;
  set_files m '(Store pc mi be ch _ it ad ex co) := Store pc mi be ch m it ad ex co |}.
#[export] Instance stored_intents : Stored EffectIntent := {|
  files := f_intents;
  set_files m '(Store pc mi be ch de _ ad ex co) := Store pc mi be ch de m ad ex co |}.
#[export] Instance stored_admissions : Stored EffectAdmission := {|
  files := f_admissions;
  set_files m '(Store pc mi be ch de it _ ex co) := Store pc mi be ch de it m ex co |}.
#[export] Instance stored_executions : Stored EffectExecutionRecord := {|
  files := f_executions;
  set_files m '(Store pc mi be ch de it ad _ co) := Store pc mi be ch de it ad m co |}.
#[export] Instance stored_consequences : Stored ConsequenceRecord := {|
  files := f_consequences;
  set_files m '(Store pc mi be ch de it ad ex _) := Store pc mi be ch de it ad ex m |}.

(** The agent's world: its artifact directories, and the execution kernel
    with the clock it shares. *)
Record agent_state := Agent { a_store : agent_store; a_kernel : kernel_state }.
Definition with_store (s : agent_store) (a : agent_state) : agent_state := Agent s (a_kernel a).
Definition with_kernel (k : kernel_state) (a : agent_state) : agent_state := Agent (a_store a) k.
Definition on_kernel {A} (m : M kernel_state A) : M agent_state A := zoom a_kernel with_kernel m.
Definition on_files {A B} `{Stored A} (m : M (directory A) B) : M agent_state B :=
  zoom (λ a, files (a_store a)) (λ d a, with_store (set_files d (a_store a)) a) m.

(** ** Helpers *)

(** A keyword argument that is used when it is neither [None] nor [""]. *)
Definition truthy (o : option string) : option string :=
  match o with Some s => if streq s "" then None else Some s | None => None end.

(** [Path(ref).stem] *)
Fixpoint last_dot (i : nat) (l : list ascii) (best : option nat) : option nat :=
  match l with
  | [] => best
  | c :: l' => last_dot (S i) l' (if Ascii.eqb c "."%char then Some i else best)
  end.
Definition path_name (ref : string) : string :=
  List.last (List.filter (λ c, negb (streq c "") && negb (streq c ".")) (split_on slash ref)) "".
Definition path_stem (ref : string) : string :=
  let n := chars (path_name ref) in
  match last_dot 0 n None with
  | Some i => if (0 <? i) && (i <? List.length n - 1) then of_chars (take i n) else of_chars n
  | None => of_chars n
  end.

(** [_verified_position_basis]: the quantity and the price of the one position
    of the world that carries the intent's symbol *)
Definition position_price (p : Position) : option dec :=
  match pos_unit_price p with
  | Some u => Some u
  | None =>
      match pos_market_value p with
      | Some mv => if negb (deq (pos_quantity p) dzero) then Some (dec_div mv (pos_quantity p)) else None
      | None => None
      end
  end.
Definition denied {A} (msg : string) : exn + A := inl (Exn EffectAdmissionDenied msg).
Definition _verified_position_basis (intent : EffectIntent) (world : CapitalWorld)
    : exn + dec * dec :=
  match List.filter (λ p, streq (upper (strip (pos_symbol p))) (upper (strip (ei_symbol intent))))
          (positions world) with
  | [p] =>
      if negb (mem (pos_valuation_status p) ["valued"; "valued_converted"])
      then denied "world_position_not_valued"
      else
        match position_price p with
        | None => denied "world_reference_price_unavailable"
        | Some price =>
            if dle price dzero then denied "world_reference_price_unavailable"
            else if bool_decide (ei_side intent = SideSell) && dlt (pos_quantity p) (ei_quantity intent)
            then denied "insufficient_world_position"
            else inr (pos_quantity p, price)
        end
  | _ => denied "world_position_not_uniquely_resolved"
  end.

Section Agent.
Context `{PyEnv} `{Database}.
Context (root : string) (reg : registry).

Definition _now : M agent_state string := on_kernel (on_sys now_utc).
Definition _instant : M agent_state Z := on_kernel (on_sys now).

Definition _id (prefix : string) : M agent_state string :=
  u ← on_kernel (on_sys uuid4); mret (prefix +:+ "_" +:+ u).

Definition _stable_id (prefix : string) (material : list (string * json)) : string :=
  prefix +:+ "_" +:+ take_str 32 (canonical_json_sha256 (JObj material)).

(** [_text(x, name) if x else _id(prefix)] *)
Definition given_id (x : option string) (name prefix : string) : M agent_state string :=
  match truthy x with Some s => of_sum (_text s name) | None => _id prefix end.
(** [_parse_utc(x, name).isoformat() if x else _now()] *)
Definition given_time (x : option string) (name : string) : M agent_state string :=
  match truthy x with
  | Some s => t ← of_sum (_parse_utc s name); mret (isoformat t)
  | None => _now
  end.

(** ** Sealing, reading, creating and replacing artifacts *)

Section Generic.
Context {A : Type} `{Stored A}.

Definition _path (artifact_id : string) : string :=
  root +:+ "/" +:+ art_dir (A := A) +:+ "/" +:+ artifact_id +:+ ".json".
Definition ref (artifact_id : string) : string :=
  art_dir (A := A) +:+ "/" +:+ artifact_id +:+ ".json".

Definition _seal (model : A) : exn + sealed A :=
  let digest := canonical_json_sha256 (JObj (art_json model)) in
  match art_validate model with
  | inl e => inl e
  | inr model' => inr (Sealed model' digest)
  end.

Definition _verify (payload : sealed A) : exn + sealed A :=
  if negb (streq (content_sha256 payload) (canonical_json_sha256 (JObj (art_json (body payload)))))
  then inl (Exn ReceiptIntegrityError (art_name (A := A) +:+ " content hash mismatch"))
  else match art_validate (body payload) with
       | inl e => inl e
       | inr model => inr (Sealed model (content_sha256 payload))
       end.

Definition _read (artifact_id : string) : M agent_state (sealed A) :=
  o ← on_files (gets (λ d : directory A, d !! artifact_id));
  match o with
  | None => raise CapitalAgentNotFoundError (_path artifact_id)
  | Some Unreadable => raise ReceiptIntegrityError ("artifact unreadable: " +:+ _path artifact_id)
  | Some (Readable payload) => of_sum (_verify payload)
  end.

(** [self._path(...).exists()] *)
Definition exists_file (artifact_id : string) : M agent_state bool :=
  on_files (gets (λ d : directory A, has d artifact_id)).

(** [existing == sealed]: the same hash and the same fields.  Decimals that
    are equal but written differently have different hashes, so comparing the
    canonical JSON decides the same. *)
Definition same_artifact (s t : sealed A) : bool :=
  streq (content_sha256 s) (content_sha256 t) &&
  streq (json_canonical (JObj (art_json (body s)))) (json_canonical (JObj (art_json (body t)))).

Definition _create (model : A) (artifact_id : string) : M agent_state (sealed A) :=
  s ← of_sum (_seal model);
  created ← on_files (durable_create_json_exclusive artifact_id s);
  if created : bool then mret s
  else
    existing ← _read artifact_id;
    if same_artifact existing s then mret existing
    else raise CapitalAgentConflictError ("immutable artifact conflict: " +:+ _path artifact_id).

Definition _transition (current : sealed A) (artifact_id expected : string) (update : A → A)
    : M agent_state (sealed A) :=
  require (bool_decide (art_state (body current) = Some expected)) CapitalAgentConflictError
    ("expected " +:+ expected +:+ ", got " +:+ from_option id "None" (art_state (body current))) ;;
  replacement ← of_sum (_seal (update (body current)));
  swapped ← on_files (durable_compare_and_swap_json artifact_id (content_sha256 current) expected
                        replacement);
  if swapped : bool then mret replacement
  else raise CapitalAgentConflictError ("concurrent transition: " +:+ artifact_id).
End Generic.
Arguments _path _ {_} _.
Arguments ref _ {_} _.
Arguments _read _ {_ _} _.
Arguments exists_file _ {_ _} _.

(** Construct a model: pydantic validates it. *)
Definition build {A} `{Artifact A} (a : A) : M agent_state A := of_sum (art_validate a).

(** ** Constitution *)

Definition create_constitution (principal_id : string) (goals : list string)
    (liquidity_floor max_simulated_notional : dec) (prohibited_effects : list string)
    (supersedes constitution_id created_at_utc : option string)
    : M agent_state (sealed PrincipalConstitution) :=
  i ← given_id constitution_id "constitution_id" "constitution";
  principal ← of_sum (_text principal_id "principal_id");
  goals ← of_sum (texts goals "goal");
  created ← given_time created_at_utc "created_at_utc";
  constitution ← build
    {| pc_constitution_id := i; pc_principal_id := principal; pc_goals := goals;
       pc_liquidity_floor := liquidity_floor; pc_max_simulated_notional := max_simulated_notional;
       pc_prohibited_effects := sorted_set prohibited_effects; pc_supersedes := supersedes;
       pc_created_at_utc := created |};
  _create constitution (pc_constitution_id constitution).

Definition read_constitution : string → M agent_state (sealed PrincipalConstitution) :=
  _read PrincipalConstitution.

(** ** Missions *)

Definition create_mission (principal_id agent_id objective : string)
    (success_conditions : list string) (constitution_id : string) (world : CapitalWorld)
    (mission_id created_at_utc : option string) : M agent_state (sealed AgentMission) :=
  constitution ← read_constitution constitution_id;
  require (streq (pc_principal_id (body constitution)) principal_id) CapitalAgentConflictError
    "constitution principal mismatch" ;;
  now ← given_time created_at_utc "created_at_utc";
  i ← given_id mission_id "mission_id" "mission";
  principal ← of_sum (_text principal_id "principal_id");
  agent ← of_sum (_text agent_id "agent_id");
  objective ← of_sum (_text objective "objective");
  conditions ← of_sum (texts success_conditions "success_condition");
  mission ← build
    {| am_mission_id := i; am_principal_id := principal; am_agent_id := agent;
       am_objective := objective; am_success_conditions := conditions;
       am_constitution_ref := ref PrincipalConstitution constitution_id;
       am_current_world_id := world_id world; am_current_world_basis_digest := basis_digest world;
       am_state := MissionActive; am_checkpoint_ref := None; am_stop_reason := None;
       am_created_at_utc := now; am_updated_at_utc := now; am_closed_at_utc := None |};
  _create mission (am_mission_id mission).

Definition read_mission : string → M agent_state (sealed AgentMission) := _read AgentMission.

(** The files of a directory in the order of [sorted(directory.glob("*.json"))] *)
Definition name_le (a b : string) : Prop := String.leb (a +:+ ".json") (b +:+ ".json") = true.
#[export] Instance name_le_dec a b : Decision (name_le a b) := decide (_ = true).
Definition json_names {A} (d : directory A) : list string :=
  merge_sort name_le (map_to_list d).*1.

Fixpoint read_all (ids : list string) : M agent_state (list (sealed AgentMission)) :=
  match ids with
  | [] => mret []
  | i :: ids' => m ← read_mission i; ms ← read_all ids'; mret (m :: ms)
  end.

Definition list_missions (principal_id : option string) : M agent_state (list (sealed AgentMission)) :=
  ids ← on_files (gets (λ d : directory AgentMission, json_names d));
  missions ← read_all ids;
  mret match principal_id with
       | None => missions
       | Some p => List.filter (λ m, streq (am_principal_id (body m)) p) missions
       end.

Definition pause_mission (mission_id reason : string) : M agent_state (sealed AgentMission) :=
  mission ← read_mission mission_id;
  reason ← of_sum (_text reason "reason");
  now ← _now;
  _transition mission mission_id "active" (λ a,
    set_mission MissionPaused (am_current_world_id a) (am_current_world_basis_digest a)
      (am_checkpoint_ref a) (Some reason) now (am_closed_at_utc a) a).

Definition resume_mission (mission_id : string) (world : CapitalWorld)
    : M agent_state (sealed AgentMission) :=
  mission ← read_mission mission_id;
  now ← _now;
  _transition mission mission_id "paused" (λ a,
    set_mission MissionActive (world_id world) (basis_digest world)
      (am_checkpoint_ref a) None now (am_closed_at_utc a) a).

Definition close_mission (mission_id reason : string) : M agent_state (sealed AgentMission) :=
  mission ← read_mission mission_id;
  require (bool_decide (am_state (body mission) ≠ MissionClosed)) CapitalAgentConflictError
    "mission is already closed" ;;
  now ← _now;
  reason ← of_sum (_text reason "reason");
  _transition mission mission_id (mission_state (am_state (body mission))) (λ a,
    set_mission MissionClosed (am_current_world_id a) (am_current_world_basis_digest a)
      (am_checkpoint_ref a) (Some reason) now (Some now) a).

(** ** Beliefs and checkpoints *)

Definition read_belief : string → M agent_state (sealed BeliefArtifact) := _read BeliefArtifact.

Definition create_belief (mission_id claim : string) (confidence : dec) (review_condition : string)
    (evidence_refs counter_evidence_refs : list string) (belief_id created_at_utc : option string)
    : M agent_state (sealed BeliefArtifact) :=
  read_mission mission_id ;;
  i ← given_id belief_id "belief_id" "belief";
  claim ← of_sum (_text claim "claim");
  condition ← of_sum (_text review_condition "review_condition");
  created ← given_time created_at_utc "created_at_utc";
  belief ← build
    {| bl_belief_id := i; bl_mission_id := mission_id; bl_claim := claim;
       bl_confidence := confidence; bl_evidence_refs := evidence_refs;
       bl_counter_evidence_refs := counter_evidence_refs; bl_review_condition := condition;
       bl_created_at_utc := created |};
  _create belief (bl_belief_id belief).

Definition read_checkpoint : string → M agent_state (sealed MissionCheckpoint) :=
  _read MissionCheckpoint.

Definition checkpoint_mission (mission_id : string) (world : CapitalWorld)
    (belief_refs effect_refs : list string) (note : string)
    (checkpoint_id created_at_utc : option string)
    : M agent_state (sealed AgentMission * sealed MissionCheckpoint) :=
  mission ← read_mission mission_id;
  require (bool_decide (am_state (body mission) ≠ MissionClosed)) CapitalAgentConflictError
    "closed mission cannot checkpoint" ;;
  i ← given_id checkpoint_id "checkpoint_id" "checkpoint";
  note ← of_sum (_text note "note");
  created ← given_time created_at_utc "created_at_utc";
  checkpoint ← build
    {| mc_checkpoint_id := i; mc_mission_id := mission_id; mc_world_id := world_id world;
       mc_world_basis_digest := basis_digest world; mc_belief_refs := belief_refs;
       mc_effect_refs := effect_refs; mc_note := note; mc_created_at_utc := created |};
  checkpoint ← _create checkpoint (mc_checkpoint_id checkpoint);
  updated_at ← given_time created_at_utc "created_at_utc";
  updated ← _transition mission mission_id (mission_state (am_state (body mission))) (λ a,
    set_mission (am_state a) (world_id world) (basis_digest world)
      (Some (ref MissionCheckpoint (mc_checkpoint_id (body checkpoint))))
      (am_stop_reason a) updated_at (am_closed_at_utc a) a);
  mret (updated, checkpoint).

(** ** Delegations *)

Definition create_delegation (constitution_id principal_id agent_id : string) (max_notional : dec)
    (max_uses : Z) (expires_at_utc : string) (delegation_id created_at_utc : option string)
    : M agent_state (sealed DelegationEnvelope) :=
  constitution ← read_constitution constitution_id;
  require (streq (pc_principal_id (body constitution)) principal_id) CapitalAgentConflictError
    "constitution principal mismatch" ;;
  require (dle max_notional (pc_max_simulated_notional (body constitution)))
    CapitalAgentConflictError "delegation exceeds constitution notional" ;;
  now ← given_time created_at_utc "created_at_utc";
  expires ← of_sum (_parse_utc expires_at_utc "expires_at_utc");
  created ← of_sum (_parse_utc now "created_at_utc");
  require (created <? expires)%Z ValueError "delegation expiry must be in the future" ;;
  i ← given_id delegation_id "delegation_id" "delegation";
  principal ← of_sum (_text principal_id "principal_id");
  agent ← of_sum (_text agent_id "agent_id");
  delegation ← build
    {| dg_delegation_id := i; dg_constitution_ref := ref PrincipalConstitution constitution_id;
       dg_principal_id := principal; dg_agent_id := agent; dg_allowed_effects := [simulated_order];
       dg_max_notional := max_notional; dg_max_uses := max_uses;
       dg_expires_at_utc := expires_at_utc; dg_state := DelegationActive;
       dg_created_at_utc := now; dg_updated_at_utc := now; dg_revoked_at_utc := None;
       dg_revoked_reason := None |};
  _create delegation (dg_delegation_id delegation).

Definition read_delegation : string → M agent_state (sealed DelegationEnvelope) :=
  _read DelegationEnvelope.

Definition revoke_delegation (delegation_id reason : string)
    : M agent_state (sealed DelegationEnvelope) :=
  delegation ← read_delegation delegation_id;
  now ← _now;
  reason ← of_sum (_text reason "reason");
  _transition delegation delegation_id "active" (set_revoked now reason).

(** ** Effect intents *)

(** The arguments of [create_effect_intent]. *)
Record IntentRequest := {
  ir_mission_id : string;
  ir_delegation_id : string;
  ir_idempotency_key : string;
  ir_execution_account_id : string;
  ir_broker_connection_id : string;
  ir_instrument_ref : string;
  ir_symbol : string;
  ir_side : OrderSide;
  ir_order_type : OrderType;
  ir_quantity : dec;
  ir_reference_price : dec;
  ir_rationale : string;
}.

Definition intent_id_of (mission_id key : string) : string :=
  _stable_id "effect" [("mission_id", JStr mission_id); ("idempotency_key", JStr key)].

(** The dictionary [semantic] of a request, and [actual] of a stored intent *)
Definition semantic_of (r : IntentRequest) (key : string) : list string :=
  [ir_mission_id r; ir_delegation_id r; key; ir_execution_account_id r; ir_broker_connection_id r;
   ir_instrument_ref r; ir_symbol r; side_value (ir_side r); type_value (ir_order_type r);
   dec_str (ir_quantity r); dec_str (ir_reference_price r); ir_rationale r].
Definition actual_of (i : EffectIntent) : list string :=
  [ei_mission_id i; ei_delegation_id i; ei_idempotency_key i; ei_execution_account_id i;
   ei_broker_connection_id i; ei_instrument_ref i; ei_symbol i; side_value (ei_side i);
   type_value (ei_order_type i); dec_str (ei_quantity i); dec_str (ei_reference_price i);
   ei_rationale i].

Definition create_effect_intent (r : IntentRequest) : M agent_state (sealed EffectIntent) :=
  mission ← read_mission (ir_mission_id r);
  delegation ← read_delegation (ir_delegation_id r);
  key ← of_sum (_text (ir_idempotency_key r) "idempotency_key");
  let intent_id := intent_id_of (ir_mission_id r) key in
  present ← exists_file EffectIntent intent_id;
  if present : bool then
    existing ← _read EffectIntent intent_id;
    require (bool_decide (actual_of (body existing) = semantic_of r key)) CapitalAgentConflictError
      "idempotency key reused with different intent" ;;
    mret existing
  else
    require (streq (dg_principal_id (body delegation)) (am_principal_id (body mission)) &&
             streq (dg_agent_id (body delegation)) (am_agent_id (body mission)))
      CapitalAgentConflictError "mission and delegation identity mismatch" ;;
    account ← of_sum (_text (ir_execution_account_id r) "execution_account_id");
    broker ← of_sum (_text (ir_broker_connection_id r) "broker_connection_id");
    instrument ← of_sum (_text (ir_instrument_ref r) "instrument_ref");
    symbol ← of_sum (_text (ir_symbol r) "symbol");
    rationale ← of_sum (_text (ir_rationale r) "rationale");
    created ← _now;
    intent ← build
      {| ei_effect_intent_id := intent_id; ei_idempotency_key := key;
         ei_effect_type := simulated_order; ei_mission_id := ir_mission_id r;
         ei_delegation_id := ir_delegation_id r;
         ei_principal_id := am_principal_id (body mission);
         ei_agent_id := am_agent_id (body mission);
         ei_world_id := am_current_world_id (body mission);
         ei_world_basis_digest := am_current_world_basis_digest (body mission);
         ei_execution_account_id := account; ei_broker_connection_id := broker;
         ei_instrument_ref := instrument; ei_symbol := symbol; ei_side := ir_side r;
         ei_order_type := ir_order_type r; ei_quantity := ir_quantity r;
         ei_reference_price := ir_reference_price r; ei_currency := "USD";
         ei_rationale := rationale; ei_created_at_utc := created |};
    _create intent intent_id.

Definition read_effect_intent : string → M agent_state (sealed EffectIntent) := _read EffectIntent.
Definition read_effect_admission : string → M agent_state (sealed EffectAdmission) :=
  _read EffectAdmission.

(** ** Admission *)

(** [_admission_count]: every file of the directory is read and verified; the
    number does not depend on the order in which the directory is listed. *)
Fixpoint count_admissions (delegation_id : string) (ids : list string) : M agent_state Z :=
  match ids with
  | [] => mret 0%Z
  | i :: ids' =>
      a ← read_effect_admission i;
      n ← count_admissions delegation_id ids';
      mret ((if streq (ad_delegation_id (body a)) delegation_id then 1 else 0) + n)%Z
  end.
Definition _admission_count (delegation_id : string) : M agent_state Z :=
  ids ← on_files (gets (λ d : directory EffectAdmission, (map_to_list d).*1));
  count_admissions delegation_id ids.

Definition admission_id_of (effect_intent_id : string) : string :=
  _stable_id "admission" [("effect_intent_id", JStr effect_intent_id)].

(** [if refused: reasons.append(reason)] *)
Definition reason_if (refused : bool) (reason : string) : list string :=
  if refused then [reason] else [].

(** The [reasons] of [admit_effect] that do not depend on the price, and the
    outcome of the price lookup. *)
Definition admission_reasons (intent : EffectIntent) (mission : AgentMission)
    (delegation : DelegationEnvelope) (constitution : PrincipalConstitution) (world : CapitalWorld)
    (expires now : Z) : list string :=
  reason_if (bool_decide (am_state mission ≠ MissionActive)) "mission_not_active" ++
  reason_if (bool_decide (dg_state delegation ≠ DelegationActive)) "delegation_not_active" ++
  reason_if (expires <=? now)%Z "delegation_expired" ++
  reason_if (negb (streq (ei_principal_id intent) (dg_principal_id delegation)) ||
             negb (streq (ei_agent_id intent) (dg_agent_id delegation))) "identity_mismatch" ++
  reason_if (negb (streq (ei_world_id intent) (world_id world)) ||
             negb (streq (ei_world_basis_digest intent) (basis_digest world))) "stale_world" ++
  reason_if (negb (world_admitted world)) "world_not_admitted_for_valuation" ++
  reason_if (bool_decide (ei_effect_type intent ∉ dg_allowed_effects delegation))
    "effect_outside_delegation" ++
  reason_if (mem (effect_type (ei_effect_type intent)) (pc_prohibited_effects constitution))
    "effect_prohibited_by_constitution".

(** Everything [admit_effect] does before it creates the file: the admission
    that is already there, or the one to create. *)
Definition admit_check (effect_intent_id : string) (current_world : CapitalWorld)
    : M agent_state (sealed EffectAdmission + EffectAdmission) :=
  intent ← read_effect_intent effect_intent_id;
  let intent := body intent in
  let admission_id := admission_id_of effect_intent_id in
  present ← exists_file EffectAdmission admission_id;
  if present : bool then existing ← read_effect_admission admission_id; mret (inl existing)
  else
    mission ← read_mission (ei_mission_id intent);
    delegation ← read_delegation (ei_delegation_id intent);
    let delegation := body delegation in
    constitution ← read_constitution (path_stem (dg_constitution_ref delegation));
    let constitution := body constitution in
    expires ← of_sum (_parse_utc (dg_expires_at_utc delegation) "expires_at_utc");
    now ← _instant;
    let reasons := admission_reasons intent (body mission) delegation constitution current_world
                     expires now in
    let basis := _verified_position_basis intent current_world in
    let reasons := reasons ++ match basis with inl e => [exn_msg e] | inr _ => [] end in
    let verified_price := match basis with inr (_, p) => Some p | inl _ => None end in
    let admitted_notional :=
      match verified_price with
      | Some p => dec_mul (ei_quantity intent) p
      | None => notional intent
      end in
    let reasons := reasons ++
      reason_if (dlt (dg_max_notional delegation) admitted_notional ||
                 dlt (pc_max_simulated_notional constitution) admitted_notional)
        "notional_exceeds_limit" in
    used ← _admission_count (dg_delegation_id delegation);
    let reasons := reasons ++
      reason_if (dg_max_uses delegation <=? used)%Z "delegation_use_limit_reached" in
    require (match reasons with [] => true | _ => false end) EffectAdmissionDenied
      (join "," reasons) ;;
    price ← of_option verified_price EffectAdmissionDenied "world_reference_price_unavailable";
    created ← _now;
    admission ← build
      {| ad_admission_id := admission_id; ad_effect_intent_ref := ref EffectIntent effect_intent_id;
         ad_effect_intent_id := effect_intent_id; ad_mission_id := ei_mission_id intent;
         ad_delegation_id := dg_delegation_id delegation;
         ad_constitution_ref := dg_constitution_ref delegation;
         ad_world_id := world_id current_world;
         ad_world_basis_digest := basis_digest current_world;
         ad_verified_reference_price := price; ad_admitted_notional := admitted_notional;
         ad_created_at_utc := created |};
    mret (inr admission).

Definition admit_effect (effect_intent_id : string) (current_world : CapitalWorld)
    : M agent_state (sealed EffectAdmission) :=
  checked ← admit_check effect_intent_id current_world;
  match checked with
  | inl existing => mret existing
  | inr admission => _create admission (admission_id_of effect_intent_id)
  end.

(** ** Execution *)

Definition execution_id_of (effect_intent_id : string) : string :=
  _stable_id "effect_execution" [("effect_intent_id", JStr effect_intent_id)].
Definition recovery_message (execution_ref detail : string) : string :=
  detail +:+ "; reconcile " +:+ execution_ref.

(** What [execute_simulated_effect] checks before it looks for an earlier
    execution: the intent, the admission, the delegation's id and the position
    quantity before the effect. *)
Definition execution_preconditions (effect_intent_id admission_id : string)
    (current_world : CapitalWorld) : M agent_state (EffectIntent * EffectAdmission * string * dec) :=
  intent ← read_effect_intent effect_intent_id;
  admission ← read_effect_admission admission_id;
  let intent := body intent in
  let admission := body admission in
  require (streq (ad_effect_intent_id admission) effect_intent_id) CapitalAgentConflictError
    "admission does not bind intent" ;;
  require (streq (ad_world_id admission) (world_id current_world) &&
           streq (ad_world_basis_digest admission) (basis_digest current_world))
    EffectAdmissionDenied "admission_world_is_stale" ;;
  require (world_admitted current_world) EffectAdmissionDenied
    "current_world_not_admitted_for_valuation" ;;
  mission ← read_mission (ei_mission_id intent);
  delegation ← read_delegation (ei_delegation_id intent);
  require (bool_decide (am_state (body mission) = MissionActive) &&
           bool_decide (dg_state (body delegation) = DelegationActive))
    EffectAdmissionDenied "mission_or_delegation_not_active" ;;
  expires ← of_sum (_parse_utc (dg_expires_at_utc (body delegation)) "expires_at_utc");
  now ← _instant;
  require (now <? expires)%Z EffectAdmissionDenied "delegation_expired" ;;
  '(before, price) ← of_sum (_verified_position_basis intent current_world);
  require (deq (ad_verified_reference_price admission) price &&
           deq (ad_admitted_notional admission) (dec_mul (ei_quantity intent) price))
    EffectAdmissionDenied "admission_price_basis_changed" ;;
  mret (intent, admission, dg_delegation_id (body delegation), before).

(** The calls into the execution kernel, inside the [try]. *)
Definition draft_request (intent : EffectIntent) (admission : EffectAdmission) : DraftRequest :=
  {| dr_execution_account_id := ei_execution_account_id intent;
     dr_instrument_ref := ei_instrument_ref intent; dr_symbol := ei_symbol intent;
     dr_side := side_value (ei_side intent); dr_order_type := type_value (ei_order_type intent);
     dr_quantity := ei_quantity intent; dr_rationale := ei_rationale intent;
     dr_environment := "paper"; dr_time_in_force := "day";
     dr_limit_price := match ei_order_type intent with
                       | TypeLimit => Some (ei_reference_price intent)
                       | TypeMarket => None
                       end;
     dr_stop_price := None; dr_proposal_id := None; dr_source_kind := "capital_agent_effect";
     dr_source_ref := ad_effect_intent_ref admission |}.

Definition signed_fill (side : OrderSide) (filled : dec) : dec :=
  match side with SideBuy => filled | SideSell => dec_neg filled end.

Record EffectTrail := {
  et_draft : OrderDraft;
  et_order : ExecutionOrder;
  et_report : ExecutionReport;
  et_delta : PositionDelta;
  et_reconciliation : ReconciliationReport;
}.

Definition perform_effect (receipt_root : string) (intent : EffectIntent)
    (admission : EffectAdmission) (delegation_id : string) (position_quantity_before : dec)
    : M kernel_state EffectTrail :=
  let caps := DEFAULT_EXECUTION_CAPABILITIES in
  draft ← create_order_draft caps receipt_root (draft_request intent admission);
  run_pretrade_check caps receipt_root (od_order_draft_id draft)
    (Some [[("rule", JStr "effect_admission"); ("severity", JStr "info");
            ("result", JStr (ad_admission_id admission))]]) "delegation" ;;
  record_approval caps receipt_root (od_order_draft_id draft) "approved"
    ("delegation:" +:+ delegation_id) ("admitted by " +:+ ad_admission_id admission) ;;
  order ← stage_execution_order caps receipt_root (od_order_draft_id draft)
            (ei_broker_connection_id intent) "paper";
  report ← submit_order reg caps receipt_root (eo_execution_order_id order);
  let signed := signed_fill (ei_side intent) (er_filled_quantity report) in
  let post_quantity := dec_add position_quantity_before signed in
  delta ← record_position_delta receipt_root (er_execution_report_id report)
            (ei_execution_account_id intent) (ei_symbol intent) signed post_quantity;
  let expected := [[("symbol", JStr (ei_symbol intent)); ("quantity", jdec post_quantity)]] in
  reconciliation ← record_reconciliation receipt_root (ei_execution_account_id intent)
                     (Some expected) (Some expected) None;
  mret {| et_draft := draft; et_order := order; et_report := report; et_delta := delta;
          et_reconciliation := reconciliation |}.

Definition execute_simulated_effect (receipt_root effect_intent_id admission_id : string)
    (current_world : CapitalWorld) : M agent_state (sealed EffectExecutionRecord) :=
  '(intent, admission, delegation_id, position_quantity_before) ←
    execution_preconditions effect_intent_id admission_id current_world;
  let execution_id := execution_id_of effect_intent_id in
  let execution_ref := ref EffectExecutionRecord execution_id in
  present ← exists_file EffectExecutionRecord execution_id;
  if present : bool then
    existing ← _read EffectExecutionRecord execution_id;
    require (bool_decide (ex_state (body existing) = ExecutionCompleted)) EffectRecoveryRequired
      (recovery_message execution_ref
         ("effect execution is " +:+ execution_state (ex_state (body existing)))) ;;
    mret existing
  else
    now ← _now;
    claim ← build
      {| ex_execution_id := execution_id; ex_effect_intent_ref := ref EffectIntent effect_intent_id;
         ex_admission_ref := ref EffectAdmission admission_id; ex_state := ExecutionClaimed;
         ex_runtime_job_id := None; ex_runtime_attempt_id := None; ex_order_draft_id := None;
         ex_execution_order_id := None; ex_execution_report_id := None;
         ex_position_delta_id := None; ex_reconciliation_id := None; ex_failure_reason := None;
         ex_recovery_evidence_refs := []; ex_created_at_utc := now; ex_updated_at_utc := now |};
    claimed ← _create claim execution_id;
    trail ← catch
      (on_kernel (perform_effect receipt_root intent admission delegation_id
                    position_quantity_before))
      (λ e, raise EffectRecoveryRequired (recovery_message execution_ref (exn_msg e)));
    updated ← _now;
    _transition claimed execution_id "claimed"
      (set_completed (od_order_draft_id (et_draft trail)) (eo_execution_order_id (et_order trail))
         (er_execution_report_id (et_report trail)) (pd_position_delta_id (et_delta trail))
         (rr_reconciliation_id (et_reconciliation trail)) updated).

Definition effect_execution_id (effect_intent_id : string) : M agent_state string :=
  read_effect_intent effect_intent_id ;; mret (execution_id_of effect_intent_id).

Definition read_effect_execution : string → M agent_state (sealed EffectExecutionRecord) :=
  _read EffectExecutionRecord.

Definition bind_runtime_execution (execution_id runtime_job_id : string)
    (runtime_attempt_id : option string) : M agent_state (sealed EffectExecutionRecord) :=
  execution ← read_effect_execution execution_id;
  job ← of_sum (_text runtime_job_id "runtime_job_id");
  attempt ← match runtime_attempt_id with
            | Some a => a' ← of_sum (_text a "runtime_attempt_id"); mret (Some a')
            | None => mret None
            end;
  match ex_runtime_job_id (body execution) with
  | Some bound =>
      require (streq bound job &&
               bool_decide (ex_runtime_attempt_id (body execution) = attempt))
        CapitalAgentConflictError "execution already bound to another Runtime Job" ;;
      mret execution
  | None =>
      updated ← _now;
      _transition execution execution_id (execution_state (ex_state (body execution)))
        (set_runtime job attempt updated)
  end.

(** [Literal["completed", "failed"]] *)
Inductive ReconcileOutcome := OutcomeCompleted | OutcomeFailed.

Definition reconcile_claimed_execution (execution_id : string) (outcome : ReconcileOutcome)
    (evidence_refs : list string) (reason : string) : M agent_state (sealed EffectExecutionRecord) :=
  execution ← read_effect_execution execution_id;
  failure ← match outcome with
            | OutcomeCompleted => mret None
            | OutcomeFailed => r ← of_sum (_text reason "reason"); mret (Some r)
            end;
  updated ← _now;
  _transition execution execution_id "claimed"
    (set_reconciled (match outcome with
                     | OutcomeCompleted => ExecutionCompleted
                     | OutcomeFailed => ExecutionFailed
                     end) failure evidence_refs updated).

(** ** Consequences *)

Definition consequence_id_of (execution_id world_after_basis_digest : string) : string :=
  _stable_id "consequence" [("execution_id", JStr execution_id);
                            ("world_after_basis_digest", JStr world_after_basis_digest)].

Definition record_consequence (mission_id execution_id : string)
    (world_before world_after : CapitalWorld) (expected_change observed_change : list (string * json))
    (discrepancies : list (list (string * json))) : M agent_state (sealed ConsequenceRecord) :=
  mission ← read_mission mission_id;
  execution ← read_effect_execution execution_id;
  require (bool_decide (ex_state (body execution) = ExecutionCompleted)) CapitalAgentConflictError
    "consequence requires completed execution" ;;
  require (streq (am_current_world_id (body mission)) (world_id world_before) &&
           streq (am_current_world_basis_digest (body mission)) (basis_digest world_before))
    CapitalAgentConflictError "mission is not bound to world_before" ;;
  let consequence_id := consequence_id_of execution_id (basis_digest world_after) in
  present ← exists_file ConsequenceRecord consequence_id;
  if present : bool then _read ConsequenceRecord consequence_id
  else
    created ← _now;
    consequence ← build
      {| cq_consequence_id := consequence_id; cq_mission_id := mission_id;
         cq_execution_ref := ref EffectExecutionRecord execution_id;
         cq_world_before_id := world_id world_before;
         cq_world_before_basis_digest := basis_digest world_before;
         cq_world_after_id := world_id world_after;
         cq_world_after_basis_digest := basis_digest world_after;
         cq_expected_change := expected_change; cq_observed_change := observed_change;
         cq_discrepancies := discrepancies; cq_created_at_utc := created |};
    _create consequence consequence_id.
End Agent.

Arguments _path _ _ {_} _.
Arguments ref _ {_} _.
Arguments _read {_} _ _ {_ _} _.
Arguments exists_file _ {_ _} _.
