(* ===== verification/AgentSpec.v ===== *)
(** What the capital agent promises, abstractly: finite maps of artifacts
    without files, hashes and clocks, and the transitions the operations may
    make on them. *)
From S2P Require Import Prelude PyDecimal PyTime PyJson ReceiptIO AgentModels AgentStore.

Record spec_state := Spec {
  sp_constitutions : gmap string PrincipalConstitution;
  sp_missions : gmap string AgentMission;
  sp_beliefs : gmap string BeliefArtifact;
  sp_checkpoints : gmap string MissionCheckpoint;
  sp_delegations : gmap string DelegationEnvelope;
  sp_intents : gmap string EffectIntent;
  sp_admissions : gmap string EffectAdmission;
  sp_executions : gmap string EffectExecutionRecord;
  sp_consequences : gmap string ConsequenceRecord;
}.
Definition spec_empty : spec_state := Spec ∅ ∅ ∅ ∅ ∅ ∅ ∅ ∅ ∅.

Definition put_constitution i x '(Spec pc mi be ch de it ad ex co) := Spec (<[i := x]> pc) mi be ch de it ad ex co.
Definition put_mission i x '(Spec pc mi be ch de it ad ex co) := Spec pc (<[i := x]> mi) be ch de it ad ex co.
Definition put_belief i x '(Spec pc mi be ch de it ad ex co) := Spec pc mi (<[i := x]> be) ch de it ad ex co.
Definition put_checkpoint i x '(Spec pc mi be ch de it ad ex co) := Spec pc mi be (<[i := x]> ch) de it ad ex co.
Definition put_delegation i x '(Spec pc mi be ch de it ad ex co) := Spec pc mi be ch (<[i := x]> de) it ad ex co.
Definition put_intent i x '(Spec pc mi be ch de it ad ex co) := Spec pc mi be ch de (<[i := x]> it) ad ex co.
Definition put_admission i x '(Spec pc mi be ch de it ad ex co) := Spec pc mi be ch de it (<[i := x]> ad) ex co.
Definition put_execution i x '(Spec pc mi be ch de it ad ex co) := Spec pc mi be ch de it ad (<[i := x]> ex) co.
Definition put_consequence i x '(Spec pc mi be ch de it ad ex co) := Spec pc mi be ch de it ad ex (<[i := x]> co).

(** How often a delegation was used: its admissions. *)
Definition uses (s : spec_state) (delegation_id : string) : nat :=
  size (filter (λ p, ad_delegation_id p.2 = delegation_id) (sp_admissions s)).

(** The changes of one mission: a closed mission has none. *)
Inductive mission_edge : AgentMission → AgentMission → Prop :=
  | edge_pause m reason now :
      am_state m = MissionActive → blank reason = false →
      mission_edge m (set_mission MissionPaused (am_current_world_id m)
        (am_current_world_basis_digest m) (am_checkpoint_ref m) (Some reason) now
        (am_closed_at_utc m) m)
  | edge_resume m world digest now :
      am_state m = MissionPaused →
      mission_edge m (set_mission MissionActive world digest (am_checkpoint_ref m) None now
        (am_closed_at_utc m) m)
  | edge_close m reason now :
      am_state m ≠ MissionClosed → blank reason = false →
      mission_edge m (set_mission MissionClosed (am_current_world_id m)
        (am_current_world_basis_digest m) (am_checkpoint_ref m) (Some reason) now (Some now) m)
  | edge_checkpoint m world digest checkpoint now :
      am_state m ≠ MissionClosed →
      mission_edge m (set_mission (am_state m) world digest (Some checkpoint) (am_stop_reason m) now
        (am_closed_at_utc m) m).

(** The changes of one execution record: it is decided once, and bound to a
    runtime job once. *)
Inductive execution_edge : EffectExecutionRecord → EffectExecutionRecord → Prop :=
  | edge_bind x job attempt now :
      ex_runtime_job_id x = None → blank job = false →
      execution_edge x (set_runtime job attempt now x)
  | edge_complete x draft order report delta reconciliation now :
      ex_state x = ExecutionClaimed →
      execution_edge x (set_completed draft order report delta reconciliation now x)
  | edge_reconcile_completed x evidence now :
      ex_state x = ExecutionClaimed →
      execution_edge x (set_reconciled ExecutionCompleted None evidence now x)
  | edge_reconcile_failed x reason evidence now :
      ex_state x = ExecutionClaimed → blank reason = false →
      execution_edge x (set_reconciled ExecutionFailed (Some reason) evidence now x).

Section Spec.
Context `{PyEnv}.

(** The conditions under which an intent may be admitted into a world. *)
Record admissible (s : spec_state) (iid : string) (w : CapitalWorld) (i : EffectIntent)
    (m : AgentMission) (d : DelegationEnvelope) (c : PrincipalConstitution) (a : EffectAdmission)
    : Prop := {
  adm_intent : sp_intents s !! iid = Some i;
  adm_mission : sp_missions s !! ei_mission_id i = Some m;
  adm_delegation : sp_delegations s !! ei_delegation_id i = Some d;
  adm_constitution : sp_constitutions s !! path_stem (dg_constitution_ref d) = Some c;
  adm_mission_active : am_state m = MissionActive;
  adm_delegation_active : dg_state d = DelegationActive;
  adm_principal : ei_principal_id i = dg_principal_id d;
  adm_agent : ei_agent_id i = dg_agent_id d;
  adm_world : ei_world_id i = world_id w ∧ ei_world_basis_digest i = basis_digest w;
  adm_world_admitted : world_admitted w = true;
  adm_allowed : ei_effect_type i ∈ dg_allowed_effects d;
  adm_not_prohibited : effect_type (ei_effect_type i) ∉ pc_prohibited_effects c;
  adm_price : ∃ q, _verified_position_basis i w = inr (q, ad_verified_reference_price a);
  adm_notional : ad_admitted_notional a = dec_mul (ei_quantity i) (ad_verified_reference_price a);
  adm_within_delegation : dle (ad_admitted_notional a) (dg_max_notional d) = true;
  adm_within_constitution : dle (ad_admitted_notional a) (pc_max_simulated_notional c) = true;
  adm_uses_left : (Z.of_nat (uses s (dg_delegation_id d)) < dg_max_uses d)%Z;
  adm_binds : ad_effect_intent_id a = iid ∧ ad_mission_id a = ei_mission_id i ∧
    ad_delegation_id a = dg_delegation_id d ∧ ad_constitution_ref a = dg_constitution_ref d ∧
    ad_world_id a = world_id w ∧ ad_world_basis_digest a = basis_digest w;
}.

Inductive spec_step : spec_state → spec_state → Prop :=
  | step_constitution s i c :
      sp_constitutions s !! i = None → pc_constitution_id c = i → art_validate c = inr c →
      spec_step s (put_constitution i c s)
  | step_mission s i m ci c :
      sp_missions s !! i = None → am_mission_id m = i →
      sp_constitutions s !! ci = Some c → am_constitution_ref m = ref PrincipalConstitution ci →
      am_principal_id m = strip (pc_principal_id c) →
      am_state m = MissionActive → am_stop_reason m = None → am_closed_at_utc m = None →
      spec_step s (put_mission i m s)
  | step_mission_edge s i m m' :
      sp_missions s !! i = Some m → mission_edge m m' → spec_step s (put_mission i m' s)
  | step_belief s i b m :
      sp_beliefs s !! i = None → bl_belief_id b = i → art_validate b = inr b →
      sp_missions s !! bl_mission_id b = Some m → spec_step s (put_belief i b s)
  | step_checkpoint s i k m :
      sp_checkpoints s !! i = None → mc_checkpoint_id k = i →
      sp_missions s !! mc_mission_id k = Some m → am_state m ≠ MissionClosed →
      spec_step s (put_checkpoint i k s)
  | step_delegation s i d ci c :
      sp_delegations s !! i = None → dg_delegation_id d = i → art_validate d = inr d →
      sp_constitutions s !! ci = Some c → dg_constitution_ref d = ref PrincipalConstitution ci →
      dg_principal_id d = strip (pc_principal_id c) →
      dle (dg_max_notional d) (pc_max_simulated_notional c) = true →
      dg_state d = DelegationActive → spec_step s (put_delegation i d s)
  | step_revoke s i d now reason :
      sp_delegations s !! i = Some d → dg_state d = DelegationActive → blank reason = false →
      spec_step s (put_delegation i (set_revoked now reason d) s)
  | step_intent s i it m d :
      sp_intents s !! i = None → ei_effect_intent_id it = i → art_validate it = inr it →
      i = intent_id_of (ei_mission_id it) (ei_idempotency_key it) →
      sp_missions s !! ei_mission_id it = Some m →
      sp_delegations s !! ei_delegation_id it = Some d →
      ei_principal_id it = am_principal_id m → ei_principal_id it = dg_principal_id d →
      ei_agent_id it = am_agent_id m → ei_agent_id it = dg_agent_id d →
      ei_world_id it = am_current_world_id m →
      ei_world_basis_digest it = am_current_world_basis_digest m →
      spec_step s (put_intent i it s)
  | step_admit s iid w i m d c a :
      sp_admissions s !! admission_id_of iid = None → ad_admission_id a = admission_id_of iid →
      art_validate a = inr a → admissible s iid w i m d c a →
      spec_step s (put_admission (admission_id_of iid) a s)
  | step_claim s iid ai a i m d x :
      sp_executions s !! execution_id_of iid = None → ex_execution_id x = execution_id_of iid →
      sp_intents s !! iid = Some i → sp_admissions s !! ai = Some a → ad_effect_intent_id a = iid →
      sp_missions s !! ei_mission_id i = Some m → am_state m = MissionActive →
      sp_delegations s !! ei_delegation_id i = Some d → dg_state d = DelegationActive →
      ex_effect_intent_ref x = ref EffectIntent iid → ex_admission_ref x = ref EffectAdmission ai →
      ex_state x = ExecutionClaimed → ex_runtime_job_id x = None →
      spec_step s (put_execution (execution_id_of iid) x s)
  | step_execution_edge s i x x' :
      sp_executions s !! i = Some x → execution_edge x x' → spec_step s (put_execution i x' s)
  | step_consequence s i q m xi x :
      sp_consequences s !! i = None → cq_consequence_id q = i →
      sp_missions s !! cq_mission_id q = Some m → sp_executions s !! xi = Some x →
      cq_execution_ref q = ref EffectExecutionRecord xi → ex_state x = ExecutionCompleted →
      cq_world_before_id q = am_current_world_id m →
      cq_world_before_basis_digest q = am_current_world_basis_digest m →
      spec_step s (put_consequence i q s).
End Spec.
