(* ===== verification/AgentRefinement.v ===== *)
(** The artifact store implements the abstract agent: every operation keeps
    all files hashed, valid and under their own id, and changes the abstract
    state by transitions of the specification, also when it raises. *)
From S2P Require Import Prelude PyDecimal PyTime PyJson TimeFacts ReceiptIO ExecutionModels ExecutionServices ExecutionCommands AgentModels AgentStore AgentSpec.

(** ** Laws of the artifact kinds *)

Class ArtifactLaws (A : Type) `{Artifact A} := {
  validate_idem (a a' : A) : art_validate a = inr a' → art_validate a' = inr a';
  validate_id (a a' : A) : art_validate a = inr a' → art_id a' = art_id a;
}.

Lemma constrained_inv {A} (a a' : A) b msg : constrained a b msg = inr a' → a' = a ∧ b = true.
Proof. unfold constrained. destruct b; naive_solver. Qed.

Lemma parse_utc_iso value name t : _parse_utc value name = inr t → ∀ name', _parse_utc (isoformat t) name' = inr t.
Proof.
  unfold _parse_utc. intros E name'. destruct (fromisoformat value) as [[w [o|]]|] eqn:Ef; try done.
  destruct (Z.eqb_spec o 0) as [->|]; [|done]. injection E as <-. rewrite Z.sub_0_r.
  rewrite fromisoformat_isoformat by (by eapply fromisoformat_instant). simpl. by rewrite Z.sub_0_r.
Qed.

Lemma validate_delegation_inv d d' :
  validate_delegation d = inr d' →
  ∃ t, _parse_utc (dg_expires_at_utc d) "expires_at_utc" = inr t ∧
       d' = set_expiry (isoformat t) d ∧ d_pos (dg_max_notional d) = true ∧ (0 < dg_max_uses d)%Z.
Proof.
  unfold validate_delegation. intros E. case_match; [done|].
  apply constrained_inv in E as [-> E]. bool_simpl. eexists. split_and!; [done..|lia].
Qed.

Ltac art_simpl :=
  cbn [art_validate art_id art_state constitution_artifact mission_artifact belief_artifact
    checkpoint_artifact delegation_artifact intent_artifact admission_artifact
    execution_artifact consequence_artifact] in *.
Ltac artifact_laws :=
  split; intros a a' E; art_simpl;
  first [ by injection E as <-
        | apply constrained_inv in E as [-> E]; first [done | unfold constrained; by rewrite E]].
#[export] Instance constitution_laws : ArtifactLaws PrincipalConstitution.
Proof. artifact_laws. Qed.
#[export] Instance mission_laws : ArtifactLaws AgentMission.
Proof. artifact_laws. Qed.
#[export] Instance belief_laws : ArtifactLaws BeliefArtifact.
Proof. artifact_laws. Qed.
#[export] Instance checkpoint_laws : ArtifactLaws MissionCheckpoint.
Proof. artifact_laws. Qed.
#[export] Instance intent_laws : ArtifactLaws EffectIntent.
Proof. artifact_laws. Qed.
#[export] Instance admission_laws : ArtifactLaws EffectAdmission.
Proof. artifact_laws. Qed.
#[export] Instance execution_laws : ArtifactLaws EffectExecutionRecord.
Proof. artifact_laws. Qed.
#[export] Instance consequence_laws : ArtifactLaws ConsequenceRecord.
Proof. artifact_laws. Qed.
#[export] Instance delegation_laws : ArtifactLaws DelegationEnvelope.
Proof.
  split; art_simpl; intros d d' (t & Et & -> & Hn & Hu)%validate_delegation_inv;
    [|done].
  unfold validate_delegation. cbn [dg_expires_at_utc set_expiry].
  rewrite (parse_utc_iso _ _ _ Et). cbn [dg_max_notional dg_max_uses set_expiry].
  unfold constrained. rewrite Hn. by rewrite (proj2 (Z.ltb_lt _ _) Hu).
Qed.

(** ** Sound stores *)

Section Sound.
Context `{PyEnv}.

Definition sound_file {A} `{Artifact A} (i : string) (f : slot (sealed A)) : Prop :=
  match f with
  | Readable s => art_id (body s) = i ∧ hash_valid s = true ∧ art_validate (body s) = inr (body s)
  | Unreadable => False
  end.
Definition sound_dir {A} `{Artifact A} (d : directory A) : Prop := map_Forall sound_file d.

Record store_sound (st : agent_store) : Prop := {
  sound_constitutions : sound_dir (f_constitutions st);
  sound_missions : sound_dir (f_missions st);
  sound_beliefs : sound_dir (f_beliefs st);
  sound_checkpoints : sound_dir (f_checkpoints st);
  sound_delegations : sound_dir (f_delegations st);
  sound_intents : sound_dir (f_intents st);
  sound_admissions : sound_dir (f_admissions st);
  sound_executions : sound_dir (f_executions st);
  sound_consequences : sound_dir (f_consequences st);
}.

Lemma empty_store_sound : store_sound empty_store.
Proof. split; apply map_Forall_empty. Qed.

(** ** Abstraction *)

Definition file_body {A} (f : slot (sealed A)) : option A :=
  match f with Readable s => Some (body s) | Unreadable => None end.
Definition abs_dir {A} (d : directory A) : gmap string A := omap file_body d.
Definition abs (st : agent_store) : spec_state :=
  Spec (abs_dir (f_constitutions st)) (abs_dir (f_missions st)) (abs_dir (f_beliefs st))
    (abs_dir (f_checkpoints st)) (abs_dir (f_delegations st)) (abs_dir (f_intents st))
    (abs_dir (f_admissions st)) (abs_dir (f_executions st)) (abs_dir (f_consequences st)).

Lemma abs_dir_some {A} (d : directory A) i s :
  d !! i = Some (Readable s) → abs_dir d !! i = Some (body s).
Proof. unfold abs_dir. rewrite lookup_omap. by intros ->. Qed.
Lemma abs_dir_none {A} (d : directory A) i : d !! i = None → abs_dir d !! i = None.
Proof. unfold abs_dir. rewrite lookup_omap. by intros ->. Qed.
Lemma abs_dir_inv {A} `{Artifact A} (d : directory A) i x :
  sound_dir d → abs_dir d !! i = Some x →
  ∃ s, d !! i = Some (Readable s) ∧ body s = x ∧ sound_file i (Readable s).
Proof.
  intros Hd Hx. unfold abs_dir in Hx. rewrite lookup_omap in Hx.
  apply bind_Some in Hx as ([s|] & Hs & Hx); [|done]. injection Hx as <-.
  exists s. split_and!; [done..|]. by apply Hd in Hs.
Qed.
Lemma abs_dir_insert {A} (d : directory A) i s :
  abs_dir (<[i := Readable s]> d) = <[i := body s]> (abs_dir d).
Proof. unfold abs_dir. by rewrite (omap_insert_Some _ _ _ _ (body s)). Qed.

(** A directory of the store, and the store with that directory replaced. *)
Class StoredLaws (A : Type) `{Stored A} := {
  files_sound st : store_sound st → sound_dir (files st);
  set_files_sound st d : store_sound st → sound_dir d → store_sound (set_files d st);
  files_set_files st d : files (set_files d st) = d;
  set_files_files st : set_files (files st) st = st;
}.
End Sound.

Ltac stored_laws := split; [by intros st []|by intros [] ? [] ?; split|by intros []..].
#[export] Instance constitutions_laws `{PyEnv} : StoredLaws PrincipalConstitution.
Proof. stored_laws. Qed.
#[export] Instance missions_laws `{PyEnv} : StoredLaws AgentMission.
Proof. stored_laws. Qed.
#[export] Instance beliefs_laws `{PyEnv} : StoredLaws BeliefArtifact.
Proof. stored_laws. Qed.
#[export] Instance checkpoints_laws `{PyEnv} : StoredLaws MissionCheckpoint.
Proof. stored_laws. Qed.
#[export] Instance delegations_laws `{PyEnv} : StoredLaws DelegationEnvelope.
Proof. stored_laws. Qed.
#[export] Instance intents_laws `{PyEnv} : StoredLaws EffectIntent.
Proof. stored_laws. Qed.
#[export] Instance admissions_laws `{PyEnv} : StoredLaws EffectAdmission.
Proof. stored_laws. Qed.
#[export] Instance executions_laws `{PyEnv} : StoredLaws EffectExecutionRecord.
Proof. stored_laws. Qed.
#[export] Instance consequences_laws `{PyEnv} : StoredLaws ConsequenceRecord.
Proof. stored_laws. Qed.

Section Files.
Context `{PyEnv}.

(** Write the file [<i>.json] of a sealed artifact. *)
Definition write_file {A} `{Stored A} (i : string) (s : sealed A) (st : agent_store) : agent_store :=
  set_files (<[i := Readable s]> (files st)) st.

Lemma abs_put_constitution i s st : abs (write_file i s st) = put_constitution i (body s) (abs st).
Proof. destruct st. unfold abs, write_file. simpl. by rewrite abs_dir_insert. Qed.
Lemma abs_put_mission i s st : abs (write_file i s st) = put_mission i (body s) (abs st).
Proof. destruct st. unfold abs, write_file. simpl. by rewrite abs_dir_insert. Qed.
Lemma abs_put_belief i s st : abs (write_file i s st) = put_belief i (body s) (abs st).
Proof. destruct st. unfold abs, write_file. simpl. by rewrite abs_dir_insert. Qed.
Lemma abs_put_checkpoint i s st : abs (write_file i s st) = put_checkpoint i (body s) (abs st).
Proof. destruct st. unfold abs, write_file. simpl. by rewrite abs_dir_insert. Qed.
Lemma abs_put_delegation i s st : abs (write_file i s st) = put_delegation i (body s) (abs st).
Proof. destruct st. unfold abs, write_file. simpl. by rewrite abs_dir_insert. Qed.
Lemma abs_put_intent i s st : abs (write_file i s st) = put_intent i (body s) (abs st).
Proof. destruct st. unfold abs, write_file. simpl. by rewrite abs_dir_insert. Qed.
Lemma abs_put_admission i s st : abs (write_file i s st) = put_admission i (body s) (abs st).
Proof. destruct st. unfold abs, write_file. simpl. by rewrite abs_dir_insert. Qed.
Lemma abs_put_execution i s st : abs (write_file i s st) = put_execution i (body s) (abs st).
Proof. destruct st. unfold abs, write_file. simpl. by rewrite abs_dir_insert. Qed.
Lemma abs_put_consequence i s st : abs (write_file i s st) = put_consequence i (body s) (abs st).
Proof. destruct st. unfold abs, write_file. simpl. by rewrite abs_dir_insert. Qed.

(** The artifact as [_seal] hashes it. *)
Definition sealed_of {A} `{Artifact A} (a : A) : sealed A :=
  Sealed a (canonical_json_sha256 (JObj (art_json a))).

Lemma seal_valid {A} `{Artifact A} (a : A) : art_validate a = inr a → _seal a = inr (sealed_of a).
Proof. unfold _seal. by intros ->. Qed.
Lemma sealed_of_sound {A} `{Artifact A} (a : A) i :
  art_validate a = inr a → art_id a = i → sound_file i (Readable (sealed_of a)).
Proof. intros Hv Hi. split_and!; [done| |done]. by apply bool_decide_eq_true. Qed.
Lemma sound_sealed {A} `{Artifact A} i (s : sealed A) :
  sound_file i (Readable s) → s = sealed_of (body s).
Proof.
  intros (_ & Hh & _). unfold hash_valid in Hh. apply bool_decide_eq_true in Hh. simpl in Hh.
  injection Hh as Hh. destruct s. unfold sealed_of. simpl in *. by f_equal.
Qed.
Lemma write_file_sound {A} `{Stored A} `{!StoredLaws A} i (a : A) st :
  store_sound st → art_validate a = inr a → art_id a = i →
  store_sound (write_file i (sealed_of a) st).
Proof.
  intros Hs Hv Hi. apply set_files_sound; [done|].
  apply map_Forall_insert_2; [by apply sealed_of_sound|]. by apply files_sound.
Qed.
End Files.

(** ** Symbolic execution of the store primitives *)

Section Primitives.
Context `{PyEnv} (root : string).

(** Clock and uuids leave the files alone and do not raise. *)
Lemma wp_now Q st k :
  (∀ t k', Q (Agent st k') (inr (isoformat t))) → wp _now Q (Agent st k).
Proof. intros HQ. unfold wp, _now. simpl. apply HQ. Qed.
Lemma wp_instant Q st k :
  (∀ t k', t = clock (sys_ticks (k_sys k)) → Q (Agent st k') (inr t)) → wp _instant Q (Agent st k).
Proof. intros HQ. unfold wp, _instant. simpl. by apply HQ. Qed.
Lemma wp_given_time x name Q st k :
  (∀ e, Q (Agent st k) (inl e)) → (∀ t k', Q (Agent st k') (inr t)) →
  wp (given_time x name) Q (Agent st k).
Proof.
  intros He Hok. unfold given_time. wp_step; [|by apply wp_now; intros].
  wp_step. wp_step; [by apply He|]. by apply wp_ret.
Qed.
Lemma wp_given_id x name prefix Q st k :
  (∀ e, Q (Agent st k) (inl e)) → (∀ i k', Q (Agent st k') (inr i)) →
  wp (given_id x name prefix) Q (Agent st k).
Proof.
  intros He Hok. unfold given_id. wp_step; [wp_step; auto|]. unfold wp, _id. simpl. apply Hok.
Qed.
Lemma wp_on_kernel {B} (m : M kernel_state B) Q st k :
  (∀ r k', m k = (k', r) → Q (Agent st k') r) → wp (on_kernel m) Q (Agent st k).
Proof.
  intros HQ. unfold wp, on_kernel, zoom. simpl. destruct (m k) as [k' r] eqn:E. simpl. by apply HQ.
Qed.

Lemma wp_build {A} `{Artifact A} (a : A) Q (s : agent_state) :
  (∀ e, Q s (inl e)) → (∀ a', art_validate a = inr a' → Q s (inr a')) → wp (build a) Q s.
Proof. intros He Hok. unfold build. wp_step; auto. Qed.

Section Kind.
Context {A : Type} `{Stored A} `{!StoredLaws A} `{!ArtifactLaws A}.

Lemma wp_read i Q st k :
  store_sound st →
  (files st !! i = None → Q (Agent st k) (inl (Exn CapitalAgentNotFoundError (_path root A i)))) →
  (∀ s : sealed A, files st !! i = Some (Readable s) → sound_file i (Readable s) →
     Q (Agent st k) (inr s)) →
  wp (_read root A i) Q (Agent st k).
Proof.
  intros Hs Hnone Hsome. unfold wp, _read, on_files, zoom. cbn.
  assert (Hfs : with_store (set_files (files st) st) (Agent st k) = Agent st k).
  { unfold with_store. simpl. f_equal. by apply set_files_files. }
  unfold mbind, M_bind. cbn. destruct (files st !! i) as [[s|]|] eqn:E; cbn; rewrite Hfs.
  - pose proof (files_sound st Hs i _ E) as (Hi & Hh & Hv). unfold _verify.
    unfold hash_valid in Hh. apply bool_decide_eq_true in Hh. simpl in Hh. injection Hh as Hh.
    rewrite <-Hh, streq_refl. simpl. rewrite Hv. destruct s as [b h]. apply Hsome; [done|].
    split_and!; [done| |done]. apply bool_decide_eq_true. simpl in *. by rewrite <-Hh.
  - by pose proof (files_sound st Hs i _ E).
  - by apply Hnone.
Qed.

Lemma wp_exists_file i Q st k :
  (∀ b, has (files st) i = b → Q (Agent st k) (inr b)) → wp (exists_file A i) Q (Agent st k).
Proof.
  intros HQ. unfold wp, exists_file, on_files, zoom, with_store. cbn. rewrite set_files_files. auto.
Qed.

Lemma wp_create (a : A) i Q st k :
  store_sound st → art_validate a = inr a → art_id a = i →
  (∀ e, Q (Agent st k) (inl e)) →
  (∀ s, files st !! i = Some (Readable s) → sound_file i (Readable s) → Q (Agent st k) (inr s)) →
  (files st !! i = None → store_sound (write_file i (sealed_of a) st) →
     Q (Agent (write_file i (sealed_of a) st) k) (inr (sealed_of a))) →
  wp (_create root a i) Q (Agent st k).
Proof.
  intros Hs Hv Hi Herr Hold Hnew. unfold _create. rewrite (seal_valid a) by done.
  wp_step. apply wp_of_sum. intros r <-. wp_step.
  destruct (files st !! i) eqn:E.
  - apply (wp_intro _ _ _ (Agent st k) (inr false)).
    { unfold on_files, zoom, durable_create_json_exclusive, mbind, M_bind. cbn. rewrite E. cbn.
      unfold with_store. cbn. by rewrite set_files_files. }
    cbv beta iota. apply wp_bind, wp_read; [done|congruence|]. intros s' Hs' Hf.
    destruct (same_artifact _ _); [apply wp_ret, Hold; [congruence|done]|by apply wp_raise, Herr].
  - apply (wp_intro _ _ _ (Agent (write_file i (sealed_of a) st) k) (inr true)).
    { unfold on_files, zoom, durable_create_json_exclusive, mbind, M_bind. cbn. by rewrite E. }
    apply wp_ret, Hnew; [done|]. by apply write_file_sound.
Qed.

Lemma wp_transition (cur : sealed A) i expected (upd : A → A) Q st k :
  store_sound st → files st !! i = Some (Readable cur) →
  art_validate (upd (body cur)) = inr (upd (body cur)) → art_id (upd (body cur)) = art_id (body cur) →
  (art_state (body cur) ≠ Some expected → ∀ e, Q (Agent st k) (inl e)) →
  (art_state (body cur) = Some expected →
     store_sound (write_file i (sealed_of (upd (body cur))) st) →
     Q (Agent (write_file i (sealed_of (upd (body cur))) st) k) (inr (sealed_of (upd (body cur))))) →
  wp (_transition cur i expected upd) Q (Agent st k).
Proof.
  intros Hs Hcur Hv Hid Hbad Hok. pose proof (files_sound st Hs i _ Hcur) as (Hi & Hh & _).
  unfold _transition. wp_step. wp_step; bool_simpl; [|by apply Hbad].
  rewrite (seal_valid _ Hv). wp_step. apply wp_of_sum. intros r <-. wp_step.
  set (s' := sealed_of (upd (body cur))) in *.
  apply (wp_intro _ _ _ (Agent (write_file i s' st) k) (inr true)).
  { unfold on_files, zoom. cbn.
    rewrite (cas_match i (content_sha256 cur) expected s' (files st) cur); [done| |done|done|done|done].
    by destruct (sealed_of_sound (upd (body cur)) i Hv ltac:(congruence)) as (_ & ? & _). }
  apply wp_ret, Hok; [done|]. apply write_file_sound; [done|done|congruence].
Qed.
End Kind.
End Primitives.

Section Counting.
Context `{PyEnv} (root : string).

(** *** Counting admissions *)

(** Does a file hold an admission of this delegation? *)
Definition admits (did : string) (f : slot (sealed EffectAdmission)) : bool :=
  match f with Readable s => streq (ad_delegation_id (body s)) did | Unreadable => false end.

Lemma wp_count_admissions did (l : list (string * slot (sealed EffectAdmission))) Q st k :
  store_sound st → (∀ p, p ∈ l → files st !! p.1 = Some p.2) →
  Q (Agent st k) (inr (Z.of_nat (length (List.filter (λ p, admits did p.2) l)))) →
  wp (count_admissions root did l.*1) Q (Agent st k).
Proof.
  intros Hs. revert Q. induction l as [|[i f] l IH]; intros Q Hl HQ; simpl; [done|].
  assert (Hi : files st !! i = Some f) by (apply (Hl (i, f)); set_solver).
  apply wp_bind, wp_read; [apply _|done|congruence|]. intros s Hf _. rewrite Hi in Hf. injection Hf as ->.
  apply wp_bind, IH; [set_solver|]. apply wp_ret. simpl in HQ.
  destruct (streq _ did); [|done].
  match goal with |- Q _ (inr ?z) => replace z with (Z.of_nat (S (Z.to_nat (z - 1)))) by lia end.
  by rewrite Z.add_simpl_l, Nat2Z.id.
Qed.

Lemma uses_count st did :
  uses (abs st) did =
  length (List.filter (λ p, admits did p.2) (map_to_list (f_admissions st))).
Proof.
  unfold uses. simpl. generalize (f_admissions st) as d. intros d.
  induction d as [|i f d Hi IH] using map_ind; [done|].
  rewrite (length_filter_perm _ _ _ (map_to_list_insert d i f Hi)). simpl.
  unfold abs_dir in *. destruct f as [s|]; simpl.
  - rewrite (omap_insert_Some _ _ _ _ (body s)) by done.
    rewrite size_filter_insert by (by rewrite lookup_omap, Hi). simpl.
    rewrite IH. case_decide as Hd; [by rewrite (proj2 (streq_true _ _) Hd)|].
    by rewrite (proj2 (streq_false _ _) Hd).
  - rewrite omap_insert_None by done. rewrite delete_id by (by rewrite lookup_omap, Hi). done.
Qed.

Lemma wp_admission_count did Q st k :
  store_sound st → Q (Agent st k) (inr (Z.of_nat (uses (abs st) did))) →
  wp (_admission_count root did) Q (Agent st k).
Proof.
  intros Hs HQ. unfold _admission_count. apply wp_bind.
  apply (wp_intro _ _ _ (Agent st k) (inr (map_to_list (f_admissions st)).*1)).
  { by destruct st. }
  apply wp_count_admissions; [done| |by rewrite <-uses_count].
  intros [i f] Hp. by apply elem_of_map_to_list in Hp.
Qed.
End Counting.

(** ** Every operation refines the specification *)

Definition refines `{PyEnv} {B} (st : agent_store) (a : agent_state) (_ : exn + B) : Prop :=
  store_sound (a_store a) ∧ rtc spec_step (abs st) (abs (a_store a)).

Lemma text_blank v name t : _text v name = inr t → blank t = false ∧ t = strip v.
Proof.
  unfold _text. destruct (streq (strip v) "") eqn:E; intros [= <-].
  split; [|done]. unfold blank. rewrite strip_idem. done.
Qed.

Section Refinement.
Context `{PyEnv} (root : string).

Lemma refines_refl {B} st k (r : exn + B) : store_sound st → refines st (Agent st k) r.
Proof. by split. Qed.
Lemma refines_step {B} st st' k (r : exn + B) :
  store_sound st' → spec_step (abs st) (abs st') → refines st (Agent st' k) r.
Proof. split; [done|by apply rtc_once]. Qed.

(** One step of an operation that has not written anything yet. *)
Ltac refine_step :=
  cbv beta iota;
  lazymatch goal with
  | |- refines ?st (Agent ?st _) _ => by apply refines_refl
  | |- wp _now _ _ => apply wp_now; intros ? ?
  | |- wp _instant _ _ => apply wp_instant; intros ? ? ?
  | |- wp (given_time _ _) _ _ => apply wp_given_time; [intros ?|intros ? ?]
  | |- wp (given_id _ _ _) _ _ => apply wp_given_id; [intros ?|intros ? ?]
  | |- wp (build _) _ _ => apply wp_build; [intros ?|intros ? ?]
  | |- wp (_read _ _ _) _ _ => apply wp_read; [apply _|done|intros ?|intros ? ? ?]
  | |- wp (_admission_count _ _) _ _ => apply wp_admission_count; [done|]
  | |- wp (exists_file _ _) _ _ => apply wp_exists_file; intros ? ?
  | |- wp (read_constitution _ _) _ _ => unfold read_constitution
  | |- wp (read_mission _ _) _ _ => unfold read_mission
  | |- wp (read_delegation _ _) _ _ => unfold read_delegation
  | |- wp (read_effect_intent _ _) _ _ => unfold read_effect_intent
  | |- wp (read_effect_admission _ _) _ _ => unfold read_effect_admission
  | |- wp (read_effect_execution _ _) _ _ => unfold read_effect_execution
  | |- wp (_create _ _ _) _ _ =>
      apply wp_create;
        [apply _|done|by eapply validate_idem|first [done|etrans; [by eapply validate_id|done]]
        |intros ?|intros ? ? ?|intros ? ?]
  | |- _ => wp_step
  end.
Ltac refine_op := repeat refine_step.
Ltac valid_inv := repeat match goal with
  | Hv : art_validate _ = inr _ |- _ => progress art_simpl; first
      [ apply constrained_inv in Hv as [-> Hv] | injection Hv as <- ]
  end.

Ltac text_inv := repeat match goal with
  | Ht : _text _ _ = inr _ |- _ => apply text_blank in Ht as [? ?]
  end.
Ltac done_step := first [done | by apply abs_dir_some | by apply abs_dir_none | simpl in *; congruence].

Lemma create_constitution_refines st k p g lf mx pe su ci ca :
  store_sound st → wp (create_constitution root p g lf mx pe su ci ca) (refines st) (Agent st k).
Proof.
  intros Hs. unfold create_constitution. refine_op.
  apply refines_step; [done|]. rewrite abs_put_constitution.
  apply step_constitution; [done_step..|by eapply validate_idem].
Qed.

Lemma create_mission_refines st k p ag o sc ci w mi ca :
  store_sound st → wp (create_mission root p ag o sc ci w mi ca) (refines st) (Agent st k).
Proof.
  intros Hs. unfold create_mission. refine_op. bool_simpl. text_inv.
  apply refines_step; [done|]. rewrite abs_put_mission. valid_inv.
  eapply step_mission; [done_step|done|by apply abs_dir_some|done|done_step|done..].
Qed.

(** A state an operation that started from [st0] may end in. *)
Definition reached (st0 st : agent_store) : Prop :=
  store_sound st ∧ rtc spec_step (abs st0) (abs st).

Lemma transition_mission_wp st0 st k cur i expected upd Q :
  reached st0 st → files st !! i = Some (Readable cur) →
  am_mission_id (upd (body cur)) = am_mission_id (body cur) →
  (mission_state (am_state (body cur)) = expected → mission_edge (body cur) (upd (body cur))) →
  (∀ st' r, reached st0 st' → Q (Agent st' k) r) →
  wp (_transition cur i expected upd) Q (Agent st k).
Proof.
  intros [Hs Hr] Hcur Hid Hedge HQ. apply wp_transition; [done..| |].
  - intros _ e. by apply HQ.
  - intros [= Hst] Hs'. apply HQ. split; [done|]. eapply rtc_r; [done|]. rewrite abs_put_mission.
    eapply step_mission_edge; [by apply abs_dir_some|]. by apply Hedge.
Qed.
Lemma transition_mission_refines st k cur i expected upd :
  store_sound st → files st !! i = Some (Readable cur) →
  am_mission_id (upd (body cur)) = am_mission_id (body cur) →
  (mission_state (am_state (body cur)) = expected → mission_edge (body cur) (upd (body cur))) →
  wp (_transition cur i expected upd) (refines st) (Agent st k).
Proof. intros. by apply (transition_mission_wp st). Qed.

Lemma transition_execution_wp st0 st k cur i expected upd Q :
  reached st0 st → files st !! i = Some (Readable cur) →
  ex_execution_id (upd (body cur)) = ex_execution_id (body cur) →
  (execution_state (ex_state (body cur)) = expected → execution_edge (body cur) (upd (body cur))) →
  (∀ st' r, reached st0 st' → Q (Agent st' k) r) →
  wp (_transition cur i expected upd) Q (Agent st k).
Proof.
  intros [Hs Hr] Hcur Hid Hedge HQ. apply wp_transition; [done..| |].
  - intros _ e. by apply HQ.
  - intros [= Hst] Hs'. apply HQ. split; [done|]. eapply rtc_r; [done|]. rewrite abs_put_execution.
    eapply step_execution_edge; [by apply abs_dir_some|]. by apply Hedge.
Qed.

Lemma pause_mission_refines st k i reason :
  store_sound st → wp (pause_mission root i reason) (refines st) (Agent st k).
Proof.
  intros Hs. unfold pause_mission. refine_op. text_inv.
  apply transition_mission_refines; [done..|]. intros Hst. apply edge_pause; [|done].
  by destruct (am_state _).
Qed.

Lemma resume_mission_refines st k i w :
  store_sound st → wp (resume_mission root i w) (refines st) (Agent st k).
Proof.
  intros Hs. unfold resume_mission. refine_op.
  apply transition_mission_refines; [done..|]. intros Hst. apply edge_resume.
  by destruct (am_state _).
Qed.

Lemma close_mission_refines st k i reason :
  store_sound st → wp (close_mission root i reason) (refines st) (Agent st k).
Proof.
  intros Hs. unfold close_mission. refine_op. bool_simpl. text_inv.
  apply transition_mission_refines; [done..|]. intros _. by apply edge_close.
Qed.

Lemma create_belief_refines st k mi cl co rc ev ce bi ca :
  store_sound st → wp (create_belief root mi cl co rc ev ce bi ca) (refines st) (Agent st k).
Proof.
  intros Hs. unfold create_belief. refine_op.
  apply refines_step; [done|]. rewrite abs_put_belief.
  eapply step_belief; [done_step..|by eapply validate_idem|]. valid_inv. by apply abs_dir_some.
Qed.

Lemma checkpoint_mission_refines st k mi w br er note ci ca :
  store_sound st → wp (checkpoint_mission root mi w br er note ci ca) (refines st) (Agent st k).
Proof.
  intros Hs. unfold checkpoint_mission. refine_op; bool_simpl.
  - eapply (transition_mission_wp st); [by split|done..|by intros; apply edge_checkpoint|].
    by intros st' [e|m] Hr.
  - apply refines_step; [done|]. rewrite abs_put_checkpoint. valid_inv.
    eapply step_checkpoint; [done_step|done|by apply abs_dir_some|done].
  - eapply (transition_mission_wp st); [|by destruct st|done|by intros; apply edge_checkpoint|].
    + split; [done|]. apply rtc_once. rewrite abs_put_checkpoint. valid_inv.
      eapply step_checkpoint; [done_step|done|by apply abs_dir_some|done].
    + by intros st' [e|m] Hr.
Qed.

Lemma create_delegation_refines st k ci p ag mn mu ex di ca :
  store_sound st → wp (create_delegation root ci p ag mn mu ex di ca) (refines st) (Agent st k).
Proof.
  intros Hs. unfold create_delegation. refine_op. bool_simpl. text_inv.
  apply refines_step; [done|]. rewrite abs_put_delegation.
  match goal with Hv : art_validate _ = inr _ |- _ => pose proof (validate_idem _ _ Hv);
    apply validate_delegation_inv in Hv as (t' & _ & -> & _) end.
  eapply step_delegation; [done_step|done|done|by apply abs_dir_some|done|done_step|done|done].
Qed.

Lemma revoke_delegation_refines st k i reason :
  store_sound st → wp (revoke_delegation root i reason) (refines st) (Agent st k).
Proof.
  intros Hs. unfold revoke_delegation. refine_op. text_inv.
  match goal with Hf : sound_file _ _ |- _ => destruct Hf as (_ & _ & Hv) end.
  apply wp_transition; [done|done| |done| |].
  - art_simpl. apply validate_delegation_inv in Hv as (t' & Ht & Hb & Hn & Hu).
    unfold validate_delegation. cbn [dg_expires_at_utc set_revoked]. rewrite Ht.
    unfold constrained. cbn [dg_max_notional dg_max_uses set_revoked set_expiry]. rewrite Hn.
    rewrite (proj2 (Z.ltb_lt _ _) Hu). simpl. f_equal. rewrite Hb at 2. done.
  - intros _ e. by apply refines_refl.
  - intros [= Hst] Hs'. apply refines_step; [done|]. rewrite abs_put_delegation.
    eapply step_revoke; [by apply abs_dir_some| |done]. by destruct (dg_state _).
Qed.

Lemma create_effect_intent_refines st k r :
  store_sound st → wp (create_effect_intent root r) (refines st) (Agent st k).
Proof.
  intros Hs. unfold create_effect_intent. refine_op. bool_simpl. text_inv.
  apply refines_step; [done|]. rewrite abs_put_intent.
  match goal with Hv : art_validate _ = inr _ |- _ => pose proof (validate_idem _ _ Hv) end.
  valid_inv.
  eapply step_intent; [done_step|done|done|done|by apply abs_dir_some|by apply abs_dir_some|..];
    done_step.
Qed.

(** The admission [admit_check] lets through is admissible. *)
Lemma admission_reasons_nil i m d c w ex nw :
  admission_reasons i m d c w ex nw = [] →
  am_state m = MissionActive ∧ dg_state d = DelegationActive ∧ (nw < ex)%Z ∧
  ei_principal_id i = dg_principal_id d ∧ ei_agent_id i = dg_agent_id d ∧
  (ei_world_id i = world_id w ∧ ei_world_basis_digest i = basis_digest w) ∧
  world_admitted w = true ∧ ei_effect_type i ∈ dg_allowed_effects d ∧
  effect_type (ei_effect_type i) ∉ pc_prohibited_effects c.
Proof.
  unfold admission_reasons, reason_if. intros E.
  repeat (apply app_eq_nil in E as [? E]).
  repeat match goal with Hr : (if _ then _ else _) = [] |- _ => case_match; [done|]; clear Hr end.
  bool_simpl. repeat match goal with Hn : ¬ (_ ≠ _) |- _ => apply dec_stable in Hn
    | Hn : ¬ (_ ∉ _) |- _ => apply dec_stable in Hn end.
  split_and!; try done; [lia|].
  intros Hp. by rewrite (proj2 (mem_true _ _) Hp) in *.
Qed.

Definition check_post (st : agent_store) (k : kernel_state) (iid : string) (w : CapitalWorld)
    (a : agent_state)
    (r : exn + (sealed EffectAdmission + EffectAdmission)) : Prop :=
  a_store a = st ∧
  match r with
  | inl _ => True
  | inr (inl s) => files st !! admission_id_of iid = Some (Readable s)
  | inr (inr x) =>
      sp_admissions (abs st) !! admission_id_of iid = None ∧ ad_admission_id x = admission_id_of iid ∧
      art_validate x = inr x ∧
      ∃ i m d c expires, admissible (abs st) iid w i m d c x ∧
        _parse_utc (dg_expires_at_utc d) "expires_at_utc" = inr expires ∧
        (clock (sys_ticks (k_sys k)) < expires)%Z
  end.

Lemma admit_check_wp st k iid w :
  store_sound st → wp (admit_check root iid w) (check_post st k iid w) (Agent st k).
Proof.
  intros Hs. unfold admit_check. refine_op; try done.
  destruct (_ ++ _) as [|? ?] eqn:Er; [|done].
  apply app_eq_nil in Er as [Er Huse]. apply app_eq_nil in Er as [Er Hlim].
  apply app_eq_nil in Er as [Er _]. apply admission_reasons_nil in Er.
  destruct (_verified_position_basis _ w) as [|[q p]] eqn:Ep; [done|].
  unfold reason_if in Huse, Hlim. repeat case_match; try done. bool_simpl.
  match goal with Hv : art_validate _ = inr _ |- _ => pose proof (validate_idem _ _ Hv) end.
  valid_inv. simplify_eq. split; [done|]. split_and!; [by apply abs_dir_none, has_false|done|done|].
  eexists _, _, _, _, _. split_and!; [|done|apply Er].
  split; simpl; try (by apply abs_dir_some); try apply Er; try done.
  - by eexists.
  - by apply dlt_dle.
  - by apply dlt_dle.
  - lia.
Qed.

Lemma admit_effect_refines st k iid w :
  store_sound st → wp (admit_effect root iid w) (refines st) (Agent st k).
Proof.
  intros Hs. unfold admit_effect. apply wp_bind. eapply wp_mono, admit_check_wp; [|done].
  intros [st' k'] [e|[old|a]] [Ha Hp]; simpl in Ha; subst st'; [by apply refines_refl..|].
  destruct Hp as (Hnone & Hid & Hv & i & m & d & c & ex & Hadm & _).
  apply wp_create; [apply _|done|done|done|intros ?|intros ? ? ?|intros ? Hs']; try by apply refines_refl.
  apply refines_step; [done|]. rewrite abs_put_admission. by eapply step_admit.
Qed.

(** *** Executions *)

Section Execution.
Context `{Database} (reg : registry).

Definition precondition_post (st : agent_store) (iid ai : string) (w : CapitalWorld) (a : agent_state)
    (r : exn + (EffectIntent * EffectAdmission * string * dec)) : Prop :=
  a_store a = st ∧
  match r with
  | inl _ => True
  | inr (i, ad, did, before) =>
      ∃ m d, sp_intents (abs st) !! iid = Some i ∧ sp_admissions (abs st) !! ai = Some ad ∧
        ad_effect_intent_id ad = iid ∧ sp_missions (abs st) !! ei_mission_id i = Some m ∧
        am_state m = MissionActive ∧ sp_delegations (abs st) !! ei_delegation_id i = Some d ∧
        dg_state d = DelegationActive ∧ dg_delegation_id d = did ∧
        ad_world_id ad = world_id w ∧ ad_world_basis_digest ad = basis_digest w ∧
        world_admitted w = true ∧
        ∃ price, _verified_position_basis i w = inr (before, price) ∧
          deq (ad_verified_reference_price ad) price = true
  end.

Lemma execution_preconditions_wp st k iid ai w :
  store_sound st → wp (execution_preconditions root iid ai w) (precondition_post st iid ai w) (Agent st k).
Proof.
  intros Hs. unfold execution_preconditions. refine_op; try done. bool_simpl.
  split; [done|]. eexists _, _. split_and!; try (by apply abs_dir_some); try done.
  by eexists.
Qed.

Lemma execute_simulated_effect_refines st k rr iid ai w :
  store_sound st → wp (execute_simulated_effect root reg rr iid ai w) (refines st) (Agent st k).
Proof.
  intros Hs. unfold execute_simulated_effect. apply wp_bind.
  eapply wp_mono, execution_preconditions_wp; [|done].
  intros [st' k'] [e|[[[i ad] did] before]] [Ha Hp]; simpl in Ha; subst st'; [by apply refines_refl|].
  destruct Hp as (m & d & Hi & Had & Hb & Hm & Hma & Hd & Hda & _).
  refine_op; try (rewrite has_false in *; congruence).
  valid_inv. match goal with |- wp _ _ (Agent ?st1 _) => assert (Hr : reached st st1) end.
  { split; [done|]. apply rtc_once. rewrite abs_put_execution.
    by eapply step_claim; [by apply abs_dir_none|..]. }
  apply wp_on_kernel. intros [e|trail] k1 _; [by apply wp_raise|].
  apply wp_bind, wp_now. intros t' k2.
  eapply (transition_execution_wp st); [done|destruct st; apply lookup_insert_eq|done| |done].
  intros _. by apply edge_complete.
Qed.

Lemma bind_runtime_execution_refines st k xi job att :
  store_sound st → wp (bind_runtime_execution root xi job att) (refines st) (Agent st k).
Proof.
  intros Hs. unfold bind_runtime_execution. refine_op; text_inv.
  all: eapply (transition_execution_wp st); [by split|done|done| |done].
  all: intros _; by apply edge_bind.
Qed.

Lemma reconcile_claimed_execution_refines st k xi out ev reason :
  store_sound st → wp (reconcile_claimed_execution root xi out ev reason) (refines st) (Agent st k).
Proof.
  intros Hs. unfold reconcile_claimed_execution. refine_op; text_inv.
  all: eapply (transition_execution_wp st); [by split|done|done| |done].
  all: intros Hst; constructor; [by destruct (ex_state _)|done..].
Qed.

Lemma record_consequence_refines st k mi xi wb wa ec oc di :
  store_sound st → wp (record_consequence root mi xi wb wa ec oc di) (refines st) (Agent st k).
Proof.
  intros Hs. unfold record_consequence. refine_op. bool_simpl.
  apply refines_step; [done|]. rewrite abs_put_consequence. valid_inv.
  eapply step_consequence; [done_step|done|by apply abs_dir_some|by apply abs_dir_some|done|done|..];
    done_step.
Qed.

Lemma list_missions_unchanged st k p :
  store_sound st → wp (list_missions root p) (refines st) (Agent st k).
Proof.
  intros Hs. unfold list_missions. apply wp_bind.
  apply (wp_intro _ _ _ (Agent st k) (inr (json_names (f_missions st)))); [by destruct st|].
  apply wp_bind. generalize (json_names (f_missions st)). intros l.
  eapply (wp_mono _ (λ a r, a = Agent st k)); [intros a [e|ms] ->; by apply refines_refl|].
  induction l as [|i l IH]; simpl; [done|]. refine_op; try done.
  eapply wp_mono, IH. by intros a [e|ms] ->.
Qed.
End Execution.
End Refinement.
