(* ===== verification/AgentRuns.v ===== *)
(** Runs of the capital agent: sequences of calls of its operations, each of
    which may return or raise, and what holds of the store after any run. *)
From S2P Require Import Prelude PyDecimal PyTime PyJson TimeFacts ReceiptIO ExecutionModels ExecutionServices ExecutionCommands ExecutionFacts AgentModels AgentStore AgentSpec AgentRefinement.

(** One constructor per operation of [CapitalAgentStore] that may change
    files, and the calls other clients make on the execution kernel. *)
Inductive agent_call `{PyEnv} :=
  | CallCreateConstitution (principal : string) (goals : list string) (floor max : dec)
      (prohibited : list string) (supersedes i created : option string)
  | CallCreateMission (principal agent objective : string) (conditions : list string)
      (constitution : string) (w : CapitalWorld) (i created : option string)
  | CallListMissions (principal : option string)
  | CallPauseMission (i reason : string)
  | CallResumeMission (i : string) (w : CapitalWorld)
  | CallCloseMission (i reason : string)
  | CallCreateBelief (mission claim : string) (confidence : dec) (condition : string)
      (evidence counter : list string) (i created : option string)
  | CallCheckpoint (mission : string) (w : CapitalWorld) (beliefs effects : list string)
      (note : string) (i created : option string)
  | CallCreateDelegation (constitution principal agent : string) (max_notional : dec) (max_uses : Z)
      (expires : string) (i created : option string)
  | CallRevokeDelegation (i reason : string)
  | CallCreateIntent (r : IntentRequest)
  | CallAdmit (intent : string) (w : CapitalWorld)
  | CallExecute (reg : registry) (receipt_root intent admission : string) (w : CapitalWorld)
  | CallBindRuntime (execution job : string) (attempt : option string)
  | CallReconcile (execution : string) (outcome : ReconcileOutcome) (evidence : list string)
      (reason : string)
  | CallConsequence (mission execution : string) (before after : CapitalWorld)
      (expected observed : list (string * json)) (discrepancies : list (list (string * json)))
  | CallKernel (c : kernel_call).

Section Runs.
Context `{PyEnv} `{Database} (root : string).

Definition run_agent_call (c : agent_call) : M agent_state unit :=
  match c with
  | CallCreateConstitution p g f m pr s i t => ignore (create_constitution root p g f m pr s i t)
  | CallCreateMission p a o c ci w i t => ignore (create_mission root p a o c ci w i t)
  | CallListMissions p => ignore (list_missions root p)
  | CallPauseMission i r => ignore (pause_mission root i r)
  | CallResumeMission i w => ignore (resume_mission root i w)
  | CallCloseMission i r => ignore (close_mission root i r)
  | CallCreateBelief m c f r e ce i t => ignore (create_belief root m c f r e ce i t)
  | CallCheckpoint m w b e n i t => ignore (checkpoint_mission root m w b e n i t)
  | CallCreateDelegation c p a mn mu e i t => ignore (create_delegation root c p a mn mu e i t)
  | CallRevokeDelegation i r => ignore (revoke_delegation root i r)
  | CallCreateIntent r => ignore (create_effect_intent root r)
  | CallAdmit i w => ignore (admit_effect root i w)
  | CallExecute reg rr i a w => ignore (execute_simulated_effect root reg rr i a w)
  | CallBindRuntime x j a => ignore (bind_runtime_execution root x j a)
  | CallReconcile x o e r => ignore (reconcile_claimed_execution root x o e r)
  | CallConsequence m x b a e o d => ignore (record_consequence root m x b a e o d)
  | CallKernel c => on_kernel (run_call c)
  end.

(** One call, whether it returns or raises. *)
Definition agent_step : relation agent_state := λ a a', ∃ c, a' = (run_agent_call c a).1.

Lemma ignore_wp {B} (m : M agent_state B) st k :
  wp m (refines st) (Agent st k) → wp (ignore m) (refines st) (Agent st k).
Proof. intros Hm. apply wp_bind. eapply wp_mono, Hm. by intros a [e|b]. Qed.

Lemma run_agent_call_refines c st k :
  store_sound st → wp (run_agent_call c) (refines st) (Agent st k).
Proof.
  intros Hs. destruct c; simpl;
    try (apply ignore_wp;
      first [ by apply create_constitution_refines | by apply create_mission_refines
            | by apply list_missions_unchanged | by apply pause_mission_refines
            | by apply resume_mission_refines | by apply close_mission_refines
            | by apply create_belief_refines | by apply checkpoint_mission_refines
            | by apply create_delegation_refines | by apply revoke_delegation_refines
            | by apply create_effect_intent_refines | by apply admit_effect_refines
            | by apply execute_simulated_effect_refines | by apply bind_runtime_execution_refines
            | by apply reconcile_claimed_execution_refines | by apply record_consequence_refines ]).
  apply wp_on_kernel. intros r k' _. by apply refines_refl.
Qed.

Lemma agent_run_refines a a' :
  rtc agent_step a a' → store_sound (a_store a) →
  store_sound (a_store a') ∧ rtc spec_step (abs (a_store a)) (abs (a_store a')).
Proof.
  induction 1 as [|[st k] a1 a' [c ->] _ IH]; [by split|]. intros Hs.
  destruct (run_agent_call_refines c st k Hs) as [Hs1 Hr1].
  destruct (IH Hs1) as [Hs' Hr']. split; [done|]. by etrans.
Qed.
End Runs.
