(* ===== verification/AgentInvariants.v ===== *)
(** Invariants of the abstract agent, by induction on its transitions: what
    never changes, which changes are final, and the budget of a delegation. *)
From S2P Require Import Prelude PyDecimal PyTime PyJson ReceiptIO AgentModels AgentStore AgentSpec.

(** ** Growing maps *)

Definition map_le {A} (R : relation A) (m m' : gmap string A) : Prop :=
  ∀ i x, m !! i = Some x → ∃ x', m' !! i = Some x' ∧ R x x'.

#[export] Instance map_le_preorder {A} (R : relation A) : PreOrder R → PreOrder (map_le R).
Proof.
  intros HR. split.
  - intros m i x Hx. exists x. by split.
  - intros m1 m2 m3 H12 H23 i x Hx. destruct (H12 i x Hx) as (y & Hy & Rxy).
    destruct (H23 i y Hy) as (z & Hz & Ryz). exists z. split; [done|by etrans].
Qed.
Lemma map_le_fresh {A} (R : relation A) `{!Reflexive R} m i x :
  m !! i = None → map_le R m (<[i := x]> m).
Proof.
  intros Hi j y Hy. exists y. split; [|done]. rewrite lookup_insert_ne; [done|congruence].
Qed.
Lemma map_le_edge {A} (R : relation A) `{!Reflexive R} m i x x' :
  m !! i = Some x → R x x' → map_le R m (<[i := x']> m).
Proof.
  intros Hi HR j y Hy. destruct (decide (i = j)) as [->|Hn].
  - exists x'. rewrite lookup_insert_eq. split; [done|]. congruence.
  - exists y. by rewrite lookup_insert_ne.
Qed.

(** ** Lifecycles *)

(** Who a mission belongs to and what it is for. *)
Definition mission_identity (m : AgentMission) :=
  (am_mission_id m, am_principal_id m, am_agent_id m, am_objective m, am_success_conditions m,
   am_constitution_ref m, am_created_at_utc m).
Definition mission_le (m m' : AgentMission) : Prop :=
  mission_identity m' = mission_identity m ∧ (am_state m = MissionClosed → m' = m).
#[export] Instance mission_le_preorder : PreOrder mission_le.
Proof.
  unfold mission_le. split; [done|]. intros a b c [H1 H2] [H3 H4]. split; [congruence|].
  intros Ha. specialize (H2 Ha). subst b. auto.
Qed.

Definition delegation_le (d d' : DelegationEnvelope) : Prop :=
  d' = d ∨ (dg_state d = DelegationActive ∧ ∃ now reason, d' = set_revoked now reason d).
#[export] Instance delegation_le_preorder : PreOrder delegation_le.
Proof.
  unfold delegation_le. split; [by left|].
  intros a b c [->|(Ha & n & r & ->)] [->|(Hb & n' & r' & ->)]; eauto 10.
Qed.

(** What was decided about an execution, and the runtime job it is bound to. *)
Definition execution_decision (x : EffectExecutionRecord) :=
  (ex_state x, ex_order_draft_id x, ex_execution_order_id x, ex_execution_report_id x,
   ex_position_delta_id x, ex_reconciliation_id x, ex_failure_reason x, ex_recovery_evidence_refs x).
Definition execution_identity (x : EffectExecutionRecord) :=
  (ex_execution_id x, ex_effect_intent_ref x, ex_admission_ref x, ex_created_at_utc x).
Definition execution_le (x x' : EffectExecutionRecord) : Prop :=
  execution_identity x' = execution_identity x ∧
  (ex_state x ≠ ExecutionClaimed → execution_decision x' = execution_decision x) ∧
  (ex_runtime_job_id x ≠ None →
     ex_runtime_job_id x' = ex_runtime_job_id x ∧ ex_runtime_attempt_id x' = ex_runtime_attempt_id x).
#[export] Instance execution_le_preorder : PreOrder execution_le.
Proof.
  unfold execution_le. split; [done|].
  intros a b c (H1 & H2 & H3) (H4 & H5 & H6). split_and!; [congruence| |].
  - intros Ha. specialize (H2 Ha). rewrite <-H2. apply H5.
    unfold execution_decision in H2. congruence.
  - intros Ha. destruct (H3 Ha) as [H7 H8]. rewrite <-H7, <-H8. apply H6. congruence.
Qed.

Record spec_le (s s' : spec_state) : Prop := {
  le_constitutions : map_le eq (sp_constitutions s) (sp_constitutions s');
  le_missions : map_le mission_le (sp_missions s) (sp_missions s');
  le_beliefs : map_le eq (sp_beliefs s) (sp_beliefs s');
  le_checkpoints : map_le eq (sp_checkpoints s) (sp_checkpoints s');
  le_delegations : map_le delegation_le (sp_delegations s) (sp_delegations s');
  le_intents : map_le eq (sp_intents s) (sp_intents s');
  le_admissions : map_le eq (sp_admissions s) (sp_admissions s');
  le_executions : map_le execution_le (sp_executions s) (sp_executions s');
  le_consequences : map_le eq (sp_consequences s) (sp_consequences s');
}.
#[export] Instance spec_le_preorder : PreOrder spec_le.
Proof.
  split; [intros s; split; reflexivity|].
  intros a b c [] []; split; by etrans.
Qed.

Lemma mission_edge_le m m' : mission_edge m m' → mission_le m m'.
Proof. unfold mission_le. by destruct 1; (split; [done|congruence]). Qed.
Lemma execution_edge_le x x' : execution_edge x x' → execution_le x x'.
Proof.
  unfold execution_le. destruct 1 as [x j a n Hj _|x ? ? ? ? ? ? Hs|x ? ? Hs|x ? ? ? Hs _];
    split_and!; try done; intros; congruence.
Qed.

Section Invariants.
Context `{PyEnv}.

(** Every transition only adds artifacts and moves lifecycles forward. *)
Lemma spec_step_le s s' : spec_step s s' → spec_le s s'.
Proof.
  destruct 1; destruct s; split; simpl in *; try reflexivity;
    first [ by apply map_le_fresh; [apply _|]
          | eapply map_le_edge; [apply _|done|by apply mission_edge_le]
          | eapply map_le_edge; [apply _|done|by apply execution_edge_le]
          | eapply map_le_edge; [apply _|done|right; eauto]].
Qed.
Lemma spec_steps_le s s' : rtc spec_step s s' → spec_le s s'.
Proof. induction 1; [reflexivity|]. etrans; [by apply spec_step_le|done]. Qed.

(** ** The state of a mission and its stop reason agree *)

Definition mission_wf (m : AgentMission) : Prop :=
  match am_state m with
  | MissionActive => am_stop_reason m = None ∧ am_closed_at_utc m = None
  | MissionPaused => (∃ r, am_stop_reason m = Some r ∧ blank r = false) ∧ am_closed_at_utc m = None
  | MissionClosed => (∃ r, am_stop_reason m = Some r ∧ blank r = false) ∧
                     ∃ t, am_closed_at_utc m = Some t ∧ am_updated_at_utc m = t
  end.

Lemma mission_edge_wf m m' : mission_edge m m' → mission_wf m → mission_wf m'.
Proof.
  unfold mission_wf. destruct 1 as [m r n Hst Hr|m w d n Hst|m r n Hst Hr|m w d c n Hst]; simpl;
    rewrite ?Hst; try naive_solver. destruct (am_state m); naive_solver.
Qed.

Lemma spec_missions_wf s s' :
  spec_step s s' → map_Forall (λ _, mission_wf) (sp_missions s) →
  map_Forall (λ _, mission_wf) (sp_missions s').
Proof.
  destruct 1; destruct s; simpl in *; intros Hm; try done.
  - apply map_Forall_insert_2; [|done]. unfold mission_wf.
    by match goal with Hst : am_state _ = MissionActive |- _ => rewrite Hst end.
  - apply map_Forall_insert_2; [|done]. eapply mission_edge_wf; [done|]. by eapply Hm.
Qed.

(** ** The budget of a delegation *)

(** Ids are consistent, admissions belong to a delegation, and no delegation
    was used more often than it allows. *)
Record budget (s : spec_state) : Prop := {
  budget_ids : map_Forall (λ i d, dg_delegation_id d = i) (sp_delegations s);
  budget_known : map_Forall (λ _ a, is_Some (sp_delegations s !! ad_delegation_id a)) (sp_admissions s);
  budget_uses : map_Forall (λ i d, (Z.of_nat (uses s i) <= dg_max_uses d)%Z) (sp_delegations s);
}.

Lemma uses_none s i :
  map_Forall (λ _ a, ad_delegation_id a ≠ i) (sp_admissions s) → uses s i = 0.
Proof.
  intros Hn. unfold uses. rewrite map_size_empty_iff. apply map_empty. intros j.
  apply map_lookup_filter_None. right. intros a Ha. simpl. by apply (Hn j a Ha).
Qed.

Lemma uses_put s i a did :
  sp_admissions s !! i = None →
  uses (put_admission i a s) did = (if decide (ad_delegation_id a = did) then 1 else 0) + uses s did.
Proof. destruct s. unfold uses. simpl. intros Hi. by rewrite size_filter_insert. Qed.

Lemma budget_delegation s i d :
  budget s → sp_delegations s !! i = None → dg_delegation_id d = i → (0 < dg_max_uses d)%Z →
  budget (put_delegation i d s).
Proof.
  intros [Hid Hk Hu] Hi Hd Hpos.
  assert (Hz : uses s i = 0).
  { apply uses_none. intros j a Ha <-. destruct (Hk j a Ha). congruence. }
  destruct s; split; simpl in *.
  - by apply map_Forall_insert_2.
  - intros j a Ha. rewrite lookup_insert_is_Some'. right. by apply (Hk j a Ha).
  - apply map_Forall_insert_2; [|done]. unfold uses in *. simpl in *. rewrite Hz. lia.
Qed.

Lemma budget_revoke s i d d' :
  budget s → sp_delegations s !! i = Some d → dg_delegation_id d' = dg_delegation_id d →
  dg_max_uses d' = dg_max_uses d → budget (put_delegation i d' s).
Proof.
  intros [Hid Hk Hu] Hi Hd Hm. destruct s; split; simpl in *.
  - apply map_Forall_insert_2; [|done]. rewrite Hd. by apply Hid.
  - intros j a Ha. rewrite lookup_insert_is_Some'. right. by apply (Hk j a Ha).
  - apply map_Forall_insert_2; [|done]. rewrite Hm. by apply (Hu i d).
Qed.

Lemma budget_admission s i a d :
  budget s → sp_admissions s !! i = None → sp_delegations s !! ad_delegation_id a = Some d →
  (Z.of_nat (uses s (ad_delegation_id a)) < dg_max_uses d)%Z → budget (put_admission i a s).
Proof.
  intros [Hid Hk Hu] Hi Hd Hlt. split.
  - by destruct s.
  - destruct s; simpl in *. apply map_Forall_insert_2; [by eexists|done].
  - intros j d' Hj. rewrite uses_put by done. assert (Hj' : sp_delegations s !! j = Some d') by by destruct s.
    specialize (Hu j d' Hj'). simpl in Hu. case_decide as E; [|done]. subst j.
    rewrite Hd in Hj'. injection Hj' as <-. lia.
Qed.

Lemma budget_step s s' : spec_step s s' → budget s → budget s'.
Proof.
  intros Hst Hb. pose proof Hb as [Hid Hk Hu].
  destruct Hst as [s i c|s i m ci c|s i m m'|s i b m|s i c m|s i d ci c Hn Hi Hv|s i d n r Hd|s i it m d
    |s iid w i m d c a Hn Ha Hv Hadm|s iid ai a i m d x|s i x x'|s i q m xi x];
    try by (destruct s; split).
  - apply budget_delegation; [done..|]. simpl in Hv. unfold validate_delegation, constrained in Hv.
    repeat case_match; simplify_eq. bool_simpl. lia.
  - by eapply budget_revoke.
  - destruct Hadm. pose proof (Hid _ _ adm_delegation) as E. simpl in E.
    destruct adm_binds as (_ & _ & Hdid & _).
    apply (budget_admission _ _ _ d); [done|done|rewrite Hdid; congruence|rewrite Hdid; done].
Qed.

(** ** Delegations stay within their constitution *)

(** A delegation's constitution exists and allows at least its limit. *)
Definition delegation_backed (s : spec_state) (d : DelegationEnvelope) : Prop :=
  ∃ ci c, dg_constitution_ref d = ref PrincipalConstitution ci ∧
    sp_constitutions s !! ci = Some c ∧ dg_principal_id d = strip (pc_principal_id c) ∧
    dle (dg_max_notional d) (pc_max_simulated_notional c) = true.

Lemma delegation_backed_mono s s' d :
  spec_le s s' → delegation_backed s d → delegation_backed s' d.
Proof.
  intros Hle (ci & c & Hr & Hc & Hp & Hn). destruct (le_constitutions _ _ Hle ci c Hc) as (c' & Hc' & <-).
  by exists ci, c.
Qed.

Lemma delegations_backed_step s s' :
  spec_step s s' → map_Forall (λ _, delegation_backed s) (sp_delegations s) →
  map_Forall (λ _, delegation_backed s') (sp_delegations s').
Proof.
  intros Hst Hb. pose proof (spec_step_le _ _ Hst) as Hle.
  assert (Hb' : map_Forall (λ _, delegation_backed s') (sp_delegations s)).
  { intros i d Hd. eapply delegation_backed_mono; [done|by eapply Hb]. }
  revert Hb' Hle. destruct Hst as [s i c|s i m ci c|s i m m'|s i b m|s i c m|s i d ci c|s i d n r Hd|
    s i it m d|s iid w i m d c a|s iid ai a i m d x|s i x x'|s i q m xi x];
    destruct s; simpl in *; intros Hb' Hle; try done.
  - apply map_Forall_insert_2; [|done]. by exists ci, c.
  - apply map_Forall_insert_2; [|done]. apply (Hb' i d Hd).
Qed.

(** ** Every admission was admissible, every execution was admitted *)

(** The limits an admission was granted under, which never change later. *)
Definition admission_backed (s : spec_state) (a : EffectAdmission) : Prop :=
  ∃ i d c, sp_intents s !! ad_effect_intent_id a = Some i ∧
    sp_delegations s !! ei_delegation_id i = Some d ∧
    sp_constitutions s !! path_stem (dg_constitution_ref d) = Some c ∧
    ei_principal_id i = dg_principal_id d ∧ ei_agent_id i = dg_agent_id d ∧
    ei_effect_type i ∈ dg_allowed_effects d ∧
    effect_type (ei_effect_type i) ∉ pc_prohibited_effects c ∧
    ad_admitted_notional a = dec_mul (ei_quantity i) (ad_verified_reference_price a) ∧
    dle (ad_admitted_notional a) (dg_max_notional d) = true ∧
    dle (ad_admitted_notional a) (pc_max_simulated_notional c) = true ∧
    ei_world_id i = ad_world_id a ∧ ei_world_basis_digest i = ad_world_basis_digest a.

Lemma admission_backed_mono s s' a : spec_le s s' → admission_backed s a → admission_backed s' a.
Proof.
  intros Hle (i & d & c & Hi & Hd & Hc & Hrest).
  destruct (le_intents _ _ Hle _ i Hi) as (i' & Hi' & <-).
  destruct (le_delegations _ _ Hle _ d Hd) as (d' & Hd' & Hdle).
  destruct (le_constitutions _ _ Hle _ c Hc) as (c' & Hc' & <-).
  exists i, d', c. destruct Hdle as [->|(_ & n & r & ->)]; simpl in *; tauto.
Qed.

Definition execution_backed (s : spec_state) (x : EffectExecutionRecord) : Prop :=
  ∃ ai a, ex_admission_ref x = ref EffectAdmission ai ∧ sp_admissions s !! ai = Some a ∧
    ex_effect_intent_ref x = ref EffectIntent (ad_effect_intent_id a) ∧
    ex_execution_id x = execution_id_of (ad_effect_intent_id a).

Lemma execution_backed_mono s s' x x' :
  spec_le s s' → execution_le x x' → execution_backed s x → execution_backed s' x'.
Proof.
  intros Hle (Hx & _) (ai & a & Hr & Ha & Hi & He).
  destruct (le_admissions _ _ Hle _ a Ha) as (a' & Ha' & <-).
  unfold execution_identity in Hx. injection Hx as Hx1 Hx2 Hx3 Hx4.
  exists ai, a. split_and!; congruence.
Qed.

Record backed (s : spec_state) : Prop := {
  backed_admissions : map_Forall (λ _, admission_backed s) (sp_admissions s);
  backed_executions : map_Forall (λ _, execution_backed s) (sp_executions s);
}.

Lemma backed_step s s' : spec_step s s' → backed s → backed s'.
Proof.
  intros Hst [Ha Hx]. pose proof (spec_step_le _ _ Hst) as Hle.
  assert (Ha' : map_Forall (λ _, admission_backed s') (sp_admissions s)).
  { intros i a E. eapply admission_backed_mono; [done|by eapply Ha]. }
  assert (Hx' : map_Forall (λ _, execution_backed s') (sp_executions s)).
  { intros i x E. eapply execution_backed_mono; [done|reflexivity|by eapply Hx]. }
  revert Ha' Hx' Hle. destruct Hst as [s i c|s i m ci c|s i m m'|s i b m|s i c m|s i d ci c|s i d n r Hd|
    s i it m d|s iid w i m d c a Hn Hid Hv Hadm|s iid ai a i m d x|s i x x' Hlx Hedge|s i q m xi x];
    intros Ha' Hx' Hle; try by (destruct s; split).
  - split; [|by destruct s]. assert (Hnew : admission_backed s a).
    { destruct Hadm. destruct adm_binds as (Hb & _ & _ & _ & Hw & Hwb). destruct adm_world as [Hw1 Hw2].
      exists i, d, c. rewrite Hb, Hw, Hwb. split_and!; congruence. }
    destruct s; simpl in *. apply map_Forall_insert_2; [|done].
    by eapply admission_backed_mono.
  - split; [by destruct s|]. destruct s; simpl in *. apply map_Forall_insert_2; [|done].
    exists ai, a. simpl. split_and!; congruence.
  - split; [by destruct s|]. assert (Hold : execution_backed s x) by by eapply Hx.
    assert (Hnew : execution_backed (put_execution i x' s) x').
    { eapply execution_backed_mono; [done|by apply execution_edge_le|done]. }
    destruct s; simpl in *. by apply map_Forall_insert_2.
Qed.
End Invariants.
