(* ===== verification/AgentTheorems.v ===== *)
(** What any run of the capital agent guarantees: integrity of the store,
    artifacts that never change, lifecycles that only move forward, limits
    that hold for every admission, and effects that happen at most once. *)
From S2P Require Import Prelude PyDecimal PyTime PyJson TimeFacts ReceiptIO ExecutionModels ExecutionServices ExecutionCommands ExecutionFacts AgentModels AgentStore AgentSpec AgentRefinement AgentRuns AgentInvariants.

(** C3: the artifact store refines the abstract agent.  From a store whose files
    are all hashed, valid and under their own id, any sequence of calls
    (returning or raising) leads to such a store again, and what happened to
    the artifacts is a sequence of transitions of the specification. *)
Theorem agent_refines_spec `{PyEnv} `{Database} (root : string) (a a' : agent_state)
    (Hsound : store_sound (a_store a)) (Hrun : rtc (agent_step root) a a') :
  store_sound (a_store a') ∧ rtc spec_step (abs (a_store a)) (abs (a_store a')).
Proof. by eapply agent_run_refines. Qed.

(** ** From abstract to stored artifacts *)

Section Stored.
Context `{PyEnv}.

Lemma dir_le {A} `{Artifact A} (R : relation A) (d d' : directory A) i s :
  sound_dir d' → map_le R (abs_dir d) (abs_dir d') → d !! i = Some (Readable s) →
  ∃ s', d' !! i = Some (Readable s') ∧ R (body s) (body s') ∧ sound_file i (Readable s').
Proof.
  intros Hd' Hle Hs. destruct (Hle i _ (abs_dir_some _ _ _ Hs)) as (x & Hx & HR).
  apply abs_dir_inv in Hx as (s' & Hs' & <- & Hf); [|done]. by exists s'.
Qed.

Lemma dir_subseteq {A} `{Artifact A} (d d' : directory A) :
  sound_dir d → sound_dir d' → map_le eq (abs_dir d) (abs_dir d') → d ⊆ d'.
Proof.
  intros Hd Hd' Hle. apply map_subseteq_spec. intros i [s|] Hs; [|by apply Hd in Hs].
  destruct (dir_le _ _ _ _ _ Hd' Hle Hs) as (s' & Hs' & Hb & Hf).
  rewrite (sound_sealed _ _ Hf), <-Hb in Hs'. apply Hd in Hs as Hs0.
  by rewrite (sound_sealed _ _ Hs0).
Qed.

Lemma run_le `{Database} root a a' :
  store_sound (a_store a) → rtc (agent_step root) a a' →
  store_sound (a_store a') ∧ spec_le (abs (a_store a)) (abs (a_store a')).
Proof.
  intros Hs Hr. destruct (agent_run_refines root a a' Hr Hs) as [Hs' Hsp].
  split; [done|by apply spec_steps_le].
Qed.

(** An invariant of the abstract agent holds after every run from scratch. *)
Lemma run_invariant `{Database} (I : spec_state → Prop) root k a :
  (∀ s s', spec_step s s' → I s → I s') → I spec_empty →
  rtc (agent_step root) (Agent empty_store k) a → store_sound (a_store a) ∧ I (abs (a_store a)).
Proof.
  intros Hstep Hinit Hr. destruct (agent_run_refines root _ a Hr empty_store_sound) as [Hs Hsp].
  split; [done|]. by eapply rtc_invariant, Hinit.
Qed.
End Stored.

(** C18: immutable artifacts.  Constitutions, beliefs, checkpoints, intents,
    admissions and consequences are never changed or removed once written:
    after any run every such file is still there, byte for byte. *)
Theorem immutable_artifacts `{PyEnv} `{Database} (root : string) (a a' : agent_state)
    (Hsound : store_sound (a_store a)) (Hrun : rtc (agent_step root) a a') :
  f_constitutions (a_store a) ⊆ f_constitutions (a_store a') ∧
  f_beliefs (a_store a) ⊆ f_beliefs (a_store a') ∧
  f_checkpoints (a_store a) ⊆ f_checkpoints (a_store a') ∧
  f_intents (a_store a) ⊆ f_intents (a_store a') ∧
  f_admissions (a_store a) ⊆ f_admissions (a_store a') ∧
  f_consequences (a_store a) ⊆ f_consequences (a_store a').
Proof.
  destruct (run_le root a a' Hsound Hrun) as [[] []]. destruct Hsound.
  split_and!; by apply dir_subseteq.
Qed.

(** C17: the mission lifecycle.  Whatever is called, a mission keeps its owner,
    agent, objective, conditions and constitution, and a closed mission stays
    exactly as it was closed: nothing reopens, pauses or checkpoints it. *)
Theorem closed_mission_is_final `{PyEnv} `{Database} (root : string) (a a' : agent_state)
    (i : string) (m : sealed AgentMission)
    (Hsound : store_sound (a_store a)) (Hrun : rtc (agent_step root) a a')
    (Hm : f_missions (a_store a) !! i = Some (Readable m)) :
  ∃ m', f_missions (a_store a') !! i = Some (Readable m') ∧
    mission_identity (body m') = mission_identity (body m) ∧
    (am_state (body m) = MissionClosed → m' = m).
Proof.
  destruct (run_le root a a' Hsound Hrun) as [[] []].
  destruct (dir_le _ _ _ _ _ sound_missions le_missions Hm) as (m' & Hm' & [Hid Hfin] & Hf).
  exists m'. split_and!; [done|done|]. intros Hc. pose proof (AgentRefinement.sound_missions _ Hsound i _ Hm) as Hf0.
  rewrite (sound_sealed _ _ Hf), (sound_sealed _ _ Hf0). by rewrite Hfin.
Qed.

(** C21: missions are consistent.  In a store built by the operations, an active
    mission has neither a stop reason nor a closing time, a paused one has a
    non-blank reason, and a closed one has both. *)
Theorem missions_consistent `{PyEnv} `{Database} (root : string) (k : kernel_state)
    (a : agent_state) (i : string) (m : sealed AgentMission)
    (Hrun : rtc (agent_step root) (Agent empty_store k) a)
    (Hm : f_missions (a_store a) !! i = Some (Readable m)) :
  match am_state (body m) with
  | MissionActive => am_stop_reason (body m) = None ∧ am_closed_at_utc (body m) = None
  | MissionPaused => (∃ r, am_stop_reason (body m) = Some r ∧ blank r = false) ∧
                     am_closed_at_utc (body m) = None
  | MissionClosed => (∃ r, am_stop_reason (body m) = Some r ∧ blank r = false) ∧
                     ∃ t, am_closed_at_utc (body m) = Some t ∧ am_updated_at_utc (body m) = t
  end.
Proof.
  destruct (run_invariant (λ s, map_Forall (λ _, mission_wf) (sp_missions s)) root k a
    spec_missions_wf (map_Forall_empty _) Hrun) as [_ Hwf].
  by apply (Hwf i (body m)), abs_dir_some.
Qed.

(** C19: the terms of a delegation never change.  A delegation stays bound to
    its constitution, principal and agent, with the same limits and expiry;
    the only change is its revocation, and a revoked one stays as it is. *)
Theorem delegation_terms_fixed `{PyEnv} `{Database} (root : string) (a a' : agent_state)
    (i : string) (d : sealed DelegationEnvelope)
    (Hsound : store_sound (a_store a)) (Hrun : rtc (agent_step root) a a')
    (Hd : f_delegations (a_store a) !! i = Some (Readable d)) :
  ∃ d', f_delegations (a_store a') !! i = Some (Readable d') ∧
    (d' = d ∨ dg_state (body d) = DelegationActive ∧ ∃ now reason, body d' = set_revoked now reason (body d)).
Proof.
  destruct (run_le root a a' Hsound Hrun) as [[] []].
  destruct (dir_le _ _ _ _ _ sound_delegations le_delegations Hd) as (d' & Hd' & Hle & Hf).
  exists d'. split; [done|]. pose proof (AgentRefinement.sound_delegations _ Hsound i _ Hd) as Hf0.
  destruct Hle as [Heq|Hrev]; [left|by right].
  by rewrite (sound_sealed _ _ Hf), (sound_sealed _ _ Hf0), Heq.
Qed.

(** C16: an execution is decided once.  A record that is completed or failed
    keeps its state, order, report, delta, reconciliation, failure reason and
    evidence for good; a runtime job once bound is never replaced; and no
    record changes the intent or the admission it executes. *)
Theorem execution_decided_once `{PyEnv} `{Database} (root : string) (a a' : agent_state)
    (i : string) (x : sealed EffectExecutionRecord)
    (Hsound : store_sound (a_store a)) (Hrun : rtc (agent_step root) a a')
    (Hx : f_executions (a_store a) !! i = Some (Readable x)) :
  ∃ x', f_executions (a_store a') !! i = Some (Readable x') ∧
    execution_identity (body x') = execution_identity (body x) ∧
    (ex_state (body x) ≠ ExecutionClaimed →
       execution_decision (body x') = execution_decision (body x)) ∧
    (ex_runtime_job_id (body x) ≠ None →
       ex_runtime_job_id (body x') = ex_runtime_job_id (body x) ∧
       ex_runtime_attempt_id (body x') = ex_runtime_attempt_id (body x)).
Proof.
  destruct (run_le root a a' Hsound Hrun) as [[] []].
  destruct (dir_le _ _ _ _ _ sound_executions le_executions Hx) as (x' & Hx' & Hle & _).
  exists x'. split; [done|exact Hle].
Qed.

(** C8: the budget of a delegation.  However calls follow each other, the
    number of admissions recorded for a delegation never exceeds its
    [max_uses]. *)
Theorem delegation_budget `{PyEnv} `{Database} (root : string) (k : kernel_state)
    (a : agent_state) (i : string) (d : sealed DelegationEnvelope)
    (Hrun : rtc (agent_step root) (Agent empty_store k) a)
    (Hd : f_delegations (a_store a) !! i = Some (Readable d)) :
  (Z.of_nat (uses (abs (a_store a)) i) <= dg_max_uses (body d))%Z.
Proof.
  destruct (run_invariant budget root k a budget_step) as [_ Hb]; [|done|].
  { split; apply map_Forall_empty. }
  apply (budget_uses _ Hb i). by apply abs_dir_some.
Qed.

(** C20: delegations stay within their constitution.  Every stored delegation
    refers to a stored constitution of the same principal whose notional
    limit is at least the delegation's. *)
Theorem delegation_within_constitution `{PyEnv} `{Database} (root : string) (k : kernel_state)
    (a : agent_state) (i : string) (d : sealed DelegationEnvelope)
    (Hrun : rtc (agent_step root) (Agent empty_store k) a)
    (Hd : f_delegations (a_store a) !! i = Some (Readable d)) :
  ∃ ci c, dg_constitution_ref (body d) = ref PrincipalConstitution ci ∧
    f_constitutions (a_store a) !! ci = Some (Readable c) ∧
    dg_principal_id (body d) = strip (pc_principal_id (body c)) ∧
    dle (dg_max_notional (body d)) (pc_max_simulated_notional (body c)) = true.
Proof.
  destruct (run_invariant (λ s, map_Forall (λ _, delegation_backed s) (sp_delegations s)) root k a
    delegations_backed_step (map_Forall_empty _) Hrun) as [Hs Hb].
  destruct (Hb i (body d) (abs_dir_some _ _ _ Hd)) as (ci & c & Hr & Hc & Hp & Hn).
  destruct (abs_dir_inv _ _ _ (sound_constitutions _ Hs) Hc) as (c' & Hc' & <- & _).
  by exists ci, c'.
Qed.

(** C9: no execution without an admission within the limits.  Every execution
    record names an admission that exists; the admitted notional is quantity
    times the verified world price and within the limits of the intent's
    delegation and of that delegation's constitution, which does not prohibit
    the effect; principal and agent of intent and delegation agree. *)
Theorem executions_within_limits `{PyEnv} `{Database} (root : string) (k : kernel_state)
    (a : agent_state) (i : string) (x : sealed EffectExecutionRecord)
    (Hrun : rtc (agent_step root) (Agent empty_store k) a)
    (Hx : f_executions (a_store a) !! i = Some (Readable x)) :
  ∃ ai ad it d c,
    ex_admission_ref (body x) = ref EffectAdmission ai ∧
    f_admissions (a_store a) !! ai = Some (Readable ad) ∧
    ex_effect_intent_ref (body x) = ref EffectIntent (ad_effect_intent_id (body ad)) ∧
    f_intents (a_store a) !! ad_effect_intent_id (body ad) = Some (Readable it) ∧
    f_delegations (a_store a) !! ei_delegation_id (body it) = Some (Readable d) ∧
    f_constitutions (a_store a) !! path_stem (dg_constitution_ref (body d)) = Some (Readable c) ∧
    ei_principal_id (body it) = dg_principal_id (body d) ∧
    ei_agent_id (body it) = dg_agent_id (body d) ∧
    effect_type (ei_effect_type (body it)) ∉ pc_prohibited_effects (body c) ∧
    ad_admitted_notional (body ad) =
      dec_mul (ei_quantity (body it)) (ad_verified_reference_price (body ad)) ∧
    dle (ad_admitted_notional (body ad)) (dg_max_notional (body d)) = true ∧
    dle (ad_admitted_notional (body ad)) (pc_max_simulated_notional (body c)) = true.
Proof.
  destruct (run_invariant backed root k a backed_step) as [Hs [Ha Hb]]; [|done|].
  { split; apply map_Forall_empty. }
  destruct (Hb i (body x) (abs_dir_some _ _ _ Hx)) as (ai & ad & Hr & Had & Hi & _).
  destruct (Ha ai ad Had) as (it & d & c & Hit & Hd & Hc & Hp & Hg & _ & Hno & Hq & Hl1 & Hl2 & _).
  destruct (abs_dir_inv _ _ _ (sound_admissions _ Hs) Had) as (ad' & Had' & <- & _).
  destruct (abs_dir_inv _ _ _ (sound_intents _ Hs) Hit) as (it' & Hit' & <- & _).
  destruct (abs_dir_inv _ _ _ (sound_delegations _ Hs) Hd) as (d' & Hd' & <- & _).
  destruct (abs_dir_inv _ _ _ (sound_constitutions _ Hs) Hc) as (c' & Hc' & <- & _).
  by exists ai, ad', it', d', c'.
Qed.
