(* ===== verification/AgentEffects.v ===== *)
(** The operations that lead to an effect, one by one: when an intent is
    admitted, what interleaved admissions do to a budget, that an effect
    reaches the execution kernel at most once, what a failure leaves behind,
    and what a completed effect recorded. *)
From S2P Require Import Prelude PyDecimal PyTime PyJson TimeFacts ReceiptIO ExecutionModels ExecutionServices ExecutionCommands ExecutionFacts ExecutionTheorems AgentModels AgentStore AgentSpec AgentRefinement AgentRuns AgentInvariants AgentTheorems.

(** ** Admission *)

Section Admission.
Context `{PyEnv} (root : string).

Lemma wp_read_some {A} `{Stored A} `{!StoredLaws A} `{!ArtifactLaws A} i (x : A) Q st k :
  store_sound st → abs_dir (files st) !! i = Some x →
  (∀ s, body s = x → Q (Agent st k) (inr s)) → wp (_read root A i) Q (Agent st k).
Proof.
  intros Hs Hx HQ. destruct (abs_dir_inv _ _ _ (files_sound st Hs) Hx) as (s & Hs' & Hb & _).
  apply wp_read; [apply _|done|congruence|]. intros s0 Hs0 _. apply HQ. congruence.
Qed.

Lemma admission_reasons_none i m d c w ex nw :
  am_state m = MissionActive → dg_state d = DelegationActive → (nw < ex)%Z →
  ei_principal_id i = dg_principal_id d → ei_agent_id i = dg_agent_id d →
  ei_world_id i = world_id w → ei_world_basis_digest i = basis_digest w →
  world_admitted w = true → ei_effect_type i ∈ dg_allowed_effects d →
  effect_type (ei_effect_type i) ∉ pc_prohibited_effects c →
  admission_reasons i m d c w ex nw = [].
Proof.
  intros H1 H2 H3 H4 H5 H6 H7 H8 H9 H10. unfold admission_reasons.
  rewrite (bool_decide_eq_false_2 (am_state m ≠ _)) by naive_solver.
  rewrite (bool_decide_eq_false_2 (dg_state d ≠ _)) by naive_solver.
  rewrite (proj2 (Z.leb_gt _ _) H3), H4, H5, H6, H7, H8, !streq_refl.
  rewrite (bool_decide_eq_false_2 (_ ∉ _)) by naive_solver. simpl.
  destruct (mem _ _) eqn:E; [|done]. by apply mem_true in E.
Qed.

Lemma position_price_pos i w q p : _verified_position_basis i w = inr (q, p) → d_pos p = true.
Proof.
  unfold _verified_position_basis, denied. intros E.
  repeat (case_match; simplify_eq).
  by apply dle_false.
Qed.

(** What an admissible intent asks of [_create]. *)
Lemma create_fresh_admission (x : EffectAdmission) i st k :
  store_sound st → f_admissions st !! i = None → art_validate x = inr x → ad_admission_id x = i →
  _create root x i (Agent st k) = (Agent (write_file i (sealed_of x) st) k, inr (sealed_of x)).
Proof.
  intros Hs Hnone Hv Hid. unfold _create. rewrite (seal_valid x) by done.
  unfold on_files, zoom, durable_create_json_exclusive, mbind, M_bind. cbn. by rewrite Hnone.
Qed.

(** The checks pass for an admissible intent under an unexpired delegation. *)
Lemma admit_check_complete st k iid w i m d c x expires :
  store_sound st → f_admissions st !! admission_id_of iid = None →
  admissible (abs st) iid w i m d c x →
  _parse_utc (dg_expires_at_utc d) "expires_at_utc" = inr expires →
  (clock (sys_ticks (k_sys k)) < expires)%Z →
  wp (admit_check root iid w) (λ _ r, is_ok r = true) (Agent st k).
Proof.
  intros Hs Hnone [] Hexp Hclk. unfold admit_check.
  destruct adm_price as [q Hq]. destruct adm_world as [Hw1 Hw2].
  apply wp_bind, (wp_read_some _ i); [done..|]. intros si Hsi.
  apply wp_bind, wp_exists_file. intros b Hb.
  assert (b = false) as -> by (subst b; by apply has_false). clear Hb. cbv beta iota.
  rewrite Hsi. apply wp_bind, (wp_read_some _ m); [done..|]. intros sm Hsm.
  apply wp_bind, (wp_read_some _ d); [done..|]. intros sd Hsd. rewrite Hsd.
  apply wp_bind, (wp_read_some _ c); [done..|]. intros sc Hsc. rewrite Hsc, Hsm.
  apply wp_bind, wp_of_sum. intros r <-. rewrite Hexp.
  apply wp_bind, wp_instant. intros t k' ->.
  rewrite admission_reasons_none by done. rewrite Hq. cbv beta iota. simpl app.
  rewrite adm_notional in adm_within_delegation, adm_within_constitution.
  rewrite (dle_not_dlt _ _ adm_within_delegation), (dle_not_dlt _ _ adm_within_constitution).
  apply wp_bind, wp_admission_count; [done|].
  rewrite (proj2 (Z.leb_gt _ _) adm_uses_left). simpl.
  apply wp_bind, wp_ret, wp_bind, wp_ret, wp_bind, wp_now. intros t' k2.
  apply wp_bind, wp_of_sum. intros r <-. art_simpl. unfold constrained.
  cbn [ad_verified_reference_price]. rewrite (position_price_pos _ _ _ _ Hq). by apply wp_ret.
Qed.

(** What the checks of a fresh intent let through. *)
Definition to_admit (st : agent_store) (k : kernel_state) (iid : string) (w : CapitalWorld)
    (x : EffectAdmission) : Prop :=
  art_id x = admission_id_of iid ∧ art_validate x = inr x ∧
  ∃ i m d c expires, admissible (abs st) iid w i m d c x ∧
    _parse_utc (dg_expires_at_utc d) "expires_at_utc" = inr expires ∧
    (clock (sys_ticks (k_sys k)) < expires)%Z.

Lemma admit_check_fresh st k iid w :
  store_sound st → f_admissions st !! admission_id_of iid = None →
  wp (admit_check root iid w) (λ a' r, a_store a' = st ∧
    match r with inl _ => True | inr (inl _) => False | inr (inr x) => to_admit st k iid w x end)
    (Agent st k).
Proof.
  intros Hs Hnone. eapply wp_mono, admit_check_wp; [|done].
  intros [st' k'] [e|[old|x]] [Ha Hp]; simpl in Ha; subst st'; [done|simpl in *; congruence|].
  split; [done|]. destruct Hp as (_ & Hid & Hv & Hrest). by split_and!.
Qed.

(** What [admit_effect] does for a fresh intent. *)
Lemma admit_effect_fresh st k iid w :
  store_sound st → f_admissions st !! admission_id_of iid = None →
  wp (admit_effect root iid w) (λ a' r,
    match r with
    | inr s => ∃ x, s = sealed_of x ∧ to_admit st k iid w x ∧
                    a_store a' = write_file (admission_id_of iid) s st
    | inl _ => a_store a' = st end) (Agent st k).
Proof.
  intros Hs Hnone. unfold admit_effect. apply wp_bind.
  eapply wp_mono, (admit_check_fresh st k iid w); [|done..].
  intros [st' k'] [e|[old|x]] [Ha Hp]; simpl in Ha; subst st'; [done..|].
  destruct Hp as (Hid & Hv & Hp). unfold wp. rewrite create_fresh_admission by done.
  exists x. split; [done|]. split; [|done]. by split_and!.
Qed.
End Admission.

(** C7: admission is exact.  For an intent that was not admitted before,
    [admit_effect] returns if and only if the intent, mission, delegation and
    constitution exist, mission and delegation are active, the delegation has
    not expired at the clock reading, identities and world match, the world is
    admitted for valuation, the effect is allowed and not prohibited, the world
    has one valued position of the symbol that covers a sale, the notional is
    within both limits and uses are left; it then writes exactly that
    admission.  Otherwise it raises and writes nothing. *)
Theorem admission_exact `{PyEnv} (root : string) (st : agent_store) (k : kernel_state)
    (iid : string) (w : CapitalWorld)
    (Hsound : store_sound st) (Hnew : f_admissions st !! admission_id_of iid = None) :
  match admit_effect root iid w (Agent st k) with
  | (a', inr s) =>
      ∃ i m d c expires, admissible (abs st) iid w i m d c (body s) ∧
        _parse_utc (dg_expires_at_utc d) "expires_at_utc" = inr expires ∧
        (clock (sys_ticks (k_sys k)) < expires)%Z ∧
        a_store a' = write_file (admission_id_of iid) s st
  | (a', inl _) =>
      a_store a' = st ∧
      ¬ ∃ i m d c x expires, admissible (abs st) iid w i m d c x ∧
          _parse_utc (dg_expires_at_utc d) "expires_at_utc" = inr expires ∧
          (clock (sys_ticks (k_sys k)) < expires)%Z
  end.
Proof.
  pose proof (admit_effect_fresh root st k iid w Hsound Hnew) as Hwp. unfold wp in Hwp.
  destruct (admit_effect root iid w (Agent st k)) as [a' [e|s]] eqn:E; simpl in Hwp.
  - split; [done|]. intros (i & m & d & c & x & ex & Hadm & Hexp & Hclk).
    pose proof (admit_check_complete root st k iid w i m d c x ex Hsound Hnew Hadm Hexp Hclk) as Hc.
    pose proof (admit_check_fresh root st k iid w Hsound Hnew) as Hf. unfold wp in Hc, Hf.
    unfold admit_effect, mbind, M_bind in E.
    destruct (admit_check root iid w (Agent st k)) as [[st' k'] [e'|[old|x']]]; simpl in Hc, Hf;
      [done|by destruct Hf|]. destruct Hf as (-> & Hid & Hv & _).
    by rewrite create_fresh_admission in E.
  - destruct Hwp as (x & -> & (_ & _ & i & m & d & c & ex & Hadm & Hexp & Hclk) & Hst).
    by exists i, m, d, c, ex.
Qed.

(** ** Interleaved admissions

    [admit_effect] takes no lock between its checks and the creation of the
    file, so another call can run in between. *)

Section Interleaved.
Context `{PyEnv} (root : string).

(** What follows the checks. *)
Definition finish_admission (effect_intent_id : string)
    (checked : sealed EffectAdmission + EffectAdmission) : M agent_state (sealed EffectAdmission) :=
  match checked with
  | inl existing => mret existing
  | inr admission => _create root admission (admission_id_of effect_intent_id)
  end.
Lemma admit_effect_split iid w :
  admit_effect root iid w = (admit_check root iid w ≫= finish_admission iid).
Proof. reflexivity. Qed.

(** The schedule in which both calls check before either creates. *)
Definition interleaved_admissions (i1 i2 : string) (w1 w2 : CapitalWorld)
    : M agent_state (sealed EffectAdmission * sealed EffectAdmission) :=
  c1 ← admit_check root i1 w1;
  c2 ← admit_check root i2 w2;
  s1 ← finish_admission i1 c1;
  s2 ← finish_admission i2 c2;
  mret (s1, s2).

Lemma admit_check_returns st k iid w i m d c x expires :
  store_sound st → f_admissions st !! admission_id_of iid = None →
  admissible (abs st) iid w i m d c x →
  _parse_utc (dg_expires_at_utc d) "expires_at_utc" = inr expires →
  (clock (sys_ticks (k_sys k)) < expires)%Z →
  ∃ k' x', admit_check root iid w (Agent st k) = (Agent st k', inr (inr x')) ∧
           to_admit st k iid w x'.
Proof.
  intros Hs Hnone Hadm Hexp Hclk.
  pose proof (admit_check_complete root st k iid w i m d c x expires Hs Hnone Hadm Hexp Hclk) as Hc.
  pose proof (admit_check_fresh root st k iid w Hs Hnone) as Hf. unfold wp in Hc, Hf.
  destruct (admit_check root iid w (Agent st k)) as [[st' k'] [e|[old|x']]]; simpl in *;
    [done|by destruct Hf|]. destruct Hf as [-> Hx]. by exists k', x'.
Qed.

Lemma to_admit_delegation st k iid w x i m d c x' :
  to_admit st k iid w x → admissible (abs st) iid w i m d c x' →
  ad_delegation_id x = dg_delegation_id d.
Proof.
  intros (_ & _ & i2 & m2 & d2 & c2 & ex & Ha & _) Hb.
  destruct Ha, Hb. assert (i2 = i) as -> by congruence. assert (d2 = d) as -> by congruence.
  by destruct adm_binds as (_ & _ & -> & _).
Qed.

(** Writing an admission leaves other intents fresh, and counts one use. *)
Lemma write_admission_other st k i1 i2 w x :
  store_sound st → f_admissions st !! admission_id_of i2 = None →
  admission_id_of i1 ≠ admission_id_of i2 → to_admit st k i1 w x →
  store_sound (write_file (admission_id_of i1) (sealed_of x) st) ∧
  f_admissions (write_file (admission_id_of i1) (sealed_of x) st) !! admission_id_of i2 = None.
Proof.
  intros Hs Hn Hd (Hi & Hv & _). split; [by apply write_file_sound|].
  destruct st. simpl in *. by rewrite lookup_insert_ne.
Qed.
Lemma write_admission_uses st i (x : EffectAdmission) did :
  f_admissions st !! i = None → ad_delegation_id x = did →
  uses (abs (write_file i (sealed_of x) st)) did = S (uses (abs st) did).
Proof.
  intros Hnone Hd. rewrite abs_put_admission, uses_put by (by apply abs_dir_none).
  by rewrite decide_True.
Qed.

(** Both calls check, then both create: two more uses. *)
Lemma interleaved_both st k i1 i2 w1 w2 e1 e2 m1 m2 d c1 c2 x1 x2 expires :
  store_sound st → f_admissions st !! admission_id_of i1 = None →
  f_admissions st !! admission_id_of i2 = None → admission_id_of i1 ≠ admission_id_of i2 →
  admissible (abs st) i1 w1 e1 m1 d c1 x1 → admissible (abs st) i2 w2 e2 m2 d c2 x2 →
  _parse_utc (dg_expires_at_utc d) "expires_at_utc" = inr expires → (∀ n, (clock n < expires)%Z) →
  ∃ a' s1 s2, interleaved_admissions i1 i2 w1 w2 (Agent st k) = (a', inr (s1, s2)) ∧
    f_admissions (a_store a') !! admission_id_of i1 = Some (Readable s1) ∧
    f_admissions (a_store a') !! admission_id_of i2 = Some (Readable s2) ∧
    sp_delegations (abs (a_store a')) !! ei_delegation_id e1 = Some d ∧
    uses (abs (a_store a')) (dg_delegation_id d) = 2 + uses (abs st) (dg_delegation_id d).
Proof.
  intros Hs Hnew1 Hnew2 Hdiff Hadm1 Hadm2 Hexp Hclock.
  destruct (admit_check_returns st k i1 w1 e1 m1 d c1 x1 expires) as (k1 & y1 & E1 & T1); [done..|].
  destruct (admit_check_returns st k1 i2 w2 e2 m2 d c2 x2 expires) as (k2 & y2 & E2 & T2); [done..|].
  pose proof (to_admit_delegation _ _ _ _ _ _ _ _ _ _ T1 Hadm1) as D1.
  pose proof (to_admit_delegation _ _ _ _ _ _ _ _ _ _ T2 Hadm2) as D2.
  destruct (write_admission_other _ _ _ _ _ _ Hs Hnew2 Hdiff T1) as [Hs1 Hn].
  destruct T1 as (I1 & V1 & _), T2 as (I2 & V2 & _).
  eexists (Agent (write_file (admission_id_of i2) (sealed_of y2) _) k2), (sealed_of y1), (sealed_of y2).
  split_and!.
  - unfold interleaved_admissions. erewrite bind_step by exact E1. erewrite bind_step by exact E2.
    cbn [finish_admission]. erewrite bind_step by (by apply create_fresh_admission).
    by erewrite bind_step by (by apply create_fresh_admission).
  - destruct st. simpl in *. rewrite lookup_insert_ne by done. apply lookup_insert_eq.
  - destruct st. apply lookup_insert_eq.
  - pose proof (adm_delegation _ _ _ _ _ _ _ _ Hadm1) as Hd. by destruct st.
  - cbn [a_store]. by rewrite !write_admission_uses.
Qed.

(** One after the other: the second call finds the last use gone. *)
Lemma sequential_refused st k i1 i2 w1 w2 e1 e2 m1 m2 d c1 c2 x1 x2 a1 s1 :
  store_sound st → f_admissions st !! admission_id_of i1 = None →
  f_admissions st !! admission_id_of i2 = None → admission_id_of i1 ≠ admission_id_of i2 →
  admissible (abs st) i1 w1 e1 m1 d c1 x1 → admissible (abs st) i2 w2 e2 m2 d c2 x2 →
  (Z.of_nat (uses (abs st) (dg_delegation_id d)) + 1 = dg_max_uses d)%Z →
  admit_effect root i1 w1 (Agent st k) = (a1, inr s1) → ∃ e, (admit_effect root i2 w2 a1).2 = inl e.
Proof.
  intros Hs Hnew1 Hnew2 Hdiff Hadm1 Hadm2 Hlast E.
  pose proof (admit_effect_fresh root st k i1 w1 Hs Hnew1) as Hf.
  apply (wp_elim _ _ _ _ _ E) in Hf as (y1 & -> & T1 & Hst).
  pose proof (to_admit_delegation _ _ _ _ _ _ _ _ _ _ T1 Hadm1) as D1.
  destruct (write_admission_other _ _ _ _ _ _ Hs Hnew2 Hdiff T1) as [Hs1 Hn].
  destruct a1 as [st1 k1]. cbn [a_store] in Hst. rewrite <-Hst in Hs1, Hn.
  pose proof (admit_effect_fresh root st1 k1 i2 w2 Hs1 Hn) as Hf. unfold wp in Hf.
  destruct (admit_effect root i2 w2 (Agent st1 k1)) as [a2 [e|s2]]; [by exists e|].
  simpl in Hf. destruct Hf as (y2 & _ & (_ & _ & e' & m' & d' & c' & ex & Hadm & _) & _).
  pose proof (adm_uses_left _ _ _ _ _ _ _ _ Hadm) as Hu. subst st1.
  assert (d' = d) as ->.
  { destruct Hadm, Hadm2. rewrite abs_put_admission in *. destruct (abs st). simpl in *. congruence. }
  rewrite write_admission_uses in Hu by done. lia.
Qed.
End Interleaved.

(** C34: concurrent admissions overrun the budget.  Let two intents of one
    delegation that has one use left both be admissible, and the delegation
    not expire.  When both calls of [admit_effect] check before either
    creates its file, both return, both admissions are on file and their
    number exceeds [max_uses]; called one after the other, the second call
    raises. *)
Theorem concurrent_admissions_overrun `{PyEnv} (root : string) (st : agent_store) (k : kernel_state)
    (i1 i2 : string) (w1 w2 : CapitalWorld) (e1 e2 : EffectIntent) (m1 m2 : AgentMission)
    (d : DelegationEnvelope) (c1 c2 : PrincipalConstitution) (x1 x2 : EffectAdmission) (expires : Z)
    (Hsound : store_sound st)
    (Hnew1 : f_admissions st !! admission_id_of i1 = None)
    (Hnew2 : f_admissions st !! admission_id_of i2 = None)
    (Hdiff : admission_id_of i1 ≠ admission_id_of i2)
    (Hadm1 : admissible (abs st) i1 w1 e1 m1 d c1 x1)
    (Hadm2 : admissible (abs st) i2 w2 e2 m2 d c2 x2)
    (Hexp : _parse_utc (dg_expires_at_utc d) "expires_at_utc" = inr expires)
    (Hclock : ∀ n, (clock n < expires)%Z)
    (Hlast : (Z.of_nat (uses (abs st) (dg_delegation_id d)) + 1 = dg_max_uses d)%Z) :
  (∃ a' s1 s2,
     interleaved_admissions root i1 i2 w1 w2 (Agent st k) = (a', inr (s1, s2)) ∧
     f_admissions (a_store a') !! admission_id_of i1 = Some (Readable s1) ∧
     f_admissions (a_store a') !! admission_id_of i2 = Some (Readable s2) ∧
     sp_delegations (abs (a_store a')) !! ei_delegation_id e1 = Some d ∧
     (dg_max_uses d < Z.of_nat (uses (abs (a_store a')) (dg_delegation_id d)))%Z) ∧
  (∀ a1 s1, admit_effect root i1 w1 (Agent st k) = (a1, inr s1) →
     ∃ e, (admit_effect root i2 w2 a1).2 = inl e).
Proof.
  split; [|intros a1 s1; by eapply sequential_refused].
  destruct (interleaved_both root st k i1 i2 w1 w2 e1 e2 m1 m2 d c1 c2 x1 x2 expires)
    as (a' & s1 & s2 & E & H1 & H2 & Hd & Hu); [done..|].
  exists a', s1, s2. split_and!; [done..|]. rewrite Hu. lia.
Qed.

(** ** Effects on the execution kernel *)

(** What an effect can leave in the kernel: rows and receipt files. *)
Definition effects (a : agent_state) : db * gmap string json :=
  (k_db (a_kernel a), sys_files (k_sys (a_kernel a))).
Abbreviation same_effects := (λ a a', effects a' = effects a).

Section Effects.
Context `{PyEnv} `{Database} (root : string).

Lemma on_files_effects {A B} `{Stored A} (m : M (directory A) B) : Respects same_effects (on_files m).
Proof. intros a. unfold on_files, zoom. by destruct (m _). Qed.
Lemma now_effects : Respects same_effects _now.
Proof. by intros a. Qed.
Lemma instant_effects : Respects same_effects _instant.
Proof. by intros a. Qed.
Lemma read_effects {A} `{Stored A} i : Respects same_effects (_read root A i).
Proof. unfold _read. respects; apply on_files_effects. Qed.
Lemma exists_effects {A} `{Stored A} i : Respects same_effects (exists_file A i).
Proof. apply on_files_effects. Qed.
Hint Resolve on_files_effects now_effects instant_effects read_effects exists_effects : respects.

Lemma preconditions_effects iid ai w : Respects same_effects (execution_preconditions root iid ai w).
Proof.
  unfold execution_preconditions, read_effect_intent, read_effect_admission, read_mission, read_delegation.
  respects.
Qed.

(** Two postconditions at once, and one that holds in every case. *)
Lemma wp_and {S A} (m : M S A) Q1 Q2 (s : S) :
  wp m Q1 s → wp m Q2 s → wp m (λ s' r, Q1 s' r ∧ Q2 s' r) s.
Proof. by split. Qed.
Lemma wp_respects {S A} R (m : M S A) (s : S) : Respects R m → wp m (λ s' _, R s s') s.
Proof. intros Hm. apply Hm. Qed.

Lemma wp_now_effects Q st k :
  (∀ t k', effects (Agent st k') = effects (Agent st k) → Q (Agent st k') (inr t)) →
  wp _now Q (Agent st k).
Proof. intros HQ. unfold wp. by apply HQ. Qed.

(** An intent with an execution record: nothing happens again. *)
Lemma execute_existing reg rr iid ai w st k f :
  store_sound st → f_executions st !! execution_id_of iid = Some f →
  wp (execute_simulated_effect root reg rr iid ai w) (λ a' r,
    a_store a' = st ∧ effects a' = effects (Agent st k) ∧
    ∀ s, r = inr s → f = Readable s ∧ ex_state (body s) = ExecutionCompleted) (Agent st k).
Proof.
  intros Hs Hf. unfold execute_simulated_effect. apply wp_bind.
  eapply wp_mono; [|apply wp_and; [apply (execution_preconditions_wp root st k iid ai w Hs)
    |apply wp_respects, preconditions_effects]].
  intros [st' k'] [e|[[[i ad] did] before]] [[Ha _] He]; simpl in Ha; subst st';
    [by split_and!|].
  apply wp_bind, wp_exists_file. intros b Hb.
  assert (b = true) as -> by (subst b; apply has_true; by eexists). cbv beta iota.
  apply wp_bind, wp_read; [apply _|done|simpl; congruence|]. intros s Hsf _. simpl in Hsf.
  apply wp_bind, wp_require; intros Hc; bool_simpl; [|by split_and!].
  apply wp_ret. split_and!; [done|done|]. intros s' [= <-]. split; [congruence|done].
Qed.

(** A claim: the record that is written before the kernel is called. *)
Definition claim_of (x : EffectExecutionRecord) (iid ai : string) : Prop :=
  ex_execution_id x = execution_id_of iid ∧ ex_effect_intent_ref x = ref EffectIntent iid ∧
  ex_admission_ref x = ref EffectAdmission ai ∧ ex_state x = ExecutionClaimed.

(** An intent without one: either nothing happened, or a claim was written
    first and the kernel ran; its failure leaves the claim, its success
    completes it. *)
Lemma execute_new reg rr iid ai w st k :
  store_sound st → f_executions st !! execution_id_of iid = None →
  wp (execute_simulated_effect root reg rr iid ai w) (λ a' r,
    (a_store a' = st ∧ effects a' = effects (Agent st k) ∧ is_ok r = false) ∨
    ∃ i ad did before price x k1 k2,
      precondition_post st iid ai w (Agent st k1) (inr (i, ad, did, before)) ∧
      _verified_position_basis i w = inr (before, price) ∧
      effects (Agent st k1) = effects (Agent st k) ∧ claim_of x iid ai ∧
      match perform_effect reg rr i ad did before k1 with
      | (k', inl e) =>
          r = inl (Exn EffectRecoveryRequired
                (recovery_message (ref EffectExecutionRecord (execution_id_of iid)) (exn_msg e))) ∧
          a' = Agent (write_file (execution_id_of iid) (sealed_of x) st) k'
      | (k', inr t) =>
          ∃ now, let x' := set_completed (od_order_draft_id (et_draft t))
                   (eo_execution_order_id (et_order t)) (er_execution_report_id (et_report t))
                   (pd_position_delta_id (et_delta t))
                   (rr_reconciliation_id (et_reconciliation t)) now x in
          r = inr (sealed_of x') ∧
          f_executions (a_store a') !! execution_id_of iid = Some (Readable (sealed_of x')) ∧
          a_kernel a' = k2 ∧ effects (Agent st k2) = effects (Agent st k')
      end) (Agent st k).
Proof.
  intros Hs Hnone. unfold execute_simulated_effect. apply wp_bind.
  eapply wp_mono; [|apply wp_and; [apply (execution_preconditions_wp root st k iid ai w Hs)
    |apply wp_respects, preconditions_effects]].
  intros [st' k'] [e|[[[i ad] did] before]] [[Ha Hp] He]; simpl in Ha; subst st';
    [by left; split_and!|].
  apply wp_bind, wp_exists_file. intros b Hb.
  assert (b = false) as -> by (subst b; by apply has_false). cbv beta iota.
  apply wp_bind, wp_now_effects. intros t0 k1 Hk1. rewrite He in Hk1.
  apply wp_bind, wp_build; [by left; split_and!|].
  intros x Hx. art_simpl. injection Hx as <-.
  apply wp_bind, wp_create; [apply _|done|done|done|by left; split_and!|simpl; congruence|].
  intros _ Hs1. match goal with |- wp _ _ (Agent (write_file _ (sealed_of ?y) _) _) => set (x := y) in * end.
  apply wp_bind, wp_catch, wp_on_kernel. intros r k2 Hperf.
  destruct Hp as (m & d & Hrest). pose proof Hrest as (_ & _ & _ & _ & _ & _ & _ & _ & _ & _ & _ & price & Hpr & _).
  destruct r as [e|t].
  - apply wp_raise. right. exists i, ad, did, before, price, x, k1, k1. rewrite Hperf.
    split_and!; try done. split; [done|]. by exists m, d.
  - apply wp_bind, wp_now_effects. intros t1 k3 Hk3.
    apply wp_transition; [done|destruct st; apply lookup_insert_eq|done|done|done|].
    intros _ _. right. exists i, ad, did, before, price, x, k1, k3. rewrite Hperf.
    split_and!; try done; [split; [done|]; by exists m, d|]. eexists. cbv zeta. split; [done|].
    split_and!; [|done|done]. destruct st. apply lookup_insert_eq.
Qed.
End Effects.
