(* ===== verification/AgentTrail.v ===== *)
(** What a completed effect leaves in the execution kernel: a draft, an order,
    a report, a position delta and a reconciliation that refer to each other;
    a position that a sale never drives below zero while adapters report no
    more than was ordered; and a completed effect that nobody filled. *)
From S2P Require Import Prelude PyDecimal PyTime PyJson TimeFacts ReceiptIO ExecutionModels ExecutionServices ExecutionCommands ExecutionFacts ExecutionTheorems AgentModels AgentStore AgentSpec AgentRefinement AgentRuns AgentInvariants AgentTheorems AgentEffects.

Section Rows.
Context `{PyEnv} `{Database}.

Ltac flushed k :=
  match goal with Hf : flush_all _ _ = Some _ |- _ => flush_inv Hf (k_db k) end.

Lemma create_order_draft_row cs root r k k' d :
  create_order_draft cs root r k = (k', inr d) →
  t_order_drafts (k_db k') !! od_order_draft_id d = Some d ∧
  ∃ env created rid, d = draft_row r env (od_order_draft_id d) created (Some rid).
Proof.
  unfold create_order_draft. intros E. kinv. flushed k.
  split; [apply lookup_insert_eq|]. by eexists _, _, _.
Qed.

Lemma stage_order_row cs root i b env k k' o :
  stage_execution_order cs root i b env k = (k', inr o) →
  t_execution_orders (k_db k') !! eo_execution_order_id o = Some o ∧
  eo_order_draft_id o = i ∧ eo_broker_connection_id o = b.
Proof.
  unfold stage_execution_order. intros E. kinv. flushed k.
  split_and!; [apply lookup_insert_eq|done..].
Qed.

Lemma record_position_delta_row root ri acc sym dq pq k k' p :
  record_position_delta root ri acc sym dq pq k = (k', inr p) →
  t_position_deltas (k_db k') !! pd_position_delta_id p = Some p ∧
  pd_execution_report_id p = ri ∧ pd_execution_account_id p = acc ∧ pd_symbol p = sym ∧
  pd_delta_quantity p = dq ∧ pd_post_execution_quantity p = pq.
Proof.
  unfold record_position_delta. intros E. kinv. flushed k.
  split_and!; [apply lookup_insert_eq|done..].
Qed.

Lemma record_reconciliation_row root acc x y k k' rec :
  record_reconciliation root acc x y None k = (k', inr rec) →
  t_reconciliation_reports (k_db k') !! rr_reconciliation_id rec = Some rec ∧
  rr_execution_account_id rec = acc ∧ rr_reconciliation_status rec = "matched" ∧
  (x = y → rr_expected_positions_json rec = rr_actual_positions_json rec).
Proof.
  unfold record_reconciliation. intros E. kinv. flushed k.
  split_and!; [apply lookup_insert_eq|done|done|by intros ->].
Qed.

(** A quantity [f] that is at most [q] and fits the decimal context. *)
Definition within_order (q f : dec) : Prop :=
  dle f q = true ∧ (ndigits (dcoef f) <= 28)%nat.

(** An adapter that never reports more filled than was ordered, for orders of
    a positive quantity within the decimal context.  The registry accepts any
    adapter of kind [simulated], so this is a demand on the adapter. *)
Definition fills_within (a : BrokerAdapter) : Prop :=
  ∀ order draft s s' rep,
    d_pos (od_quantity draft) = true → (ndigits (dcoef (od_quantity draft)) <= 28)%nat →
    ba_submit_order a order draft s = (s', inr rep) →
    within_order (od_quantity draft) (er_filled_quantity rep).

(** The adapter of the repository meets it in every configuration. *)
Lemma simulated_fills_within cfg : fills_within (SimulatedBrokerAdapter cfg).
Proof.
  intros order draft s s' rep Hpos Hdig E.
  change (ba_submit_order _) with (sim_submit_order cfg) in E. unfold sim_submit_order in E. minv.
  destruct (sim_simulate_fill cfg); minv; simpl.
  - split; [apply dle_refl|done].
  - split; [by apply d_pos_dle|vm_compute; lia].
Qed.

Lemma within_order_or_zero q f :
  d_pos q = true → within_order q f → within_order q (or_zero (Some f)).
Proof.
  intros Hq Hf. unfold or_zero. destruct (dcoef f =? 0)%N; [|done].
  split; [by apply d_pos_dle|vm_compute; lia].
Qed.

Lemma submit_order_report reg cs root i k k' rep o draft :
  submit_order reg cs root i k = (k', inr rep) →
  t_execution_orders (k_db k) !! i = Some o →
  t_order_drafts (k_db k) !! eo_order_draft_id o = Some draft →
  t_execution_reports (k_db k') !! er_execution_report_id rep = Some rep ∧
  er_execution_order_id rep = i ∧
  (reg !! eo_broker_connection_id o = None → er_filled_quantity rep = dzero) ∧
  (map_Forall (λ _, fills_within) reg → d_pos (od_quantity draft) = true →
   (ndigits (dcoef (od_quantity draft)) <= 28)%nat →
   within_order (od_quantity draft) (er_filled_quantity rep)).
Proof.
  unfold submit_order, require_execution_capability. intros E Ho Hd. minv.
  destruct (resolve_broker_adapter _ reg) as [adapter|] eqn:Er; minv.
  - match goal with Hs : on_sys _ _ = _ |- _ => rename Hs into Hsys end.
    apply record_execution_report_ok in E as (Hi & _ & _ & Hq & _ & _ & _ & Hreps & _).
    rewrite Hreps, lookup_insert_eq, Hq. split_and!; [done|done| |].
    { unfold resolve_broker_adapter in Er. congruence. }
    intros Hreg Hpos Hdig. apply within_order_or_zero; [done|].
    unfold on_sys, zoom in Hsys. destruct (ba_submit_order adapter _ _ _) as [s' r] eqn:Es.
    simplify_eq. by eapply (Hreg _ _ Er), Es.
  - apply record_execution_report_ok in E as (Hi & _ & _ & Hq & _ & _ & _ & Hreps & _).
    rewrite Hreps, lookup_insert_eq, Hq. split_and!; [done|done|done|]. intros _ Hpos _.
    split; [by apply d_pos_dle|vm_compute; lia].
Qed.

(** A service call keeps the audit trail. *)
Lemma call_audit {A} (m : M kernel_state A) c k k' r :
  run_call c = ignore m → m k = (k', r) → audit (k_db k) (k_db k').
Proof.
  intros Hc E. assert (Hk : k' = (run_call c k).1).
  { rewrite Hc. unfold ignore, mbind, M_bind. rewrite E. by destruct r. }
  apply kernel_audit, rtc_once. by exists c.
Qed.
End Rows.

(** The rows of an effect, linked to each other. *)
Record effect_rows (d : db) (i : EffectIntent) (before : dec) (t : EffectTrail) : Prop := {
  er_draft_row : ∃ r, t_order_drafts d !! od_order_draft_id (et_draft t) = Some r ∧
    od_symbol r = ei_symbol i ∧ od_side r = side_value (ei_side i) ∧
    od_quantity r = ei_quantity i ∧ od_execution_account_id r = ei_execution_account_id i ∧
    od_instrument_ref r = ei_instrument_ref i;
  er_order_row : ∃ o, t_execution_orders d !! eo_execution_order_id (et_order t) = Some o ∧
    eo_order_draft_id o = od_order_draft_id (et_draft t) ∧
    eo_broker_connection_id o = ei_broker_connection_id i;
  er_report_row :
    t_execution_reports d !! er_execution_report_id (et_report t) = Some (et_report t) ∧
    er_execution_order_id (et_report t) = eo_execution_order_id (et_order t);
  er_delta_row :
    t_position_deltas d !! pd_position_delta_id (et_delta t) = Some (et_delta t) ∧
    pd_execution_report_id (et_delta t) = er_execution_report_id (et_report t) ∧
    pd_symbol (et_delta t) = ei_symbol i ∧
    pd_delta_quantity (et_delta t) = signed_fill (ei_side i) (er_filled_quantity (et_report t)) ∧
    pd_post_execution_quantity (et_delta t) = dec_add before (pd_delta_quantity (et_delta t));
  er_reconciliation_row :
    t_reconciliation_reports d !! rr_reconciliation_id (et_reconciliation t)
      = Some (et_reconciliation t) ∧
    rr_reconciliation_status (et_reconciliation t) = "matched" ∧
    rr_expected_positions_json (et_reconciliation t) = rr_actual_positions_json (et_reconciliation t);
}.

Section Trail.
Context `{PyEnv} `{Database}.

Lemma audit_trans d1 d2 d3 : audit d1 d2 → audit d2 d3 → audit d1 d3.
Proof. apply transitivity. Qed.

Lemma perform_effect_rows reg rr i ad did before k k' t :
  perform_effect reg rr i ad did before k = (k', inr t) →
  effect_rows (k_db k') i before t ∧
  (reg !! ei_broker_connection_id i = None → er_filled_quantity (et_report t) = dzero) ∧
  (map_Forall (λ _, fills_within) reg → d_pos (ei_quantity i) = true →
   (ndigits (dcoef (ei_quantity i)) <= 28)%nat →
   within_order (ei_quantity i) (er_filled_quantity (et_report t))).
Proof.
  unfold perform_effect. intros E.
  apply bind_ok in E as (draft & k1 & E1 & E). apply bind_ok in E as (chk & k2 & E2 & E).
  apply bind_ok in E as (app & k3 & E3 & E). apply bind_ok in E as (order & k4 & E4 & E).
  apply bind_ok in E as (report & k5 & E5 & E). apply bind_ok in E as (delta & k6 & E6 & E).
  apply bind_ok in E as (rec & k7 & E7 & E). apply ret_ok in E as [-> [= ->]]. simpl.
  assert (A2 : audit (k_db k1) (k_db k2)) by (eapply (call_audit _ (CallPretradeCheck _ _ _ _ _)), E2; done).
  assert (A3 : audit (k_db k2) (k_db k3)) by (eapply (call_audit _ (CallApproval _ _ _ _ _ _)), E3; done).
  assert (A4 : audit (k_db k3) (k_db k4)) by (eapply (call_audit _ (CallStage _ _ _ _ _)), E4; done).
  assert (A5 : audit (k_db k4) (k_db k5)) by (eapply (call_audit _ (CallSubmit _ _ _ _)), E5; done).
  assert (A6 : audit (k_db k5) (k_db k6)) by (eapply (call_audit _ (CallDelta _ _ _ _ _ _)), E6; done).
  assert (A7 : audit (k_db k6) (k_db k7)) by (eapply (call_audit _ (CallReconciliation _ _ _ _ _)), E7; done).
  assert (A14 : audit (k_db k1) (k_db k4)) by eauto using audit_trans.
  assert (A47 : audit (k_db k4) (k_db k7)) by eauto using audit_trans.
  apply create_order_draft_row in E1 as (Hd & env & cr & rid & Hdraft).
  apply stage_order_row in E4 as (Ho & Hoi & Hob).
  destruct (audit_drafts _ _ A14 _ _ Hd) as (draft4 & Hd4 & Hsame4).
  rewrite <-Hoi in Hd4. destruct (submit_order_report _ _ _ _ _ _ _ _ _ E5 Ho Hd4) as (Hr & Hri & Hnone & Hfill).
  apply record_position_delta_row in E6 as (Hp & Hpr & _ & Hps & Hpd & Hpp).
  apply record_reconciliation_row in E7 as (Hc & _ & Hcs & Hce).
  split.
  - split; simpl.
    + destruct (audit_drafts _ _ A47 _ _ Hd4) as (draft7 & Hd7 & Hsame7). rewrite Hoi in Hd7.
      exists draft7. rewrite Hd7, Hsame7, Hsame4, Hdraft. by split_and!.
    + destruct (audit_orders _ _ A47 _ _ Ho) as (order7 & Ho7 & Hsame7).
      exists order7. rewrite Ho7, Hsame7. simpl. by split_and!.
    + split; [|done]. apply (lookup_weaken (t_execution_reports (k_db k5))); [done|].
      etrans; [apply (audit_reports _ _ A6)|apply (audit_reports _ _ A7)].
    + rewrite Hpd, Hpp. split_and!; try done.
      apply (lookup_weaken (t_position_deltas (k_db k6))); [done|apply (audit_deltas _ _ A7)].
    + split_and!; [done|done|by apply Hce].
  - rewrite Hob in Hnone. rewrite Hsame4, Hdraft in Hfill. split; [exact Hnone|exact Hfill].
Qed.
End Trail.

(** C2: an effect reaches the kernel at most once.  If executing an intent
    changed any row or receipt file of the kernel, then after any further
    calls a second execution of that intent (with whatever admission, world,
    adapters and receipt root) changes no row, no receipt file and no
    artifact. *)
Theorem effect_at_most_once `{PyEnv} `{Database} (root : string)
    (reg reg' : registry) (rr rr' iid ai ai' : string) (w w' : CapitalWorld) (a a1 a2 : agent_state)
    (Hsound : store_sound (a_store a))
    (Hfirst : (execute_simulated_effect root reg rr iid ai w a).1 = a1)
    (Heffect : effects a1 ≠ effects a)
    (Hrun : rtc (agent_step root) a1 a2) :
  effects (execute_simulated_effect root reg' rr' iid ai' w' a2).1 = effects a2 ∧
  a_store (execute_simulated_effect root reg' rr' iid ai' w' a2).1 = a_store a2.
Proof.
  destruct a as [st k]. simpl in Hsound.
  destruct (execute_simulated_effect_refines root reg st k rr iid ai w Hsound) as [Hs1 _].
  rewrite Hfirst in Hs1.
  assert (Hrec : ∃ x, f_executions (a_store a1) !! execution_id_of iid = Some (Readable x)).
  { destruct (f_executions st !! execution_id_of iid) as [f|] eqn:Ef.
    - destruct (execute_existing root reg rr iid ai w st k f Hsound Ef) as (_ & Heq & _).
      by rewrite Hfirst in Heq.
    - pose proof (execute_new root reg rr iid ai w st k Hsound Ef) as Hnew. unfold wp in Hnew.
      rewrite Hfirst in Hnew. destruct Hnew as [(_ & Heq & _)|Hnew]; [done|].
      destruct Hnew as (i & ad & did & bf & pr & x & k1 & k2 & _ & _ & _ & _ & Hm).
      destruct (perform_effect _ _ _ _ _ _ _) as [k' [e|t]].
      + destruct Hm as [_ ->]. exists (sealed_of x). destruct st. apply lookup_insert_eq.
      + destruct Hm as (now & _ & Hx & _). by eexists. }
  destruct Hrec as [x Hx]. destruct (run_le root a1 a2 Hs1 Hrun) as [Hs2 Hle].
  destruct (dir_le _ _ _ _ _ (sound_executions _ Hs2) (le_executions _ _ Hle) Hx) as (x' & Hx' & _).
  destruct a2 as [st2 k2].
  destruct (execute_existing root reg' rr' iid ai' w' st2 k2 _ Hs2 Hx') as (Hst & Heq & _). done.
Qed.

(** C14: a failing effect stays visible.  When executing a fresh intent raises,
    either nothing was written at all (no artifact, row or receipt), or the
    exception is [EffectRecoveryRequired] naming the execution record, which is
    stored as [claimed] for this intent and admission. *)
Theorem failed_effect_leaves_claim `{PyEnv} `{Database} (root : string)
    (reg : registry) (rr iid ai : string) (w : CapitalWorld) (st : agent_store) (k : kernel_state)
    (a' : agent_state) (e : exn)
    (Hsound : store_sound st) (Hfresh : f_executions st !! execution_id_of iid = None)
    (Hraise : execute_simulated_effect root reg rr iid ai w (Agent st k) = (a', inl e)) :
  (a_store a' = st ∧ effects a' = effects (Agent st k)) ∨
  (exn_of e = EffectRecoveryRequired ∧
   ∃ x, f_executions (a_store a') !! execution_id_of iid = Some (Readable x) ∧
     ex_state (body x) = ExecutionClaimed ∧
     ex_effect_intent_ref (body x) = ref EffectIntent iid ∧
     ex_admission_ref (body x) = ref EffectAdmission ai).
Proof.
  pose proof (execute_new root reg rr iid ai w st k Hsound Hfresh) as Hnew.
  apply (wp_elim _ _ _ _ _ Hraise) in Hnew as [(Hst & Heq & _)|Hnew]; [by left|right].
  destruct Hnew as (i & ad & did & bf & pr & x & k1 & k2 & _ & _ & _ & (_ & Hi & Ha & Hc) & Hm).
  destruct (perform_effect _ _ _ _ _ _ _) as [k' [e'|t]]; [|by destruct Hm as (now & ? & _)].
  destruct Hm as [[= ->] ->]. split; [done|]. exists (sealed_of x).
  split_and!; try done. destruct st. apply lookup_insert_eq.
Qed.

(** C13: the trail of a completed effect.  When executing a fresh intent returns,
    the stored record is [completed] and names, in the kernel's tables, a draft
    of the intent's symbol, side and quantity, an order of that draft on the
    intent's broker connection, a report of that order, a position delta of
    that report equal to the signed fill, whose resulting quantity is the world
    position plus the delta, and a reconciliation. *)
Theorem completed_effect_trail `{PyEnv} `{Database} (root : string)
    (reg : registry) (rr iid ai : string) (w : CapitalWorld) (st : agent_store) (k : kernel_state)
    (a' : agent_state) (s : sealed EffectExecutionRecord)
    (Hsound : store_sound st) (Hfresh : f_executions st !! execution_id_of iid = None)
    (Hrun : execute_simulated_effect root reg rr iid ai w (Agent st k) = (a', inr s)) :
  ∃ i before price t,
    f_executions (a_store a') !! execution_id_of iid = Some (Readable s) ∧
    ex_state (body s) = ExecutionCompleted ∧
    (∃ si, f_intents st !! iid = Some (Readable si) ∧ body si = i) ∧
    _verified_position_basis i w = inr (before, price) ∧
    ex_order_draft_id (body s) = Some (od_order_draft_id (et_draft t)) ∧
    ex_execution_order_id (body s) = Some (eo_execution_order_id (et_order t)) ∧
    ex_execution_report_id (body s) = Some (er_execution_report_id (et_report t)) ∧
    ex_position_delta_id (body s) = Some (pd_position_delta_id (et_delta t)) ∧
    ex_reconciliation_id (body s) = Some (rr_reconciliation_id (et_reconciliation t)) ∧
    effect_rows (k_db (a_kernel a')) i before t.
Proof.
  pose proof (execute_new root reg rr iid ai w st k Hsound Hfresh) as Hnew.
  apply (wp_elim _ _ _ _ _ Hrun) in Hnew as [(_ & _ & ?)|Hnew]; [done|].
  destruct Hnew as (i & ad & did & bf & pr & x & k1 & k2 & [_ Hpre] & Hpr & _ & _ & Hm).
  destruct (perform_effect _ _ _ _ _ _ _) as [k' [e'|t]] eqn:Ep; [by destruct Hm|].
  destruct Hm as (now & [= ->] & Hx & -> & Heff). destruct Hpre as (m & d & Hi & _).
  destruct (abs_dir_inv _ _ _ (sound_intents _ Hsound) Hi) as (si & Hsi & <- & _).
  apply perform_effect_rows in Ep as [Hrows _].
  exists (body si), bf, pr, t. split_and!; try done; [by exists si|].
  unfold effects in Heff. simpl in Heff. injection Heff as Hdb _. by rewrite Hdb.
Qed.

(** C15: a sale never drives a position below zero.  When no registered
    adapter reports a larger fill than was ordered (the simulated adapter of
    the repository never does, in any configuration), the position delta a
    completed sale records leaves a non-negative quantity, for ordered and
    filled quantities within the 28 digits of the decimal context. *)
Theorem sale_never_oversells `{PyEnv} `{Database} (root : string)
    (reg : registry) (rr iid ai : string) (w : CapitalWorld) (st : agent_store) (k : kernel_state)
    (a' : agent_state) (s : sealed EffectExecutionRecord) (i : sealed EffectIntent)
    (Hsound : store_sound st) (Hfresh : f_executions st !! execution_id_of iid = None)
    (Hreg : map_Forall (λ _, fills_within) reg)
    (Hintent : f_intents st !! iid = Some (Readable i)) (Hside : ei_side (body i) = SideSell)
    (Hdigits : (ndigits (dcoef (ei_quantity (body i))) <= 28)%nat)
    (Hrun : execute_simulated_effect root reg rr iid ai w (Agent st k) = (a', inr s)) :
  ∃ dk delta, ex_position_delta_id (body s) = Some dk ∧
    t_position_deltas (k_db (a_kernel a')) !! dk = Some delta ∧
    pd_symbol delta = ei_symbol (body i) ∧
    d_nonneg (pd_post_execution_quantity delta) = true.
Proof.
  pose proof (execute_new root reg rr iid ai w st k Hsound Hfresh) as Hnew.
  apply (wp_elim _ _ _ _ _ Hrun) in Hnew as [(_ & _ & ?)|Hnew]; [done|].
  destruct Hnew as (i' & ad & did & bf & pr & x & k1 & k2 & [_ Hpre] & Hpr & _ & _ & Hm).
  destruct Hpre as (m & d & Hi & _). simpl in Hi. rewrite (abs_dir_some _ _ _ Hintent) in Hi. injection Hi as <-.
  destruct (perform_effect _ _ _ _ _ _ _) as [k' [e'|t]] eqn:Ep; [by destruct Hm|].
  destruct Hm as (now & [= ->] & Hx & -> & Heff).
  unfold effects in Heff. simpl in Heff. injection Heff as Hdb _. rewrite Hdb.
  apply perform_effect_rows in Ep as (Hrows & _ & Hfill).
  destruct (er_delta_row _ _ _ _ Hrows) as (Hrow & _ & Hsym & Hq & Hpost).
  exists (pd_position_delta_id (et_delta t)), (et_delta t). split_and!; try done.
  rewrite Hpost, Hq, Hside. simpl.
  pose proof (sound_intents _ Hsound _ _ Hintent) as (_ & _ & Hv). art_simpl.
  apply constrained_inv in Hv as [_ Hv]. bool_simpl.
  assert (Hle : dle (ei_quantity (body i)) bf = true).
  { unfold _verified_position_basis, denied in Hpr. repeat (case_match; simplify_eq).
    rewrite Hside in *. rewrite bool_decide_eq_true_2 in * by done. simpl in *. by apply dlt_dle. }
  destruct (Hfill Hreg) as [Hf Hn]; [done..|].
  apply dec_sub_nonneg; [done|by eapply dle_trans].
Qed.

(** C35: an effect nobody filled completes and reconciles.  When no adapter is
    registered for the intent's broker connection, an execution of a fresh
    intent that returns has recorded the effect as [completed] although the
    ordered quantity is positive and the report says that nothing was filled;
    the position delta is zero, and the reconciliation, which compares the
    computed quantity with itself, is [matched]. *)
Theorem unfilled_effect_completes `{PyEnv} `{Database} (root : string)
    (reg : registry) (rr iid ai : string) (w : CapitalWorld) (st : agent_store) (k : kernel_state)
    (a' : agent_state) (s : sealed EffectExecutionRecord) (i : sealed EffectIntent)
    (Hsound : store_sound st) (Hfresh : f_executions st !! execution_id_of iid = None)
    (Hintent : f_intents st !! iid = Some (Readable i))
    (Hreg : reg !! ei_broker_connection_id (body i) = None)
    (Hrun : execute_simulated_effect root reg rr iid ai w (Agent st k) = (a', inr s)) :
  let d := k_db (a_kernel a') in
  ex_state (body s) = ExecutionCompleted ∧ d_pos (ei_quantity (body i)) = true ∧
  (∃ rk rep, ex_execution_report_id (body s) = Some rk ∧ t_execution_reports d !! rk = Some rep ∧
     er_filled_quantity rep = dzero) ∧
  (∃ dk delta, ex_position_delta_id (body s) = Some dk ∧ t_position_deltas d !! dk = Some delta ∧
     pd_delta_quantity delta = dzero) ∧
  (∃ ck rec, ex_reconciliation_id (body s) = Some ck ∧ t_reconciliation_reports d !! ck = Some rec ∧
     rr_reconciliation_status rec = "matched").
Proof.
  pose proof (execute_new root reg rr iid ai w st k Hsound Hfresh) as Hnew.
  apply (wp_elim _ _ _ _ _ Hrun) in Hnew as [(_ & _ & ?)|Hnew]; [done|].
  destruct Hnew as (i' & ad & did & bf & pr & x & k1 & k2 & [_ Hpre] & Hpr & _ & _ & Hm).
  destruct Hpre as (m & d & Hi & _). simpl in Hi. rewrite (abs_dir_some _ _ _ Hintent) in Hi. injection Hi as <-.
  destruct (perform_effect _ _ _ _ _ _ _) as [k' [e'|t]] eqn:Ep; [by destruct Hm|].
  destruct Hm as (now & [= ->] & Hx & -> & Heff).
  unfold effects in Heff. simpl in Heff. injection Heff as Hdb _. cbv zeta. rewrite Hdb.
  apply perform_effect_rows in Ep as ([_ _ [Hrep _] (Hdel & _ & _ & Hq & _) (Hrec & Hst & _)] & Hnone & _).
  specialize (Hnone Hreg). rewrite Hnone in Hq.
  pose proof (sound_intents _ Hsound _ _ Hintent) as (_ & _ & Hv). art_simpl.
  apply constrained_inv in Hv as [_ Hv]. bool_simpl.
  split_and!; [done|done|by eauto..| |by eauto].
  eexists _, _. split_and!; [done|done|]. rewrite Hq. by destruct (ei_side (body i)).
Qed.
