(* ===== verification/AgentIntents.v ===== *)
(** Idempotency of effect intents: a request that is repeated returns the
    intent it created, unless its text was padded with white space. *)
From S2P Require Import Prelude PyDecimal PyTime PyJson TimeFacts ReceiptIO ExecutionModels ExecutionServices ExecutionCommands ExecutionFacts AgentModels AgentStore AgentSpec AgentRefinement AgentRuns AgentInvariants AgentTheorems.

(** The request with its text stripped, as it is stored. *)
Definition stripped (r : IntentRequest) : IntentRequest :=
  {| ir_mission_id := ir_mission_id r; ir_delegation_id := ir_delegation_id r;
     ir_idempotency_key := ir_idempotency_key r;
     ir_execution_account_id := strip (ir_execution_account_id r);
     ir_broker_connection_id := strip (ir_broker_connection_id r);
     ir_instrument_ref := strip (ir_instrument_ref r); ir_symbol := strip (ir_symbol r);
     ir_side := ir_side r; ir_order_type := ir_order_type r; ir_quantity := ir_quantity r;
     ir_reference_price := ir_reference_price r; ir_rationale := strip (ir_rationale r) |}.

(** Under which id the intent of a request is stored. *)
Definition request_id `{PyEnv} (r : IntentRequest) : string :=
  intent_id_of (ir_mission_id r) (strip (ir_idempotency_key r)).

Ltac wp_reading := unfold read_mission, read_delegation, read_effect_intent;
  first [apply wp_read; [apply _|done| |] | apply wp_read; [done| |]].

Section Intents.
Context `{PyEnv} (root : string).

(** What a request needs before its key is looked up. *)
Record request_ready (st : agent_store) (r : IntentRequest) : Prop := {
  ready_mission : ∃ m, f_missions st !! ir_mission_id r = Some (Readable m);
  ready_delegation : ∃ d, f_delegations st !! ir_delegation_id r = Some (Readable d);
  ready_key : blank (ir_idempotency_key r) = false;
}.

Lemma text_ok v name : blank v = false → _text v name = inr (strip v).
Proof. unfold blank, _text, streq. by intros ->. Qed.

Lemma create_intent_replay st k r s :
  store_sound st → request_ready st r → f_intents st !! request_id r = Some (Readable s) →
  create_effect_intent root r (Agent st k) =
    (Agent st k,
     if bool_decide (actual_of (body s) = semantic_of r (strip (ir_idempotency_key r))) then inr s
     else inl (Exn CapitalAgentConflictError "idempotency key reused with different intent")).
Proof.
  intros Hs [[m Hm] [d Hd] Hkey] Hi.
  assert (Hwp : wp (create_effect_intent root r) (λ a' r', (a', r') = (Agent st k,
     if bool_decide (actual_of (body s) = semantic_of r (strip (ir_idempotency_key r))) then inr s
     else inl (Exn CapitalAgentConflictError "idempotency key reused with different intent"))) (Agent st k)).
  { unfold create_effect_intent.
    apply wp_bind; wp_reading; [simpl; congruence|]. intros m' _ _.
    apply wp_bind; wp_reading; [simpl; congruence|]. intros d' _ _.
    rewrite (text_ok (ir_idempotency_key r)) by done. apply wp_bind, wp_of_sum. intros x <-.
    apply wp_bind, wp_exists_file. intros b Hb. fold (request_id r) in *.
    assert (b = true) as -> by (subst b; apply has_true; by eexists). cbv beta iota.
    apply wp_bind; wp_reading; [simpl; congruence|]. intros s' Hs' _.
    simpl in Hs'. rewrite Hi in Hs'. injection Hs' as <-.
    apply wp_bind, wp_require; intros Hc; rewrite Hc; [by apply wp_ret|done]. }
  unfold wp in Hwp. by destruct (create_effect_intent _ _ _).
Qed.

(** What a request that returns has established. *)
Lemma create_intent_ok st k r :
  store_sound st →
  wp (create_effect_intent root r) (λ a' r', ∀ s, r' = inr s →
    request_ready (a_store a') r ∧ store_sound (a_store a') ∧
    f_intents (a_store a') !! request_id r = Some (Readable s) ∧
    actual_of (body s) =
      semantic_of (if has (f_intents st) (request_id r) then r else stripped r)
        (strip (ir_idempotency_key r))) (Agent st k).
Proof.
  intros Hs. unfold create_effect_intent.
  apply wp_bind; wp_reading; [done|]. intros m Hm _.
  apply wp_bind; wp_reading; [done|]. intros d Hd _.
  apply wp_bind, wp_of_sum. intros [e|key] Hkey; [done|].
  destruct (streq (strip (ir_idempotency_key r)) "") eqn:Ek; unfold _text in Hkey; rewrite Ek in Hkey; [done|].
  injection Hkey as <-.
  assert (Hready : request_ready st r) by (split; [by eexists..|exact Ek]).
  apply wp_bind, wp_exists_file. intros b Hb. fold (request_id r) in *. simpl in Hb. rewrite Hb.
  destruct b; cbv beta iota.
  - apply wp_bind; wp_reading; [done|]. intros s Hf _.
    apply wp_bind, wp_require; intros Hc; [|done]. bool_simpl. apply wp_ret.
    intros s' [= <-]. by split_and!.
  - apply wp_bind, wp_require; intros Hid; [|done].
    do 5 (apply wp_bind, wp_of_sum; intros [e|?] Ht; [done|]; apply text_blank in Ht as [_ ->]).
    apply wp_bind, wp_now. intros t k'. apply wp_bind, wp_build; [done|]. intros x Hx.
    pose proof (validate_idem _ _ Hx). art_simpl. apply constrained_inv in Hx as [-> _].
    apply wp_create; [apply _|done|done|done|done|simpl; rewrite has_false in Hb; congruence|].
    intros _ Hs' s [= <-]. split_and!; [|done|destruct st; apply lookup_insert_eq|done].
    destruct Hready as [[m' Hm'] [d' Hd'] ?]. by split; [exists m'; destruct st|exists d'; destruct st|].
Qed.

Lemma request_ready_mono `{Database} r a a' :
  store_sound (a_store a) → rtc (agent_step root) a a' →
  request_ready (a_store a) r → request_ready (a_store a') r.
Proof.
  intros Hs Hr [[m Hm] [d Hd] Hk]. destruct (run_le root a a' Hs Hr) as [Hs' Hle].
  split; [| |done].
  - destruct (dir_le _ _ _ _ _ (sound_missions _ Hs') (le_missions _ _ Hle) Hm) as (m' & Hm' & _). by eexists.
  - destruct (dir_le _ _ _ _ _ (sound_delegations _ Hs') (le_delegations _ _ Hle) Hd) as (d' & Hd' & _).
    by eexists.
Qed.
End Intents.

(** C32: intents are idempotent.  After a request without padded text created
    (or found) its intent, repeating the very same request at any later time,
    whatever was called in between, returns that intent and changes
    nothing. *)
Theorem intent_replay_returns_same `{PyEnv} `{Database} (root : string) (r : IntentRequest)
    (a a1 a2 : agent_state) (s : sealed EffectIntent)
    (Hsound : store_sound (a_store a)) (Hclean : stripped r = r)
    (Hcreate : create_effect_intent root r a = (a1, inr s))
    (Hrun : rtc (agent_step root) a1 a2) :
  create_effect_intent root r a2 = (a2, inr s).
Proof.
  destruct a as [st k]. destruct (wp_elim _ _ _ _ _ Hcreate (create_intent_ok root st k r Hsound) s eq_refl)
    as (Hready & Hs1 & Hf & Hact). rewrite Hclean in Hact.
  assert (Hact' : actual_of (body s) = semantic_of r (strip (ir_idempotency_key r)))
    by (by destruct (has _ _)). clear Hact.
  destruct (run_le root a1 a2 Hs1 Hrun) as [Hs2 Hle].
  assert (Hf2 : f_intents (a_store a2) !! request_id r = Some (Readable s)).
  { eapply lookup_weaken; [exact Hf|]. apply dir_subseteq; [apply Hs1|apply Hs2|apply Hle]. }
  destruct a2 as [st2 k2]. rewrite (create_intent_replay root st2 k2 r s);
    [|done|by apply (request_ready_mono root r a1 (Agent st2 k2))|done].
  by rewrite bool_decide_eq_true_2.
Qed.

(** C39: a padded request cannot be replayed.  If a fresh request whose account,
    connection, instrument, symbol or rationale has surrounding white space
    succeeds, the identical request raises a conflict right afterwards: the
    stored text is stripped, the compared text is not. *)
Theorem padded_replay_conflicts `{PyEnv} (root : string) (r : IntentRequest)
    (st : agent_store) (k : kernel_state) (a1 : agent_state) (s : sealed EffectIntent)
    (Hsound : store_sound st) (Hfresh : f_intents st !! request_id r = None)
    (Hpadded : stripped r ≠ r)
    (Hcreate : create_effect_intent root r (Agent st k) = (a1, inr s)) :
  create_effect_intent root r a1 =
    (a1, inl (Exn CapitalAgentConflictError "idempotency key reused with different intent")).
Proof.
  destruct (wp_elim _ _ _ _ _ Hcreate (create_intent_ok root st k r Hsound) s eq_refl)
    as (Hready & Hs1 & Hf & Hact).
  rewrite (proj2 (has_false _ _) Hfresh) in Hact. destruct a1 as [st1 k1].
  rewrite (create_intent_replay root st1 k1 r s) by done.
  rewrite bool_decide_eq_false_2; [done|]. rewrite Hact. intros E. apply Hpadded.
  unfold semantic_of in E. injection E as E1 E2 E3 E4 E5. destruct r; simpl in *.
  unfold stripped. simpl. by f_equal.
Qed.
