(* ===== verification/AutonomyControl.v ===== *)
(** Autonomy admission ([autonomy_control.py]): the deterministic membrane that
    decides whether an agent action is effective, a candidate, escalated or
    blocked, and the evidence receipt it writes. *)
From S2P Require Import Prelude PyDecimal PyTime PyJson ReceiptIO.

(** ** Vocabulary *)

Inductive WorldFidelityLevel :=
  | W0_CAPITAL_FACTS | W1_VERSIONED_DECISIONS | W2_SCENARIO_WORLD | W3_OUTCOME_RECONCILIATION
  | W4_LEARNING_POLICY.
Inductive AgentAutonomyLevel :=
  | AUT0_CONTEXT_ASSISTANT | AUT1_TOOL_REVIEWER | AUT2_DURABLE_LOOP | AUT3_DELEGATED_REVIEW
  | AUT4_PAPER_MANAGER | AUT5_REAL_OPERATOR | AUT6_CONTINUOUS_AGENT.
Inductive HumanControlMode :=
  | IN_THE_LOOP | IN_OR_ON_THE_LOOP | ON_THE_LOOP | ON_OR_OVER_THE_LOOP | OVER_THE_LOOP.
Inductive AgentActionClass :=
  | OBSERVE_STATE | GATHER_EVIDENCE | PREPARE_REVIEW_PACKET | MAKE_PLANNING_DECISION
  | TAKE_PAPER_ACTION | TAKE_REAL_ACTION | CHANGE_CAPITAL_CONSTITUTION.
Inductive AdmissionDisposition := EFFECTIVE | CANDIDATE | ESCALATE | BLOCKED.
Inductive AutonomyFindingCode :=
  | MANDATE_REQUIRED | MANDATE_NOT_ACTIVE | MANDATE_EXPIRED | KILL_SWITCH_ENGAGED
  | AUTONOMY_EXCEEDS_MANDATE | AUTONOMY_EXCEEDS_RUNTIME | ACTION_OUTSIDE_MANDATE
  | FINANCIAL_ACTION_OUTSIDE_MANDATE | ASSET_CLASS_OUTSIDE_MANDATE | TOOL_OUTSIDE_MANDATE
  | WORLD_FIDELITY_INSUFFICIENT | REQUESTED_AUTONOMY_INSUFFICIENT
  | EXTERNAL_EFFECT_CLASS_MISMATCH | CONSTITUTIONAL_CHANGE_REQUIRES_HUMAN.
Inductive MandateStatus := StatusActive | StatusSuspended | StatusRevoked | StatusExpired.

#[export] Instance WorldFidelityLevel_eq_dec : EqDecision WorldFidelityLevel.
Proof. solve_decision. Defined.
#[export] Instance AgentAutonomyLevel_eq_dec : EqDecision AgentAutonomyLevel.
Proof. solve_decision. Defined.
#[export] Instance AgentActionClass_eq_dec : EqDecision AgentActionClass.
Proof. solve_decision. Defined.
#[export] Instance AdmissionDisposition_eq_dec : EqDecision AdmissionDisposition.
Proof. solve_decision. Defined.
#[export] Instance AutonomyFindingCode_eq_dec : EqDecision AutonomyFindingCode.
Proof. solve_decision. Defined.
#[export] Instance MandateStatus_eq_dec : EqDecision MandateStatus.
Proof. solve_decision. Defined.

Definition world_value (l : WorldFidelityLevel) : string :=
  match l with
  | W0_CAPITAL_FACTS => "W0_capital_facts"
  | W1_VERSIONED_DECISIONS => "W1_versioned_decisions"
  | W2_SCENARIO_WORLD => "W2_scenario_world"
  | W3_OUTCOME_RECONCILIATION => "W3_outcome_reconciliation"
  | W4_LEARNING_POLICY => "W4_learning_policy"
  end.
Definition autonomy_value (l : AgentAutonomyLevel) : string :=
  match l with
  | AUT0_CONTEXT_ASSISTANT => "AUT0_context_assistant"
  | AUT1_TOOL_REVIEWER => "AUT1_tool_reviewer"
  | AUT2_DURABLE_LOOP => "AUT2_durable_loop"
  | AUT3_DELEGATED_REVIEW => "AUT3_delegated_review"
  | AUT4_PAPER_MANAGER => "AUT4_paper_manager"
  | AUT5_REAL_OPERATOR => "AUT5_real_operator"
  | AUT6_CONTINUOUS_AGENT => "AUT6_continuous_agent"
  end.
Definition control_value (m : HumanControlMode) : string :=
  match m with
  | IN_THE_LOOP => "human_in_the_loop"
  | IN_OR_ON_THE_LOOP => "human_in_or_on_the_loop"
  | ON_THE_LOOP => "human_on_the_loop"
  | ON_OR_OVER_THE_LOOP => "human_on_or_over_the_loop"
  | OVER_THE_LOOP => "human_over_the_loop"
  end.
Definition action_value (c : AgentActionClass) : string :=
  match c with
  | OBSERVE_STATE => "observe_state"
  | GATHER_EVIDENCE => "gather_evidence"
  | PREPARE_REVIEW_PACKET => "prepare_review_packet"
  | MAKE_PLANNING_DECISION => "make_planning_decision"
  | TAKE_PAPER_ACTION => "take_paper_action"
  | TAKE_REAL_ACTION => "take_real_action"
  | CHANGE_CAPITAL_CONSTITUTION => "change_capital_constitution"
  end.
Definition disposition_value (d : AdmissionDisposition) : string :=
  match d with
  | EFFECTIVE => "effective" | CANDIDATE => "candidate" | ESCALATE => "escalate" | BLOCKED => "blocked"
  end.
Definition code_value (c : AutonomyFindingCode) : string :=
  match c with
  | MANDATE_REQUIRED => "mandate_required"
  | MANDATE_NOT_ACTIVE => "mandate_not_active"
  | MANDATE_EXPIRED => "mandate_expired"
  | KILL_SWITCH_ENGAGED => "kill_switch_engaged"
  | AUTONOMY_EXCEEDS_MANDATE => "autonomy_exceeds_mandate"
  | AUTONOMY_EXCEEDS_RUNTIME => "autonomy_exceeds_runtime"
  | ACTION_OUTSIDE_MANDATE => "action_outside_mandate"
  | FINANCIAL_ACTION_OUTSIDE_MANDATE => "financial_action_outside_mandate"
  | ASSET_CLASS_OUTSIDE_MANDATE => "asset_class_outside_mandate"
  | TOOL_OUTSIDE_MANDATE => "tool_outside_mandate"
  | WORLD_FIDELITY_INSUFFICIENT => "world_fidelity_insufficient"
  | REQUESTED_AUTONOMY_INSUFFICIENT => "requested_autonomy_insufficient"
  | EXTERNAL_EFFECT_CLASS_MISMATCH => "external_effect_class_mismatch"
  | CONSTITUTIONAL_CHANGE_REQUIRES_HUMAN => "constitutional_change_requires_human"
  end.
Definition status_value (s : MandateStatus) : string :=
  match s with
  | StatusActive => "active" | StatusSuspended => "suspended"
  | StatusRevoked => "revoked" | StatusExpired => "expired"
  end.

(** [_WORLD_RANK] and [_AUTONOMY_RANK]: the position in the enumeration *)
Definition _WORLD_RANK (l : WorldFidelityLevel) : nat :=
  match l with
  | W0_CAPITAL_FACTS => 0 | W1_VERSIONED_DECISIONS => 1 | W2_SCENARIO_WORLD => 2
  | W3_OUTCOME_RECONCILIATION => 3 | W4_LEARNING_POLICY => 4
  end.
Definition _AUTONOMY_RANK (l : AgentAutonomyLevel) : nat :=
  match l with
  | AUT0_CONTEXT_ASSISTANT => 0 | AUT1_TOOL_REVIEWER => 1 | AUT2_DURABLE_LOOP => 2
  | AUT3_DELEGATED_REVIEW => 3 | AUT4_PAPER_MANAGER => 4 | AUT5_REAL_OPERATOR => 5
  | AUT6_CONTINUOUS_AGENT => 6
  end.

Definition _ACTION_REQUIREMENTS (c : AgentActionClass) : WorldFidelityLevel * AgentAutonomyLevel :=
  match c with
  | OBSERVE_STATE => (W0_CAPITAL_FACTS, AUT0_CONTEXT_ASSISTANT)
  | GATHER_EVIDENCE => (W0_CAPITAL_FACTS, AUT1_TOOL_REVIEWER)
  | PREPARE_REVIEW_PACKET => (W1_VERSIONED_DECISIONS, AUT2_DURABLE_LOOP)
  | MAKE_PLANNING_DECISION => (W2_SCENARIO_WORLD, AUT3_DELEGATED_REVIEW)
  | TAKE_PAPER_ACTION => (W3_OUTCOME_RECONCILIATION, AUT4_PAPER_MANAGER)
  | TAKE_REAL_ACTION => (W4_LEARNING_POLICY, AUT5_REAL_OPERATOR)
  | CHANGE_CAPITAL_CONSTITUTION => (W4_LEARNING_POLICY, AUT6_CONTINUOUS_AGENT)
  end.
Definition action_requirements (c : AgentActionClass) : WorldFidelityLevel * AgentAutonomyLevel :=
  _ACTION_REQUIREMENTS c.

(** ** Models *)

Record AutonomyMandate := {
  md_mandate_id : string;
  md_authority_grant_id : option string;
  md_principal_id : string;
  md_agent_id : string;
  md_status : MandateStatus;
  md_granted_autonomy : AgentAutonomyLevel;
  md_allowed_action_classes : list AgentActionClass;
  md_allowed_financial_action_types : list string;
  md_allowed_asset_classes : list string;
  md_allowed_tools : list string;
  md_constraints : list (string * json);
  md_kill_switch_engaged : bool;
  md_expires_at_utc : option string;
  md_source_refs : list string;
}.
(** [require_identity] *)
Definition mandate_require_identity (m : AutonomyMandate) : bool :=
  negb (blank (md_mandate_id m)) && negb (blank (md_principal_id m)) && negb (blank (md_agent_id m)).

Record AgentActionRequest := {
  rq_action_id : string;
  rq_work_id : string;
  rq_agent_id : string;
  rq_objective : string;
  rq_action_class : AgentActionClass;
  rq_requested_autonomy : AgentAutonomyLevel;
  rq_tool_name : option string;
  rq_arguments : list (string * json);
  rq_target_scope : list (string * json);
  rq_external_effect : bool;
  rq_reversible : bool;
  rq_source_refs : list string;
}.
(** [require_context] and [require_real_action_effect_shape] *)
Definition request_require_context (r : AgentActionRequest) : bool :=
  negb (blank (rq_work_id r)) && negb (blank (rq_agent_id r)) && negb (blank (rq_objective r)).
Definition require_real_action_effect_shape (r : AgentActionRequest) : bool :=
  eqb (rq_external_effect r) (bool_decide (rq_action_class r = TAKE_REAL_ACTION)).

Record AutonomyRuntimeState := {
  rt_world_fidelity : WorldFidelityLevel;
  rt_runtime_autonomy_ceiling : AgentAutonomyLevel;
  rt_world_state_ref : option string;
  rt_now_utc : string;
}.

Record AutonomyFinding := { fd_code : AutonomyFindingCode; fd_detail : string }.

Record AutonomyAdmissionReport := {
  rp_action_id : string;
  rp_work_id : string;
  rp_disposition : AdmissionDisposition;
  rp_effective : bool;
  rp_human_control_mode : HumanControlMode;
  rp_requested_autonomy : AgentAutonomyLevel;
  rp_required_autonomy : AgentAutonomyLevel;
  rp_granted_autonomy : option AgentAutonomyLevel;
  rp_runtime_autonomy_ceiling : AgentAutonomyLevel;
  rp_current_world_fidelity : WorldFidelityLevel;
  rp_required_world_fidelity : WorldFidelityLevel;
  rp_mandate_id : option string;
  rp_world_state_ref : option string;
  rp_findings : list AutonomyFinding;
  rp_effect_admitted : bool;
  rp_external_effect_admitted : bool;
  rp_execution_allowed : bool;
  rp_authority_transition : bool;
}.
Definition keep_effect_flags_consistent (r : AutonomyAdmissionReport)
    : exn + AutonomyAdmissionReport :=
  if negb (eqb (rp_effective r) (bool_decide (rp_disposition r = EFFECTIVE)))
  then inl (Exn ValueError "effective must match the admission disposition")
  else if rp_external_effect_admitted r && negb (rp_effect_admitted r)
  then inl (Exn ValueError "external effect admission requires effect admission")
  else if rp_execution_allowed r || rp_authority_transition r
  then inl (Exn ValueError
         "admission reports are evidence, not execution or authority transitions")
  else inr r.

(** ** Evaluation *)

Definition human_control_mode (level : AgentAutonomyLevel) : HumanControlMode :=
  if (_AUTONOMY_RANK level <=? _AUTONOMY_RANK AUT2_DURABLE_LOOP) then IN_THE_LOOP
  else if bool_decide (level = AUT3_DELEGATED_REVIEW) then IN_OR_ON_THE_LOOP
  else if bool_decide (level = AUT4_PAPER_MANAGER) then ON_THE_LOOP
  else if bool_decide (level = AUT5_REAL_OPERATOR) then ON_OR_OVER_THE_LOOP
  else OVER_THE_LOOP.

Definition _parse_utc (value : string) : exn + Z :=
  match fromisoformat (replace_Z value) with
  | None => inl (Exn ValueError "Invalid isoformat string")
  | Some (_, None) => inl (Exn ValueError "autonomy timestamps must be timezone-aware")
  | Some (wall, Some offset) => inr (wall - offset)%Z
  end.

(** Truth value of a JSON value, and [value in strings] *)
Definition json_truthy (j : json) : bool :=
  match j with
  | JNull => false
  | JBool b => b
  | JInt z => negb (z =? 0)%Z
  | JStr s => negb (streq s "")
  | JArr l => match l with [] => false | _ => true end
  | JObj l => match l with [] => false | _ => true end
  end.
Definition json_in (j : json) (l : list string) : bool :=
  match j with JStr s => mem s l | _ => false end.

Definition finding_if (b : bool) (code : AutonomyFindingCode) (detail : string)
    : list AutonomyFinding :=
  if b then [{| fd_code := code; fd_detail := detail |}] else [].

(** [scope.get(key)] when it is set, limited and outside the allowed values *)
Definition outside (requested : option json) (allowed : list string) : option json :=
  match requested with
  | Some j => if json_truthy j && negb (bool_decide (allowed = [])) && negb (json_in j allowed)
              then Some j else None
  | None => None
  end.
Definition finding_outside (o : option json) (code : AutonomyFindingCode) (detail : string → string)
    : list AutonomyFinding :=
  match o with Some j => [{| fd_code := code; fd_detail := detail (repr j) |}] | None => [] end.

(** [mandate.expires_at_utc and now >= expires_at_utc]: both timestamps are
    parsed only when an expiry is set *)
Definition mandate_expired (runtime : AutonomyRuntimeState) (mandate : AutonomyMandate) : exn + bool :=
  match md_expires_at_utc mandate with
  | None => inr false
  | Some expires =>
      if streq expires "" then inr false
      else match _parse_utc (rt_now_utc runtime) with
           | inl e => inl e
           | inr now => match _parse_utc expires with
                        | inl e => inl e
                        | inr ex => inr (ex <=? now)%Z
                        end
           end
  end.

(** The findings [_check_mandate] appends, in order. *)
Definition _check_mandate (request : AgentActionRequest) (runtime : AutonomyRuntimeState)
    (mandate : AutonomyMandate) : exn + list AutonomyFinding :=
  match mandate_expired runtime mandate with
  | inl e => inl e
  | inr expired => inr (
      finding_if (bool_decide (md_status mandate ≠ StatusActive)) MANDATE_NOT_ACTIVE
        ("mandate status is " +:+ status_value (md_status mandate)) ++
      finding_if expired MANDATE_EXPIRED "mandate has expired" ++
      finding_if (md_kill_switch_engaged mandate) KILL_SWITCH_ENGAGED
        "mandate kill switch is engaged" ++
      finding_if (negb (streq (md_agent_id mandate) (rq_agent_id request))) ACTION_OUTSIDE_MANDATE
        "request agent does not match mandate agent" ++
      finding_if (_AUTONOMY_RANK (md_granted_autonomy mandate)
                    <? _AUTONOMY_RANK (rq_requested_autonomy request)) AUTONOMY_EXCEEDS_MANDATE
        ("requested " +:+ autonomy_value (rq_requested_autonomy request)
         +:+ " exceeds mandate grant " +:+ autonomy_value (md_granted_autonomy mandate)) ++
      finding_if (bool_decide (rq_action_class request ∉ md_allowed_action_classes mandate))
        ACTION_OUTSIDE_MANDATE
        (action_value (rq_action_class request) +:+ " is not allowed by the mandate") ++
      finding_outside (outside (obj_get "action_type" (rq_target_scope request))
                         (md_allowed_financial_action_types mandate))
        FINANCIAL_ACTION_OUTSIDE_MANDATE
        (λ r, "financial action " +:+ r +:+ " is not allowed by the mandate") ++
      finding_outside (outside (obj_get "asset_class" (rq_target_scope request))
                         (md_allowed_asset_classes mandate))
        ASSET_CLASS_OUTSIDE_MANDATE
        (λ r, "asset class " +:+ r +:+ " is not allowed by the mandate") ++
      finding_outside (outside (JStr <$> rq_tool_name request) (md_allowed_tools mandate))
        TOOL_OUTSIDE_MANDATE
        (λ r, "tool " +:+ r +:+ " is not allowed by the mandate"))
  end.

Definition _report (request : AgentActionRequest) (runtime : AutonomyRuntimeState)
    (mandate : option AutonomyMandate) (required_world : WorldFidelityLevel)
    (required_autonomy : AgentAutonomyLevel) (disposition : AdmissionDisposition)
    (findings : list AutonomyFinding) : exn + AutonomyAdmissionReport :=
  let effective := bool_decide (disposition = EFFECTIVE) in
  let effect_admitted :=
    effective && bool_decide (rq_action_class request ∈ [TAKE_PAPER_ACTION; TAKE_REAL_ACTION]) in
  keep_effect_flags_consistent
    {| rp_action_id := rq_action_id request; rp_work_id := rq_work_id request;
       rp_disposition := disposition; rp_effective := effective;
       rp_human_control_mode := human_control_mode (rq_requested_autonomy request);
       rp_requested_autonomy := rq_requested_autonomy request;
       rp_required_autonomy := required_autonomy;
       rp_granted_autonomy := md_granted_autonomy <$> mandate;
       rp_runtime_autonomy_ceiling := rt_runtime_autonomy_ceiling runtime;
       rp_current_world_fidelity := rt_world_fidelity runtime;
       rp_required_world_fidelity := required_world; rp_mandate_id := md_mandate_id <$> mandate;
       rp_world_state_ref := rt_world_state_ref runtime; rp_findings := findings;
       rp_effect_admitted := effect_admitted;
       rp_external_effect_admitted :=
         effect_admitted && bool_decide (rq_action_class request = TAKE_REAL_ACTION);
       rp_execution_allowed := false; rp_authority_transition := false |}.

Definition blocking_codes : list AutonomyFindingCode :=
  [MANDATE_NOT_ACTIVE; MANDATE_EXPIRED; KILL_SWITCH_ENGAGED].

Definition evaluate_autonomy_admission (request : AgentActionRequest)
    (runtime : AutonomyRuntimeState) (mandate : option AutonomyMandate)
    : exn + AutonomyAdmissionReport :=
  let '(required_world, required_autonomy) := action_requirements (rq_action_class request) in
  let report := λ mandate, _report request runtime mandate required_world required_autonomy in
  if bool_decide (rq_action_class request = CHANGE_CAPITAL_CONSTITUTION) then
    report mandate ESCALATE
      [{| fd_code := CONSTITUTIONAL_CHANGE_REQUIRES_HUMAN;
          fd_detail := "capital-constitution changes remain with the Human Principal" |}]
  else
    let findings :=
      finding_if (_AUTONOMY_RANK (rq_requested_autonomy request) <? _AUTONOMY_RANK required_autonomy)
        REQUESTED_AUTONOMY_INSUFFICIENT
        (action_value (rq_action_class request) +:+ " requires at least "
         +:+ autonomy_value required_autonomy) ++
      finding_if (_WORLD_RANK (rt_world_fidelity runtime) <? _WORLD_RANK required_world)
        WORLD_FIDELITY_INSUFFICIENT
        (action_value (rq_action_class request) +:+ " requires at least "
         +:+ world_value required_world) ++
      finding_if (_AUTONOMY_RANK (rt_runtime_autonomy_ceiling runtime)
                    <? _AUTONOMY_RANK (rq_requested_autonomy request))
        AUTONOMY_EXCEEDS_RUNTIME
        ("requested " +:+ autonomy_value (rq_requested_autonomy request)
         +:+ " exceeds runtime ceiling " +:+ autonomy_value (rt_runtime_autonomy_ceiling runtime)) in
    let hard_codes := [REQUESTED_AUTONOMY_INSUFFICIENT; WORLD_FIDELITY_INSUFFICIENT;
                       AUTONOMY_EXCEEDS_RUNTIME] in
    if existsb (λ f, bool_decide (fd_code f ∈ hard_codes)) findings then
      report mandate BLOCKED findings
    else
      match mandate with
      | None =>
          if bool_decide (rq_action_class request ∈ [OBSERVE_STATE; GATHER_EVIDENCE]) then
            report None EFFECTIVE []
          else report None CANDIDATE (findings ++
            [{| fd_code := MANDATE_REQUIRED;
                fd_detail := "effective review, decision, and action require an active mandate" |}])
      | Some m =>
          match _check_mandate request runtime m with
          | inl e => inl e
          | inr more =>
              match findings ++ more with
              | [] => report mandate EFFECTIVE []
              | all => report mandate
                         (if existsb (λ f, bool_decide (fd_code f ∈ blocking_codes)) all
                          then BLOCKED else CANDIDATE) all
              end
          end
      end.

Definition legacy_autonomy_level (level : string) : exn + AgentAutonomyLevel :=
  if streq level "L0_read_only" then inr AUT0_CONTEXT_ASSISTANT
  else if streq level "L1_candidate_only" then inr AUT1_TOOL_REVIEWER
  else if streq level "L2_human_confirmed_apply" then inr AUT2_DURABLE_LOOP
  else if streq level "L3_bounded_delegation_candidate" then inr AUT3_DELEGATED_REVIEW
  else inl (Exn ValueError ("unknown legacy autonomy level: " +:+ repr_str level)).

(** ** The evidence receipt *)

Definition report_json (r : AutonomyAdmissionReport) : json :=
  JObj [("action_id", JStr (rp_action_id r)); ("work_id", JStr (rp_work_id r));
    ("disposition", JStr (disposition_value (rp_disposition r)));
    ("effective", JBool (rp_effective r));
    ("human_control_mode", JStr (control_value (rp_human_control_mode r)));
    ("requested_autonomy", JStr (autonomy_value (rp_requested_autonomy r)));
    ("required_autonomy", JStr (autonomy_value (rp_required_autonomy r)));
    ("granted_autonomy", jopt (λ l, JStr (autonomy_value l)) (rp_granted_autonomy r));
    ("runtime_autonomy_ceiling", JStr (autonomy_value (rp_runtime_autonomy_ceiling r)));
    ("current_world_fidelity", JStr (world_value (rp_current_world_fidelity r)));
    ("required_world_fidelity", JStr (world_value (rp_required_world_fidelity r)));
    ("mandate_id", jopt JStr (rp_mandate_id r));
    ("world_state_ref", jopt JStr (rp_world_state_ref r));
    ("findings", JArr (map (λ f, JObj [("code", JStr (code_value (fd_code f)));
                                       ("detail", JStr (fd_detail f))]) (rp_findings r)));
    ("effect_admitted", JBool (rp_effect_admitted r));
    ("external_effect_admitted", JBool (rp_external_effect_admitted r));
    ("execution_allowed", JBool (rp_execution_allowed r));
    ("authority_transition", JBool (rp_authority_transition r))].

Definition write_autonomy_admission_report `{PyEnv} (report : AutonomyAdmissionReport)
    (receipt_root : string) : M sys string :=
  let fingerprint := take_str 20 (sha256_hex (rp_action_id report)) in
  let relative := "autonomy-admissions/admission_" +:+ fingerprint +:+ ".json" in
  target ← of_sum (resolve_under receipt_root [relative]);
  atomic_write_json target (report_json report) ;;
  mret relative.
