(* ===== verification/AutonomyTheorems.v ===== *)
(** What autonomy admission decides: exactly the permitted actions are
    effective, effects need an active mandate, and raising a ceiling never
    takes an admission away. *)
From S2P Require Import Prelude PyDecimal PyTime PyJson ReceiptIO AutonomyControl.

(** ** The policy, as a predicate *)

(** The mandate is in force for this request. *)
Record mandate_covers (q : AgentActionRequest) (rt : AutonomyRuntimeState) (m : AutonomyMandate)
    : Prop := {
  mc_active : md_status m = StatusActive;
  mc_unexpired : mandate_expired rt m = inr false;
  mc_no_kill : md_kill_switch_engaged m = false;
  mc_agent : md_agent_id m = rq_agent_id q;
  mc_granted : _AUTONOMY_RANK (rq_requested_autonomy q) <= _AUTONOMY_RANK (md_granted_autonomy m);
  mc_class : rq_action_class q ∈ md_allowed_action_classes m;
  mc_financial :
    outside (obj_get "action_type" (rq_target_scope q)) (md_allowed_financial_action_types m) = None;
  mc_asset :
    outside (obj_get "asset_class" (rq_target_scope q)) (md_allowed_asset_classes m) = None;
  mc_tool : outside (JStr <$> rq_tool_name q) (md_allowed_tools m) = None;
}.

(** The levels fit: enough autonomy is requested, not more than the runtime
    allows, in a world that is faithful enough. *)
Record levels_fit (q : AgentActionRequest) (rt : AutonomyRuntimeState) : Prop := {
  lf_required : _AUTONOMY_RANK (action_requirements (rq_action_class q)).2
                  <= _AUTONOMY_RANK (rq_requested_autonomy q);
  lf_ceiling : _AUTONOMY_RANK (rq_requested_autonomy q)
                  <= _AUTONOMY_RANK (rt_runtime_autonomy_ceiling rt);
  lf_world : _WORLD_RANK (action_requirements (rq_action_class q)).1
                  <= _WORLD_RANK (rt_world_fidelity rt);
}.

Definition permitted (q : AgentActionRequest) (rt : AutonomyRuntimeState)
    (mandate : option AutonomyMandate) : Prop :=
  rq_action_class q ≠ CHANGE_CAPITAL_CONSTITUTION ∧ levels_fit q rt ∧
  match mandate with
  | None => rq_action_class q ∈ [OBSERVE_STATE; GATHER_EVIDENCE]
  | Some m => mandate_covers q rt m
  end.

(** ** Reports *)

(** A report as [_report] fills it. *)
Record report_of (q : AgentActionRequest) (d : AdmissionDisposition) (fs : list AutonomyFinding)
    (r : AutonomyAdmissionReport) : Prop := {
  ro_disposition : rp_disposition r = d;
  ro_findings : rp_findings r = fs;
  ro_effective : rp_effective r = bool_decide (d = EFFECTIVE);
  ro_effect : rp_effect_admitted r =
    bool_decide (d = EFFECTIVE) && bool_decide (rq_action_class q ∈ [TAKE_PAPER_ACTION; TAKE_REAL_ACTION]);
  ro_external : rp_external_effect_admitted r =
    rp_effect_admitted r && bool_decide (rq_action_class q = TAKE_REAL_ACTION);
  ro_inert : rp_execution_allowed r = false ∧ rp_authority_transition r = false;
}.

(** The consistency check of the report never fails on what [_report] builds. *)
Lemma report_ok q rt m w l d fs : ∃ r, _report q rt m w l d fs = inr r ∧ report_of q d fs r.
Proof.
  unfold _report, keep_effect_flags_consistent.
  cbn [rp_effective rp_disposition rp_external_effect_admitted rp_effect_admitted
       rp_execution_allowed rp_authority_transition].
  rewrite eqb_reflx. simpl.
  destruct (bool_decide (d = EFFECTIVE)) eqn:E1, (bool_decide (rq_action_class q ∈ _)) eqn:E2; simpl;
    rewrite ?andb_false_r; eexists; (split; [reflexivity|]); split; simpl; by rewrite ?E1, ?E2.
Qed.
Lemma report_eq q rt m w l d fs r : _report q rt m w l d fs = inr r → report_of q d fs r.
Proof. destruct (report_ok q rt m w l d fs) as (r' & E & Hr). intros [= <-]%(eq_trans (eq_sym E)). done. Qed.

(** ** The two groups of findings *)

Definition level_findings (q : AgentActionRequest) (rt : AutonomyRuntimeState) : list AutonomyFinding :=
  finding_if (_AUTONOMY_RANK (rq_requested_autonomy q)
                <? _AUTONOMY_RANK (action_requirements (rq_action_class q)).2)
    REQUESTED_AUTONOMY_INSUFFICIENT
    (action_value (rq_action_class q) +:+ " requires at least "
     +:+ autonomy_value (action_requirements (rq_action_class q)).2) ++
  finding_if (_WORLD_RANK (rt_world_fidelity rt)
                <? _WORLD_RANK (action_requirements (rq_action_class q)).1)
    WORLD_FIDELITY_INSUFFICIENT
    (action_value (rq_action_class q) +:+ " requires at least "
     +:+ world_value (action_requirements (rq_action_class q)).1) ++
  finding_if (_AUTONOMY_RANK (rt_runtime_autonomy_ceiling rt)
                <? _AUTONOMY_RANK (rq_requested_autonomy q))
    AUTONOMY_EXCEEDS_RUNTIME
    ("requested " +:+ autonomy_value (rq_requested_autonomy q)
     +:+ " exceeds runtime ceiling " +:+ autonomy_value (rt_runtime_autonomy_ceiling rt)).

Lemma finding_if_nil b c d : finding_if b c d = [] ↔ b = false.
Proof. by destruct b. Qed.
Lemma finding_outside_nil o c d : finding_outside o c d = [] ↔ o = None.
Proof. by destruct o. Qed.

Lemma level_findings_nil q rt : level_findings q rt = [] ↔ levels_fit q rt.
Proof.
  unfold level_findings. rewrite !app_nil_iff, !finding_if_nil, !Nat.ltb_ge.
  split; [intros (? & ? & ?); by split|intros []; done].
Qed.

(** Level findings are all of the hard kind. *)
Lemma level_findings_hard q rt :
  existsb (λ f, bool_decide (fd_code f ∈ [REQUESTED_AUTONOMY_INSUFFICIENT;
     WORLD_FIDELITY_INSUFFICIENT; AUTONOMY_EXCEEDS_RUNTIME])) (level_findings q rt)
  = match level_findings q rt with [] => false | _ => true end.
Proof.
  unfold level_findings, finding_if.
  destruct (_ <? _), (_ <? _), (_ <? _); reflexivity.
Qed.

Lemma check_mandate_nil q rt m : _check_mandate q rt m = inr [] ↔ mandate_covers q rt m.
Proof.
  unfold _check_mandate. split.
  - destruct (mandate_expired rt m) as [e|ex] eqn:Ee; [done|]. intros [= E].
    rewrite !app_nil_iff, !finding_if_nil, !finding_outside_nil in E.
    destruct E as (H1 & -> & H3 & H4 & H5 & H6 & H7 & H8 & H9). apply Nat.ltb_ge in H5. bool_simpl.
    split; try done; by apply dec_stable.
  - intros []. rewrite mc_unexpired0. f_equal.
    rewrite !app_nil_iff, !finding_if_nil, !finding_outside_nil. split_and!; try done.
    + apply bool_decide_eq_false. naive_solver.
    + rewrite mc_agent0. by rewrite streq_refl.
    + by apply Nat.ltb_ge.
    + apply bool_decide_eq_false. naive_solver.
Qed.

(** The evaluation as a decision on these findings. *)
Lemma evaluate_cases q rt mandate :
  evaluate_autonomy_admission q rt mandate =
  let '(w, l) := action_requirements (rq_action_class q) in
  if bool_decide (rq_action_class q = CHANGE_CAPITAL_CONSTITUTION) then
    _report q rt mandate w l ESCALATE
      [{| fd_code := CONSTITUTIONAL_CHANGE_REQUIRES_HUMAN;
          fd_detail := "capital-constitution changes remain with the Human Principal" |}]
  else match level_findings q rt with
  | [] =>
      match mandate with
      | None => if bool_decide (rq_action_class q ∈ [OBSERVE_STATE; GATHER_EVIDENCE])
                then _report q rt None w l EFFECTIVE []
                else _report q rt None w l CANDIDATE [{| fd_code := MANDATE_REQUIRED;
                  fd_detail := "effective review, decision, and action require an active mandate" |}]
      | Some m =>
          match _check_mandate q rt m with
          | inl e => inl e
          | inr [] => _report q rt mandate w l EFFECTIVE []
          | inr more => _report q rt mandate w l
              (if existsb (λ f, bool_decide (fd_code f ∈ blocking_codes)) more
               then BLOCKED else CANDIDATE) more
          end
      end
  | fs => _report q rt mandate w l BLOCKED fs
  end.
Proof.
  unfold evaluate_autonomy_admission.
  assert (Hf : level_findings q rt = level_findings q rt) by done. unfold level_findings in Hf at 2.
  destruct (action_requirements (rq_action_class q)) as [w l]. cbn [fst snd] in Hf.
  cbv zeta. rewrite <-Hf. rewrite level_findings_hard.
  destruct (bool_decide (_ = CHANGE_CAPITAL_CONSTITUTION)); [done|].
  destruct (level_findings q rt); [|done]. destruct mandate as [m|]; [|done].
  destruct (_check_mandate q rt m) as [e|[|]]; done.
Qed.

Lemma evaluate_report q rt mandate r :
  evaluate_autonomy_admission q rt mandate = inr r → ∃ d fs, report_of q d fs r.
Proof. rewrite evaluate_cases. intros E. repeat case_match; simplify_eq; apply report_eq in E; eauto. Qed.

Lemma report_no_error q rt m w l d fs e : _report q rt m w l d fs ≠ inl e.
Proof. by destruct (report_ok q rt m w l d fs) as (r & -> & _). Qed.
Lemma evaluate_error q rt mandate e :
  evaluate_autonomy_admission q rt mandate = inl e →
  ∃ m, mandate = Some m ∧ mandate_expired rt m = inl e.
Proof.
  rewrite evaluate_cases. destruct (action_requirements (rq_action_class q)) as [w l]. intros E.
  destruct (bool_decide _); [by apply report_no_error in E|].
  destruct (level_findings q rt); [|by apply report_no_error in E].
  destruct mandate as [m|]; [|destruct (bool_decide _); by apply report_no_error in E].
  exists m. split; [done|]. destruct (_check_mandate q rt m) as [e'|[|]] eqn:Ec;
    [|by apply report_no_error in E..].
  injection E as ->. unfold _check_mandate in Ec. by destruct (mandate_expired rt m); simplify_eq.
Qed.

Lemma effective_permitted q rt mandate :
  (∃ r, evaluate_autonomy_admission q rt mandate = inr r ∧ rp_effective r = true) ↔
  permitted q rt mandate.
Proof.
  rewrite evaluate_cases. unfold permitted. rewrite <-level_findings_nil.
  destruct (action_requirements (rq_action_class q)) as [w l].
  split.
  - intros (r & E & Heff).
    assert (Hd : rp_disposition r = EFFECTIVE).
    { pose proof E as E'. repeat case_match; simplify_eq; apply report_eq in E as [];
        rewrite ro_effective0 in Heff; apply bool_decide_eq_true in Heff; congruence. }
    case_bool_decide as Hc; [apply report_eq in E as []; congruence|]. split; [done|].
    destruct (level_findings q rt) as [|f fs]; [|apply report_eq in E as []; congruence].
    split; [done|]. destruct mandate as [m|].
    + apply check_mandate_nil. destruct (_check_mandate q rt m) as [e|[|f fs]]; [done|done|].
      apply report_eq in E as []. rewrite Hd in ro_disposition0. by destruct (existsb _ _).
    + case_bool_decide; [done|]. apply report_eq in E as []. congruence.
  - intros (Hc & -> & Hm). rewrite bool_decide_eq_false_2 by done. destruct mandate as [m|].
    + apply check_mandate_nil in Hm as ->.
      destruct (report_ok q rt (Some m) w l EFFECTIVE []) as (r & -> & []). by exists r.
    + rewrite bool_decide_eq_true_2 by done.
      destruct (report_ok q rt None w l EFFECTIVE []) as (r & -> & []). by exists r.
Qed.

(** ** Theorems *)

(** C22: exactly the permitted actions are effective.  An action is reported
    effective if and only if it does not change the capital constitution, the
    requested autonomy is at least what its class requires and at most the
    runtime ceiling, the world is faithful enough, and either no mandate is
    presented and the action only observes or gathers evidence, or the mandate
    is active, unexpired, not killed, issued to this agent, grants that
    autonomy, and covers the class, financial action, asset class and tool. *)
Theorem effective_iff_permitted (q : AgentActionRequest) (rt : AutonomyRuntimeState)
    (mandate : option AutonomyMandate) :
  (∃ r, evaluate_autonomy_admission q rt mandate = inr r ∧ rp_effective r = true) ↔
  permitted q rt mandate.
Proof. apply effective_permitted. Qed.

(** Evaluation always yields a consistent report.  It can only raise because
    a timestamp of a mandate with an expiry does not parse; otherwise the
    report's [effective] flag matches its disposition, an external effect is
    admitted only with an effect, effects are admitted only for effective paper
    or real actions, and a report never allows execution or moves authority. *)
Lemma evaluation_reports_consistently (q : AgentActionRequest) (rt : AutonomyRuntimeState)
    (mandate : option AutonomyMandate) :
  match evaluate_autonomy_admission q rt mandate with
  | inl e => ∃ m, mandate = Some m ∧ mandate_expired rt m = inl e
  | inr r =>
      rp_effective r = bool_decide (rp_disposition r = EFFECTIVE) ∧
      rp_effect_admitted r =
        rp_effective r && bool_decide (rq_action_class q ∈ [TAKE_PAPER_ACTION; TAKE_REAL_ACTION]) ∧
      rp_external_effect_admitted r =
        rp_effect_admitted r && bool_decide (rq_action_class q = TAKE_REAL_ACTION) ∧
      rp_execution_allowed r = false ∧ rp_authority_transition r = false
  end.
Proof.
  destruct (evaluate_autonomy_admission q rt mandate) as [e|r] eqn:E; [by apply evaluate_error in E|].
  destruct (evaluate_report _ _ _ _ E) as (d & fs & [Hd _ He Hf Hx [Hi Hj]]).
  rewrite Hx, Hf, He, Hd. by split_and!.
Qed.

(** C23: effects need authority.  When a report admits an effect, a mandate was
    presented and covers the request, the action is a paper action in a world
    of fidelity W3 or better at autonomy AUT4 or more, or a real action in W4
    at AUT5 or more; only the latter admits an external effect. *)
Theorem effects_need_mandate (q : AgentActionRequest) (rt : AutonomyRuntimeState)
    (mandate : option AutonomyMandate) (r : AutonomyAdmissionReport)
    (Hrun : evaluate_autonomy_admission q rt mandate = inr r)
    (Heffect : rp_effect_admitted r = true) :
  (∃ m, mandate = Some m ∧ mandate_covers q rt m) ∧
  ((rq_action_class q = TAKE_PAPER_ACTION ∧ 3 <= _WORLD_RANK (rt_world_fidelity rt) ∧
    4 <= _AUTONOMY_RANK (rq_requested_autonomy q) ∧ rp_external_effect_admitted r = false) ∨
   (rq_action_class q = TAKE_REAL_ACTION ∧ 4 <= _WORLD_RANK (rt_world_fidelity rt) ∧
    5 <= _AUTONOMY_RANK (rq_requested_autonomy q) ∧ rp_external_effect_admitted r = true)).
Proof.
  destruct (evaluate_report _ _ _ _ Hrun) as (d & fs & []). rewrite Heffect in ro_effect0, ro_external0.
  symmetry in ro_effect0. apply andb_true_iff in ro_effect0 as [Hd Hclass].
  assert (Hp : permitted q rt mandate).
  { apply effective_permitted. exists r. split; [done|congruence]. }
  bool_simpl. destruct Hp as (_ & [Hl _ Hw] & Hm). rewrite ro_external0. simpl.
  split.
  - destruct mandate as [m|]; [by exists m|]. rewrite !elem_of_cons, elem_of_nil in *. naive_solver congruence.
  - apply elem_of_cons in Hclass as [E|Hclass]; [left|right].
    + rewrite E in *. simpl in *. split_and!; try done; lia.
    + apply list_elem_of_singleton in Hclass as E. rewrite E in *. simpl in *. split_and!; try done; lia.
Qed.

(** C24: a mandate that is not in force blocks.  Whatever is asked short of a
    constitutional change, and also for mere observation: if the presented
    mandate is suspended, revoked or marked expired, past its expiry, or its
    kill switch is engaged, the action is reported blocked. *)
Theorem mandate_out_of_force_blocks (q : AgentActionRequest) (rt : AutonomyRuntimeState)
    (m : AutonomyMandate) (r : AutonomyAdmissionReport)
    (Hclass : rq_action_class q ≠ CHANGE_CAPITAL_CONSTITUTION)
    (Hout : md_status m ≠ StatusActive ∨ mandate_expired rt m = inr true ∨
            md_kill_switch_engaged m = true)
    (Hrun : evaluate_autonomy_admission q rt (Some m) = inr r) :
  rp_disposition r = BLOCKED ∧ rp_effective r = false ∧ rp_effect_admitted r = false.
Proof.
  assert (Hblocked : ∃ fs, report_of q BLOCKED fs r).
  { rewrite evaluate_cases in Hrun. destruct (action_requirements (rq_action_class q)) as [w l].
    rewrite bool_decide_eq_false_2 in Hrun by done.
    destruct (level_findings q rt) as [|f fs]; [|eexists; by eapply report_eq].
    destruct (_check_mandate q rt m) as [e|more] eqn:Ec; [done|].
    assert (Hex : existsb (λ f, bool_decide (fd_code f ∈ blocking_codes)) more = true).
    { unfold _check_mandate in Ec. destruct (mandate_expired rt m) as [e|ex]; [done|].
      injection Ec as <-. rewrite !existsb_app. destruct Hout as [Hs|[[= ->]|Hk]].
      - rewrite (bool_decide_eq_true_2 (md_status m ≠ _)) by done. reflexivity.
      - rewrite !orb_true_iff. right. left. reflexivity.
      - rewrite Hk, !orb_true_iff. right. right. left. reflexivity. }
    destruct more as [|f fs]; [done|]. rewrite Hex in Hrun. eexists. by eapply report_eq. }
  destruct Hblocked as [fs []]. rewrite ro_effective0, ro_effect0. by split_and!.
Qed.

(** More capability never removes an admission.  If an action is effective,
    it stays effective in a world of higher fidelity and under a higher
    runtime ceiling at the same time of day. *)
Lemma more_capability_keeps_effective (q : AgentActionRequest) (rt rt' : AutonomyRuntimeState)
    (mandate : option AutonomyMandate) (r : AutonomyAdmissionReport)
    (Hworld : _WORLD_RANK (rt_world_fidelity rt) <= _WORLD_RANK (rt_world_fidelity rt'))
    (Hceiling : _AUTONOMY_RANK (rt_runtime_autonomy_ceiling rt)
                  <= _AUTONOMY_RANK (rt_runtime_autonomy_ceiling rt'))
    (Hnow : rt_now_utc rt' = rt_now_utc rt)
    (Hrun : evaluate_autonomy_admission q rt mandate = inr r) (Heff : rp_effective r = true) :
  ∃ r', evaluate_autonomy_admission q rt' mandate = inr r' ∧ rp_effective r' = true.
Proof.
  apply effective_permitted.
  assert (Hp : permitted q rt mandate) by (apply effective_permitted; by exists r).
  destruct Hp as (Hc & [Hl1 Hl2 Hl3] & Hm). split; [done|]. split; [split; lia|].
  destruct mandate as [m|]; [|done]. destruct Hm; split; try done.
  unfold mandate_expired in *. by rewrite Hnow.
Qed.
