(* ===== verification/Identity.v ===== *)
(** Authenticated identities ([identity.py]): principals, agent runtimes and
    administrator assertions with their validators, the operator context, and
    the browser binding derived from it. *)
From S2P Require Import Prelude PyDecimal PyTime PyJson ReceiptIO.

Inductive PrincipalKind := KindHuman | KindService | KindLegacyUnknown.
Inductive AuthenticationAssurance := AssuranceStandard | AssuranceElevated.
#[export] Instance PrincipalKind_eq_dec : EqDecision PrincipalKind.
Proof. solve_decision. Defined.
#[export] Instance AuthenticationAssurance_eq_dec : EqDecision AuthenticationAssurance.
Proof. solve_decision. Defined.

Definition kind_value (k : PrincipalKind) : string :=
  match k with KindHuman => "human" | KindService => "service" | KindLegacyUnknown => "legacy_unknown" end.

(** ** Timestamps *)

(** An ISO-8601 text whose offset is zero, as an instant; [iso] and [utc] are
    the messages of the two refusals. *)
Definition utc_instant (value iso utc : string) : exn + Z :=
  match fromisoformat value with
  | None => inl (Exn ValueError iso)
  | Some (wall, Some offset) =>
      if (offset =? 0)%Z then inr (wall - offset)%Z else inl (Exn ValueError utc)
  | Some (_, None) => inl (Exn ValueError utc)
  end.
Definition _parse_utc_timestamp (value : option string) (field_name : string) : exn + Z :=
  match value with
  | None => inl (Exn ValueError (field_name +:+ " must be an ISO-8601 UTC timestamp"))
  | Some v => utc_instant v (field_name +:+ " must be an ISO-8601 UTC timestamp")
                (field_name +:+ " must be UTC")
  end.

(** ** Administrator assertions *)

Record AuthorityAdministrationAssertion := {
  aa_assertion_id : string;
  aa_principal_id : string;
  aa_provider_id : string;
  aa_policy_version : string;
  aa_authentication_assurance : AuthenticationAssurance;
  aa_issued_at_utc : string;
  aa_expires_at_utc : string;
}.

Definition require_assertion_value (value : string) : exn + string :=
  if blank value then inl (Exn ValueError "authority administration assertion fields must be non-empty")
  else inr (strip value).
Definition require_utc_timestamp (value : string) : exn + string :=
  match utc_instant value "authority assertion timestamps must be ISO-8601"
          "authority assertion timestamps must be UTC" with
  | inl e => inl e
  | inr t => inr (isoformat t)
  end.

(** Construction: the field validators, then [model_post_init]. *)
Definition validate_assertion (a : AuthorityAdministrationAssertion)
    : exn + AuthorityAdministrationAssertion :=
  sum_bind (require_assertion_value (aa_assertion_id a)) (λ assertion_id,
  sum_bind (require_assertion_value (aa_principal_id a)) (λ principal_id,
  sum_bind (require_assertion_value (aa_provider_id a)) (λ provider_id,
  sum_bind (require_assertion_value (aa_policy_version a)) (λ policy_version,
  sum_bind (sum_bind (require_assertion_value (aa_issued_at_utc a)) require_utc_timestamp) (λ issued,
  sum_bind (sum_bind (require_assertion_value (aa_expires_at_utc a)) require_utc_timestamp) (λ expires,
  match fromisoformat issued, fromisoformat expires with
  | Some (i, _), Some (x, _) =>
      if (x <=? i)%Z then inl (Exn ValueError "authority assertion expiry must follow issuance")
      else inr {| aa_assertion_id := assertion_id; aa_principal_id := principal_id;
                  aa_provider_id := provider_id; aa_policy_version := policy_version;
                  aa_authentication_assurance := aa_authentication_assurance a;
                  aa_issued_at_utc := issued; aa_expires_at_utc := expires |}
  | _, _ => inl (Exn ValueError "Invalid isoformat string")
  end)))))).

(** ** Principals and runtimes *)

Record PrincipalIdentity := {
  pi_principal_id : string;
  pi_provider_id : string;
  pi_principal_kind : PrincipalKind;
  pi_display_label : option string;
  pi_legacy_label : option string;
  pi_legacy_label_verified : bool;
}.
Record AgentRuntimeIdentity := {
  ar_agent_runtime_id : string;
  ar_principal_id : string;
  ar_provider_id : string;
  ar_agent_profile : option string;
}.
Definition require_stable_id (value : string) : exn + string :=
  if blank value then inl (Exn ValueError "identity ids must be non-empty") else inr (strip value).

(** ** The operator context *)

Record OperatorContext := {
  oc_principal : PrincipalIdentity;
  oc_agent_runtime : option AgentRuntimeIdentity;
  oc_authority_administration : option AuthorityAdministrationAssertion;
  oc_authentication_method : string;
  oc_authenticated_at_utc : string;
  oc_authentication_epoch_id : option string;
  oc_authentication_expires_at_utc : option string;
}.

(** [model_post_init]: the bindings between the parts *)
Definition context_post_init (c : OperatorContext) : exn + OperatorContext :=
  let principal := oc_principal c in
  let refuse {A} (msg : string) : exn + A := inl (Exn ValueError msg) in
  if match oc_agent_runtime c with
     | Some r => negb (streq (ar_principal_id r) (pi_principal_id principal))
     | None => false
     end
  then refuse "agent runtime principal binding mismatch"
  else if match oc_authority_administration c with
     | Some a => negb (streq (aa_principal_id a) (pi_principal_id principal))
     | None => false
     end
  then refuse "authority assertion principal binding mismatch"
  else if match oc_authority_administration c with
     | Some a => negb (streq (aa_provider_id a) (pi_provider_id principal))
     | None => false
     end
  then refuse "authority assertion provider binding mismatch"
  else match oc_authentication_epoch_id c, oc_authentication_expires_at_utc c with
  | None, None => inr c
  | None, Some _ | Some _, None => refuse "authentication epoch fields must be present together"
  | Some epoch, Some expires =>
      if blank epoch then refuse "authentication epoch id must be non-empty"
      else sum_bind (_parse_utc_timestamp (Some (oc_authenticated_at_utc c)) "authenticated_at_utc")
        (λ authenticated_at,
      sum_bind (_parse_utc_timestamp (Some expires) "authentication_expires_at_utc") (λ expires_at,
      if (expires_at <=? authenticated_at)%Z
      then refuse "authentication epoch expiry must follow authentication"
      else inr c))
  end.

Definition operator_id (c : OperatorContext) : string := pi_principal_id (oc_principal c).
Definition authoritative_actor_id (c : OperatorContext) : string :=
  match oc_agent_runtime c with
  | Some r => ar_agent_runtime_id r
  | None => pi_principal_id (oc_principal c)
  end.

(** A claim is compared only when it is given and not empty. *)
Definition claims_other (claimed actual : option string) : bool :=
  match claimed with
  | Some c => negb (streq c "") && negb (bool_decide (actual = Some c))
  | None => false
  end.
Definition reject_identity_substitution (c : OperatorContext)
    (claimed_principal_id claimed_agent_runtime_id : option string) : exn + unit :=
  if claims_other claimed_principal_id (Some (pi_principal_id (oc_principal c)))
  then inl (Exn IdentitySubstitutionError "cross-principal substitution denied")
  else if claims_other claimed_agent_runtime_id (ar_agent_runtime_id <$> oc_agent_runtime c)
  then inl (Exn IdentitySubstitutionError "cross-agent substitution denied")
  else inr tt.

Definition receipt_binding (c : OperatorContext) : list (string * json) :=
  [("principal_id", JStr (pi_principal_id (oc_principal c)));
   ("agent_runtime_id", jopt JStr (ar_agent_runtime_id <$> oc_agent_runtime c));
   ("identity_provider_id", JStr (pi_provider_id (oc_principal c)));
   ("principal_kind", JStr (kind_value (pi_principal_kind (oc_principal c))));
   ("authentication_method", JStr (oc_authentication_method c));
   ("capital_authority", JNull);
   ("legacy_actor_label", jopt JStr (pi_legacy_label (oc_principal c)));
   ("legacy_actor_label_verified", JBool (pi_legacy_label_verified (oc_principal c)))].

(** ** The browser binding *)

Record BrowserMutationIdentityBinding := {
  bb_binding_id : string;
  bb_principal_id : string;
  bb_identity_provider_id : string;
  bb_principal_kind : PrincipalKind;
  bb_agent_runtime_id : option string;
  bb_authentication_method : string;
  bb_authentication_epoch_id : string;
  bb_authentication_expires_at_utc : string;
  bb_server_time_utc : string;
}.

Section Binding.
Context `{PyEnv}.

(** [server_time or datetime.now(UTC)], an instant *)
Definition server_now (server_time : option Z) : M sys Z :=
  match server_time with Some t => mret t | None => now end.

Definition browser_mutation_identity_binding (c : OperatorContext) (server_time : option Z)
    : M sys BrowserMutationIdentityBinding :=
  require (negb (blank (oc_authentication_method c))) BrowserMutationBindingError
    "browser_mutation_binding_unavailable" ;;
  epoch ← of_option (oc_authentication_epoch_id c) BrowserMutationBindingError
    "browser_mutation_binding_unavailable";
  expires ← of_option (oc_authentication_expires_at_utc c) BrowserMutationBindingError
    "browser_mutation_binding_unavailable";
  now ← server_now server_time;
  expires_at ← of_sum (_parse_utc_timestamp (Some expires) "authentication_expires_at_utc");
  require (now <? expires_at)%Z BrowserMutationBindingError "browser_mutation_binding_expired" ;;
  let identity := JObj
    [("schema", JStr "finharness.browser_mutation_identity_binding.v1");
     ("principal_id", JStr (pi_principal_id (oc_principal c)));
     ("identity_provider_id", JStr (pi_provider_id (oc_principal c)));
     ("principal_kind", JStr (kind_value (pi_principal_kind (oc_principal c))));
     ("agent_runtime_id", jopt JStr (ar_agent_runtime_id <$> oc_agent_runtime c));
     ("authentication_method", JStr (oc_authentication_method c));
     ("authentication_epoch_id", JStr epoch)] in
  mret {| bb_binding_id := canonical_json_sha256 identity;
          bb_principal_id := pi_principal_id (oc_principal c);
          bb_identity_provider_id := pi_provider_id (oc_principal c);
          bb_principal_kind := pi_principal_kind (oc_principal c);
          bb_agent_runtime_id := ar_agent_runtime_id <$> oc_agent_runtime c;
          bb_authentication_method := oc_authentication_method c;
          bb_authentication_epoch_id := epoch;
          bb_authentication_expires_at_utc := isoformat expires_at;
          bb_server_time_utc := isoformat now |}.

(** [re.fullmatch(r"[0-9a-f]{64}", value)] *)
Definition is_hex64 (value : string) : bool :=
  (length (chars value) =? 64) &&
  forallb (λ ch, is_digit ch || ((97 <=? code ch) && (code ch <=? 102))) (chars value).

Definition validate_browser_mutation_binding_header (c : OperatorContext)
    (claimed_binding_id : string) (server_time : option Z) : M sys BrowserMutationIdentityBinding :=
  binding ← browser_mutation_identity_binding c server_time;
  require (is_hex64 claimed_binding_id) BrowserMutationBindingError
    "browser_mutation_binding_invalid" ;;
  require (streq (bb_binding_id binding) claimed_binding_id) BrowserMutationBindingError
    "browser_mutation_binding_mismatch" ;;
  mret binding.
End Binding.
