(* ===== verification/AuthorityAdmin.v ===== *)
(** The human-administrator policy for mandate and grant mutations
    ([authority_administration.py]) and what it admits. *)
From S2P Require Import Prelude PyDecimal PyTime PyJson ReceiptIO Identity.

Definition AUTHORITY_ADMINISTRATION_POLICY_VERSION : string :=
  "finharness.authority-administration.v1".

Inductive OperationEffect := EffectExpanding | EffectReducing.

(** [AUTHORITY_ADMINISTRATION_OPERATION_POLICY.get(operation)] and
    [AUTHORITY_ADMINISTRATION_OPERATION_EFFECT.get(operation)] *)
Definition AUTHORITY_ADMINISTRATION_OPERATION_POLICY (operation : string)
    : option AuthenticationAssurance :=
  if streq operation "mandate_create_or_replace" then Some AssuranceElevated
  else if streq operation "mandate_resume" then Some AssuranceElevated
  else if streq operation "mandate_suspend" then Some AssuranceStandard
  else if streq operation "mandate_revoke" then Some AssuranceStandard
  else if streq operation "grant_create" then Some AssuranceElevated
  else if streq operation "grant_revoke" then Some AssuranceStandard
  else None.
Definition AUTHORITY_ADMINISTRATION_OPERATION_EFFECT (operation : string) : option OperationEffect :=
  if streq operation "mandate_create_or_replace" then Some EffectExpanding
  else if streq operation "mandate_resume" then Some EffectExpanding
  else if streq operation "mandate_suspend" then Some EffectReducing
  else if streq operation "mandate_revoke" then Some EffectReducing
  else if streq operation "grant_create" then Some EffectExpanding
  else if streq operation "grant_revoke" then Some EffectReducing
  else None.

(** The decision; its fields with one possible value are left out. *)
Record AuthorityAdministrationDecision := {
  av_operation : string;
  av_operation_effect : OperationEffect;
  av_required_assurance : AuthenticationAssurance;
  av_administrator_principal_id : string;
  av_assertion_id : string;
  av_identity_provider_id : string;
  av_authentication_method : string;
  av_authentication_assurance : AuthenticationAssurance;
  av_authenticated_at_utc : string;
  av_policy_version : string;
  av_assertion_issued_at_utc : string;
  av_assertion_expires_at_utc : string;
  av_checked_at_utc : string;
}.

Definition _parse_utc (value : string) : exn + Z :=
  utc_instant value "authority administration timestamp must be ISO-8601"
    "authority administration timestamp must be UTC".

Section Administration.
Context `{PyEnv}.

(** [checked_at_utc or datetime.now(UTC).isoformat()] *)
Definition checked_text (checked_at_utc : option string) : M sys string :=
  match checked_at_utc with
  | Some t => if streq t "" then now_utc else mret t
  | None => now_utc
  end.

Definition require_authority_administration (c : OperatorContext) (operation : string)
    (checked_at_utc : option string) : M sys AuthorityAdministrationDecision :=
  let deny := λ b reason, require b AuthorityAdministrationDeniedError reason in
  match AUTHORITY_ADMINISTRATION_OPERATION_POLICY operation,
        AUTHORITY_ADMINISTRATION_OPERATION_EFFECT operation with
  | Some required, Some effect =>
      deny (match oc_agent_runtime c with Some _ => false | None => true end)
        "agent_runtime_forbidden" ;;
      deny (bool_decide (pi_principal_kind (oc_principal c) = KindHuman))
        "human_principal_required" ;;
      assertion ← of_option (oc_authority_administration c) AuthorityAdministrationDeniedError
        "authority_administrator_required";
      deny (streq (aa_principal_id assertion) (pi_principal_id (oc_principal c)))
        "assertion_subject_mismatch" ;;
      deny (streq (aa_provider_id assertion) (pi_provider_id (oc_principal c)))
        "assertion_provider_mismatch" ;;
      deny (streq (aa_policy_version assertion) AUTHORITY_ADMINISTRATION_POLICY_VERSION)
        "authority_policy_version_mismatch" ;;
      text ← checked_text checked_at_utc;
      checked ← of_sum (_parse_utc text);
      issued ← of_sum (_parse_utc (aa_issued_at_utc assertion));
      expires ← of_sum (_parse_utc (aa_expires_at_utc assertion));
      deny (issued <=? checked)%Z "authority_assertion_not_yet_valid" ;;
      deny (checked <? expires)%Z "authority_assertion_expired" ;;
      deny (negb (bool_decide (required = AssuranceElevated) &&
                  negb (bool_decide (aa_authentication_assurance assertion = AssuranceElevated))))
        "elevated_authentication_required" ;;
      mret {| av_operation := operation; av_operation_effect := effect;
              av_required_assurance := required;
              av_administrator_principal_id := pi_principal_id (oc_principal c);
              av_assertion_id := aa_assertion_id assertion;
              av_identity_provider_id := pi_provider_id (oc_principal c);
              av_authentication_method := oc_authentication_method c;
              av_authentication_assurance := aa_authentication_assurance assertion;
              av_authenticated_at_utc := oc_authenticated_at_utc c;
              av_policy_version := aa_policy_version assertion;
              av_assertion_issued_at_utc := aa_issued_at_utc assertion;
              av_assertion_expires_at_utc := aa_expires_at_utc assertion;
              av_checked_at_utc := isoformat checked |}
  | _, _ => raise AuthorityAdministrationDeniedError "unknown_authority_administration_operation"
  end.

(** ** The policy *)

Definition expanding_operations : list string :=
  ["mandate_create_or_replace"; "mandate_resume"; "grant_create"].
Definition reducing_operations : list string :=
  ["mandate_suspend"; "mandate_revoke"; "grant_revoke"].

(** The assertion supports the command at the checked instant. *)
Record supports (c : OperatorContext) (operation : string) (checked : Z)
    (a : AuthorityAdministrationAssertion) : Prop := {
  su_subject : aa_principal_id a = pi_principal_id (oc_principal c);
  su_provider : aa_provider_id a = pi_provider_id (oc_principal c);
  su_policy : aa_policy_version a = AUTHORITY_ADMINISTRATION_POLICY_VERSION;
  su_window : ∃ issued expires, _parse_utc (aa_issued_at_utc a) = inr issued ∧
                _parse_utc (aa_expires_at_utc a) = inr expires ∧ (issued <= checked < expires)%Z;
  su_assurance : operation ∈ expanding_operations →
                 aa_authentication_assurance a = AssuranceElevated;
}.
Record may_administer (c : OperatorContext) (operation : string) (checked : Z) : Prop := {
  ma_known : operation ∈ expanding_operations ++ reducing_operations;
  ma_direct : oc_agent_runtime c = None;
  ma_human : pi_principal_kind (oc_principal c) = KindHuman;
  ma_supported : ∃ a, oc_authority_administration c = Some a ∧ supports c operation checked a;
}.

(** The instant at which the command is checked. *)
Definition checked_instant (checked_at_utc : option string) (s : sys) : exn + Z :=
  sum_bind (checked_text checked_at_utc s).2 _parse_utc.

Lemma policy_cases operation :
  (∃ required effect,
     AUTHORITY_ADMINISTRATION_OPERATION_POLICY operation = Some required ∧
     AUTHORITY_ADMINISTRATION_OPERATION_EFFECT operation = Some effect ∧
     operation ∈ expanding_operations ++ reducing_operations ∧
     (required = AssuranceElevated ↔ operation ∈ expanding_operations) ∧
     (effect = EffectExpanding ↔ operation ∈ expanding_operations)) ∨
  (operation ∉ expanding_operations ++ reducing_operations ∧
   AUTHORITY_ADMINISTRATION_OPERATION_POLICY operation = None).
Proof.
  unfold AUTHORITY_ADMINISTRATION_OPERATION_POLICY, AUTHORITY_ADMINISTRATION_OPERATION_EFFECT.
  setoid_rewrite <-mem_true.
  repeat match goal with
  | |- context [streq operation ?x] =>
      destruct (streq operation x) eqn:?; bool_simpl;
      [subst operation; left; eexists _, _; split_and!; done|]
  end.
  right. split; [|done]. rewrite mem_true. unfold expanding_operations, reducing_operations.
  rewrite !elem_of_app, !elem_of_cons, !elem_of_nil. naive_solver.
Qed.

(** What a decision records. *)
Record decision_of (c : OperatorContext) (operation : string) (checked : Z)
    (d : AuthorityAdministrationDecision) : Prop := {
  do_operation : av_operation d = operation;
  do_admin : av_administrator_principal_id d = pi_principal_id (oc_principal c);
  do_effect : av_operation_effect d = EffectExpanding ↔ operation ∈ expanding_operations;
  do_elevated : av_operation_effect d = EffectExpanding →
                av_authentication_assurance d = AssuranceElevated;
  do_checked : av_checked_at_utc d = isoformat checked;
}.

Lemma checked_text_ok checked_at_utc s : ∃ s1 text,
  checked_text checked_at_utc s = (s1, inr text) ∧ sys_files s1 = sys_files s.
Proof. unfold checked_text. repeat case_match; eexists _, _; split; reflexivity. Qed.

(** A refusal: the failed test contradicts the policy. *)
Ltac deny :=
  split; [done|]; intros (? & ? & [? ? ? (? & ? & [? ? ? (? & ? & ? & ? & ?) ?])]);
  simplify_eq; repeat case_match; bool_simpl; simplify_eq;
  repeat match goal with
  | H1 : ?o = inr ?x, H2 : ?o = inr ?y |- _ =>
      first [constr_eq x y; clear H2 | rewrite H1 in H2; injection H2 as H2; subst]
  end;
  first [done | congruence | lia | tauto].

Lemma administration_decides (c : OperatorContext) (operation : string)
    (checked_at_utc : option string) (s : sys) :
  wp (require_authority_administration c operation checked_at_utc) (λ s' r,
    sys_files s' = sys_files s ∧
    match r with
    | inr d => ∃ t, checked_instant checked_at_utc s = inr t ∧ may_administer c operation t ∧
                    decision_of c operation t d
    | inl _ => ¬ ∃ t, checked_instant checked_at_utc s = inr t ∧ may_administer c operation t
    end) s.
Proof.
  destruct (checked_text_ok checked_at_utc s) as (s1 & text & Et & Hfiles).
  unfold require_authority_administration, checked_instant. rewrite Et. cbn [snd sum_bind].
  destruct (policy_cases operation) as [(required & effect & -> & -> & Hop & Hreq & Heff)|(Hop & ->)];
    cbv zeta; [|wp_step; split; [done|]; by intros (t & _ & [])].
  repeat wp_step; try (deny; fail). eapply wp_intro; [exact Et|]. simpl.
  repeat wp_step; try (deny; fail).
  split; [done|]. exists z. split; [done|]. bool_simpl.
  assert (Hass : required = AssuranceElevated → aa_authentication_assurance a = AssuranceElevated).
  { intros ->. rewrite bool_decide_eq_true_2 in H11 by done. simpl in H11. by bool_simpl. }
  split; split; simpl; try done; try tauto.
  - by destruct (oc_agent_runtime c).
  - exists a. split; [done|]. split; [done..| |tauto]. exists z0, z1. split_and!; try done; lia.
Qed.
End Administration.

(** C25: authority administration admits exactly what its policy allows.  A
    command is admitted if and only if its operation is one of the six known
    ones, no agent runtime stands between, the principal is human, and a
    matching assertion of the current policy version is in its window at the
    checked instant, with elevated assurance for the operations that expand
    authority; the decision names that principal and instant, and whether
    admitted or denied no receipt file changes. *)
Theorem administration_exact `{PyEnv} (c : OperatorContext) (operation : string)
    (checked_at_utc : option string) (s : sys) :
  sys_files (require_authority_administration c operation checked_at_utc s).1 = sys_files s ∧
  match (require_authority_administration c operation checked_at_utc s).2 with
  | inr d => ∃ t, checked_instant checked_at_utc s = inr t ∧ may_administer c operation t ∧
                  decision_of c operation t d
  | inl _ => ¬ ∃ t, checked_instant checked_at_utc s = inr t ∧ may_administer c operation t
  end.
Proof. apply (administration_decides c operation checked_at_utc s). Qed.
