(* ===== verification/AuthorityTransition.v ===== *)
(** Eligibility transitions ([authority_transition.py],
    [authority_eligibility_policy.py]): the receipt-only record of a human
    decision on an evaluation, with what it takes to write one. *)
From S2P Require Import Prelude PyDecimal PyTime PyJson ReceiptIO.

(** ** Eligibility *)

Inductive Eligibility := Eligible | NotEligible | Deferred.
#[export] Instance Eligibility_eq_dec : EqDecision Eligibility.
Proof. solve_decision. Defined.
Definition eligibility_value (e : Eligibility) : string :=
  match e with Eligible => "eligible" | NotEligible => "not_eligible" | Deferred => "deferred" end.
(** The members of [valid_eligibility] *)
Definition eligibility_of (value : string) : option Eligibility :=
  if streq value "eligible" then Some Eligible
  else if streq value "not_eligible" then Some NotEligible
  else if streq value "deferred" then Some Deferred
  else None.

Definition eligibility_from_evaluation_status (status : string) : string :=
  if streq status "pass" then "eligible"
  else if streq status "warn" then "deferred"
  else "not_eligible".

(** ** The record *)

Record AuthorityTransitionRecord := {
  at_transition_id : string;
  at_subject_type : string;
  at_subject_id : string;
  at_from_state : string;
  at_to_state : string;
  at_eligibility : Eligibility;
  at_receipt_ref : option string;
  at_evaluation_report_refs : list string;
  at_human_attester : string;
  at_human_reason : string;
  at_explicit_confirmation : bool;
  at_capital_mandate_id : option string;
  at_agent_authority_grant_id : option string;
  at_receipt_refs : list string;
  at_execution_allowed : bool;
  at_authority_transition : bool;
}.

(** [model_dump_json(exclude_none=True)] *)
Definition optional_key (k : string) (o : option string) : list (string * json) :=
  match o with Some v => [(k, JStr v)] | None => [] end.
Definition transition_json (r : AuthorityTransitionRecord) : json := JObj
  ([("schema_version", JStr "finharness.authority_transition.v1");
    ("transition_id", JStr (at_transition_id r)); ("subject_type", JStr (at_subject_type r));
    ("subject_id", JStr (at_subject_id r)); ("from_state", JStr (at_from_state r));
    ("to_state", JStr (at_to_state r));
    ("eligibility", JStr (eligibility_value (at_eligibility r)))] ++
   optional_key "receipt_ref" (at_receipt_ref r) ++
   [("evaluation_report_refs", jstrs (at_evaluation_report_refs r));
    ("human_attester", JStr (at_human_attester r)); ("human_reason", JStr (at_human_reason r));
    ("explicit_confirmation", JBool (at_explicit_confirmation r))] ++
   optional_key "capital_mandate_id" (at_capital_mandate_id r) ++
   optional_key "agent_authority_grant_id" (at_agent_authority_grant_id r) ++
   [("receipt_refs", jstrs (at_receipt_refs r));
    ("execution_allowed", JBool (at_execution_allowed r));
    ("authority_transition", JBool (at_authority_transition r))]).

(** ** Recording *)

(** The loop of [_dedupe_refs]: [seen] holds what was appended so far. *)
Fixpoint dedupe_from (seen : list string) (values : list string) : list string :=
  match values with
  | [] => []
  | value :: rest =>
      let text := strip value in
      if streq text "" || mem text seen then dedupe_from seen rest
      else text :: dedupe_from (text :: seen) rest
  end.
Definition _dedupe_refs (values : list string) : list string := dedupe_from [] values.

(** [Path(p)]: its anchor (exactly two leading slashes are kept) and its
    components, without empty and dot ones; [str(path)] *)
Definition path_anchor (p : string) : string :=
  if starts_with "///" p then "/" else if starts_with "//" p then "//"
  else if starts_with "/" p then "/" else "".
Definition path_parts (p : string) : list string :=
  List.filter (λ c, negb (streq c "") && negb (streq c ".")) (split_on slash p).
Definition path_str (anchor : string) (parts : list string) : string :=
  if streq anchor "" && bool_decide (parts = []) then "." else anchor +:+ join "/" parts.

Record TransitionRequest := {
  tq_subject_type : string;
  tq_subject_id : string;
  tq_from_state : string;
  tq_to_state : string;
  tq_eligibility : string;
  tq_evaluation_report_refs : list string;
  tq_human_attester : string;
  tq_human_reason : string;
  tq_explicit_confirmation : bool;
  tq_capital_mandate_id : option string;
  tq_agent_authority_grant_id : option string;
  tq_supporting_receipt_refs : list string;
}.

(** [x.strip() if x else None] *)
Definition stripped (x : option string) : option string :=
  match x with
  | Some s => if streq s "" then None else Some (strip s)
  | None => None
  end.

Section Transition.
Context `{PyEnv}.

(** [path.write_text(model.model_dump_json(...))] through the path as the
    process resolves it: a plain write that creates or truncates the file; a
    write that is cut short is not modelled *)
Definition write_text_json (path : string) (payload : json) : M sys unit :=
  modify (λ s, Sys (sys_ticks s) (sys_uuids s) (<[realpath path := payload]> (sys_files s))).

Definition _new_id (prefix : string) : M sys string :=
  st ← stamp; u ← uuid4; mret (prefix +:+ "_" +:+ st +:+ "_" +:+ take_str 8 u).

Definition record_authority_transition (receipt_root : string) (q : TransitionRequest)
    : M sys AuthorityTransitionRecord :=
  require (negb (blank (tq_human_attester q))) ValueError
    "AuthorityTransitionRecord requires a non-blank human_attester" ;;
  require (negb (blank (tq_human_reason q))) ValueError
    "AuthorityTransitionRecord requires a non-blank human_reason" ;;
  require (tq_explicit_confirmation q) ValueError
    "AuthorityTransitionRecord requires explicit_confirmation=True" ;;
  let report_refs := _dedupe_refs (tq_evaluation_report_refs q) in
  require (negb (bool_decide (report_refs = []))) ValueError
    "AuthorityTransitionRecord requires at least one evaluation_report_ref" ;;
  eligibility ← of_option (eligibility_of (lower (strip (tq_eligibility q)))) ValueError
    ("eligibility must be one of ['deferred', 'eligible', 'not_eligible'], got "
     +:+ repr_str (tq_eligibility q));
  transition_id ← _new_id "at";
  let receipt_ref := path_str (path_anchor receipt_root)
    (path_parts receipt_root ++ ["authority-transitions"; transition_id +:+ ".json"]) in
  let record :=
    {| at_transition_id := transition_id; at_subject_type := strip (tq_subject_type q);
       at_subject_id := strip (tq_subject_id q); at_from_state := strip (tq_from_state q);
       at_to_state := strip (tq_to_state q); at_eligibility := eligibility;
       at_receipt_ref := Some receipt_ref; at_evaluation_report_refs := report_refs;
       at_human_attester := strip (tq_human_attester q);
       at_human_reason := strip (tq_human_reason q); at_explicit_confirmation := true;
       at_capital_mandate_id := stripped (tq_capital_mandate_id q);
       at_agent_authority_grant_id := stripped (tq_agent_authority_grant_id q);
       at_receipt_refs := _dedupe_refs (tq_supporting_receipt_refs q);
       at_execution_allowed := false; at_authority_transition := true |} in
  write_text_json receipt_ref (transition_json record) ;;
  mret record.

(** ** What it takes, and what is recorded *)

(** The requirements the docstring lists, with a known eligibility. *)
Record well_attested (q : TransitionRequest) (e : Eligibility) : Prop := {
  wa_attester : strip (tq_human_attester q) ≠ "";
  wa_reason : strip (tq_human_reason q) ≠ "";
  wa_confirmed : tq_explicit_confirmation q = true;
  wa_report : ∃ ref, ref ∈ tq_evaluation_report_refs q ∧ strip ref ≠ "";
  wa_eligibility : lower (strip (tq_eligibility q)) = eligibility_value e;
}.

Record faithful_record (q : TransitionRequest) (r : AuthorityTransitionRecord) : Prop := {
  fr_attester : at_human_attester r = strip (tq_human_attester q);
  fr_reason : at_human_reason r = strip (tq_human_reason q);
  fr_eligibility : eligibility_value (at_eligibility r) = lower (strip (tq_eligibility q));
  fr_reports : ∀ t, t ∈ at_evaluation_report_refs r ↔
                    t ≠ "" ∧ ∃ ref, ref ∈ tq_evaluation_report_refs q ∧ t = strip ref;
  fr_nodup : NoDup (at_evaluation_report_refs r);
  fr_inert : at_execution_allowed r = false;
}.

Lemma dedupe_from_in seen values t :
  t ∈ dedupe_from seen values ↔
  t ∉ seen ∧ t ≠ "" ∧ ∃ ref, ref ∈ values ∧ t = strip ref.
Proof.
  revert seen. induction values as [|v vs IH]; intros seen; simpl; [set_solver|].
  destruct (streq (strip v) "" || mem (strip v) seen) eqn:E.
  - rewrite IH. apply orb_true_iff in E. setoid_rewrite elem_of_cons. split.
    + naive_solver.
    + intros (Hs & Hn & ref & [->|Hr] & ->); [|naive_solver].
      exfalso. destruct E; bool_simpl; done.
  - bool_simpl. assert (strip v ∉ seen) by (rewrite <-mem_true; congruence).
    rewrite !elem_of_cons, IH, not_elem_of_cons. setoid_rewrite elem_of_cons. split.
    + intros [->|(? & ? & ref & ? & ?)]; naive_solver.
    + intros (Hs & Hn & ref & [->|Hr] & ->); [by left|].
      destruct (decide (strip ref = strip v)); [by left|right]. naive_solver.
Qed.
Lemma dedupe_from_nodup seen values : NoDup (dedupe_from seen values).
Proof.
  revert seen. induction values as [|v vs IH]; intros seen; simpl; [constructor|].
  destruct (_ || _); [done|]. constructor; [|done]. rewrite dedupe_from_in. set_solver.
Qed.

Lemma eligibility_of_value v e : eligibility_of v = Some e ↔ v = eligibility_value e.
Proof.
  unfold eligibility_of, eligibility_value.
  repeat case_match; bool_simpl; naive_solver.
Qed.

Lemma dedupe_refs_in values t :
  t ∈ _dedupe_refs values ↔ t ≠ "" ∧ ∃ ref, ref ∈ values ∧ t = strip ref.
Proof. unfold _dedupe_refs. rewrite dedupe_from_in. set_solver. Qed.
Lemma dedupe_refs_nil values :
  _dedupe_refs values ≠ [] ↔ ∃ ref, ref ∈ values ∧ strip ref ≠ "".
Proof.
  split.
  - destruct (_dedupe_refs values) as [|t l] eqn:E; [done|]. intros _.
    assert (Ht : t ∈ _dedupe_refs values) by (rewrite E; set_solver).
    apply dedupe_refs_in in Ht as (? & ref & ? & ->). by exists ref.
  - intros (ref & Hr & Hn) E. assert (Ht : strip ref ∈ _dedupe_refs values)
      by (apply dedupe_refs_in; eauto). rewrite E in Ht. set_solver.
Qed.
Lemma new_id_ok prefix s : ∃ s1 i, _new_id prefix s = (s1, inr i) ∧ sys_files s1 = sys_files s.
Proof. eexists _, _. split; reflexivity. Qed.

Lemma record_transition_decides receipt_root q s :
  wp (record_authority_transition receipt_root q) (λ s' r,
    match r with
    | inr rec => ∃ e path, well_attested q e ∧ faithful_record q rec ∧
        at_receipt_ref rec = Some path ∧
        sys_files s' = <[realpath path := transition_json rec]> (sys_files s)
    | inl x => exn_of x = ValueError ∧ s' = s ∧ ¬ ∃ e, well_attested q e
    end) s.
Proof.
  unfold record_authority_transition.
  repeat (wp_step || cbv zeta); bool_simpl;
    rewrite ?blank_true, ?blank_false in *;
    try (split_and!; [done..|]; intros [e []]; try congruence).
  - destruct (new_id_ok "at" s) as (s1 & i & Ei & Hf). eapply wp_intro; [exact Ei|].
    cbv beta iota. wp_step. unfold wp, write_text_json, modify. cbn.
    exists a. eexists. split_and!.
    + split; try done; [by apply dedupe_refs_nil|]. by apply eligibility_of_value.
    + split; try done; simpl; [|apply dedupe_refs_in|apply dedupe_from_nodup].
      symmetry. by apply eligibility_of_value.
    + reflexivity.
    + simpl. by rewrite Hf.
  - apply eligibility_of_value in wa_eligibility0. congruence.
  - apply dedupe_refs_nil in wa_report0. done.
Qed.
End Transition.

