(* ===== verification/Deliberation.v ===== *)
(** Deliberation artifacts and their evaluation: option sets and plan drafts
    ([deliberation_receipts.py]), evaluation reports ([evaluation_report.py])
    and the evaluator of plan drafts with its token filter
    ([plan_draft_evaluator.py]). *)
From S2P Require Import Prelude PyDecimal PyTime PyJson ReceiptIO AuthorityTransition.

(** [value or []] *)
Definition or_empty (o : option (list string)) : list string :=
  match o with Some l => l | None => [] end.

(** [Path(root) / folder / f"{name}.json"] for a name that is not itself an
    absolute path *)
Definition receipt_file (receipt_root folder name : string) : string :=
  path_str (path_anchor receipt_root) (path_parts receipt_root ++ [folder; name +:+ ".json"]).

(** ** Option sets and plan drafts *)

Record OptionDraft := {
  op_option_id : string;
  op_claim : string;
  op_assumptions : list string;
  op_expected_outcomes : list string;
  op_data_gaps : list string;
  op_evaluation_refs : list string;
}.

Record OptionSetReceipt := {
  os_receipt_id : string;
  os_option_set_id : string;
  os_objective : string;
  os_options : list OptionDraft;
  os_source_refs : list string;
  os_receipt_refs : list string;
}.

Record PlanDraftReceipt := {
  pl_receipt_id : string;
  pl_plan_id : string;
  pl_objective : string;
  pl_steps : list string;
  pl_stop_conditions : list string;
  pl_required_evaluations : list string;
  pl_related_option_set_id : option string;
  pl_source_refs : list string;
  pl_receipt_refs : list string;
}.

(** [model_dump_json(exclude_none=True)]; both receipts carry
    [execution_allowed=False] and [authority_transition=False] by default. *)
Definition option_json (o : OptionDraft) : json := JObj
  [("option_id", JStr (op_option_id o)); ("claim", JStr (op_claim o));
   ("assumptions", jstrs (op_assumptions o)); ("expected_outcomes", jstrs (op_expected_outcomes o));
   ("data_gaps", jstrs (op_data_gaps o)); ("evaluation_refs", jstrs (op_evaluation_refs o))].
Definition option_set_json (r : OptionSetReceipt) : json := JObj
  [("schema_version", JStr "finharness.option_set_receipt.v1");
   ("receipt_id", JStr (os_receipt_id r)); ("option_set_id", JStr (os_option_set_id r));
   ("objective", JStr (os_objective r)); ("options", JArr (map option_json (os_options r)));
   ("source_refs", jstrs (os_source_refs r)); ("receipt_refs", jstrs (os_receipt_refs r));
   ("execution_allowed", JBool false); ("authority_transition", JBool false)].
Definition plan_json (r : PlanDraftReceipt) : json := JObj
  ([("schema_version", JStr "finharness.plan_draft_receipt.v1");
    ("receipt_id", JStr (pl_receipt_id r)); ("plan_id", JStr (pl_plan_id r));
    ("objective", JStr (pl_objective r)); ("steps", jstrs (pl_steps r));
    ("stop_conditions", jstrs (pl_stop_conditions r));
    ("required_evaluations", jstrs (pl_required_evaluations r))] ++
   optional_key "related_option_set_id" (pl_related_option_set_id r) ++
   [("source_refs", jstrs (pl_source_refs r)); ("receipt_refs", jstrs (pl_receipt_refs r));
    ("execution_allowed", JBool false); ("authority_transition", JBool false)]).

Section Receipts.
Context `{PyEnv}.

Definition write_option_set_receipt (objective : string) (options : list OptionDraft)
    (receipt_root : string) (source_refs receipt_refs : option (list string))
    : M sys OptionSetReceipt :=
  require (negb (blank objective)) ValueError "OptionSetReceipt requires a non-blank objective" ;;
  require (match options with [] => false | _ => true end) ValueError
    "OptionSetReceipt requires at least one option" ;;
  receipt_id ← _new_id "os";
  option_set_id ← _new_id "os_set";
  let receipt :=
    {| os_receipt_id := receipt_id; os_option_set_id := option_set_id;
       os_objective := strip objective; os_options := options;
       os_source_refs := _dedupe_refs (or_empty source_refs);
       os_receipt_refs := _dedupe_refs (or_empty receipt_refs) |} in
  write_text_json (receipt_file receipt_root "deliberation" receipt_id) (option_set_json receipt) ;;
  mret receipt.

(** [[s.strip() for s in steps if s.strip()]] *)
Definition clean_steps (steps : list string) : list string :=
  List.filter (λ s, negb (streq s "")) (map strip steps).

Definition write_plan_draft_receipt (objective : string) (steps : list string) (receipt_root : string)
    (stop_conditions required_evaluations : option (list string))
    (related_option_set_id : option string) (source_refs receipt_refs : option (list string))
    : M sys PlanDraftReceipt :=
  require (negb (blank objective)) ValueError "PlanDraftReceipt requires a non-blank objective" ;;
  let clean := clean_steps steps in
  require (match clean with [] => false | _ => true end) ValueError
    "PlanDraftReceipt requires at least one non-blank step" ;;
  receipt_id ← _new_id "pd";
  plan_id ← _new_id "plan";
  let receipt :=
    {| pl_receipt_id := receipt_id; pl_plan_id := plan_id; pl_objective := strip objective;
       pl_steps := clean; pl_stop_conditions := _dedupe_refs (or_empty stop_conditions);
       pl_required_evaluations := _dedupe_refs (or_empty required_evaluations);
       pl_related_option_set_id := stripped related_option_set_id;
       pl_source_refs := _dedupe_refs (or_empty source_refs);
       pl_receipt_refs := _dedupe_refs (or_empty receipt_refs) |} in
  write_text_json (receipt_file receipt_root "deliberation" receipt_id) (plan_json receipt) ;;
  mret receipt.
End Receipts.

(** ** Evaluation reports *)

Inductive Severity := SevInfo | SevWarn | SevBlock.
#[export] Instance Severity_eq_dec : EqDecision Severity.
Proof. solve_decision. Defined.
Definition severity_value (s : Severity) : string :=
  match s with SevInfo => "info" | SevWarn => "warn" | SevBlock => "block" end.

Inductive EvaluationStatus := StatusPass | StatusWarn | StatusBlock.
#[export] Instance EvaluationStatus_eq_dec : EqDecision EvaluationStatus.
Proof. solve_decision. Defined.
Definition status_value (s : EvaluationStatus) : string :=
  match s with StatusPass => "pass" | StatusWarn => "warn" | StatusBlock => "block" end.

Record EvaluationFinding := {
  ef_code : string;
  ef_severity : Severity;
  ef_message : string;
  ef_recovery_hint : string;
  ef_blocked_transitions : list string;
  ef_source_refs : list string;
  ef_receipt_refs : list string;
}.
(** A finding without blocked transitions and receipt references *)
Definition finding_of (severity : Severity) (code message hint : string) (source_refs : list string)
    : EvaluationFinding :=
  {| ef_code := code; ef_severity := severity; ef_message := message; ef_recovery_hint := hint;
     ef_blocked_transitions := []; ef_source_refs := source_refs; ef_receipt_refs := [] |}.

Record EvaluationReport := {
  ev_report_id : string;
  ev_evaluator_id : string;
  ev_subject_type : string;
  ev_subject_id : string;
  ev_status : EvaluationStatus;
  ev_findings : list EvaluationFinding;
  ev_deterministic : bool;
  ev_report_hash : string;
  ev_source_refs : list string;
  ev_receipt_refs : list string;
  ev_execution_allowed : bool;
  ev_authority_transition : bool;
}.

Definition finding_json (f : EvaluationFinding) : json := JObj
  [("code", JStr (ef_code f)); ("severity", JStr (severity_value (ef_severity f)));
   ("message", JStr (ef_message f)); ("recovery_hint", JStr (ef_recovery_hint f));
   ("blocked_transitions", jstrs (ef_blocked_transitions f));
   ("source_refs", jstrs (ef_source_refs f)); ("receipt_refs", jstrs (ef_receipt_refs f))].

(** [model_dump(exclude={"report_id", "report_hash"})] *)
Definition hash_payload (r : EvaluationReport) : json := JObj
  [("schema_version", JStr "finharness.evaluation_report.v1");
   ("evaluator_id", JStr (ev_evaluator_id r));
   ("subject", JObj [("subject_type", JStr (ev_subject_type r)); ("subject_id", JStr (ev_subject_id r))]);
   ("status", JStr (status_value (ev_status r)));
   ("findings", JArr (map finding_json (ev_findings r)));
   ("deterministic", JBool (ev_deterministic r));
   ("source_refs", jstrs (ev_source_refs r)); ("receipt_refs", jstrs (ev_receipt_refs r));
   ("execution_allowed", JBool (ev_execution_allowed r));
   ("authority_transition", JBool (ev_authority_transition r))].
(** [model_dump_json(exclude_none=True)] *)
Definition report_json (r : EvaluationReport) : json := JObj
  [("schema_version", JStr "finharness.evaluation_report.v1");
   ("report_id", JStr (ev_report_id r)); ("evaluator_id", JStr (ev_evaluator_id r));
   ("subject", JObj [("subject_type", JStr (ev_subject_type r)); ("subject_id", JStr (ev_subject_id r))]);
   ("status", JStr (status_value (ev_status r)));
   ("findings", JArr (map finding_json (ev_findings r)));
   ("deterministic", JBool (ev_deterministic r)); ("report_hash", JStr (ev_report_hash r));
   ("source_refs", jstrs (ev_source_refs r)); ("receipt_refs", jstrs (ev_receipt_refs r));
   ("execution_allowed", JBool (ev_execution_allowed r));
   ("authority_transition", JBool (ev_authority_transition r))].

Definition set_report_hash (h : string) (r : EvaluationReport) : EvaluationReport :=
  {| ev_report_id := ev_report_id r; ev_evaluator_id := ev_evaluator_id r;
     ev_subject_type := ev_subject_type r; ev_subject_id := ev_subject_id r;
     ev_status := ev_status r; ev_findings := ev_findings r; ev_deterministic := ev_deterministic r;
     ev_report_hash := h; ev_source_refs := ev_source_refs r; ev_receipt_refs := ev_receipt_refs r;
     ev_execution_allowed := ev_execution_allowed r;
     ev_authority_transition := ev_authority_transition r |}.

Section Reports.
Context `{PyEnv}.

(** [json.dumps(report_data, sort_keys=True)], hashed, 16 digits *)
Definition _compute_hash (report_data : json) : string :=
  take_str 16 (sha256_hex (dumps ", " ": " true report_data)).

Definition build_evaluation_report (evaluator_id subject_type subject_id : string)
    (status : EvaluationStatus) (findings : list EvaluationFinding)
    (source_refs receipt_refs : list string) : M sys EvaluationReport :=
  u ← uuid4;
  let report :=
    {| ev_report_id := "er_" +:+ take_str 12 u; ev_evaluator_id := evaluator_id;
       ev_subject_type := subject_type; ev_subject_id := subject_id; ev_status := status;
       ev_findings := findings; ev_deterministic := true; ev_report_hash := "";
       ev_source_refs := _dedupe_refs source_refs; ev_receipt_refs := _dedupe_refs receipt_refs;
       ev_execution_allowed := false; ev_authority_transition := false |} in
  mret (set_report_hash (_compute_hash (hash_payload report)) report).

Definition write_evaluation_report (report : EvaluationReport) (receipt_root : string)
    : M sys string :=
  write_text_json (receipt_file receipt_root "evaluation-reports" (ev_report_id report))
    (report_json report) ;;
  mret ("evaluation-reports/" +:+ ev_report_id report +:+ ".json#sha256:" +:+ ev_report_hash report).
End Reports.

(** ** The token filter of the plan evaluator *)

Definition BLOCKED_ACTION_TOKENS : list string :=
  ["execute"; "execution"; "order"; "submit"; "transfer"; "broker"; "trade"; "deploy"; "dispatch"].

(** [\w] on the code points of a [string] *)
Definition is_word (c : ascii) : bool :=
  let n := code c in
  is_digit c || is_alpha c || (n =? 95) ||
  existsb (Nat.eqb n) [170; 178; 179; 181; 185; 186; 188; 189; 190] ||
  ((192 <=? n) && negb (n =? 215) && negb (n =? 247)).

(** Regular expressions of the shape the evaluator uses: a word boundary, a
    character without regard to case, [[- ]], and an optional character. *)
Inductive pitem := PBound | PChar (c : ascii) | PSep | POpt (c : ascii).
Definition ci_eqb (c d : ascii) : bool := Ascii.eqb (lower_char c) (lower_char d).
Definition sep_char (c : ascii) : bool := Ascii.eqb c "-"%char || Ascii.eqb c " "%char.
Definition word_at (o : option ascii) : bool := match o with Some c => is_word c | None => false end.

(** [pattern.match]: what follows the first match found at this position,
    given the character before it *)
Fixpoint re_match (ps : list pitem) (prev : option ascii) (l : list ascii) : option (list ascii) :=
  match ps with
  | [] => Some l
  | PBound :: ps' =>
      if xorb (word_at prev) (word_at (head l)) then re_match ps' prev l else None
  | PChar c :: ps' =>
      match l with
      | d :: l' => if ci_eqb c d then re_match ps' (Some d) l' else None
      | [] => None
      end
  | PSep :: ps' =>
      match l with
      | d :: l' => if sep_char d then re_match ps' (Some d) l' else None
      | [] => None
      end
  | POpt c :: ps' =>
      match l with
      | d :: l' =>
          if ci_eqb c d
          then match re_match ps' (Some d) l' with Some r => Some r | None => re_match ps' prev l end
          else re_match ps' prev l
      | [] => re_match ps' prev l
      end
  end.

(** [pattern.sub(" ", s)]; [skip] characters belong to a match already replaced *)
Fixpoint re_sub (ps : list pitem) (skip : nat) (prev : option ascii) (l : list ascii) : list ascii :=
  match l with
  | [] => []
  | c :: l' =>
      match skip with
      | S k => re_sub ps k (Some c) l'
      | O =>
          match re_match ps prev l with
          | Some rest => " "%char :: re_sub ps (List.length l' - List.length rest) (Some c) l'
          | None => c :: re_sub ps 0 (Some c) l'
          end
      end
  end.

Definition literally (s : string) : list pitem := map PChar (chars s).
Definition NON_ACTION_PHRASE_PATTERNS : list (list pitem) :=
  [[PBound] ++ literally "trade" ++ [PSep] ++ literally "off analysis" ++ [PBound];
   [PBound] ++ literally "risk" ++ [PSep] ++ literally "return trade" ++ [PSep] ++ literally "off"
     ++ [POpt "s"%char; PBound];
   [PBound] ++ literally "portfolio trade" ++ [PSep] ++ literally "off" ++ [POpt "s"%char; PBound]].

Definition _strip_non_action_phrases (step : string) : string :=
  of_chars (fold_left (λ out p, re_sub p 0 None out) NON_ACTION_PHRASE_PATTERNS (chars step)).

(** [re.findall(r"[a-zA-Z_]+", s)] *)
Definition token_char (c : ascii) : bool := is_alpha c || (code c =? 95).
Definition flush_token (cur : list ascii) (rest : list (list ascii)) : list (list ascii) :=
  match cur with [] => rest | _ => rev cur :: rest end.
Fixpoint token_runs (cur l : list ascii) : list (list ascii) :=
  match l with
  | [] => flush_token cur []
  | c :: l' => if token_char c then token_runs (c :: cur) l' else flush_token cur (token_runs [] l')
  end.
Definition _tokenize_step (step : string) : list string :=
  map of_chars (token_runs [] (chars (lower (_strip_non_action_phrases step)))).

Example tokens_ex1 : _tokenize_step "Review trade-off analysis, then SUBMIT_it: order."
  = ["review"; "then"; "submit_it"; "order"].
Proof. reflexivity. Qed.
Example tokens_ex2 : _tokenize_step "Risk return Trade-Offs and trade offs" = ["and"; "trade"; "offs"].
Proof. reflexivity. Qed.
Example tokens_ex3 : _tokenize_step "portfolio trade-offset" = ["portfolio"; "trade"; "offset"].
Proof. reflexivity. Qed.

(** ** The evaluator *)

(** [tok in BLOCKED_ACTION_TOKENS and tok not in action_tokens_found] *)
Definition note_token (found : list string) (tok : string) : list string :=
  if mem tok BLOCKED_ACTION_TOKENS && negb (mem tok found) then found ++ [tok] else found.
Definition action_tokens (steps : list string) : list string :=
  fold_left (λ found step, fold_left note_token (_tokenize_step step) found) steps [].

Definition finding_if (b : bool) (f : EvaluationFinding) : list EvaluationFinding :=
  if b then [f] else [].
Definition empty_list (l : list string) : bool := match l with [] => true | _ => false end.

Definition has_severity (sev : Severity) (fs : list EvaluationFinding) : bool :=
  existsb (λ f, bool_decide (ef_severity f = sev)) fs.

Definition evaluate_plan_draft_receipt (plan_draft : PlanDraftReceipt)
    (source_refs : option (list string)) : EvaluationStatus * list EvaluationFinding :=
  let refs := or_empty source_refs in
  let found := action_tokens (pl_steps plan_draft) in
  let findings :=
    finding_if (empty_list (pl_steps plan_draft))
      (finding_of SevBlock "plan_no_steps" "Plan has no steps" "Add at least one step to the plan" refs) ++
    finding_if (negb (empty_list found))
      (finding_of SevBlock "plan_action_language"
         ("Plan steps contain action/execution tokens: " +:+ join ", " found)
         "Replace action verbs with preparation/analysis steps" refs) ++
    finding_if (empty_list (pl_source_refs plan_draft))
      (finding_of SevWarn "plan_no_source_refs" "Plan has no source refs"
         "Add context/source references to ground the plan" refs) ++
    finding_if (empty_list (pl_stop_conditions plan_draft))
      (finding_of SevWarn "plan_no_stop_conditions" "Plan has no stop conditions"
         "Add conditions that define when to stop or escalate" refs) ++
    finding_if (match pl_related_option_set_id plan_draft with
                | Some i => streq i "" | None => true end)
      (finding_of SevWarn "plan_no_option_set_link" "Plan is not linked to an OptionSet"
         "Link plan to an OptionSet via related_option_set_id" refs) ++
    finding_if (empty_list (pl_required_evaluations plan_draft))
      (finding_of SevWarn "plan_no_required_evaluations" "Plan has no required evaluations"
         "Add required evaluations (e.g., ips_check, risk_check)" refs) in
  ((if has_severity SevBlock findings then StatusBlock
    else if has_severity SevWarn findings then StatusWarn else StatusPass), findings).

Definition evaluate_plan_draft_to_report `{PyEnv} (plan_draft : PlanDraftReceipt)
    (source_refs receipt_refs : option (list string)) : M sys EvaluationReport :=
  let '(status, findings) := evaluate_plan_draft_receipt plan_draft source_refs in
  build_evaluation_report "plan_draft_evaluator" "plan_draft" (pl_plan_id plan_draft) status findings
    (or_empty source_refs) (or_empty receipt_refs).
