(* ===== verification/CognitionFlow.v ===== *)
(** The agent cognition flow ([agent_cognition_flow.py]): options, plan,
    evaluation, authority transition and run receipt in one deterministic
    chain, with the context policy ([context_use_policy.py], the record of
    [context_trust.py]) and the run receipt ([agent_run_receipts.py]).  The
    flow is the caller that derives an eligibility from an evaluation.  The
    dash in the run receipt's data gap, a code point above 255, is written as
    a hyphen. *)
From S2P Require Import Prelude PyDecimal PyTime PyJson ReceiptIO AuthorityTransition Deliberation.

(** ** Context use *)

Record ContextTrust := {
  ct_source_type : string;
  ct_trust_level : string;
  ct_verification_status : string;
  ct_allowed_uses : list string;
  ct_source_refs : list string;
  ct_receipt_refs : list string;
}.

(** The pre-built profiles *)
Definition profile (source_type trust_level verification_status : string) (allowed_uses : list string)
    (source_refs receipt_refs : option (list string)) : ContextTrust :=
  {| ct_source_type := source_type; ct_trust_level := trust_level;
     ct_verification_status := verification_status; ct_allowed_uses := allowed_uses;
     ct_source_refs := _dedupe_refs (or_empty source_refs);
     ct_receipt_refs := _dedupe_refs (or_empty receipt_refs) |}.
Definition trust_for_receipt_backed_state (receipt_refs : list string)
    (source_refs : option (list string)) : ContextTrust :=
  profile "receipt_backed_state" "high" "verified" ["read"; "cite"; "plan_from"; "use_as_evidence"]
    source_refs (Some receipt_refs).
Definition trust_for_system_computed : option (list string) → option (list string) → ContextTrust :=
  profile "system_computed" "high" "derived" ["read"; "cite"; "plan_from"; "use_as_evidence"].
Definition trust_for_human_attested : option (list string) → option (list string) → ContextTrust :=
  profile "human_attested" "high" "verified" ["read"; "cite"; "plan_from"; "use_as_evidence"].
Definition trust_for_agent_draft : option (list string) → option (list string) → ContextTrust :=
  profile "agent_draft" "low" "unverified" ["read"; "explain"; "draft_review"].
Definition trust_for_user_supplied (source_refs : option (list string)) : ContextTrust :=
  profile "user_supplied" "medium" "unverified" ["read"; "explain"] source_refs None.
Definition trust_for_external_provider : option (list string) → option (list string) → ContextTrust :=
  profile "external_provider" "medium" "derived" ["read"; "cite"; "plan_from"].
Definition trust_for_unknown : ContextTrust :=
  profile "unknown" "untrusted" "unknown" ["read"] None None.

Record ContextUseValidation := {
  cv_valid : bool;
  cv_required_use : string;
  cv_refs_checked : nat;
  cv_blocked_refs : list string;
  cv_blocked_reasons : list string;
  cv_passed_refs : list string;
}.

Definition all_passed (v : ContextUseValidation) : bool := (List.length (cv_blocked_refs v) =? 0)%nat.

(** Why a reference is blocked, if it is. *)
Definition blocked_reason (trust_by_ref : gmap string ContextTrust) (required_use ref : string)
    : option string :=
  match trust_by_ref !! ref with
  | None => Some ("ref has no trust metadata: " +:+ ref)
  | Some trust =>
      if mem required_use (ct_allowed_uses trust) then None
      else Some ("ref trust=" +:+ ct_trust_level trust +:+ " source=" +:+ ct_source_type trust
                 +:+ " allows " +:+ repr (jstrs (ct_allowed_uses trust)) +:+ ", not " +:+ required_use
                 +:+ ": " +:+ ref)
  end.

(** The loop: blocked references, their reasons, passed references. *)
Fixpoint check_refs (trust_by_ref : gmap string ContextTrust) (required_use : string)
    (refs : list string) : list string * list string * list string :=
  match refs with
  | [] => ([], [], [])
  | ref :: refs' =>
      let '(blocked, reasons, passed) := check_refs trust_by_ref required_use refs' in
      match blocked_reason trust_by_ref required_use ref with
      | Some reason => (ref :: blocked, reason :: reasons, passed)
      | None => (blocked, reasons, ref :: passed)
      end
  end.

Definition validate_context_refs_for_use (refs : list string)
    (trust_by_ref : gmap string ContextTrust) (required_use : string) : ContextUseValidation :=
  let '(blocked, reasons, passed) := check_refs trust_by_ref required_use refs in
  {| cv_valid := (List.length blocked =? 0); cv_required_use := required_use;
     cv_refs_checked := List.length refs; cv_blocked_refs := blocked;
     cv_blocked_reasons := reasons; cv_passed_refs := passed |}.

(** ** Run receipts *)

Record AgentToolCallSummary := {
  tc_tool_name : string;
  tc_side_effect : option string;
  tc_ok : bool;
  tc_evidence_refs : list string;
  tc_receipt_refs : list string;
  tc_error_code : option string;
  tc_result_truncated : bool;
}.
(** A call that succeeded *)
Definition tool_call (name side_effect : string) (evidence_refs receipt_refs : list string)
    : AgentToolCallSummary :=
  {| tc_tool_name := name; tc_side_effect := Some side_effect; tc_ok := true;
     tc_evidence_refs := evidence_refs; tc_receipt_refs := receipt_refs; tc_error_code := None;
     tc_result_truncated := false |}.

Record AgentRunReceipt := {
  rn_receipt_id : string;
  rn_agent_run_id : string;
  rn_created_at_utc : string;
  rn_goal : string;
  rn_profile_name : string;
  rn_context_refs : list string;
  rn_tool_calls : list AgentToolCallSummary;
  rn_artifact_refs : list string;
  rn_evidence_refs : list string;
  rn_data_gaps : list string;
  rn_outcome : string;
  rn_stop_reason : string;
  rn_non_claims : list string;
}.

Definition NON_CLAIMS : list string :=
  ["AgentRunReceipt records agent activity, not business state."; "Not execution authorization.";
   "Not investment advice."].

Definition tool_call_json (t : AgentToolCallSummary) : json := JObj
  ([("tool_name", JStr (tc_tool_name t))] ++ optional_key "side_effect" (tc_side_effect t) ++
   [("ok", JBool (tc_ok t)); ("evidence_refs", jstrs (tc_evidence_refs t));
    ("receipt_refs", jstrs (tc_receipt_refs t))] ++ optional_key "error_code" (tc_error_code t) ++
   [("result_truncated", JBool (tc_result_truncated t))]).
Definition run_json (r : AgentRunReceipt) : json := JObj
  [("schema_version", JStr "finharness.agent_run_receipt.v1");
   ("receipt_id", JStr (rn_receipt_id r)); ("agent_run_id", JStr (rn_agent_run_id r));
   ("created_at_utc", JStr (rn_created_at_utc r)); ("goal", JStr (rn_goal r));
   ("profile_name", JStr (rn_profile_name r)); ("context_refs", jstrs (rn_context_refs r));
   ("tool_calls", JArr (map tool_call_json (rn_tool_calls r)));
   ("artifact_refs", jstrs (rn_artifact_refs r)); ("evidence_refs", jstrs (rn_evidence_refs r));
   ("data_gaps", jstrs (rn_data_gaps r)); ("outcome", JStr (rn_outcome r));
   ("stop_reason", JStr (rn_stop_reason r)); ("non_claims", jstrs (rn_non_claims r));
   ("execution_allowed", JBool false); ("authority_transition", JBool false)].

Section Flow.
Context `{PyEnv}.

Definition write_agent_run_receipt (goal profile_name : string)
    (tool_calls : list AgentToolCallSummary) (outcome stop_reason receipt_root : string)
    (context_refs artifact_refs evidence_refs data_gaps : list string) : M sys AgentRunReceipt :=
  require (negb (blank goal)) ValueError "AgentRunReceipt requires a non-blank goal" ;;
  receipt_id ← _new_id "ar";
  agent_run_id ← _new_id "agrun";
  created ← now_utc;
  let receipt :=
    {| rn_receipt_id := receipt_id; rn_agent_run_id := agent_run_id; rn_created_at_utc := created;
       rn_goal := strip goal; rn_profile_name := profile_name;
       rn_context_refs := _dedupe_refs context_refs; rn_tool_calls := tool_calls;
       rn_artifact_refs := _dedupe_refs artifact_refs;
       rn_evidence_refs := _dedupe_refs evidence_refs; rn_data_gaps := _dedupe_refs data_gaps;
       rn_outcome := outcome; rn_stop_reason := strip stop_reason; rn_non_claims := NON_CLAIMS |} in
  write_text_json (receipt_file receipt_root "agent-runs" receipt_id) (run_json receipt) ;;
  mret receipt.

(** ** The flow *)

Record FlowRequest := {
  fq_goal : string;
  fq_profile_name : string;
  fq_objective : string;
  fq_option_claims : list string;
  fq_plan_steps : list string;
  fq_stop_conditions : option (list string);
  fq_required_evaluations : option (list string);
  fq_context_refs : option (list string);
  fq_source_refs : option (list string);
  fq_human_attester : option string;
  fq_human_reason : option string;
  fq_explicit_confirmation : bool;
  fq_context_trust_by_ref : option (gmap string ContextTrust);
  fq_required_context_use : string;
  fq_evaluator_override : option EvaluationReport;
  fq_allow_evaluation_override : bool;
}.

Record AgentCognitionFlowResult := {
  fl_flow_id : string;
  fl_goal : string;
  fl_option_set_ref : string;
  fl_plan_draft_ref : string;
  fl_evaluation_report_ref : string;
  fl_authority_transition_ref : option string;
  fl_agent_run_receipt_ref : string;
  fl_execution_allowed : bool;
}.

(** [OptionDraft(option_id=f"opt_{i + 1}", claim=claim)] for each claim *)
Definition draft_options (option_claims : list string) : list OptionDraft :=
  imap (λ i claim,
    {| op_option_id := "opt_" +:+ N_str (N.of_nat (i + 1)); op_claim := claim; op_assumptions := [];
       op_expected_outcomes := []; op_data_gaps := []; op_evaluation_refs := [] |}) option_claims.

(** Step 2.5: findings on the context references *)
Definition context_findings (q : FlowRequest) : list EvaluationFinding :=
  match fq_source_refs q with
  | None | Some [] => []
  | Some refs =>
      match fq_context_trust_by_ref q with
      | None =>
          [finding_of SevWarn "context_trust_metadata_missing"
             "Context refs were supplied without ContextTrust metadata"
             "Provide context_trust_by_ref so source refs can be validated for intended use" refs]
      | Some trust =>
          let v := validate_context_refs_for_use refs trust (fq_required_context_use q) in
          zip_with (λ ref reason,
            finding_of SevBlock "context_use_not_allowed" reason
              ("Use a context ref whose allowed_uses includes " +:+ fq_required_context_use q) [ref])
            (cv_blocked_refs v) (cv_blocked_reasons v)
      end
  end.

(** [eval_report.model_copy(update={"findings": ..., "status": ...})] *)
Definition with_findings (findings : list EvaluationFinding) (status : EvaluationStatus)
    (r : EvaluationReport) : EvaluationReport :=
  {| ev_report_id := ev_report_id r; ev_evaluator_id := ev_evaluator_id r;
     ev_subject_type := ev_subject_type r; ev_subject_id := ev_subject_id r; ev_status := status;
     ev_findings := findings; ev_deterministic := ev_deterministic r;
     ev_report_hash := ev_report_hash r; ev_source_refs := ev_source_refs r;
     ev_receipt_refs := ev_receipt_refs r; ev_execution_allowed := ev_execution_allowed r;
     ev_authority_transition := ev_authority_transition r |}.
Definition merge_findings (context : list EvaluationFinding) (r : EvaluationReport) : EvaluationReport :=
  match context with
  | [] => r
  | _ =>
      let merged := ev_findings r ++ context in
      with_findings merged
        (if has_severity SevBlock merged then StatusBlock
         else if has_severity SevWarn merged then StatusWarn else ev_status r) r
  end.

(** Step 3: the evaluator, or the override when it is allowed *)
Definition flow_evaluation (q : FlowRequest) (plan_draft : PlanDraftReceipt) : M sys EvaluationReport :=
  match fq_evaluator_override q with
  | Some report =>
      require (fq_allow_evaluation_override q) ValueError
        "evaluator_override requires allow_evaluation_override=True" ;;
      mret report
  | None => evaluate_plan_draft_to_report plan_draft (fq_source_refs q) None
  end.

(** [to_state_map] *)
Definition to_state (eligibility : string) : string :=
  if streq eligibility "eligible" then "eligible"
  else if streq eligibility "deferred" then "deferred" else "blocked".

(** [if human_attester and human_reason and explicit_confirmation] *)
Definition human_confirmation (q : FlowRequest) : option (string * string) :=
  match fq_human_attester q, fq_human_reason q with
  | Some attester, Some reason =>
      if negb (streq attester "") && negb (streq reason "") && fq_explicit_confirmation q
      then Some (attester, reason) else None
  | _, _ => None
  end.

(** Step 4: the transition, when a human confirms it *)
Definition transition_request (status : EvaluationStatus) (plan_id eval_ref option_set_ref plan_draft_ref
    attester reason : string) : TransitionRequest :=
  let eligibility := eligibility_from_evaluation_status (status_value status) in
  {| tq_subject_type := "plan_draft"; tq_subject_id := plan_id; tq_from_state := "drafted";
     tq_to_state := to_state eligibility; tq_eligibility := eligibility;
     tq_evaluation_report_refs := [eval_ref]; tq_human_attester := attester; tq_human_reason := reason;
     tq_explicit_confirmation := true; tq_capital_mandate_id := None;
     tq_agent_authority_grant_id := None;
     tq_supporting_receipt_refs := [option_set_ref; plan_draft_ref] |}.
Definition flow_authority (receipt_root : string) (q : FlowRequest) (status : EvaluationStatus)
    (plan_id eval_ref option_set_ref plan_draft_ref : string) : M sys (option AuthorityTransitionRecord) :=
  match human_confirmation q with
  | Some (attester, reason) =>
      record ← record_authority_transition receipt_root
        (transition_request status plan_id eval_ref option_set_ref plan_draft_ref attester reason);
      mret (Some record)
  | None => mret None
  end.

Definition run_agent_cognition_flow (receipt_root : string) (q : FlowRequest)
    : M sys AgentCognitionFlowResult :=
  u ← uuid4;
  let flow_id := "acf_" +:+ take_str 12 u in
  option_set ← write_option_set_receipt (fq_objective q) (draft_options (fq_option_claims q))
                 receipt_root (fq_source_refs q) None;
  let option_set_ref := "deliberation/" +:+ os_receipt_id option_set +:+ ".json" in
  plan_draft ← write_plan_draft_receipt (fq_objective q) (fq_plan_steps q) receipt_root
                 (fq_stop_conditions q) (fq_required_evaluations q)
                 (Some (os_option_set_id option_set)) (fq_source_refs q) (Some [option_set_ref]);
  let plan_draft_ref := "deliberation/" +:+ pl_receipt_id plan_draft +:+ ".json" in
  evaluated ← flow_evaluation q plan_draft;
  let eval_report := merge_findings (context_findings q) evaluated in
  eval_ref ← write_evaluation_report eval_report receipt_root;
  authority ← flow_authority receipt_root q (ev_status eval_report) (pl_plan_id plan_draft) eval_ref
                option_set_ref plan_draft_ref;
  let authority_ref : option string :=
    (λ r, "authority-transitions/" +:+ at_transition_id r +:+ ".json") <$> authority in
  let write := "append_only_review_write" in
  let tool_calls :=
    [tool_call "write_option_set_receipt" write [] [option_set_ref];
     tool_call "write_plan_draft_receipt" write [] [plan_draft_ref];
     tool_call "build_evaluation_report" "read" [eval_ref] []] ++
    match authority_ref with
    | Some ref => [tool_call "record_authority_transition" write [eval_ref] [ref]]
    | None => []
    end in
  let all_refs := [option_set_ref; plan_draft_ref; eval_ref] ++
    match authority_ref with Some ref => [ref] | None => [] end in
  run_receipt ← write_agent_run_receipt (fq_goal q) (fq_profile_name q) tool_calls
    (if authority_ref then "succeeded" else "partial")
    (if authority_ref then "flow_complete" else "awaiting_human_confirmation")
    receipt_root (or_empty (fq_context_refs q)) all_refs [eval_ref]
    (if authority_ref then []
     else ["Human confirmation not provided - authority transition skipped"]);
  mret {| fl_flow_id := flow_id; fl_goal := fq_goal q; fl_option_set_ref := option_set_ref;
          fl_plan_draft_ref := plan_draft_ref; fl_evaluation_report_ref := eval_ref;
          fl_authority_transition_ref := authority_ref;
          fl_agent_run_receipt_ref := "agent-runs/" +:+ rn_receipt_id run_receipt +:+ ".json";
          fl_execution_allowed := false |}.
End Flow.
