(* ===== verification/CognitionTheorems.v ===== *)
(** When the cognition flow records a plan as eligible: an exact
    characterization of its outcome and of the files it writes by the
    request. *)
From S2P Require Import Prelude PyDecimal PyTime PyJson ReceiptIO AuthorityTransition Deliberation CognitionFlow.

(** ** The policy, from the request *)

Definition nonblank_in (o : option (list string)) : Prop := ∃ r, r ∈ or_empty o ∧ strip r ≠ "".

(** A step of the plan contains a blocked word outside the exempt phrases. *)
Definition has_action_token (q : FlowRequest) : Prop :=
  ∃ step tok, step ∈ fq_plan_steps q ∧ tok ∈ _tokenize_step (strip step) ∧ tok ∈ BLOCKED_ACTION_TOKENS.

(** The trust metadata allows the required use of a reference. *)
Definition allowed_ref (q : FlowRequest) (t : gmap string ContextTrust) (ref : string) : Prop :=
  ∃ ct, t !! ref = Some ct ∧ fq_required_context_use q ∈ ct_allowed_uses ct.

(** Nothing to object to. *)
Record plan_ready (q : FlowRequest) : Prop := {
  ready_language : ¬ has_action_token q;
  ready_stop : nonblank_in (fq_stop_conditions q);
  ready_evaluations : nonblank_in (fq_required_evaluations q);
  ready_sources : nonblank_in (fq_source_refs q);
  ready_context : ∃ t, fq_context_trust_by_ref q = Some t ∧
                    ∀ ref, ref ∈ or_empty (fq_source_refs q) → allowed_ref q t ref;
}.
(** Something that must not pass. *)
Definition plan_blocked (q : FlowRequest) : Prop :=
  has_action_token q ∨
  ∃ t ref, fq_context_trust_by_ref q = Some t ∧ ref ∈ or_empty (fq_source_refs q) ∧ ¬ allowed_ref q t ref.

(** What the flow insists on. *)
Record flow_valid (q : FlowRequest) : Prop := {
  valid_objective : strip (fq_objective q) ≠ "";
  valid_options : fq_option_claims q ≠ [];
  valid_steps : ∃ step, step ∈ fq_plan_steps q ∧ strip step ≠ "";
  valid_override : fq_evaluator_override q = None ∨ fq_allow_evaluation_override q = true;
  valid_human : ∀ attester reason, human_confirmation q = Some (attester, reason) →
                  strip attester ≠ "" ∧ strip reason ≠ "";
  valid_goal : strip (fq_goal q) ≠ "";
}.

(** ** The evaluator against the policy *)

Lemma note_token_in found tok t :
  t ∈ note_token found tok ↔ t ∈ found ∨ (t = tok ∧ tok ∈ BLOCKED_ACTION_TOKENS).
Proof.
  unfold note_token. destruct (mem tok BLOCKED_ACTION_TOKENS && negb (mem tok found)) eqn:E.
  - bool_simpl. set_solver.
  - split; [by left|]. intros [?|[-> Hb]]; [done|]. apply mem_true in Hb. rewrite Hb in E. simpl in E.
    by bool_simpl.
Qed.
Lemma note_tokens_in toks found t :
  t ∈ fold_left note_token toks found ↔ t ∈ found ∨ (t ∈ toks ∧ t ∈ BLOCKED_ACTION_TOKENS).
Proof.
  revert found. induction toks as [|tok toks IH]; intros found; cbn [fold_left].
  - rewrite elem_of_nil. naive_solver.
  - rewrite IH, note_token_in, elem_of_cons. naive_solver.
Qed.
Lemma action_tokens_in steps t :
  t ∈ action_tokens steps ↔ ∃ step, step ∈ steps ∧ t ∈ _tokenize_step step ∧ t ∈ BLOCKED_ACTION_TOKENS.
Proof.
  unfold action_tokens. assert (Hgen : ∀ found,
    t ∈ fold_left (λ found step, fold_left note_token (_tokenize_step step) found) steps found ↔
    t ∈ found ∨ ∃ step, step ∈ steps ∧ t ∈ _tokenize_step step ∧ t ∈ BLOCKED_ACTION_TOKENS).
  { induction steps as [|step steps IH]; intros found; cbn [fold_left].
    - setoid_rewrite elem_of_nil. naive_solver.
    - rewrite IH, note_tokens_in. setoid_rewrite elem_of_cons. split.
      + intros [[Hf|[Ht Hb]]|(s & Hs & Ht)]; [by left|right; by exists step; eauto|right; by eauto].
      + intros [Hf|(s & [->|Hs] & Ht)]; [by left; left|by left; right|right; by eauto]. }
  rewrite Hgen, elem_of_nil. split; [by intros [?|?]|by right].
Qed.

Lemma empty_list_true l : empty_list l = true ↔ l = [].
Proof. by destruct l. Qed.
Lemma empty_list_false l : empty_list l = false ↔ l ≠ [].
Proof. by destruct l. Qed.
Lemma dedupe_empty l : _dedupe_refs l = [] ↔ ¬ ∃ r, r ∈ l ∧ strip r ≠ "".
Proof. rewrite <-dedupe_refs_nil. destruct (_dedupe_refs l); naive_solver. Qed.

Lemma clean_steps_in steps t : t ∈ clean_steps steps ↔ t ≠ "" ∧ ∃ step, step ∈ steps ∧ t = strip step.
Proof.
  unfold clean_steps. rewrite list_elem_of_In, filter_In, in_map_iff, negb_true_iff, streq_false.
  setoid_rewrite <-list_elem_of_In. naive_solver.
Qed.
Lemma clean_steps_nil steps : clean_steps steps ≠ [] ↔ ∃ step, step ∈ steps ∧ strip step ≠ "".
Proof.
  split.
  - destruct (clean_steps steps) as [|t l] eqn:E; [done|]. intros _.
    assert (Ht : t ∈ clean_steps steps) by (rewrite E; set_solver).
    apply clean_steps_in in Ht as (? & step & ? & ->). by exists step.
  - intros (step & Hs & Hn) E. assert (Ht : strip step ∈ clean_steps steps)
      by (apply clean_steps_in; eauto). rewrite E in Ht. set_solver.
Qed.

Lemma has_severity_app sev a b : has_severity sev (a ++ b) = has_severity sev a || has_severity sev b.
Proof. apply existsb_app. Qed.
Lemma has_severity_if sev b f :
  has_severity sev (finding_if b f) = b && bool_decide (ef_severity f = sev).
Proof. unfold has_severity, finding_if. destruct b; simpl; [by rewrite orb_false_r|done]. Qed.

(** The worst severity of some findings, as a status. *)
Definition worst (fs : list EvaluationFinding) : EvaluationStatus :=
  if has_severity SevBlock fs then StatusBlock
  else if has_severity SevWarn fs then StatusWarn else StatusPass.

Lemma evaluate_worst plan refs :
  (evaluate_plan_draft_receipt plan refs).1 = worst (evaluate_plan_draft_receipt plan refs).2.
Proof. reflexivity. Qed.

Lemma merge_worst context report :
  ev_status report = worst (ev_findings report) →
  ev_status (merge_findings context report) = worst (ev_findings report ++ context).
Proof.
  intros E. destruct context as [|f context]; simpl; [by rewrite app_nil_r|].
  unfold worst at 1. destruct (has_severity SevBlock _) eqn:Eb; [done|].
  destruct (has_severity SevWarn _) eqn:Ew; [done|]. rewrite E. unfold worst.
  rewrite has_severity_app, orb_false_iff in Eb, Ew. by rewrite (proj1 Eb), (proj1 Ew).
Qed.

Section Context_refs.
Variable q : FlowRequest.

Lemma blocked_reason_none t ref :
  blocked_reason t (fq_required_context_use q) ref = None ↔ allowed_ref q t ref.
Proof.
  unfold blocked_reason, allowed_ref. destruct (t !! ref) as [ct|]; [|naive_solver].
  destruct (mem _ _) eqn:E; [apply mem_true in E; naive_solver|].
  split; [done|]. intros (? & [= <-] & Hin). apply mem_true in Hin. congruence.
Qed.

(** A blocked reference and its reason come together. *)
Lemma check_refs_zip t refs (f : string → string → EvaluationFinding) sev :
  (∀ a b, ef_severity (f a b) = SevBlock) →
  let '(blocked, reasons, _) := check_refs t (fq_required_context_use q) refs in
  has_severity sev (zip_with f blocked reasons) = true ↔
  sev = SevBlock ∧ ∃ ref, ref ∈ refs ∧ ¬ allowed_ref q t ref.
Proof.
  intros Hf. induction refs as [|ref refs IH]; simpl; [split; [done|set_solver]|].
  destruct (check_refs t _ refs) as [[blocked reasons] passed].
  pose proof (blocked_reason_none t ref) as Hr.
  destruct (blocked_reason t _ ref) as [reason|]; simpl; setoid_rewrite elem_of_cons.
  - rewrite orb_true_iff, IH, Hf, bool_decide_eq_true. split; [|naive_solver].
    intros [<-|[-> (r & ? & ?)]]; split; try done; [|by eauto].
    exists ref. split; [by left|]. intros Ha. by apply Hr in Ha.
  - rewrite IH. naive_solver.
Qed.

Lemma context_block :
  has_severity SevBlock (context_findings q) = true ↔
  ∃ t ref, fq_context_trust_by_ref q = Some t ∧ ref ∈ or_empty (fq_source_refs q) ∧ ¬ allowed_ref q t ref.
Proof.
  unfold context_findings. destruct (fq_source_refs q) as [[|r refs]|]; simpl; [set_solver| |set_solver].
  destruct (fq_context_trust_by_ref q) as [t|]; [|naive_solver].
  unfold validate_context_refs_for_use.
  pose proof (check_refs_zip t (r :: refs)
    (λ ref reason, finding_of SevBlock "context_use_not_allowed" reason
       ("Use a context ref whose allowed_uses includes " +:+ fq_required_context_use q) [ref])
    SevBlock ltac:(done)) as Hz.
  destruct (check_refs t _ (r :: refs)) as [[blocked reasons] passed]. cbn [cv_blocked_refs cv_blocked_reasons].
  rewrite Hz. naive_solver.
Qed.
Lemma context_warn :
  has_severity SevWarn (context_findings q) = true ↔
  or_empty (fq_source_refs q) ≠ [] ∧ fq_context_trust_by_ref q = None.
Proof.
  unfold context_findings. destruct (fq_source_refs q) as [[|r refs]|]; simpl; [naive_solver| |naive_solver].
  destruct (fq_context_trust_by_ref q) as [t|]; [|by split].
  unfold validate_context_refs_for_use.
  pose proof (check_refs_zip t (r :: refs)
    (λ ref reason, finding_of SevBlock "context_use_not_allowed" reason
       ("Use a context ref whose allowed_uses includes " +:+ fq_required_context_use q) [ref])
    SevWarn ltac:(done)) as Hz.
  destruct (check_refs t _ (r :: refs)) as [[blocked reasons] passed]. cbn [cv_blocked_refs cv_blocked_reasons].
  rewrite Hz. naive_solver.
Qed.

(** A plan drafted from the request. *)
Record drafted (p : PlanDraftReceipt) : Prop := {
  drafted_steps : pl_steps p = clean_steps (fq_plan_steps q);
  drafted_some : pl_steps p ≠ [];
  drafted_stop : pl_stop_conditions p = _dedupe_refs (or_empty (fq_stop_conditions q));
  drafted_evaluations :
    pl_required_evaluations p = _dedupe_refs (or_empty (fq_required_evaluations q));
  drafted_sources : pl_source_refs p = _dedupe_refs (or_empty (fq_source_refs q));
  drafted_link : ∃ i, pl_related_option_set_id p = Some i ∧ i ≠ "";
}.

Lemma drafted_block p refs :
  drafted p →
  has_severity SevBlock (evaluate_plan_draft_receipt p refs).2 = true ↔ has_action_token q.
Proof.
  intros []. unfold evaluate_plan_draft_receipt. cbn [snd].
  rewrite !has_severity_app, !has_severity_if. cbn [ef_severity finding_of].
  rewrite !(bool_decide_eq_true_2 (SevBlock = SevBlock)) by done.
  rewrite !(bool_decide_eq_false_2 (SevWarn = SevBlock)) by done. rewrite !andb_true_r, !andb_false_r, !orb_false_r.
  rewrite (proj2 (empty_list_false _) drafted_some0), orb_false_l, negb_true_iff, empty_list_false.
  rewrite drafted_steps0. split.
  - destruct (action_tokens _) as [|t l] eqn:E; [done|]. intros _.
    assert (Ht : t ∈ action_tokens (clean_steps (fq_plan_steps q))) by (rewrite E; set_solver).
    apply action_tokens_in in Ht as (step & Hs & Ht & Hb).
    apply clean_steps_in in Hs as (_ & raw & Hr & ->). by exists raw, t.
  - intros (raw & t & Hr & Ht & Hb) E. assert (Hin : t ∈ action_tokens (clean_steps (fq_plan_steps q))).
    { apply action_tokens_in. exists (strip raw). split_and!; [|done|done].
      apply clean_steps_in. split; [|by exists raw]. intros E0. rewrite E0 in Ht. by apply elem_of_nil in Ht. }
    rewrite E in Hin. by apply elem_of_nil in Hin.
Qed.

Lemma drafted_warn p refs :
  drafted p →
  has_severity SevWarn (evaluate_plan_draft_receipt p refs).2 = false ↔
  nonblank_in (fq_source_refs q) ∧ nonblank_in (fq_stop_conditions q) ∧
  nonblank_in (fq_required_evaluations q).
Proof.
  intros []. unfold evaluate_plan_draft_receipt. cbn [snd].
  rewrite !has_severity_app, !has_severity_if. cbn [ef_severity finding_of].
  rewrite !(bool_decide_eq_true_2 (SevWarn = SevWarn)) by done.
  rewrite !(bool_decide_eq_false_2 (SevBlock = SevWarn)) by done.
  rewrite !andb_true_r, !andb_false_r, !orb_false_l. destruct drafted_link0 as (i & -> & Hi).
  rewrite (proj2 (streq_false _ _) Hi), orb_false_l, !orb_false_iff, !empty_list_false.
  rewrite drafted_stop0, drafted_evaluations0, drafted_sources0, !dedupe_refs_nil. unfold nonblank_in.
  naive_solver.
Qed.

(** The merged status says exactly what the policy says. *)
Lemma flow_status p report refs :
  drafted p → ev_status report = worst (ev_findings report) →
  ev_findings report = (evaluate_plan_draft_receipt p refs).2 →
  (ev_status (merge_findings (context_findings q) report) = StatusPass ↔ plan_ready q) ∧
  (ev_status (merge_findings (context_findings q) report) = StatusBlock ↔ plan_blocked q).
Proof.
  intros Hp Hw Hf. rewrite (merge_worst _ _ Hw), Hf. unfold worst. rewrite !has_severity_app.
  pose proof (drafted_block p refs Hp) as Hb. pose proof (drafted_warn p refs Hp) as Hwn.
  pose proof context_block as Hcb. pose proof context_warn as Hcw.
  assert (Hblk : has_severity SevBlock (evaluate_plan_draft_receipt p refs).2
    || has_severity SevBlock (context_findings q) = true ↔ plan_blocked q).
  { rewrite orb_true_iff, Hb, Hcb. done. }
  split.
  - split.
    + destruct (_ || has_severity SevBlock _) eqn:E1; [done|].
      destruct (_ || has_severity SevWarn _) eqn:E2; [done|]. intros _.
      apply orb_false_iff in E1 as [E1 E1'], E2 as [E2 E2']. apply Hwn in E2 as (Hs & Ht & He).
      assert (Hn : or_empty (fq_source_refs q) ≠ []) by (intros E; destruct Hs as (r & Hr & _); rewrite E in Hr; set_solver).
      split; try done; [intros Ha; apply Hb in Ha; congruence|].
      destruct (fq_context_trust_by_ref q) as [t|] eqn:Et.
      * exists t. split; [done|]. intros ref Hr.
        destruct (decide (blocked_reason t (fq_required_context_use q) ref = None)) as [Hd|Hd];
          [by apply blocked_reason_none|]. exfalso. rewrite blocked_reason_none in Hd.
        assert (has_severity SevBlock (context_findings q) = true) by (apply Hcb; eauto). congruence.
      * assert (has_severity SevWarn (context_findings q) = true) by (by apply Hcw). congruence.
    + intros [Hl Hs Hev Hsrc (t & Et & Hall)]. rewrite if_false.
      2: { apply not_true_iff_false. rewrite Hblk. intros [?|(t' & ref & Et' & Hr & Hn)]; [done|].
           rewrite Et in Et'. injection Et' as <-. by apply Hn, Hall. }
      rewrite if_false; [done|]. apply orb_false_iff. split; [by apply Hwn|].
      apply not_true_iff_false. rewrite Hcw, Et. by intros [_ ?].
  - rewrite <-Hblk. destruct (_ || has_severity SevBlock _); [done|].
    by destruct (_ || has_severity SevWarn _).
Qed.
End Context_refs.

(** ** The steps of the flow *)

Lemma strip_head c r : is_space c = false → strip (String c r) ≠ "".
Proof.
  intros Hc E. apply (f_equal chars) in E. unfold strip in E. rewrite chars_of_chars in E.
  change (chars (String c r)) with (c :: chars r) in E. cbn [drop_space] in E. rewrite Hc in E.
  cbn [rev] in E. destruct (drop_space_app_last (rev (chars r)) c Hc) as [l' El]. rewrite El in E.
  rewrite rev_app_distr in E. discriminate E.
Qed.

Section Steps.
Context `{PyEnv}.
Implicit Types s : sys.

Lemma wp_fresh_id prefix Q s :
  (∀ s' i, sys_files s' = sys_files s → (∃ r, i = prefix +:+ "_" +:+ r) → Q s' (inr i)) →
  wp (_new_id prefix) Q s.
Proof. intros HQ. unfold wp. simpl. apply HQ; [done|by eexists]. Qed.
Lemma wp_uuid4 Q s : (∀ s' u, sys_files s' = sys_files s → Q s' (inr u)) → wp uuid4 Q s.
Proof. intros HQ. unfold wp. by apply HQ. Qed.
Lemma wp_now_utc Q s : (∀ s' t, sys_files s' = sys_files s → Q s' (inr t)) → wp now_utc Q s.
Proof. intros HQ. unfold wp. by apply HQ. Qed.
Lemma wp_write_text path payload Q s :
  (∀ s', sys_files s' = <[realpath path := payload]> (sys_files s) → Q s' (inr tt)) →
  wp (write_text_json path payload) Q s.
Proof. intros HQ. unfold wp. by apply HQ. Qed.

Ltac flow_step :=
  cbv beta zeta;
  lazymatch goal with
  | |- wp (_new_id _) _ _ => apply wp_fresh_id; intros ? ? ? ?
  | |- wp uuid4 _ _ => apply wp_uuid4; intros ? ? ?
  | |- wp now_utc _ _ => apply wp_now_utc; intros ? ? ?
  | |- wp (write_text_json _ _) _ _ => apply wp_write_text; intros ? ?
  | |- _ => wp_step
  end.
Ltac flow_steps := repeat flow_step; bool_simpl; rewrite ?blank_true, ?blank_false in *.

(** A write and nothing else, under a folder of the root. *)
Definition wrote (root folder name : string) (j : json) s s' : Prop :=
  sys_files s' = <[realpath (receipt_file root folder name) := j]> (sys_files s).

Ltac wrote_tac :=
  unfold wrote; cbn [os_receipt_id pl_receipt_id rn_receipt_id];
  repeat match goal with Hf : sys_files _ = _ |- _ => rewrite Hf; clear Hf end.

Lemma write_option_set_wp objective options root sr rr s :
  wp (write_option_set_receipt objective options root sr rr) (λ s' r,
    match r with
    | inl e => exn_of e = ValueError ∧ (strip objective = "" ∨ options = [])
    | inr os => strip objective ≠ "" ∧ options ≠ [] ∧ strip (os_option_set_id os) ≠ "" ∧
        wrote root "deliberation" (os_receipt_id os) (option_set_json os) s s'
    end) s.
Proof.
  unfold write_option_set_receipt. flow_steps; try (split; [done|]; by auto).
  - split_and!; [done|by intros ->| |by wrote_tac].
    match goal with Hi : ∃ r, ?i = "os_set" +:+ _ |- strip ?i ≠ _ => destruct Hi as [? ->] end.
    by apply strip_head.
  - split; [done|]. right. by destruct options.
Qed.

Lemma write_plan_draft_wp q root option_set_id ref s :
  strip option_set_id ≠ "" →
  wp (write_plan_draft_receipt (fq_objective q) (fq_plan_steps q) root (fq_stop_conditions q)
        (fq_required_evaluations q) (Some option_set_id) (fq_source_refs q) ref) (λ s' r,
    match r with
    | inl e => exn_of e = ValueError ∧ (strip (fq_objective q) = "" ∨ clean_steps (fq_plan_steps q) = [])
    | inr p => drafted q p ∧ wrote root "deliberation" (pl_receipt_id p) (plan_json p) s s'
    end) s.
Proof.
  intros Hos. unfold write_plan_draft_receipt. flow_steps; try (split; [done|]; by auto).
  - split; [|by wrote_tac]. split; try done; [by intros E; cbn in E; rewrite E in *|].
    exists (strip option_set_id). split; [|done]. simpl.
    destruct (streq option_set_id "") eqn:E; [|done]. bool_simpl. by subst.
  - split; [done|]. right. by destruct (clean_steps _).
Qed.

Lemma flow_evaluation_wp q p s :
  wp (flow_evaluation q p) (λ s' r,
    match r with
    | inl e => exn_of e = ValueError ∧ ¬ (fq_evaluator_override q = None ∨ fq_allow_evaluation_override q = true)
    | inr report => (fq_evaluator_override q = None ∨ fq_allow_evaluation_override q = true) ∧
        sys_files s' = sys_files s ∧
        (fq_evaluator_override q = None →
           ev_status report = worst (ev_findings report) ∧
           ev_findings report = (evaluate_plan_draft_receipt p (fq_source_refs q)).2)
    end) s.
Proof.
  unfold flow_evaluation. destruct (fq_evaluator_override q) as [o|].
  - flow_steps; [split_and!; [by right|done|done]|]. split; [done|]. intros [?|?]; congruence.
  - unfold evaluate_plan_draft_to_report, build_evaluation_report.
    destruct (evaluate_plan_draft_receipt p (fq_source_refs q)) as [st fs] eqn:E. flow_steps.
    split_and!; [by left|done|]. intros _. simpl. split; [|done].
    pose proof (evaluate_worst p (fq_source_refs q)) as Hw. by rewrite E in Hw.
Qed.

(** The eligibility a status stands for. *)
Definition eligibility_of_status (st : EvaluationStatus) : Eligibility :=
  match st with StatusPass => Eligible | StatusWarn => Deferred | StatusBlock => NotEligible end.
Lemma eligibility_of_status_value st :
  lower (strip (eligibility_from_evaluation_status (status_value st)))
    = eligibility_value (eligibility_of_status st).
Proof. by destruct st. Qed.
Lemma eligibility_value_inj e e' : eligibility_value e = eligibility_value e' → e = e'.
Proof. by destruct e, e'. Qed.

Lemma flow_authority_wp root q st pid er osr pdr s :
  strip er ≠ "" →
  wp (flow_authority root q st pid er osr pdr) (λ s' r,
    match r with
    | inl e => exn_of e = ValueError ∧ ∃ a b, human_confirmation q = Some (a, b) ∧
                 ¬ (strip a ≠ "" ∧ strip b ≠ "")
    | inr None => human_confirmation q = None ∧ sys_files s' = sys_files s
    | inr (Some rec) => ∃ a b path, human_confirmation q = Some (a, b) ∧
        (strip a ≠ "" ∧ strip b ≠ "") ∧ at_receipt_ref rec = Some path ∧
        sys_files s' = <[realpath path := transition_json rec]> (sys_files s) ∧
        at_eligibility rec = eligibility_of_status st ∧
        (∀ t, t ∈ at_evaluation_report_refs rec ↔ t = strip er) ∧ at_human_attester rec = strip a
    end) s.
Proof.
  intros Her. unfold flow_authority. destruct (human_confirmation q) as [[a b]|]; [|by apply wp_ret].
  apply wp_bind. eapply wp_mono, record_transition_decides.
  intros s' [x|rec]; simpl.
  - intros (Hx & _ & Hno). split; [done|]. exists a, b. split; [done|]. intros [Ha Hb]. apply Hno.
    exists (eligibility_of_status st). split; simpl; try done; [|apply eligibility_of_status_value].
    exists er. split; [set_solver|done].
  - intros (e & path & [Ha Hb _ _ _] & [Hat _ Hel Hrep _ _] & Hp & Hf). apply wp_ret. simpl in *.
    exists a, b, path. split_and!; try done.
    + apply eligibility_value_inj. by rewrite Hel, eligibility_of_status_value.
    + intros t. rewrite Hrep. set_solver.
Qed.

Lemma write_agent_run_wp goal profile calls outcome reason root c ar ev gaps s :
  wp (write_agent_run_receipt goal profile calls outcome reason root c ar ev gaps) (λ s' r,
    match r with
    | inl e => exn_of e = ValueError ∧ strip goal = ""
    | inr run => strip goal ≠ "" ∧ wrote root "agent-runs" (rn_receipt_id run) (run_json run) s s'
    end) s.
Proof.
  unfold write_agent_run_receipt. flow_steps; [|done]. split; [done|]. by wrote_tac.
Qed.
End Steps.

(** What a run of the flow that returned has written: options, plan and
    evaluation, the transition if a human confirmed it, and the run receipt,
    in this order and nothing else. *)
Record flow_trace `{PyEnv} (root : string) (q : FlowRequest) (s s' : sys)
    (res : AgentCognitionFlowResult) (report : EvaluationReport)
    (authority : option AuthorityTransitionRecord) : Prop := {
  trace_files : ∃ os plan run s1 s2 s3 s4,
    wrote root "deliberation" (os_receipt_id os) (option_set_json os) s s1 ∧
    wrote root "deliberation" (pl_receipt_id plan) (plan_json plan) s1 s2 ∧
    wrote root "evaluation-reports" (ev_report_id report) (report_json report) s2 s3 ∧
    match authority with
    | Some rec => ∃ path, at_receipt_ref rec = Some path ∧
                    sys_files s4 = <[realpath path := transition_json rec]> (sys_files s3)
    | None => sys_files s4 = sys_files s3
    end ∧
    wrote root "agent-runs" (rn_receipt_id run) (run_json run) s4 s';
  trace_inert : fl_execution_allowed res = false;
  trace_authority_ref : fl_authority_transition_ref res =
    (λ r, "authority-transitions/" +:+ at_transition_id r +:+ ".json") <$> authority;
  trace_confirmed : is_Some authority ↔ is_Some (human_confirmation q);
  trace_eligibility : ∀ rec, authority = Some rec →
    at_eligibility rec = eligibility_of_status (ev_status report) ∧
    ∀ t, t ∈ at_evaluation_report_refs rec ↔ t = strip (fl_evaluation_report_ref res);
}.

Lemma flow_wp `{PyEnv} root q s :
  wp (run_agent_cognition_flow root q) (λ s' r,
    match r with
    | inl e => exn_of e = ValueError ∧ ¬ flow_valid q
    | inr res => flow_valid q ∧ ∃ report authority, flow_trace root q s s' res report authority ∧
        (fq_evaluator_override q = None →
           (ev_status report = StatusPass ↔ plan_ready q) ∧
           (ev_status report = StatusBlock ↔ plan_blocked q))
    end) s.
Proof.
  unfold run_agent_cognition_flow. apply wp_bind, wp_uuid4. intros s0 u Hs0. cbv zeta.
  apply wp_bind. eapply wp_mono, write_option_set_wp. intros s1 [e|os].
  { intros [He Hbad]. split; [done|]. intros []. destruct Hbad as [?|Hb]; [done|].
    unfold draft_options in Hb. by destruct (fq_option_claims q). }
  intros (Hobj & Hopt & Hosid & W1). apply wp_bind.
  eapply wp_mono; [|by apply write_plan_draft_wp]. intros s2 [e|plan].
  { intros [He Hbad]. split; [done|]. intros [_ _ Hst _ _ _]. apply clean_steps_nil in Hst. by destruct Hbad. }
  intros [Hp W2]. apply wp_bind. eapply wp_mono, flow_evaluation_wp. intros s3 [e|report].
  { intros [He Hbad]. split; [done|]. by intros []. }
  intros (Hov & Hs3 & Hrep). set (merged := merge_findings (context_findings q) report).
  apply wp_bind. unfold write_evaluation_report. apply wp_bind, wp_write_text. intros s4 W3.
  apply wp_ret. set (eref := "evaluation-reports/" +:+ _).
  apply wp_bind. eapply wp_mono; [|by apply flow_authority_wp, strip_head]. intros s5 [e|authority].
  { intros (He & a & b & Hh & Hbad). split; [done|]. intros []. by apply Hbad, valid_human0. }
  intros Hauth. apply wp_bind. eapply wp_mono, write_agent_run_wp. intros s6 [e|run].
  { intros [He Hbad]. split; [done|]. by intros []. }
  intros [Hgoal W5]. apply wp_ret. split.
  - split; try done.
    + intros E. apply Hopt. unfold draft_options. by rewrite E.
    + apply clean_steps_nil. rewrite <-(drafted_steps _ _ Hp). apply (drafted_some _ _ Hp).
    + intros a b Hh. destruct authority as [rec|]; [|by destruct Hauth; congruence].
      destruct Hauth as (a' & b' & _ & Hh' & Hab & _). congruence.
  - exists merged, authority. split.
    + split; try done.
      * exists os, plan, run, s1, s2, s4, s5. unfold wrote in *. rewrite Hs0 in W1. rewrite Hs3 in W3.
        split_and!; try done. destruct authority as [rec|]; [|by destruct Hauth].
        destruct Hauth as (a & b & path & _ & _ & Hp1 & Hf & _). by exists path.
      * destruct authority as [rec|].
        -- destruct Hauth as (a & b & path & -> & _). split; by eexists.
        -- destruct Hauth as [-> _]. split; by intros [? ?].
      * intros rec ->. destruct Hauth as (a & b & path & _ & _ & _ & _ & Hel & Hrefs & _). by split.
    + intros Hnone. destruct (Hrep Hnone) as [Hw Hf]. by apply (flow_status q plan report (fq_source_refs q)).
Qed.

(** C38: a plan is recorded eligible exactly when nothing speaks against it.
    The cognition flow returns if and only if objective, options, some step and
    the goal are given, an evaluation override is allowed and a confirming human
    is named with a reason that are not blank; otherwise it raises [ValueError].
    A returning run writes the options, the plan, the evaluation report, the
    transition if (and only if) a human confirmed it, and the run receipt, and
    never allows execution.  Without an override, a transition says eligible if
    and only if no step uses a blocked word outside the exempt phrases, stop
    conditions, evaluations and sources are given, and every source may be used
    as required; it says not eligible if and only if a step uses such a word or
    a source may not be used. *)
Theorem flow_eligibility_exact `{PyEnv} (receipt_root : string) (q : FlowRequest) (s : sys) :
  match run_agent_cognition_flow receipt_root q s with
  | (s', inr res) =>
      flow_valid q ∧
      ∃ report authority, flow_trace receipt_root q s s' res report authority ∧
        ∀ rec, authority = Some rec → fq_evaluator_override q = None →
          (at_eligibility rec = Eligible ↔ plan_ready q) ∧
          (at_eligibility rec = NotEligible ↔ plan_blocked q)
  | (_, inl e) => exn_of e = ValueError ∧ ¬ flow_valid q
  end.
Proof.
  pose proof (flow_wp receipt_root q s) as Hw. unfold wp in Hw.
  destruct (run_agent_cognition_flow receipt_root q s) as [s' [e|res]]; [done|]. simpl in Hw.
  destruct Hw as (Hv & report & authority & Ht & Hst). split; [done|]. exists report, authority.
  split; [done|]. intros rec -> Hnone. destruct (Hst Hnone) as [<- <-].
  destruct (trace_eligibility _ _ _ _ _ _ _ Ht rec eq_refl) as [-> _].
  by destruct (ev_status report).
Qed.

(** Drafts of the agent, user input, provider data and data of unknown origin
    do not count as evidence: a source with such a profile blocks the plan. *)
Theorem weak_source_blocks_plan (q : FlowRequest) (t : gmap string ContextTrust) (ref : string)
    (sr rr : option (list string)) (ct : ContextTrust)
    (Hprofile : ct ∈ [trust_for_agent_draft sr rr; trust_for_user_supplied sr;
                      trust_for_external_provider sr rr; trust_for_unknown])
    (Hold : t !! ref = Some ct) (Htrust : fq_context_trust_by_ref q = Some t)
    (Hsource : ref ∈ or_empty (fq_source_refs q)) (Huse : fq_required_context_use q = "use_as_evidence") :
  plan_blocked q.
Proof.
  right. exists t, ref. split_and!; [done|done|]. intros (ct' & Hct & Hin).
  rewrite Hold in Hct. injection Hct as <-. rewrite Huse in Hin. apply mem_true in Hin.
  apply list_elem_of_In in Hprofile as [<-|[<-|[<-|[<-|[]]]]]; discriminate Hin.
Qed.

(** The report the flow stores keeps the hash the evaluator computed: when
    context findings were merged, the hash in the report and in its reference
    is that of a payload with fewer findings. *)
Theorem merged_report_keeps_hash `{PyEnv} (plan : PlanDraftReceipt) (refs : option (list string))
    (context : list EvaluationFinding) (s s' : sys) (report : EvaluationReport)
    (Hrun : evaluate_plan_draft_to_report plan refs None s = (s', inr report)) (Hsome : context ≠ []) :
  let stored := merge_findings context report in
  ev_findings stored = ev_findings report ++ context ∧
  ev_report_hash stored = _compute_hash (hash_payload report) ∧
  hash_payload stored ≠ hash_payload report.
Proof.
  destruct context as [|f context]; [done|]. split; [done|]. split.
  - unfold evaluate_plan_draft_to_report, build_evaluation_report in Hrun.
    destruct (evaluate_plan_draft_receipt plan refs). minv. done.
  - cbn. intros [= _ E]. apply (f_equal List.length) in E. rewrite !length_map, length_app in E.
    simpl in E. lia.
Qed.
