(* ===== verification/CapitalTruth.v ===== *)
(** Admission of capital observations ([capital_truth.py]): which observation
    may back a claim for a use case, and why not. *)
From S2P Require Import Prelude PyDecimal PyTime.

Inductive CapitalUseCase := CAPITAL_STATE | SCENARIO | DECISION | DAILY_BRIEF | AGENT.
Inductive EvidenceIntegrityStatus :=
  EvidenceIntact | EvidenceMissing | EvidenceCorrupt | EvidenceUnavailable.
Inductive CapitalTruthAdmissionStatus := TruthAdmitted | TruthPartial | TruthBlocked | TruthUnavailable.
#[export] Instance EvidenceIntegrityStatus_eq_dec : EqDecision EvidenceIntegrityStatus.
Proof. solve_decision. Defined.
#[export] Instance CapitalTruthAdmissionStatus_eq_dec : EqDecision CapitalTruthAdmissionStatus.
Proof. solve_decision. Defined.

(** A [datetime]: wall-clock microseconds and the UTC offset, [None] if naive *)
Record datetime := Datetime { dt_wall : Z; dt_utcoffset : option Z }.
(** Aware datetimes compare and subtract as instants. *)
Definition instant_of (d : datetime) : Z := (dt_wall d - default 0 (dt_utcoffset d))%Z.

Record CapitalTruthInput := {
  ti_use_case : CapitalUseCase;
  ti_evaluated_at : datetime;
  ti_effective_at : datetime;
  ti_observed_at : datetime;
  ti_valued_at : option datetime;
  ti_ingested_at : datetime;
  ti_currencies : gset string;
  ti_fx_observed_at : option datetime;
  ti_market_price_observed_at : option datetime;
  ti_receipt_present : bool;
  ti_receipt_hash_valid : bool;
  ti_db_mirror_present : bool;
  ti_db_mirror_matches_receipt : bool;
  ti_provenance_verified : bool;
  ti_instrument_identity_unambiguous : bool;
  ti_cross_account_assets_deduplicated : bool;
}.

(** Construction: [Field(min_length=1)], then [require_timezone_aware_times] *)
Definition time_fields (v : CapitalTruthInput) : list (string * option datetime) :=
  [("evaluated_at", Some (ti_evaluated_at v)); ("effective_at", Some (ti_effective_at v));
   ("observed_at", Some (ti_observed_at v)); ("valued_at", ti_valued_at v);
   ("ingested_at", Some (ti_ingested_at v)); ("fx_observed_at", ti_fx_observed_at v);
   ("market_price_observed_at", ti_market_price_observed_at v)].
Fixpoint first_naive (l : list (string * option datetime)) : option string :=
  match l with
  | [] => None
  | (field, Some d) :: l' =>
      match dt_utcoffset d with None => Some field | Some _ => first_naive l' end
  | (_, None) :: l' => first_naive l'
  end.
Definition require_timezone_aware_times (v : CapitalTruthInput) : exn + CapitalTruthInput :=
  if bool_decide (ti_currencies v = ∅)
  then inl (Exn ValueError "Frozenset should have at least 1 item after validation, not 0")
  else match first_naive (time_fields v) with
       | Some field => inl (Exn ValueError (field +:+ " must be timezone-aware"))
       | None => inr v
       end.

Record CapitalTruthResult := {
  tt_evidence_integrity : EvidenceIntegrityStatus;
  tt_capital_truth_admission : CapitalTruthAdmissionStatus;
  tt_current : bool;
  tt_reconciled : bool;
  tt_blockers : list string;
  tt_warnings : list string;
}.

Definition hours (n : Z) : Z := (n * 3600000000)%Z.
Definition _MAX_AGE (u : CapitalUseCase) : Z :=
  match u with
  | CAPITAL_STATE => hours 24
  | DAILY_BRIEF => hours 24
  | SCENARIO => hours 4
  | DECISION => hours 4
  | AGENT => hours 1
  end.

(** [[code for failed, code in checks if failed]] *)
Definition code_if (failed : bool) (code : string) : list string := if failed then [code] else [].

Definition _evidence_blockers (v : CapitalTruthInput) : list string :=
  code_if (negb (ti_receipt_present v)) "receipt_or_index_missing" ++
  code_if (ti_receipt_present v && negb (ti_receipt_hash_valid v)) "receipt_integrity_failed" ++
  code_if (negb (ti_db_mirror_present v)) "db_mirror_missing" ++
  code_if (ti_db_mirror_present v && negb (ti_db_mirror_matches_receipt v)) "db_receipt_divergence" ++
  code_if (negb (ti_provenance_verified v)) "provenance_unverified" ++
  code_if (negb (ti_instrument_identity_unambiguous v)) "instrument_identity_ambiguous" ++
  code_if (negb (ti_cross_account_assets_deduplicated v)) "cross_account_asset_duplicate".

Definition _evidence_integrity (v : CapitalTruthInput) : EvidenceIntegrityStatus :=
  if negb (ti_receipt_present v) || negb (ti_db_mirror_present v) then EvidenceMissing
  else if negb (ti_receipt_hash_valid v) || negb (ti_db_mirror_matches_receipt v)
  then EvidenceCorrupt
  else EvidenceIntact.

(** [value.evaluated_at - time] *)
Definition age_of (v : CapitalTruthInput) (time : datetime) : Z :=
  (instant_of (ti_evaluated_at v) - instant_of time)%Z.

Definition _valuation_findings (v : CapitalTruthInput) (max_age : Z) : list string * list string :=
  let fx :=
    if (1 <? size (ti_currencies v)) then
      match ti_fx_observed_at v with
      | None => ["time_bound_fx_missing"]
      | Some t => code_if (max_age <? age_of v t)%Z "time_bound_fx_stale"
      end
    else [] in
  match ti_valued_at v, ti_market_price_observed_at v with
  | Some _, Some t => (fx ++ code_if (max_age <? age_of v t)%Z "market_price_stale", [])
  | _, _ => (fx, ["market_valuation_incomplete"])
  end.

Definition evaluate_capital_truth (v : CapitalTruthInput) : CapitalTruthResult :=
  let max_age := _MAX_AGE (ti_use_case v) in
  let current := (age_of v (ti_observed_at v) <=? max_age)%Z in
  let '(valuation_blockers, warnings) := _valuation_findings v max_age in
  let blockers :=
    code_if (negb current) "snapshot_stale" ++
    code_if (instant_of (ti_evaluated_at v) <? instant_of (ti_effective_at v))%Z
      "effective_time_in_future" ++
    code_if (instant_of (ti_ingested_at v) <? instant_of (ti_observed_at v))%Z
      "observation_after_ingestion" ++
    _evidence_blockers v ++ valuation_blockers in
  let evidence_integrity := _evidence_integrity v in
  let reconciled := bool_decide (evidence_integrity = EvidenceIntact) &&
    ti_provenance_verified v && ti_cross_account_assets_deduplicated v in
  let admission :=
    match blockers, warnings with
    | _ :: _, _ => TruthBlocked
    | [], _ :: _ => TruthPartial
    | [], [] => TruthAdmitted
    end in
  {| tt_evidence_integrity := evidence_integrity; tt_capital_truth_admission := admission;
     tt_current := current; tt_reconciled := reconciled; tt_blockers := blockers;
     tt_warnings := warnings |}.

(** ** What admission means *)

Definition fresh (v : CapitalTruthInput) (t : datetime) : Prop :=
  (age_of v t <= _MAX_AGE (ti_use_case v))%Z.

Record unblocked (v : CapitalTruthInput) : Prop := {
  ub_current : fresh v (ti_observed_at v);
  ub_effective : (instant_of (ti_effective_at v) <= instant_of (ti_evaluated_at v))%Z;
  ub_order : (instant_of (ti_observed_at v) <= instant_of (ti_ingested_at v))%Z;
  ub_receipt : ti_receipt_present v = true ∧ ti_receipt_hash_valid v = true;
  ub_mirror : ti_db_mirror_present v = true ∧ ti_db_mirror_matches_receipt v = true;
  ub_provenance : ti_provenance_verified v = true;
  ub_identity : ti_instrument_identity_unambiguous v = true ∧
                ti_cross_account_assets_deduplicated v = true;
  ub_fx : 1 < size (ti_currencies v) → ∃ t, ti_fx_observed_at v = Some t ∧ fresh v t;
  ub_price : ∀ t, is_Some (ti_valued_at v) → ti_market_price_observed_at v = Some t → fresh v t;
}.
Definition valued (v : CapitalTruthInput) : Prop :=
  is_Some (ti_valued_at v) ∧ is_Some (ti_market_price_observed_at v).

Lemma code_if_nil b c : code_if b c = [] ↔ b = false.
Proof. by destruct b. Qed.

Lemma evidence_blockers_nil v :
  _evidence_blockers v = [] ↔
  (ti_receipt_present v = true ∧ ti_receipt_hash_valid v = true) ∧
  (ti_db_mirror_present v = true ∧ ti_db_mirror_matches_receipt v = true) ∧
  ti_provenance_verified v = true ∧
  ti_instrument_identity_unambiguous v = true ∧ ti_cross_account_assets_deduplicated v = true.
Proof.
  unfold _evidence_blockers. rewrite !app_nil_iff, !code_if_nil, !andb_false_iff, !negb_false_iff.
  destruct (ti_receipt_present v), (ti_db_mirror_present v); naive_solver.
Qed.

Lemma valuation_blockers_nil v :
  (_valuation_findings v (_MAX_AGE (ti_use_case v))).1 = [] ↔
  (1 < size (ti_currencies v) → ∃ t, ti_fx_observed_at v = Some t ∧ fresh v t) ∧
  (∀ t, is_Some (ti_valued_at v) → ti_market_price_observed_at v = Some t → fresh v t).
Proof.
  assert (Hfresh : ∀ t, (_MAX_AGE (ti_use_case v) <? age_of v t)%Z = false ↔ fresh v t)
    by (intros t; apply Z.ltb_ge).
  unfold _valuation_findings.
  destruct (Nat.ltb_spec 1 (size (ti_currencies v))) as [Hs|Hs];
    destruct (ti_fx_observed_at v) as [fx|]; destruct (ti_valued_at v) as [d|];
    destruct (ti_market_price_observed_at v) as [p|]; simpl;
    rewrite ?app_nil_iff, ?code_if_nil, ?Hfresh; unfold is_Some; naive_solver lia.
Qed.
Lemma valuation_warnings_nil v m : (_valuation_findings v m).2 = [] ↔ valued v.
Proof.
  unfold _valuation_findings, valued, is_Some.
  destruct (ti_valued_at v), (ti_market_price_observed_at v); simpl; naive_solver.
Qed.

Lemma blockers_nil v : tt_blockers (evaluate_capital_truth v) = [] ↔ unblocked v.
Proof.
  unfold evaluate_capital_truth. pose proof (valuation_blockers_nil v) as Hv.
  destruct (_valuation_findings v _) as [vb ws]. cbn [fst] in Hv. cbn [tt_blockers].
  rewrite !app_nil_iff, !code_if_nil, evidence_blockers_nil, Hv, negb_false_iff.
  rewrite Z.leb_le, !Z.ltb_ge. split.
  - intros (? & ? & ? & (? & ? & ? & ? & ?) & ? & ?). by split.
  - intros []. split_and!; naive_solver.
Qed.
Lemma warnings_nil v : tt_warnings (evaluate_capital_truth v) = [] ↔ valued v.
Proof.
  unfold evaluate_capital_truth.
  pose proof (valuation_warnings_nil v (_MAX_AGE (ti_use_case v))) as Hw.
  by destruct (_valuation_findings v _).
Qed.
Lemma admission_of v :
  tt_capital_truth_admission (evaluate_capital_truth v) =
  match tt_blockers (evaluate_capital_truth v), tt_warnings (evaluate_capital_truth v) with
  | _ :: _, _ => TruthBlocked | [], _ :: _ => TruthPartial | [], [] => TruthAdmitted
  end.
Proof. unfold evaluate_capital_truth. by destruct (_valuation_findings v _). Qed.

(** The same observation for another use case *)
Definition with_use_case (u : CapitalUseCase) (v : CapitalTruthInput) : CapitalTruthInput :=
  {| ti_use_case := u; ti_evaluated_at := ti_evaluated_at v; ti_effective_at := ti_effective_at v;
     ti_observed_at := ti_observed_at v; ti_valued_at := ti_valued_at v;
     ti_ingested_at := ti_ingested_at v; ti_currencies := ti_currencies v;
     ti_fx_observed_at := ti_fx_observed_at v;
     ti_market_price_observed_at := ti_market_price_observed_at v;
     ti_receipt_present := ti_receipt_present v; ti_receipt_hash_valid := ti_receipt_hash_valid v;
     ti_db_mirror_present := ti_db_mirror_present v;
     ti_db_mirror_matches_receipt := ti_db_mirror_matches_receipt v;
     ti_provenance_verified := ti_provenance_verified v;
     ti_instrument_identity_unambiguous := ti_instrument_identity_unambiguous v;
     ti_cross_account_assets_deduplicated := ti_cross_account_assets_deduplicated v |}.

Lemma max_age_agent u : (_MAX_AGE AGENT <= _MAX_AGE u)%Z.
Proof. by destruct u. Qed.
Lemma unblocked_use_case u v :
  ti_use_case v = AGENT → unblocked v → unblocked (with_use_case u v).
Proof.
  intros Hu []. pose proof (max_age_agent u).
  assert (Hf : ∀ t, fresh v t → fresh (with_use_case u v) t).
  { intros t. unfold fresh, age_of. simpl. rewrite Hu. lia. }
  split; simpl; try done; [by apply Hf| |].
  - intros (t & Ht & Hfr)%ub_fx0. eauto.
  - intros t Hv Ht. by apply Hf, ub_price0.
Qed.

Lemma admission_cases v :
  (tt_capital_truth_admission (evaluate_capital_truth v) = TruthAdmitted ↔ unblocked v ∧ valued v) ∧
  (tt_capital_truth_admission (evaluate_capital_truth v) = TruthPartial ↔ unblocked v ∧ ¬ valued v) ∧
  (tt_capital_truth_admission (evaluate_capital_truth v) = TruthBlocked ↔ ¬ unblocked v).
Proof.
  rewrite admission_of, <-(blockers_nil v), <-(warnings_nil v).
  destruct (tt_blockers (evaluate_capital_truth v)), (tt_warnings (evaluate_capital_truth v));
    split_and!; naive_solver.
Qed.

(** C27: capital truth fails closed.  An observation is blocked exactly when
    one of the listed defects is there (stale for its use case, effective in
    the future, observed after ingestion, missing or diverging evidence,
    unverified provenance, ambiguous identity, duplicated assets, several
    currencies without a fresh rate, a stale price); otherwise it is admitted
    if its valuation is complete and partial if not.  Anything not blocked is
    current, intact and reconciled, and what is admitted for the agent, the
    strictest use case, is admitted for every other one. *)
Theorem capital_truth_fails_closed (v : CapitalTruthInput) :
  let r := evaluate_capital_truth v in
  (tt_capital_truth_admission r = TruthBlocked ↔ ¬ unblocked v) ∧
  (tt_capital_truth_admission r = TruthAdmitted ↔ unblocked v ∧ valued v) ∧
  (tt_capital_truth_admission r = TruthPartial ↔ unblocked v ∧ ¬ valued v) ∧
  (tt_capital_truth_admission r = TruthBlocked ∨
   tt_current r = true ∧ tt_reconciled r = true ∧ tt_evidence_integrity r = EvidenceIntact) ∧
  (ti_use_case v = AGENT → tt_capital_truth_admission r = TruthAdmitted → ∀ u,
     tt_capital_truth_admission (evaluate_capital_truth (with_use_case u v)) = TruthAdmitted).
Proof.
  cbv zeta. destruct (admission_cases v) as (Ha & Hp & Hb). split_and!; try done.
  - destruct (decide (tt_capital_truth_admission (evaluate_capital_truth v) = TruthBlocked)) as [|Hn];
      [by left|right].
    assert (Hu : unblocked v).
    { apply blockers_nil. destruct (tt_blockers (evaluate_capital_truth v)) eqn:E; [done|].
      exfalso. apply Hn. by rewrite admission_of, E. }
    destruct Hu as [Hc _ _ [H1 H2] [H3 H4] H5 [_ H7] _ _]. unfold evaluate_capital_truth.
    destruct (_valuation_findings v _). simpl. unfold _evidence_integrity.
    rewrite H1, H2, H3, H4, H5, H7. split_and!; try done. by apply Z.leb_le.
  - intros Hagent Hadm u. apply (admission_cases (with_use_case u v)). apply Ha in Hadm as [Hu Hv].
    split; [by apply unblocked_use_case|done].
Qed.

(** ** An observation from the future

    Neither test of [observed_at] compares it with the evaluation time from
    above: an observation and prices dated after the evaluation are current. *)
Definition utc (n : Z) : datetime := Datetime (hours n) (Some 0%Z).
Definition future_observation : CapitalTruthInput :=
  {| ti_use_case := AGENT; ti_evaluated_at := utc 1000; ti_effective_at := utc 1000;
     ti_observed_at := utc 2000; ti_valued_at := Some (utc 2000); ti_ingested_at := utc 2000;
     ti_currencies := {["USD"; "EUR"]}; ti_fx_observed_at := Some (utc 2000);
     ti_market_price_observed_at := Some (utc 2000); ti_receipt_present := true;
     ti_receipt_hash_valid := true; ti_db_mirror_present := true;
     ti_db_mirror_matches_receipt := true; ti_provenance_verified := true;
     ti_instrument_identity_unambiguous := true; ti_cross_account_assets_deduplicated := true |}.
Lemma future_observation_admitted :
  is_ok (require_timezone_aware_times future_observation) = true ∧
  tt_capital_truth_admission (evaluate_capital_truth future_observation) = TruthAdmitted ∧
  (instant_of (ti_evaluated_at future_observation) < instant_of (ti_observed_at future_observation))%Z.
Proof. vm_compute. done. Qed.
