(* ===== verification/DataQuality.v ===== *)
(** Quality of market data receipts ([data_quality_policy.py]): freshness,
    quality, reconciliation and bias findings, and the readiness they give. *)
From S2P Require Import Prelude PyDecimal PyTime PyJson ReceiptIO.

Inductive FreshnessStatus := Fresh | Stale | CriticallyStale | FreshnessUnknown.
Inductive QualityStatus := QualityOk | QualityDegraded | QualityUnknown.
Inductive BiasStatus := BiasControlled | BiasUncontrolled.
Inductive ReadinessStatus := Usable | UsableWithWarnings | NotReady.
Inductive FindingSeverity := SeverityInfo | SeverityWarning | SeverityCritical.
#[export] Instance FreshnessStatus_eq_dec : EqDecision FreshnessStatus.
Proof. solve_decision. Defined.
#[export] Instance QualityStatus_eq_dec : EqDecision QualityStatus.
Proof. solve_decision. Defined.
#[export] Instance BiasStatus_eq_dec : EqDecision BiasStatus.
Proof. solve_decision. Defined.
#[export] Instance ReadinessStatus_eq_dec : EqDecision ReadinessStatus.
Proof. solve_decision. Defined.

(** The fields of [MarketDataQuality] the assessment reads *)
Record MarketDataQuality := {
  mq_ok : bool;
  mq_missing_required_columns : list string;
  mq_duplicate_timestamps : Z;
  mq_notes : list string;
}.

Definition DEFAULT_STALE_AFTER_DAYS : Z := 5.
Definition DEFAULT_CRITICAL_AFTER_DAYS : Z := 30.
Record FreshnessPolicy := {
  fp_policy_id : string;
  fp_dataset : string;
  fp_max_age_days : Z;
  fp_stale_after_days : Z;
  fp_critical_after_days : Z;
  fp_timezone : string;
  fp_applies_to : list string;
  fp_blocks : list string;
  fp_execution_allowed : bool;
}.
(** [FreshnessPolicy()] *)
Definition default_policy : FreshnessPolicy :=
  {| fp_policy_id := "default_v0"; fp_dataset := "*"; fp_max_age_days := DEFAULT_STALE_AFTER_DAYS;
     fp_stale_after_days := DEFAULT_STALE_AFTER_DAYS;
     fp_critical_after_days := DEFAULT_CRITICAL_AFTER_DAYS; fp_timezone := "UTC";
     fp_applies_to := ["*"]; fp_blocks := []; fp_execution_allowed := false |}.

(** Findings and reports; the constant [non_claims] texts are left out. *)
Record DataQualityFinding := {
  df_finding_id : string;
  df_severity : FindingSeverity;
  df_code : string;
  df_message : string;
  df_source_ref : option string;
  df_blocks : list string;
}.
Record DataQualityReport := {
  dq_report_id : string;
  dq_dataset_key : string;
  dq_as_of_utc : string;
  dq_latest_receipt_ref : string;
  dq_freshness_status : FreshnessStatus;
  dq_quality_status : QualityStatus;
  dq_reconciliation_status : string;
  dq_bias_status : BiasStatus;
  dq_readiness_status : ReadinessStatus;
  dq_findings : list DataQualityFinding;
  dq_blocks : list string;
  dq_execution_allowed : bool;
}.

Definition _finding_id (prefix : string) (index : Z) : string := prefix +:+ "_" +:+ pad 4 index.

Section Assess.
Context `{PyEnv}.

(** [None] if the text does not parse, or is naive: subtracting it from an
    aware time raises [TypeError], after the clock was read *)
Definition _days_since (as_of_utc_str : string) : M sys (option Z) :=
  match fromisoformat (replace_Z as_of_utc_str) with
  | None => mret None
  | Some (wall, offset) =>
      t ← now;
      mret (match offset with
            | Some o => Some ((t - (wall - o)) / us_per_day)%Z
            | None => None
            end)
  end.

Definition days_message (days threshold : Z) (kind : string) : string :=
  "Data is " +:+ Z_str days +:+ " days old, exceeds " +:+ kind +:+ " threshold of "
  +:+ Z_str threshold +:+ " days.".

Definition assess_freshness (as_of_utc : string) (policy : option FreshnessPolicy)
    : M sys (FreshnessStatus * list DataQualityFinding * list string) :=
  days ← _days_since as_of_utc;
  let finding := λ severity code message blocks,
    {| df_finding_id := _finding_id "fresh" 1; df_severity := severity; df_code := code;
       df_message := message; df_source_ref := Some as_of_utc; df_blocks := blocks |} in
  let pol := default default_policy policy in
  mret match days with
  | None =>
      (FreshnessUnknown,
       [finding SeverityWarning "freshness_unknown" "Cannot determine data age from as_of_utc."
          ["freshness_assessment"]],
       ["freshness_assessment"])
  | Some days =>
      if (days <? 0)%Z then
        (FreshnessUnknown,
         [finding SeverityCritical "future_timestamp"
            "Data as_of_utc is in the future; freshness cannot be trusted."
            ["freshness_assessment"; "research"; "backtest"; "risk"]],
         ["freshness_assessment"; "research"; "backtest"; "risk"])
      else if (fp_critical_after_days pol <? days)%Z then
        (CriticallyStale,
         [finding SeverityCritical "critically_stale"
            (days_message days (fp_critical_after_days pol) "critical")
            ["research"; "backtest"; "risk"; "execution"]],
         ["research"; "backtest"; "risk"; "execution"])
      else if (fp_stale_after_days pol <? days)%Z then
        (Stale,
         [finding SeverityWarning "stale" (days_message days (fp_stale_after_days pol) "warning") []],
         [])
      else (Fresh, [], [])
  end.
End Assess.

(** [f"{l}"] of a list of strings *)
Definition repr_list (l : list string) : string := repr (jstrs l).

Definition assess_quality (q : MarketDataQuality) : QualityStatus * list DataQualityFinding :=
  if mq_ok q && bool_decide (mq_missing_required_columns q = []) && (mq_duplicate_timestamps q =? 0)%Z
  then (QualityOk, [])
  else
    let messages :=
      (if bool_decide (mq_missing_required_columns q = []) then []
       else ["missing columns: " +:+ repr_list (mq_missing_required_columns q)]) ++
      (if (0 <? mq_duplicate_timestamps q)%Z
       then [Z_str (mq_duplicate_timestamps q) +:+ " duplicate timestamps"] else []) ++
      (if mq_ok q then [] else ["quality check not ok: " +:+ repr_list (mq_notes q)]) in
    (QualityDegraded,
     [{| df_finding_id := _finding_id "qual" 1; df_severity := SeverityWarning;
         df_code := "quality_degraded"; df_message := join "; " messages; df_source_ref := None;
         df_blocks := [] |}]).

(** The message's dash is its UTF-8 encoding. *)
Definition assess_reconciliation (reconciliation_status : string)
    : string * list DataQualityFinding :=
  (reconciliation_status,
   if streq reconciliation_status "single_source_unreconciled" then
     [{| df_finding_id := _finding_id "recon" 1; df_severity := SeverityWarning;
         df_code := "single_source_unreconciled";
         df_message := "Close prices are unreconciled — single source only.";
         df_source_ref := None; df_blocks := [] |}]
   else []).

Fixpoint bias_findings (idx : Z) (messages : list string) : list DataQualityFinding :=
  match messages with
  | [] => []
  | msg :: rest =>
      {| df_finding_id := _finding_id "bias" idx; df_severity := SeverityWarning;
         df_code := "bias_uncontrolled"; df_message := msg; df_source_ref := None;
         df_blocks := [] |} :: bias_findings (idx + 1) rest
  end.
Definition assess_bias (bias_controls : list string) : BiasStatus * list DataQualityFinding :=
  let uncontrolled :=
    (if mem "survivorship_uncontrolled" bias_controls
     then ["survivorship bias not controlled"] else []) ++
    (if mem "point_in_time_uncontrolled" bias_controls
     then ["point-in-time bias not controlled"] else []) in
  match uncontrolled with
  | [] => (BiasControlled, [])
  | _ => (BiasUncontrolled, bias_findings 1 uncontrolled)
  end.

Definition compute_readiness (freshness : FreshnessStatus) (quality : QualityStatus)
    (bias : BiasStatus) (reconciliation_status : string) : ReadinessStatus :=
  if bool_decide (freshness ∈ [CriticallyStale; FreshnessUnknown]) then NotReady
  else if bool_decide (quality = QualityDegraded) then UsableWithWarnings
  else if bool_decide (freshness = Stale) || bool_decide (bias = BiasUncontrolled) ||
          streq reconciliation_status "single_source_unreconciled"
  then UsableWithWarnings
  else Usable.

(** [key.replace('/', '_')] *)
Definition underscore (key : string) : string :=
  of_chars (map (λ c, if Ascii.eqb c "/" then "_"%char else c) (chars key)).

Definition build_quality_report `{PyEnv} (dataset_key as_of_utc latest_receipt_ref : string)
    (quality : MarketDataQuality) (reconciliation_status : string) (bias_controls : list string)
    (freshness_policy : option FreshnessPolicy) : M sys DataQualityReport :=
  '(freshness_status, fresh_findings, fresh_blocks) ← assess_freshness as_of_utc freshness_policy;
  let '(quality_status, qual_findings) := assess_quality quality in
  let '(recon_status, recon_findings) := assess_reconciliation reconciliation_status in
  let '(bias_status, b_findings) := assess_bias bias_controls in
  let readiness := compute_readiness freshness_status quality_status bias_status
                     reconciliation_status in
  mret {| dq_report_id := "qr_" +:+ underscore dataset_key; dq_dataset_key := dataset_key;
          dq_as_of_utc := as_of_utc; dq_latest_receipt_ref := latest_receipt_ref;
          dq_freshness_status := freshness_status; dq_quality_status := quality_status;
          dq_reconciliation_status := recon_status; dq_bias_status := bias_status;
          dq_readiness_status := readiness;
          dq_findings := fresh_findings ++ qual_findings ++ recon_findings ++ b_findings;
          dq_blocks := fresh_blocks; dq_execution_allowed := false |}.

(** ** What readiness means *)

Section Readiness.
Context `{PyEnv}.

(** The age of the data in microseconds when the clock is read next, if the
    timestamp is readable and has an offset. *)
Definition data_age (as_of_utc : string) (s : sys) : option Z :=
  match fromisoformat (replace_Z as_of_utc) with
  | Some (wall, Some o) => Some (clock (sys_ticks s) - (wall - o))%Z
  | _ => None
  end.

(** The age allows research: known, not in the future, and not older than the
    critical threshold.  A day counts when it is complete. *)
Definition trusted_age (pol : FreshnessPolicy) (age : option Z) : Prop :=
  ∃ a, age = Some a ∧ (0 <= a < (fp_critical_after_days pol + 1) * us_per_day)%Z.
Definition fresh_age (pol : FreshnessPolicy) (age : option Z) : Prop :=
  trusted_age pol age ∧ ∃ a, age = Some a ∧ (a < (fp_stale_after_days pol + 1) * us_per_day)%Z.

Record clean (quality : MarketDataQuality) (reconciliation_status : string)
    (bias_controls : list string) : Prop := {
  cl_ok : mq_ok quality = true;
  cl_columns : mq_missing_required_columns quality = [];
  cl_duplicates : mq_duplicate_timestamps quality = 0%Z;
  cl_reconciled : reconciliation_status ≠ "single_source_unreconciled";
  cl_survivorship : "survivorship_uncontrolled" ∉ bias_controls;
  cl_point_in_time : "point_in_time_uncontrolled" ∉ bias_controls;
}.

Lemma days_lt a n : (n <? a / us_per_day)%Z = false ↔ (a < (n + 1) * us_per_day)%Z.
Proof.
  assert (0 < us_per_day)%Z by done. rewrite Z.ltb_ge. split; intros Ha.
  - pose proof (Z.mul_succ_div_gt a us_per_day ltac:(done)). nia.
  - apply Z.lt_succ_r, Z.div_lt_upper_bound; lia.
Qed.
Lemma days_nonneg a : (a / us_per_day <? 0)%Z = false ↔ (0 <= a)%Z.
Proof.
  assert (0 < us_per_day)%Z by done. rewrite Z.ltb_ge. split; intros Ha.
  - destruct (Z.lt_ge_cases a 0) as [Hn|]; [|done].
    pose proof (Z.div_lt_upper_bound a us_per_day 0 ltac:(done)). lia.
  - by apply Z.div_pos.
Qed.

(** How an age is classified. *)
Definition classified (pol : FreshnessPolicy) (age : option Z)
    (r : FreshnessStatus * list DataQualityFinding * list string) : Prop :=
  let '(status, findings, blocks) := r in
  (status = Fresh ↔ fresh_age pol age) ∧ (findings = [] ↔ status = Fresh) ∧
  (status ∈ [CriticallyStale; FreshnessUnknown] ↔ ¬ trusted_age pol age) ∧
  (blocks = [] ↔ trusted_age pol age).

Lemma days_since_run as_of s :
  ∃ s1, _days_since as_of s = (s1, inr ((λ a, (a / us_per_day)%Z) <$> data_age as_of s)) ∧
        sys_files s1 = sys_files s.
Proof.
  unfold _days_since, data_age. destruct (fromisoformat _) as [[wall [o|]]|]; eexists; split; reflexivity.
Qed.

Lemma freshness_classified as_of policy s :
  ∃ s1 r, assess_freshness as_of policy s = (s1, inr r) ∧ sys_files s1 = sys_files s ∧
          classified (default default_policy policy) (data_age as_of s) r.
Proof.
  destruct (days_since_run as_of s) as (s1 & Ed & Hf). unfold assess_freshness.
  rewrite (bind_step _ _ _ _ _ Ed). eexists s1, _. split; [reflexivity|]. split; [done|].
  unfold classified, fresh_age, trusted_age. set (pol := default _ _).
  destruct (data_age as_of s) as [a|]; simpl; [|set_solver].
  destruct (a / us_per_day <? 0)%Z eqn:E1.
  { assert (¬ (0 <= a)%Z) by (rewrite <-days_nonneg; congruence).
    split_and!; try set_solver; naive_solver. }
  apply days_nonneg in E1.
  destruct (fp_critical_after_days pol <? a / us_per_day)%Z eqn:E2.
  { assert (¬ (a < (fp_critical_after_days pol + 1) * us_per_day)%Z) by (rewrite <-days_lt; congruence).
    split_and!; try set_solver; naive_solver. }
  apply days_lt in E2.
  destruct (fp_stale_after_days pol <? a / us_per_day)%Z eqn:E3.
  { assert (¬ (a < (fp_stale_after_days pol + 1) * us_per_day)%Z) by (rewrite <-days_lt; congruence).
    split_and!; try set_solver; naive_solver. }
  apply days_lt in E3. split_and!; try set_solver; naive_solver.
Qed.

Lemma readiness_cases st q b rs :
  (compute_readiness st q b rs = Usable ↔
     st = Fresh ∧ q ≠ QualityDegraded ∧ b = BiasControlled ∧ rs ≠ "single_source_unreconciled") ∧
  (compute_readiness st q b rs = NotReady ↔ st ∈ [CriticallyStale; FreshnessUnknown]).
Proof.
  unfold compute_readiness. rewrite <-streq_false.
  assert (Hin : st ∈ [CriticallyStale; FreshnessUnknown] ↔ st = CriticallyStale ∨ st = FreshnessUnknown)
    by set_solver.
  rewrite (bool_decide_ext _ _ Hin), Hin. clear Hin.
  destruct (streq rs _), st, q, b; simpl; naive_solver.
Qed.
Lemma quality_clean q :
  ((assess_quality q).1 = QualityOk ∧ (assess_quality q).2 = [] ∧ mq_ok q = true ∧
   mq_missing_required_columns q = [] ∧ mq_duplicate_timestamps q = 0%Z) ∨
  ((assess_quality q).1 = QualityDegraded ∧ (assess_quality q).2 ≠ [] ∧
   ¬ (mq_ok q = true ∧ mq_missing_required_columns q = [] ∧ mq_duplicate_timestamps q = 0%Z)).
Proof.
  unfold assess_quality. destruct (_ && _) eqn:E; simpl.
  - left. bool_simpl. apply Z.eqb_eq in H1. done.
  - right. split_and!; [done|done|]. intros (H1 & H2 & H3).
    rewrite H1, H3, (bool_decide_eq_true_2 _ H2) in E. done.
Qed.
Lemma bias_clean controls :
  ((assess_bias controls).1 = BiasControlled ∧ (assess_bias controls).2 = [] ∧
   "survivorship_uncontrolled" ∉ controls ∧ "point_in_time_uncontrolled" ∉ controls) ∨
  ((assess_bias controls).1 = BiasUncontrolled ∧ (assess_bias controls).2 ≠ [] ∧
   ¬ ("survivorship_uncontrolled" ∉ controls ∧ "point_in_time_uncontrolled" ∉ controls)).
Proof.
  unfold assess_bias. rewrite <-!mem_true.
  destruct (mem "survivorship_uncontrolled" controls), (mem "point_in_time_uncontrolled" controls);
    simpl; naive_solver.
Qed.
End Readiness.

(** C28: readiness of market data is exact.  Building a report always returns
    and writes nothing.  The data is usable exactly when its age is known, not
    negative and below both thresholds (counted in complete days), its quality
    checks passed, it is reconciled and both biases are controlled, and then
    the report has no finding; it is not ready exactly when its age is unknown,
    in the future or past the critical threshold, which are the cases in which
    the report blocks something. *)
Theorem readiness_exact `{PyEnv} (dataset_key as_of_utc receipt_ref : string)
    (quality : MarketDataQuality) (reconciliation_status : string) (bias_controls : list string)
    (policy : option FreshnessPolicy) (s : sys) :
  let age := data_age as_of_utc s in
  let pol := default default_policy policy in
  ∃ s' r,
    build_quality_report dataset_key as_of_utc receipt_ref quality reconciliation_status
      bias_controls policy s = (s', inr r) ∧
    sys_files s' = sys_files s ∧ dq_execution_allowed r = false ∧
    (dq_readiness_status r = Usable ↔
       fresh_age pol age ∧ clean quality reconciliation_status bias_controls) ∧
    (dq_readiness_status r = NotReady ↔ ¬ trusted_age pol age) ∧
    (dq_findings r = [] ↔ dq_readiness_status r = Usable) ∧
    (dq_blocks r ≠ [] ↔ dq_readiness_status r = NotReady).
Proof.
  cbv zeta. destruct (freshness_classified as_of_utc policy s) as (s1 & [[st fs] bs] & Ef & Hfiles & Hc).
  destruct Hc as (Hfresh & Hfs & Hbad & Hbs).
  unfold build_quality_report. rewrite (bind_step _ _ _ _ _ Ef).
  pose proof (quality_clean quality) as Hq. pose proof (bias_clean bias_controls) as Hb.
  destruct (assess_quality quality) as [q qf], (assess_bias bias_controls) as [b bf].
  unfold assess_reconciliation. eexists s1, _. split; [reflexivity|]. simpl in *.
  destruct (readiness_cases st q b reconciliation_status) as [Hu Hn].
  set (rf := if streq _ _ then _ else _).
  assert (Hrf : rf = [] ↔ reconciliation_status ≠ "single_source_unreconciled").
  { subst rf. destruct (streq _ _) eqn:Es; bool_simpl; naive_solver. }
  rewrite Hu, Hn, Hbad, Hbs, !app_nil_iff, Hfs, Hfresh, Hrf. clear Hu Hn Ef.
  split; [done|]. split; [done|]. split; [|split; [done|split; [|done]]].
  - split; [intros (? & ? & ? & ?); split; [done|split; naive_solver]|].
    intros [? []]. naive_solver.
  - naive_solver.
Qed.
