(* ===== verification/Instances.v ===== *)
(** Concrete instances of the environment and of the database engine, and a
    small set-up, on which the witnesses evaluate the operations. *)
From S2P Require Import Prelude PyDecimal PyTime PyJson ReceiptIO ExecutionModels ExecutionServices ExecutionCommands.

(** A clock that advances by a second per reading from 2026-07-18T13:04:05Z,
    or by a microsecond, and uuids numbered in sequence. *)
Definition epoch0 : Z := 1784379845000000.
Definition numbered_uuid (n : nat) : string := pad 8 (Z.of_nat n) +:+ "000000000000000000000000".
Definition env_with (step : Z) : PyEnv :=
  {| clock := λ n, (epoch0 + step * Z.of_nat n)%Z; uuid4_hex := numbered_uuid;
     sha256_hex := λ s, s; cwd := "/srv/finharness"; project_root := "/srv/finharness" |}.
Definition slow_env : PyEnv := env_with 1000000.
Definition fast_env : PyEnv := env_with 0.

(** The least of some keys. *)
Definition least (l : list string) : option string :=
  foldr (λ k acc, match acc with
                  | None => Some k
                  | Some m => Some (if String.leb k m then k else m)
                  end) None l.

(** Rows come in the order of their keys, which in the runs below is the
    order of insertion; quantities are compared as text; table models are
    built without running validators. *)
Definition plain_db : Database :=
  {| sql_first := λ ids, least (elements ids);
     sql_quantity_check := λ s, String.ltb "0" s;
     table_validation := false |}.

Lemma least_spec l :
  match least l with None => l = [] | Some k => k ∈ l end.
Proof.
  induction l as [|k l IH]; simpl; [done|]. destruct (least l); [case_match|]; set_solver.
Qed.

Lemma plain_db_laws : @DatabaseLaws plain_db.
Proof.
  split; simpl.
  - intros ids. rewrite <-leibniz_equiv_iff, <-elements_empty_iff.
    pose proof (least_spec (elements ids)) as Hl. split; [by destruct (least _)|by intros ->].
  - intros ids k Hk. apply elem_of_elements.
    pose proof (least_spec (elements ids)) as Hl. by rewrite Hk in Hl.
Qed.

Definition broker0 : BrokerConnection :=
  {| bc_broker_connection_id := "sim"; bc_environment := PAPER; bc_broker_name := "simulated";
     bc_adapter_kind := "simulated"; bc_enabled := true; bc_network_enabled := false;
     bc_credential_ref := None; bc_created_at_utc := "2026-07-18T00:00:00+00:00" |}.
Definition account0 : ExecutionAccount :=
  {| ea_execution_account_id := "acct"; ea_broker_connection_id := "sim"; ea_environment := PAPER;
     ea_account_label := "paper"; ea_base_currency := "USD"; ea_funded := false;
     ea_external_account_ref := None; ea_created_at_utc := "2026-07-18T00:00:00+00:00" |}.
Definition db0 : db :=
  Db {["sim" := broker0]} {["acct" := account0]} ∅ ∅ ∅ ∅ ∅ ∅ ∅ ∅.
Definition kernel0 : kernel_state := Kernel db0 (Sys 0 0 ∅).

(** Ten shares, limit 12.50. *)
Definition request0 : DraftRequest :=
  {| dr_execution_account_id := "acct"; dr_instrument_ref := "equity:ACME"; dr_symbol := "ACME";
     dr_side := "buy"; dr_order_type := "limit"; dr_quantity := dec_of_Z 10;
     dr_rationale := "rebalance"; dr_environment := "paper"; dr_time_in_force := "day";
     dr_limit_price := Some (Dec false 1250 (-2)); dr_stop_price := None; dr_proposal_id := None;
     dr_source_kind := ""; dr_source_ref := "" |}.
Definition filling : SimulatedConfig :=
  {| sim_environment := PAPER; sim_simulate_fill := true; sim_fill_price_offset := None |}.

Definition order0 : ExecutionOrder :=
  {| eo_execution_order_id := ""; eo_order_draft_id := ""; eo_broker_connection_id := "sim";
     eo_environment := PAPER; eo_broker_order_ref := None; eo_execution_status := "staged";
     eo_submitted_at_utc := None; eo_receipt_ref := None; eo_created_at_utc := "" |}.
Definition report0 : ExecutionReport :=
  sim_report "" "" "" "" dzero None "" "".

Definition receipts_dir : string := "data/receipts/execution".

(** A draft that is created, checked with the given findings, and approved. *)
Definition approved_draft `{PyEnv} `{Database} (checks : list (list finding)) : M kernel_state string :=
  d ← create_order_draft DEFAULT_EXECUTION_CAPABILITIES receipts_dir request0;
  let i := od_order_draft_id d in
  for_each checks (λ fs,
    run_pretrade_check DEFAULT_EXECUTION_CAPABILITIES receipts_dir i (Some fs) "human" ;; mret tt) ;;
  record_approval DEFAULT_EXECUTION_CAPABILITIES receipts_dir i "approved" "reviewer" "looks fine" ;;
  mret i.
(** The same, staged on the simulated connection. *)
Definition staged_order `{PyEnv} `{Database} : M kernel_state ExecutionOrder :=
  i ← approved_draft [[]];
  stage_execution_order DEFAULT_EXECUTION_CAPABILITIES receipts_dir i "sim" "paper".
