(* ===== verification/ExecutionWitnesses.v ===== *)
(** Each hypothesis-bearing theorem of the execution kernel applied at a
    concrete run. *)
From S2P Require Import Prelude PyDecimal PyTime PyJson ReceiptIO ExecutionModels ExecutionServices ExecutionCommands ExecutionFacts ExecutionTheorems Instances.

#[local] Existing Instance plain_db.

Lemma db0_wf : db_wf db0.
Proof.
  split; simpl; try apply map_Forall_empty; apply map_Forall_singleton; by vm_compute.
Qed.

Section Slow.
#[local] Existing Instance slow_env.
#[local] Existing Instance plain_db_laws.

Definition caps := DEFAULT_EXECUTION_CAPABILITIES.
Definition run_staged := staged_order kernel0.
Definition k_staged : kernel_state := run_staged.1.
Definition staged_id : string := eo_execution_order_id (get_ok order0 run_staged.2).

Example run_staged_ok : is_ok run_staged.2 = true.
Proof. vm_compute. reflexivity. Qed.

Lemma resolve_under_contained_witness :
    ∃ rel, "/srv/finharness/data/receipts/x.json" = render_path (components "data" ++ rel) ∧
           Forall plain (components "data" ++ rel).
Proof.
    apply (resolve_under_contained "data" ["ignored"; ".."; "receipts"; "x.json"]).
    vm_compute. reflexivity.
Defined.

Definition version1 : list (string * json) :=
    [("state", JStr "active");
     ("content_sha256", JStr (canonical_json_sha256 (JObj [("state", JStr "active")])))].
Definition version2 : list (string * json) :=
    [("state", JStr "closed");
     ("content_sha256", JStr (canonical_json_sha256 (JObj [("state", JStr "closed")])))].
Definition sha1 : string := canonical_json_sha256 (JObj [("state", JStr "active")]).
Definition dir1 : gmap string (slot (list (string * json))) := {["m" := Readable version1]}.

Lemma compare_and_swap_one_winner_witness :
    durable_compare_and_swap_json "m" sha1 "active" version2 dir1
      = (<["m" := Readable version2]> dir1, inr true) ∧
    durable_compare_and_swap_json "m" sha1 "active" version2 (<["m" := Readable version2]> dir1)
      = (<["m" := Readable version2]> dir1, inr false).
Proof.
    split; [vm_compute; reflexivity|].
    refine (proj1 (compare_and_swap_one_winner "m" sha1 "active" version2 version2 dir1
      (<["m" := Readable version2]> dir1) _ _ _)).
    - right. by vm_compute.
    - vm_compute. reflexivity.
    - vm_compute. reflexivity.
Defined.

Definition call0 : kernel_call := CallCreateDraft caps receipts_dir request0.

Lemma kernel_tables_well_formed_witness : db_wf (k_db (run_call call0 kernel0).1).
Proof.
    apply (kernel_tables_well_formed kernel0); [apply db0_wf|].
    apply rtc_once. exists call0. reflexivity.
Defined.

Lemma kernel_audit_append_only_witness : audit db0 (k_db (run_call call0 kernel0).1).
Proof.
    apply (kernel_audit_append_only kernel0). apply rtc_once. exists call0. reflexivity.
Defined.

Lemma submitted_at_most_once_witness :
    ∃ msg, submit_execution_order caps receipts_dir staged_id "sim"
             (submit_execution_order caps receipts_dir staged_id "sim" k_staged).1
         = ((submit_execution_order caps receipts_dir staged_id "sim" k_staged).1,
            inl (Exn ValueError msg)).
Proof.
    refine (submitted_at_most_once caps caps receipts_dir receipts_dir staged_id "sim" "sim"
      k_staged _ _ _ (run_ok order0 _ _ _) (rtc_refl _ _) _).
    - vm_compute. reflexivity.
    - reflexivity.
Defined.

Lemma denied_capability_no_effect_witness :
    run_call (CallCreateDraft DENY_ALL_EXECUTION_CAPABILITIES receipts_dir request0) kernel0
    = (kernel0, inl (Exn ExecutionCapabilityDeniedError (capability_denied cap_create_order_draft))).
Proof.
    apply (denied_capability_no_effect _ DENY_ALL_EXECUTION_CAPABILITIES); reflexivity.
Defined.

Definition warn : finding := [("severity", JStr "warn")].
Definition block : finding := [("severity", JStr "block")].
Definition check0 : PreTradeCheck :=
    {| ptc_pretrade_check_id := ""; ptc_order_draft_id := ""; ptc_check_status := "";
       ptc_findings_json := ""; ptc_required_approval_level := ""; ptc_receipt_ref := None;
       ptc_created_at_utc := "" |}.
Definition draft0 : OrderDraft := draft_row request0 PAPER "" "" None.
Definition k_draft : kernel_state := (create_order_draft caps receipts_dir request0 kernel0).1.
Definition draft_id : string :=
    od_order_draft_id (get_ok draft0 (create_order_draft caps receipts_dir request0 kernel0).2).
#[local] Notation run_warned :=
    (run_pretrade_check caps receipts_dir draft_id (Some [warn]) "human" k_draft).

Lemma pretrade_verdict_is_worst_witness :
    ptc_check_status (get_ok check0 run_warned.2) = "warn" ∧
    od_draft_status <$> t_order_drafts (k_db run_warned.1) !! draft_id = Some "pretrade_check_blocked".
Proof.
    split; [vm_compute; reflexivity|].
    refine (eq_trans (proj2 (proj2 (proj2 (proj2 (pretrade_verdict_is_worst caps receipts_dir
      draft_id (Some [warn]) "human" k_draft _ _ (run_ok check0 _ _ _)))))) _);
      vm_compute; reflexivity.
Defined.

Definition k_approved : kernel_state := (approved_draft [[]] kernel0).1.
#[local] Notation run_stage b :=
    (stage_execution_order caps receipts_dir draft_id b "paper" k_approved).

Lemma staging_sound_witness :
    has (t_broker_connections (k_db k_approved)) "sim" = true ∧
    t_execution_orders (k_db k_approved)
      !! eo_execution_order_id (get_ok order0 (run_stage "sim").2) = None.
Proof.
    assert (Hok : is_ok (run_stage "sim").2 = true) by (vm_compute; reflexivity).
    pose proof (staging_sound caps receipts_dir draft_id "sim" "paper" k_approved
      (run_stage "sim").1 (get_ok order0 (run_stage "sim").2)
      (run_ok order0 (stage_execution_order caps receipts_dir draft_id "sim" "paper") k_approved Hok))
      as (d & _ & _ & _ & _ & Hb & _ & _ & _ & _ & Hfresh & _).
    split; [exact Hb|exact Hfresh].
Defined.

Lemma registry_only_simulated_witness :
    resolve_broker_adapter "sim"
      (register_broker_adapter "sim" (SimulatedBrokerAdapter filling) ∅).1
    = Some (SimulatedBrokerAdapter filling).
Proof.
    apply (registry_only_simulated ∅ "sim" (SimulatedBrokerAdapter filling)).
    - apply map_Forall_empty.
    - reflexivity.
Defined.

Definition reg0 : registry := {["sim" := SimulatedBrokerAdapter filling]}.
#[local] Notation run_submit := (submit_order reg0 caps receipts_dir staged_id k_staged).
#[local] Notation the_order := (default order0 (t_execution_orders (k_db k_staged) !! staged_id)).
#[local] Notation the_draft :=
    (default draft0 (t_order_drafts (k_db k_staged) !! eo_order_draft_id the_order)).

Lemma lookup_default {A} (m : gmap string A) i d : has m i = true → m !! i = Some (default d (m !! i)).
Proof. unfold has. by destruct (m !! i). Qed.

Lemma simulated_submission_witness :
    er_filled_quantity (get_ok report0 run_submit.2) = dec_of_Z 10 ∧
    er_average_fill_price (get_ok report0 run_submit.2) = Some (Dec false 1250 (-2)).
Proof.
    destruct (simulated_submission reg0 filling caps receipts_dir staged_id k_staged run_submit.1
      the_order the_draft (get_ok report0 run_submit.2)) as (_ & _ & _ & _ & _ & _ & Hq & Hp).
    - apply lookup_default. vm_compute. reflexivity.
    - apply lookup_default. vm_compute. reflexivity.
    - assert (Hb : eo_broker_connection_id the_order = "sim") by (vm_compute; reflexivity).
      rewrite Hb. apply lookup_singleton_eq.
    - apply run_ok. vm_compute. reflexivity.
    - split; [rewrite Hq|rewrite Hp]; vm_compute; reflexivity.
Defined.

Lemma failed_staging_strands_draft_witness :
    ∃ k' msg msg',
      run_stage "no-such-broker" = (k', inl (Exn StateCoreStoreError msg)) ∧
      t_execution_orders (k_db k') = t_execution_orders (k_db k_approved) ∧
      od_draft_status <$> t_order_drafts (k_db k') !! draft_id = Some "staged" ∧
      stage_execution_order caps receipts_dir draft_id "sim" "paper" k'
        = (k', inl (Exn ValueError msg')).
Proof.
    apply (failed_staging_strands_draft caps caps receipts_dir receipts_dir draft_id
      "no-such-broker" "sim" "paper" "paper" k_approved PAPER); try (vm_compute; reflexivity).
Defined.

(** Ten shares are accepted, so zero written as [0.00] is accepted. *)
Lemma quantity_check_is_textual_witness :
    ∃ k' d', create_order_draft caps receipts_dir (with_quantity (Dec false 0 (-2)) request0) kernel0
               = (k', inr d') ∧
      od_quantity d' = Dec false 0 (-2) ∧ t_order_drafts (k_db k') !! od_order_draft_id d' = Some d'.
Proof.
    refine (proj2 (proj2 (quantity_check_is_textual caps receipts_dir request0 kernel0 _ _
      (λ s, eq_refl) (run_ok draft0 _ _ _))) (Dec false 0 (-2)) _ _).
    - vm_compute. reflexivity.
    - reflexivity.
    - discriminate.
Defined.

(** Staging consults one check only.  A draft is checked twice, first passing
    and then blocked, and approved afterwards.  Staging it succeeds: the query
    looks at one of its checks without an order, here the passing one, and the
    approval has overwritten the blocked status of the draft. *)
Example blocked_check_can_be_staged :
    let k := (approved_draft [[]; [block]] kernel0).1 in
    let r := stage_execution_order caps receipts_dir draft_id "sim" "paper" k in
    is_ok r.2 = true ∧
    ∃ kc c, t_pretrade_checks (k_db k) !! kc = Some c ∧ ptc_order_draft_id c = draft_id ∧
            ptc_check_status c = "block".
Proof.
    split; [vm_compute; reflexivity|].
    pose (c := snd (List.hd ("", check0)
      (map_to_list (t_pretrade_checks (k_db (approved_draft [[]; [block]] kernel0).1))))).
    exists (ptc_pretrade_check_id c), c. split_and!; vm_compute; reflexivity.
Qed.

(** One draft, approved again after its order was filled, staged and submitted
    a second time. *)
Definition approval0 : ApprovalRecord := approval_row "" "" "" "" "" "" None.
Definition k_filled : kernel_state := run_submit.1.
#[local] Notation run_again :=
    (record_approval caps receipts_dir draft_id "approved" "reviewer" "again" k_filled).
Definition k_again : kernel_state := run_again.1.
#[local] Notation run_restage :=
    (stage_execution_order caps receipts_dir draft_id "sim" "paper" k_again).
Definition k_restaged : kernel_state := run_restage.1.
#[local] Notation second_id := (eo_execution_order_id (get_ok order0 run_restage.2)).
#[local] Notation run_resubmit := (submit_order reg0 caps receipts_dir second_id k_restaged).
Definition first_order : ExecutionOrder :=
    default order0 (t_execution_orders (k_db k_filled) !! staged_id).
Definition first_draft : OrderDraft := default draft0 (t_order_drafts (k_db k_filled) !! draft_id).

Lemma approval_reopens_draft_witness :
    eo_execution_status first_order = "filled" ∧
    second_id ≠ staged_id ∧
    t_execution_orders (k_db run_resubmit.1) !! staged_id = Some first_order ∧
    er_filled_quantity (get_ok report0 run_resubmit.2) = dec_of_Z 10.
Proof.
    split; [vm_compute; reflexivity|].
    assert (Ha : is_ok run_again.2 = true) by (vm_compute; reflexivity).
    assert (Hs : is_ok run_restage.2 = true) by (vm_compute; reflexivity).
    assert (Hr : is_ok run_resubmit.2 = true) by (vm_compute; reflexivity).
    assert (Hd : has (t_order_drafts (k_db k_filled)) draft_id = true) by (vm_compute; reflexivity).
    assert (Ho : has (t_execution_orders (k_db k_filled)) staged_id = true) by (vm_compute; reflexivity).
    assert (Hi : eo_order_draft_id first_order = draft_id) by (vm_compute; reflexivity).
    assert (Hq : or_zero (Some (od_quantity first_draft)) = dec_of_Z 10) by (vm_compute; reflexivity).
    destruct (approval_reopens_draft caps caps caps receipts_dir receipts_dir receipts_dir draft_id
      staged_id "sim" "reviewer" "again" "paper" k_filled k_again first_order first_draft
      (get_ok approval0 run_again.2) (lookup_default _ _ _ Hd) (lookup_default _ _ _ Ho) Hi
      (run_ok approval0 (record_approval caps receipts_dir draft_id "approved" "reviewer" "again")
         k_filled Ha)) as (_ & _ & Hrun).
    destruct (Hrun k_restaged (get_ok order0 run_restage.2) run_resubmit.1 reg0 filling
      (get_ok report0 run_resubmit.2)
      (run_ok order0 (stage_execution_order caps receipts_dir draft_id "sim" "paper") k_again Hs)
      (lookup_singleton_eq _ _) eq_refl
      (run_ok report0 (submit_order reg0 caps receipts_dir second_id) k_restaged Hr))
      as (Hne & Hfirst & _ & _ & Hfill).
    split; [exact Hne|split; [exact Hfirst|]]. rewrite <-Hq. exact Hfill.
Defined.
End Slow.

Section Fast.
#[local] Existing Instance fast_env.

Lemma one_draft_per_second_witness :
    ∃ e, (create_order_draft DEFAULT_EXECUTION_CAPABILITIES receipts_dir request0
            (create_order_draft DEFAULT_EXECUTION_CAPABILITIES receipts_dir request0 kernel0).1).2
         = inl e.
Proof.
    refine (one_draft_per_second "20260718T130405Z" DEFAULT_EXECUTION_CAPABILITIES
      DEFAULT_EXECUTION_CAPABILITIES receipts_dir receipts_dir request0 request0 kernel0 _ _ _ _
      (run_ok (draft_row request0 PAPER "" "" None) _ _ _) (rtc_refl _ _)).
    - intros n. vm_compute. reflexivity.
    - vm_compute. reflexivity.
Defined.
End Fast.
