(* ===== verification/AgentInstances.v ===== *)
(** A small capital agent set-up on which the witnesses of the agent's
    theorems evaluate: one principal, one mission, one delegation with a
    single use, and two intents. *)
From S2P Require Import Prelude PyDecimal PyTime PyJson ReceiptIO ExecutionModels ExecutionServices ExecutionCommands ExecutionFacts AgentModels AgentStore AgentSpec AgentRefinement AgentRuns AgentIntents Instances.

(** As [slow_env], with a digest that starts with the end of its input, so
    that truncated digests of different ids differ. *)
Definition agent_env : PyEnv :=
  {| clock := @clock slow_env; uuid4_hex := @uuid4_hex slow_env;
     sha256_hex := λ s, of_chars (rev (chars s)); cwd := @cwd slow_env;
     project_root := @project_root slow_env |}.

(** The same with a clock that stands still, before every expiry below. *)
Definition still_env : PyEnv :=
  {| clock := @clock fast_env; uuid4_hex := @uuid4_hex agent_env;
     sha256_hex := @sha256_hex agent_env; cwd := @cwd agent_env;
     project_root := @project_root agent_env |}.

Definition world0 : CapitalWorld :=
  {| world_id := "world-1"; basis_digest := "digest-1";
     trust := {| tr_status := "admitted"; tr_evidence_integrity := "intact";
                 tr_completeness := "complete"; tr_valuation_status := "admitted";
                 tr_blockers := [] |};
     positions := [{| pos_symbol := "ACME"; pos_quantity := dec_of_Z 100;
                      pos_market_value := Some (dec_of_Z 1250);
                      pos_unit_price := Some (Dec false 125 (-1));
                      pos_valuation_status := "valued" |}] |}.

Definition intent_request (key : string) (side : OrderSide) (rationale : string) : IntentRequest :=
  {| ir_mission_id := "m1"; ir_delegation_id := "d1"; ir_idempotency_key := key;
     ir_execution_account_id := "acct"; ir_broker_connection_id := "sim";
     ir_instrument_ref := "equity:ACME"; ir_symbol := "ACME"; ir_side := side;
     ir_order_type := TypeLimit; ir_quantity := dec_of_Z 10;
     ir_reference_price := Dec false 125 (-1); ir_rationale := rationale |}.

Definition agent0 : agent_state := Agent empty_store kernel0.
Definition agent_root : string := "data/agent".

Section Setup.
Context `{PyEnv} `{Database}.

(** Constitution, mission, delegation, and the intents to buy and to sell ten
    shares. *)
Definition charter (max_uses : Z) : list agent_call :=
  [CallCreateConstitution "alice" ["preserve capital"] (dec_of_Z 0) (dec_of_Z 1000) [] None
     (Some "c1") None;
   CallCreateMission "alice" "agent-7" "rebalance" ["within limits"] "c1" world0 (Some "m1") None;
   CallCreateDelegation "c1" "alice" "agent-7" (dec_of_Z 500) max_uses "2030-01-01T00:00:00+00:00"
     (Some "d1") None].
Definition buy : IntentRequest := intent_request "buy-1" SideBuy "add".
Definition sell : IntentRequest := intent_request "sell-1" SideSell "trim".
Definition intents : list agent_call := [CallCreateIntent buy; CallCreateIntent sell].
Definition admissions : list agent_call :=
  [CallAdmit (request_id buy) world0; CallAdmit (request_id sell) world0].

Definition run_calls (cs : list agent_call) (a : agent_state) : agent_state :=
  fold_left (λ a c, (run_agent_call agent_root c a).1) cs a.

Lemma run_calls_steps cs a : rtc (agent_step agent_root) a (run_calls cs a).
Proof.
  revert a. induction cs as [|c cs IH]; intros a; [reflexivity|].
  simpl. eapply rtc_l; [by exists c|apply IH].
Qed.
Lemma run_calls_sound cs : store_sound (a_store (run_calls cs agent0)).
Proof. eapply agent_run_refines; [apply run_calls_steps|apply empty_store_sound]. Qed.
End Setup.

Definition simulated_registry `{PyEnv} : registry := {["sim" := SimulatedBrokerAdapter filling]}.
