(* ===== verification/AgentWitnesses.v ===== *)
(** The theorems of the capital agent applied at concrete runs. *)
From S2P Require Import Prelude PyDecimal PyTime PyJson ReceiptIO ExecutionModels ExecutionServices ExecutionCommands ExecutionFacts AgentModels AgentStore AgentSpec AgentRefinement AgentRuns AgentInvariants AgentTheorems AgentEffects AgentTrail AgentIntents Instances AgentInstances.

#[local] Existing Instance plain_db.
#[local] Existing Instance agent_env.

(** Is there a readable file of this id? *)
Definition is_file {A} (d : directory A) (i : string) : bool :=
  match d !! i with Some (Readable _) => true | _ => false end.
Lemma is_file_ok {A} (d : directory A) i : is_file d i = true → ∃ s, d !! i = Some (Readable s).
Proof. unfold is_file. destruct (d !! i) as [[s|]|]; naive_solver. Qed.

Definition a_intents : agent_state := run_calls (charter 2 ++ intents) agent0.
Definition a_admitted : agent_state := run_calls admissions a_intents.
Definition buy_id : string := request_id buy.
Definition sell_id : string := request_id sell.
#[local] Notation execute i a :=
  (execute_simulated_effect agent_root simulated_registry receipts_dir i (admission_id_of i) world0 a).

Lemma a_intents_sound : store_sound (a_store a_intents).
Proof. apply run_calls_sound. Qed.
Lemma a_intents_run : rtc (agent_step agent_root) agent0 a_intents.
Proof. apply run_calls_steps. Qed.
Lemma a_admitted_steps : rtc (agent_step agent_root) a_intents a_admitted.
Proof. apply run_calls_steps. Qed.
Lemma a_admitted_run : rtc (agent_step agent_root) agent0 a_admitted.
Proof. etrans; [apply a_intents_run|apply a_admitted_steps]. Qed.
Lemma a_admitted_sound : store_sound (a_store a_admitted).
Proof. eapply agent_run_refines; [apply a_admitted_run|apply empty_store_sound]. Qed.

Lemma agent_refines_spec_witness :
  store_sound (a_store a_admitted) ∧ rtc spec_step (abs (a_store a_intents)) (abs (a_store a_admitted)).
Proof. exact (agent_refines_spec agent_root _ _ a_intents_sound a_admitted_steps). Defined.

Lemma immutable_artifacts_witness :
  is_file (f_intents (a_store a_intents)) buy_id = true ∧
  f_intents (a_store a_intents) ⊆ f_intents (a_store a_admitted).
Proof.
  split; [vm_compute; reflexivity|].
  destruct (immutable_artifacts agent_root _ _ a_intents_sound a_admitted_steps)
    as (_ & _ & _ & Hi & _). exact Hi.
Defined.

Lemma closed_mission_is_final_witness :
  ∃ m m', f_missions (a_store (run_calls [CallCloseMission "m1" "done"] a_intents)) !! "m1" = Some (Readable m) ∧
    f_missions (a_store (run_calls [CallResumeMission "m1" world0]
      (run_calls [CallCloseMission "m1" "done"] a_intents))) !! "m1" = Some (Readable m') ∧
    (am_state (body m) = MissionClosed → m' = m).
Proof.
  destruct (is_file_ok (f_missions (a_store (run_calls [CallCloseMission "m1" "done"] a_intents))) "m1")
    as [m Hm]; [vm_compute; reflexivity|].
  destruct (closed_mission_is_final agent_root _
    (run_calls [CallResumeMission "m1" world0] (run_calls [CallCloseMission "m1" "done"] a_intents)) "m1" m
    (proj1 (agent_run_refines agent_root _ _ (run_calls_steps _ _) a_intents_sound))
    (run_calls_steps _ _) Hm) as (m' & Hm' & _ & Hc).
  exists m, m'. split; [exact Hm|split; [exact Hm'|exact Hc]].
Defined.

Lemma missions_consistent_witness :
  ∃ m, f_missions (a_store a_intents) !! "m1" = Some (Readable m) ∧
    (am_state (body m) = MissionActive → am_stop_reason (body m) = None).
Proof.
  destruct (is_file_ok (f_missions (a_store a_intents)) "m1") as [m Hm]; [vm_compute; reflexivity|].
  exists m. split; [exact Hm|]. intros Hst.
  pose proof (missions_consistent agent_root kernel0 a_intents "m1" m a_intents_run Hm) as Hc.
  rewrite Hst in Hc. exact (proj1 Hc).
Defined.

Lemma delegation_terms_fixed_witness :
  ∃ d d', f_delegations (a_store a_intents) !! "d1" = Some (Readable d) ∧
    f_delegations (a_store (run_calls [CallRevokeDelegation "d1" "stop"] a_intents)) !! "d1"
      = Some (Readable d') ∧
    (d' = d ∨ dg_state (body d) = DelegationActive ∧
       ∃ now reason, body d' = set_revoked now reason (body d)).
Proof.
  destruct (is_file_ok (f_delegations (a_store a_intents)) "d1") as [d Hd]; [vm_compute; reflexivity|].
  destruct (delegation_terms_fixed agent_root _ _ "d1" d a_intents_sound
    (run_calls_steps [CallRevokeDelegation "d1" "stop"] _) Hd) as (d' & Hd' & Hr).
  exists d, d'. split; [exact Hd|split; [exact Hd'|exact Hr]].
Defined.

Lemma delegation_budget_witness :
  ∃ d, f_delegations (a_store a_admitted) !! "d1" = Some (Readable d) ∧
    uses (abs (a_store a_admitted)) "d1" = 2 ∧
    (Z.of_nat (uses (abs (a_store a_admitted)) "d1") <= dg_max_uses (body d))%Z.
Proof.
  destruct (is_file_ok (f_delegations (a_store a_admitted)) "d1") as [d Hd]; [vm_compute; reflexivity|].
  exists d. split; [exact Hd|]. split; [vm_compute; reflexivity|].
  exact (delegation_budget agent_root kernel0 a_admitted "d1" d a_admitted_run Hd).
Defined.

Lemma delegation_within_constitution_witness :
  ∃ d, f_delegations (a_store a_admitted) !! "d1" = Some (Readable d) ∧
    ∃ ci c, dg_constitution_ref (body d) = ref PrincipalConstitution ci ∧
      f_constitutions (a_store a_admitted) !! ci = Some (Readable c).
Proof.
  destruct (is_file_ok (f_delegations (a_store a_admitted)) "d1") as [d Hd]; [vm_compute; reflexivity|].
  destruct (delegation_within_constitution agent_root kernel0 a_admitted "d1" d a_admitted_run Hd)
    as (ci & c & Hr & Hc & _).
  exists d. split; [exact Hd|]. exists ci, c. split; [exact Hr|exact Hc].
Defined.

(** ** Admission and execution *)

Lemma buy_not_admitted : f_admissions (a_store a_intents) !! admission_id_of buy_id = None.
Proof. apply has_false. vm_compute. reflexivity. Qed.
Lemma buy_not_executed : f_executions (a_store a_admitted) !! execution_id_of buy_id = None.
Proof. apply has_false. vm_compute. reflexivity. Qed.
Lemma sell_not_executed : f_executions (a_store a_admitted) !! execution_id_of sell_id = None.
Proof. apply has_false. vm_compute. reflexivity. Qed.

Lemma admission_exact_witness :
  is_ok (admit_effect agent_root buy_id world0 (Agent (a_store a_intents) (a_kernel a_intents))).2 = true ∧
  match admit_effect agent_root buy_id world0 (Agent (a_store a_intents) (a_kernel a_intents)) with
  | (a', inr s) => a_store a' = write_file (admission_id_of buy_id) s (a_store a_intents)
  | (a', inl _) => False
  end.
Proof.
  assert (Hok : is_ok (admit_effect agent_root buy_id world0
    (Agent (a_store a_intents) (a_kernel a_intents))).2 = true) by (vm_compute; reflexivity).
  split; [exact Hok|].
  pose proof (admission_exact agent_root (a_store a_intents) (a_kernel a_intents) buy_id world0
    a_intents_sound buy_not_admitted) as Hx.
  destruct (admit_effect _ _ _ _) as [a' [e|s]]; [discriminate Hok|].
  destruct Hx as (i & m & d & c & ex & _ & _ & _ & Hst). exact Hst.
Defined.

Definition exec0 : EffectExecutionRecord :=
  {| ex_execution_id := ""; ex_effect_intent_ref := ""; ex_admission_ref := "";
     ex_state := ExecutionClaimed; ex_runtime_job_id := None; ex_runtime_attempt_id := None;
     ex_order_draft_id := None; ex_execution_order_id := None; ex_execution_report_id := None;
     ex_position_delta_id := None; ex_reconciliation_id := None; ex_failure_reason := None;
     ex_recovery_evidence_refs := []; ex_created_at_utc := ""; ex_updated_at_utc := "" |}.
Definition record0 : sealed EffectExecutionRecord := Sealed exec0 "".
Definition drafts_count (a : agent_state) : nat := size (t_order_drafts (k_db (a_kernel a))).

Lemma effect_at_most_once_witness :
  drafts_count (execute buy_id a_admitted).1 = 1 ∧
  effects (execute buy_id (execute buy_id a_admitted).1).1 = effects (execute buy_id a_admitted).1.
Proof.
  assert (Hc : drafts_count (execute buy_id a_admitted).1 = 1) by (vm_compute; reflexivity).
  split; [exact Hc|].
  refine (proj1 (effect_at_most_once agent_root simulated_registry simulated_registry receipts_dir
    receipts_dir buy_id (admission_id_of buy_id) (admission_id_of buy_id) world0 world0 a_admitted _ _
    a_admitted_sound eq_refl _ (rtc_refl _ _))).
  intros He. apply (f_equal (λ e, size (t_order_drafts e.1))) in He. vm_compute in He. discriminate He.
Defined.

(** After the purchase. *)
Definition a_bought : agent_state :=
  run_calls [CallExecute simulated_registry receipts_dir buy_id (admission_id_of buy_id) world0] a_admitted.

Lemma execution_decided_once_witness :
  ∃ x x', f_executions (a_store a_bought) !! execution_id_of buy_id = Some (Readable x) ∧
    f_executions (a_store (run_calls [CallReconcile (execution_id_of buy_id) OutcomeFailed [] "no"] a_bought))
      !! execution_id_of buy_id = Some (Readable x') ∧
    (ex_state (body x) ≠ ExecutionClaimed → execution_decision (body x') = execution_decision (body x)).
Proof.
  destruct (is_file_ok (f_executions (a_store a_bought)) (execution_id_of buy_id)) as [x Hx];
    [vm_compute; reflexivity|].
  destruct (execution_decided_once agent_root a_bought _ (execution_id_of buy_id) x
    (proj1 (agent_run_refines agent_root _ _ (run_calls_steps _ _) a_admitted_sound))
    (run_calls_steps [CallReconcile (execution_id_of buy_id) OutcomeFailed [] "no"] _) Hx)
    as (x' & Hx' & _ & Hd & _).
  exists x, x'. split; [exact Hx|split; [exact Hx'|exact Hd]].
Defined.

Lemma executions_within_limits_witness :
  ∃ x ad, f_executions (a_store a_bought) !! execution_id_of buy_id = Some (Readable x) ∧
    ∃ ai, ex_admission_ref (body x) = ref EffectAdmission ai ∧
      f_admissions (a_store a_bought) !! ai = Some (Readable ad).
Proof.
  destruct (is_file_ok (f_executions (a_store a_bought)) (execution_id_of buy_id)) as [x Hx];
    [vm_compute; reflexivity|].
  destruct (executions_within_limits agent_root kernel0 a_bought (execution_id_of buy_id) x
    (transitivity a_admitted_run (run_calls_steps _ _)) Hx) as (ai & ad & it & d & c & Hr & Ha & _).
  exists x, ad. split; [exact Hx|]. exists ai. split; [exact Hr|exact Ha].
Defined.

(** An empty kernel has no account: the draft cannot be written. *)
Definition bare_kernel : kernel_state := Kernel empty_db (k_sys (a_kernel a_admitted)).
#[local] Notation execute_bare := (execute buy_id (Agent (a_store a_admitted) bare_kernel)).

Lemma failed_effect_leaves_claim_witness :
  is_ok execute_bare.2 = false ∧
  is_file (f_executions (a_store execute_bare.1)) (execution_id_of buy_id) = true ∧
  ((a_store execute_bare.1 = a_store a_admitted ∧
    effects execute_bare.1 = effects (Agent (a_store a_admitted) bare_kernel)) ∨
   ∃ x, f_executions (a_store execute_bare.1) !! execution_id_of buy_id = Some (Readable x) ∧
     ex_state (body x) = ExecutionClaimed).
Proof.
  assert (Hok : is_ok execute_bare.2 = false) by (vm_compute; reflexivity).
  split; [exact Hok|split; [vm_compute; reflexivity|]].
  destruct execute_bare as [a' [e|s]] eqn:E; [|discriminate Hok].
  destruct (failed_effect_leaves_claim agent_root simulated_registry receipts_dir buy_id
    (admission_id_of buy_id) world0 (a_store a_admitted) bare_kernel a' e a_admitted_sound
    buy_not_executed E) as [Hn|(_ & x & Hx & Hc & _)].
  - left. exact Hn.
  - right. exists x. split; [exact Hx|exact Hc].
Defined.

#[local] Notation run_buy := (execute buy_id (Agent (a_store a_admitted) (a_kernel a_admitted))).
#[local] Notation run_sell := (execute sell_id (Agent (a_store a_admitted) (a_kernel a_admitted))).

Lemma completed_effect_trail_witness :
  ∃ i before t, effect_rows (k_db (a_kernel run_buy.1)) i before t ∧
    ex_execution_report_id (body (get_ok record0 run_buy.2))
      = Some (er_execution_report_id (et_report t)).
Proof.
  assert (Hok : is_ok run_buy.2 = true) by (vm_compute; reflexivity).
  destruct (completed_effect_trail agent_root simulated_registry receipts_dir buy_id
    (admission_id_of buy_id) world0 (a_store a_admitted) (a_kernel a_admitted) _ _ a_admitted_sound
    buy_not_executed (run_ok record0 _ _ Hok))
    as (i & before & price & t & _ & _ & _ & _ & _ & _ & Hr & _ & _ & Hrows).
  exists i, before, t. split; [exact Hrows|exact Hr].
Defined.

Lemma simulated_registry_within : map_Forall (λ _, fills_within) simulated_registry.
Proof. unfold simulated_registry. apply map_Forall_singleton, simulated_fills_within. Qed.

Lemma sale_never_oversells_witness :
  ∃ dk delta, ex_position_delta_id (body (get_ok record0 run_sell.2)) = Some dk ∧
    t_position_deltas (k_db (a_kernel run_sell.1)) !! dk = Some delta ∧
    d_nonneg (pd_post_execution_quantity delta) = true.
Proof.
  assert (Hok : is_ok run_sell.2 = true) by (vm_compute; reflexivity).
  assert (Hi : match f_intents (a_store a_admitted) !! sell_id with
    | Some (Readable s) => bool_decide (ei_side (body s) = SideSell) &&
                           (ndigits (dcoef (ei_quantity (body s))) <=? 28)%nat
    | _ => false end = true) by (vm_compute; reflexivity).
  destruct (f_intents (a_store a_admitted) !! sell_id) as [[s|]|] eqn:E; try discriminate Hi.
  apply andb_true_iff in Hi as [Hs Hd]. apply bool_decide_eq_true in Hs. apply Nat.leb_le in Hd.
  destruct (sale_never_oversells agent_root simulated_registry receipts_dir sell_id
    (admission_id_of sell_id) world0 (a_store a_admitted) (a_kernel a_admitted) _ _ s a_admitted_sound
    sell_not_executed simulated_registry_within E Hs Hd (run_ok record0 _ _ Hok))
    as (dk & delta & H1 & H2 & _ & H3).
  exists dk, delta. split; [exact H1|split; [exact H2|exact H3]].
Defined.

(** ** Intents *)

Definition a_charter : agent_state := run_calls (charter 1) agent0.
Definition padded : IntentRequest := intent_request "buy-2" SideBuy " add ".
Definition intent0 : EffectIntent :=
  {| ei_effect_intent_id := ""; ei_idempotency_key := ""; ei_effect_type := simulated_order;
     ei_mission_id := ""; ei_delegation_id := ""; ei_principal_id := ""; ei_agent_id := "";
     ei_world_id := ""; ei_world_basis_digest := ""; ei_execution_account_id := "";
     ei_broker_connection_id := ""; ei_instrument_ref := ""; ei_symbol := ""; ei_side := SideBuy;
     ei_order_type := TypeLimit; ei_quantity := dzero; ei_reference_price := dzero;
     ei_currency := ""; ei_rationale := ""; ei_created_at_utc := "" |}.
#[local] Notation run_intent r :=
  (create_effect_intent agent_root r (Agent (a_store a_charter) (a_kernel a_charter))).

Lemma a_charter_sound : store_sound (a_store a_charter).
Proof. apply run_calls_sound. Qed.

Lemma intent_replay_returns_same_witness :
  create_effect_intent agent_root buy (run_intent buy).1
    = ((run_intent buy).1, inr (get_ok (Sealed intent0 "") (run_intent buy).2)).
Proof.
  assert (Hok : is_ok (run_intent buy).2 = true) by (vm_compute; reflexivity).
  exact (intent_replay_returns_same agent_root buy _ _ _ _ a_charter_sound eq_refl
    (run_ok (Sealed intent0 "") _ _ Hok) (rtc_refl _ _)).
Defined.

Lemma padded_replay_conflicts_witness :
  is_ok (run_intent padded).2 = true ∧
  create_effect_intent agent_root padded (run_intent padded).1
    = ((run_intent padded).1,
       inl (Exn CapitalAgentConflictError "idempotency key reused with different intent")).
Proof.
  assert (Hok : is_ok (run_intent padded).2 = true) by (vm_compute; reflexivity).
  split; [exact Hok|].
  refine (padded_replay_conflicts agent_root padded (a_store a_charter) (a_kernel a_charter) _ _
    a_charter_sound _ _ (run_ok (Sealed intent0 "") _ _ Hok)).
  - apply has_false. vm_compute. reflexivity.
  - intros E. apply (f_equal ir_rationale) in E. vm_compute in E. discriminate E.
Defined.

(** ** No adapter *)

#[local] Notation run_unfilled :=
  (execute_simulated_effect agent_root ∅ receipts_dir buy_id (admission_id_of buy_id) world0
     (Agent (a_store a_admitted) (a_kernel a_admitted))).

Lemma unfilled_effect_completes_witness :
  ex_state (body (get_ok record0 run_unfilled.2)) = ExecutionCompleted ∧
  ∃ rk rep, ex_execution_report_id (body (get_ok record0 run_unfilled.2)) = Some rk ∧
    t_execution_reports (k_db (a_kernel run_unfilled.1)) !! rk = Some rep ∧
    er_filled_quantity rep = dzero.
Proof.
  assert (Hok : is_ok run_unfilled.2 = true) by (vm_compute; reflexivity).
  destruct (is_file_ok (f_intents (a_store a_admitted)) buy_id) as [s Hs]; [vm_compute; reflexivity|].
  destruct (unfilled_effect_completes agent_root ∅ receipts_dir buy_id (admission_id_of buy_id) world0
    (a_store a_admitted) (a_kernel a_admitted) _ _ s a_admitted_sound buy_not_executed Hs
    (lookup_empty _) (run_ok record0 _ _ Hok))
    as (Hst & _ & (rk & rep & Hk & Hrep & Hf) & _).
  split; [exact Hst|]. exists rk, rep. split; [exact Hk|split; [exact Hrep|exact Hf]].
Defined.

(** ** Interleaved admissions *)

Section Still.
#[local] Existing Instance still_env.

Definition st_single : agent_store := a_store (run_calls (charter 1 ++ intents) agent0).
Definition k_single : kernel_state := a_kernel (run_calls (charter 1 ++ intents) agent0).
Definition buy1 : string := request_id buy.
Definition sell1 : string := request_id sell.

Lemma still_clock n : clock n = epoch0.
Proof. apply Z.add_0_r. Qed.
Lemma st_single_sound : store_sound st_single.
Proof. apply run_calls_sound. Qed.

(** What an admitted run says about the admissibility of its intent. *)
Lemma admitted_alone st k iid :
  store_sound st → f_admissions st !! admission_id_of iid = None →
  is_ok (admit_effect agent_root iid world0 (Agent st k)).2 = true →
  ∃ i m d c x expires, admissible (abs st) iid world0 i m d c x ∧
    _parse_utc (dg_expires_at_utc d) "expires_at_utc" = inr expires ∧ (epoch0 < expires)%Z.
Proof.
  intros Hs Hn Hok. pose proof (admit_effect_fresh agent_root st k iid world0 Hs Hn) as Hf.
  unfold wp in Hf. destruct (admit_effect _ _ _ _) as [a' [e|s]]; [done|]. simpl in Hf.
  destruct Hf as (x & _ & (_ & _ & i & m & d & c & ex & Ha & He & Hc) & _).
  exists i, m, d, c, x, ex. split; [exact Ha|split; [exact He|]].
  by rewrite still_clock in Hc.
Qed.

(** Both intents name the delegation, which allows one use and has none. *)
Lemma shared_delegation iid i d :
  iid = buy1 ∨ iid = sell1 → sp_intents (abs st_single) !! iid = Some i →
  sp_delegations (abs st_single) !! ei_delegation_id i = Some d →
  sp_delegations (abs st_single) !! "d1" = Some d ∧ uses (abs st_single) (dg_delegation_id d) = 0 ∧
  dg_max_uses d = 1%Z.
Proof.
  intros Hin Hi Hdel.
  assert (Hv : from_option (λ i, streq (ei_delegation_id i) "d1") false
    (sp_intents (abs st_single) !! iid) = true) by (destruct Hin as [-> | ->]; vm_compute; reflexivity).
  rewrite Hi in Hv. apply streq_true in Hv. rewrite Hv in Hdel.
  assert (Hw : from_option (λ d, (uses (abs st_single) (dg_delegation_id d) =? 0) &&
    (dg_max_uses d =? 1)%Z) false (sp_delegations (abs st_single) !! "d1") = true)
    by (vm_compute; reflexivity).
  rewrite Hdel in Hw. apply andb_true_iff in Hw as [Hu Hm]. apply Nat.eqb_eq in Hu. apply Z.eqb_eq in Hm.
  split; [exact Hdel|split; [exact Hu|exact Hm]].
Qed.

Lemma concurrent_admissions_overrun_witness :
  ∃ d a' s1 s2,
    dg_max_uses d = 1%Z ∧
    interleaved_admissions agent_root buy1 sell1 world0 world0 (Agent st_single k_single)
      = (a', inr (s1, s2)) ∧
    (dg_max_uses d < Z.of_nat (uses (abs (a_store a')) (dg_delegation_id d)))%Z.
Proof.
  assert (Hb : f_admissions st_single !! admission_id_of buy1 = None)
    by (apply has_false; vm_compute; reflexivity).
  assert (Hs : f_admissions st_single !! admission_id_of sell1 = None)
    by (apply has_false; vm_compute; reflexivity).
  destruct (admitted_alone _ k_single buy1 st_single_sound Hb) as (i1 & m1 & d1 & c1 & x1 & ex & A1 & He & Hc);
    [vm_compute; reflexivity|].
  destruct (admitted_alone _ k_single sell1 st_single_sound Hs) as (i2 & m2 & d2 & c2 & x2 & _ & A2 & _ & _);
    [vm_compute; reflexivity|].
  destruct (shared_delegation buy1 i1 d1 (or_introl eq_refl) (adm_intent _ _ _ _ _ _ _ _ A1)
    (adm_delegation _ _ _ _ _ _ _ _ A1)) as (L1 & U & M).
  destruct (shared_delegation sell1 i2 d2 (or_intror eq_refl) (adm_intent _ _ _ _ _ _ _ _ A2)
    (adm_delegation _ _ _ _ _ _ _ _ A2)) as (L2 & _ & _).
  assert (d2 = d1) as -> by (rewrite L1 in L2; by injection L2).
  destruct (concurrent_admissions_overrun agent_root st_single k_single buy1 sell1 world0 world0
    i1 i2 m1 m2 d1 c1 c2 x1 x2 ex st_single_sound Hb Hs) as [(a' & s1 & s2 & E & _ & _ & _ & Hu) _].
  - apply streq_false. vm_compute. reflexivity.
  - exact A1.
  - exact A2.
  - exact He.
  - intros n. by rewrite still_clock.
  - rewrite U, M. reflexivity.
  - exists d1, a', s1, s2. split; [exact M|split; [exact E|exact Hu]].
Defined.
End Still.
