(* ===== verification/AutonomyWitnesses.v ===== *)
(** A paper action under a mandate: requests, mandates and runtime states at
    which the theorems on autonomy admission apply. *)
From S2P Require Import Prelude PyDecimal PyTime PyJson ReceiptIO AutonomyControl AutonomyTheorems.

Definition paper_request : AgentActionRequest :=
  {| rq_action_id := "act_1"; rq_work_id := "work_1"; rq_agent_id := "agent_1";
     rq_objective := "trim the position"; rq_action_class := TAKE_PAPER_ACTION;
     rq_requested_autonomy := AUT4_PAPER_MANAGER; rq_tool_name := Some "paper.trade";
     rq_arguments := []; rq_target_scope := [("asset_class", JStr "equity")];
     rq_external_effect := false; rq_reversible := true; rq_source_refs := [] |}.

Definition paper_mandate (kill : bool) : AutonomyMandate :=
  {| md_mandate_id := "mandate_1"; md_authority_grant_id := None; md_principal_id := "principal_1";
     md_agent_id := "agent_1"; md_status := StatusActive; md_granted_autonomy := AUT4_PAPER_MANAGER;
     md_allowed_action_classes := [OBSERVE_STATE; TAKE_PAPER_ACTION];
     md_allowed_financial_action_types := []; md_allowed_asset_classes := ["equity"];
     md_allowed_tools := ["paper.trade"]; md_constraints := []; md_kill_switch_engaged := kill;
     md_expires_at_utc := Some "2026-12-31T00:00:00Z"; md_source_refs := [] |}.

Definition runtime_at (w : WorldFidelityLevel) (l : AgentAutonomyLevel) : AutonomyRuntimeState :=
  {| rt_world_fidelity := w; rt_runtime_autonomy_ceiling := l; rt_world_state_ref := None;
     rt_now_utc := "2026-06-01T00:00:00+00:00" |}.
Definition paper_runtime := runtime_at W3_OUTCOME_RECONCILIATION AUT4_PAPER_MANAGER.

Definition no_report : AutonomyAdmissionReport :=
  {| rp_action_id := ""; rp_work_id := ""; rp_disposition := BLOCKED; rp_effective := false;
     rp_human_control_mode := IN_THE_LOOP; rp_requested_autonomy := AUT0_CONTEXT_ASSISTANT;
     rp_required_autonomy := AUT0_CONTEXT_ASSISTANT; rp_granted_autonomy := None;
     rp_runtime_autonomy_ceiling := AUT0_CONTEXT_ASSISTANT;
     rp_current_world_fidelity := W0_CAPITAL_FACTS; rp_required_world_fidelity := W0_CAPITAL_FACTS;
     rp_mandate_id := None; rp_world_state_ref := None; rp_findings := [];
     rp_effect_admitted := false; rp_external_effect_admitted := false;
     rp_execution_allowed := false; rp_authority_transition := false |}.
Definition report_for (rt : AutonomyRuntimeState) (m : AutonomyMandate) : AutonomyAdmissionReport :=
  get_ok no_report (evaluate_autonomy_admission paper_request rt (Some m)).

Lemma effects_need_mandate_witness :
  (∃ m, Some (paper_mandate false) = Some m ∧ mandate_covers paper_request paper_runtime m) ∧
  rp_effect_admitted (report_for paper_runtime (paper_mandate false)) = true.
Proof.
  split; [|vm_compute; reflexivity].
  apply (effects_need_mandate paper_request paper_runtime (Some (paper_mandate false))
    (report_for paper_runtime (paper_mandate false))); vm_compute; reflexivity.
Defined.

Lemma mandate_out_of_force_blocks_witness :
  rp_disposition (report_for paper_runtime (paper_mandate true)) = BLOCKED.
Proof.
  apply (mandate_out_of_force_blocks paper_request paper_runtime (paper_mandate true)).
  - intros E. discriminate E.
  - right. right. reflexivity.
  - vm_compute. reflexivity.
Defined.
