(* ===== verification/PolicyExamples.v ===== *)
(** The authority, cognition, truth and data-quality policies run on concrete
    inputs: admitted and refused cases of each. *)
From S2P Require Import Prelude PyDecimal PyTime PyJson ReceiptIO ExecutionModels ExecutionServices ExecutionCommands Identity AuthorityAdmin AuthorityTransition Deliberation CognitionFlow CapitalTruth DataQuality Instances.

#[local] Existing Instance slow_env.

Definition administrator (assurance : AuthenticationAssurance) : OperatorContext :=
  {| oc_principal := {| pi_principal_id := "human_1"; pi_provider_id := "idp";
       pi_principal_kind := KindHuman; pi_display_label := None; pi_legacy_label := None;
       pi_legacy_label_verified := false |};
     oc_agent_runtime := None;
     oc_authority_administration := Some
       {| aa_assertion_id := "assert_1"; aa_principal_id := "human_1"; aa_provider_id := "idp";
          aa_policy_version := AUTHORITY_ADMINISTRATION_POLICY_VERSION;
          aa_authentication_assurance := assurance;
          aa_issued_at_utc := "2026-07-18T13:00:00+00:00";
          aa_expires_at_utc := "2026-07-18T14:00:00+00:00" |};
     oc_authentication_method := "webauthn";
     oc_authenticated_at_utc := "2026-07-18T13:00:00+00:00";
     oc_authentication_epoch_id := None; oc_authentication_expires_at_utc := None |}.
Definition administers (assurance : AuthenticationAssurance) (operation : string) : exn + string :=
  match (require_authority_administration (administrator assurance) operation None (Sys 0 0 ∅)).2 with
  | inr d => inr (av_checked_at_utc d)
  | inl e => inl e
  end.

Example elevated_admin_creates_grant :
  administers AssuranceElevated "grant_create" = inr "2026-07-18T13:04:05+00:00".
Proof. vm_compute. reflexivity. Qed.
Example standard_admin_revokes_only :
  administers AssuranceStandard "grant_revoke" = inr "2026-07-18T13:04:05+00:00" ∧
  administers AssuranceStandard "grant_create" =
    inl (Exn AuthorityAdministrationDeniedError "elevated_authentication_required").
Proof. vm_compute. done. Qed.
Example administrator_is_consistent :
  context_post_init (administrator AssuranceElevated) = inr (administrator AssuranceElevated).
Proof. reflexivity. Qed.

Definition attested (confirmed : bool) : TransitionRequest :=
  {| tq_subject_type := "proposal"; tq_subject_id := "p1"; tq_from_state := "draft";
     tq_to_state := "reviewed"; tq_eligibility := eligibility_from_evaluation_status "warn";
     tq_evaluation_report_refs := ["reports/1.json"; " "; " reports/1.json"];
     tq_human_attester := " ada "; tq_human_reason := "checked";
     tq_explicit_confirmation := confirmed; tq_capital_mandate_id := None;
     tq_agent_authority_grant_id := None; tq_supporting_receipt_refs := [] |}.
Example confirmed_transition_written :
  let '(s, r) := record_authority_transition "data/receipts/" (attested true) (Sys 0 0 ∅) in
  (elements (dom (sys_files s)),
   match r with
   | inr rec => Some (at_eligibility rec, at_evaluation_report_refs rec, at_human_attester rec)
   | inl _ => None
   end) =
  (["/srv/finharness/data/receipts/authority-transitions/at_20260718T130405Z_00000000.json"],
   Some (Deferred, ["reports/1.json"], "ada")).
Proof. vm_compute. reflexivity. Qed.
Example unconfirmed_transition_refused :
  (record_authority_transition "data/receipts/" (attested false) (Sys 0 0 ∅)).1 = Sys 0 0 ∅.
Proof. vm_compute. reflexivity. Qed.

(** A confirmed plan with one source, of given trust, and one step. *)
Definition plan_request (step : string) (uses : option (list string)) : FlowRequest :=
  {| fq_goal := "review"; fq_profile_name := "default"; fq_objective := "rebalance";
     fq_option_claims := ["hold"; "trim"]; fq_plan_steps := [step; " "];
     fq_stop_conditions := Some ["limit reached"]; fq_required_evaluations := Some ["ips_check"];
     fq_context_refs := None; fq_source_refs := Some ["receipt:1"];
     fq_human_attester := Some "ada"; fq_human_reason := Some "checked";
     fq_explicit_confirmation := true;
     fq_context_trust_by_ref := (λ u, {["receipt:1" :=
       {| ct_source_type := "receipt_backed_state"; ct_trust_level := "high";
          ct_verification_status := "verified"; ct_allowed_uses := u; ct_source_refs := [];
          ct_receipt_refs := [] |}]}) <$> uses;
     fq_required_context_use := "use_as_evidence"; fq_evaluator_override := None;
     fq_allow_evaluation_override := false |}.
(** How many files the flow wrote, and the eligibility on file. *)
Definition flow_outcome (q : FlowRequest) : nat * list json :=
  let '(s, _) := run_agent_cognition_flow "data/receipts" q (Sys 0 0 ∅) in
  (size (sys_files s),
   omap (λ '(_, j), match j with JObj l => obj_get "eligibility" l | _ => None end)
     (map_to_list (sys_files s))).
Example clean_plan_eligible :
  flow_outcome (plan_request "Review trade-off analysis" (Some ["read"; "use_as_evidence"]))
  = (5, [JStr "eligible"]).
Proof. vm_compute. reflexivity. Qed.
Example plan_without_trust_deferred :
  flow_outcome (plan_request "Review trade-off analysis" None) = (5, [JStr "deferred"]).
Proof. vm_compute. reflexivity. Qed.
Example untrusted_source_not_eligible :
  flow_outcome (plan_request "Review trade-off analysis" (Some ["read"])) = (5, [JStr "not_eligible"]).
Proof. vm_compute. reflexivity. Qed.
Example order_language_not_eligible :
  flow_outcome (plan_request "Submit the ORDER." (Some ["use_as_evidence"])) = (5, [JStr "not_eligible"]).
Proof. vm_compute. reflexivity. Qed.

Definition clean_quality : MarketDataQuality :=
  {| mq_ok := true; mq_missing_required_columns := []; mq_duplicate_timestamps := 0; mq_notes := [] |}.
Definition readiness (as_of reconciliation : string) : option ReadinessStatus :=
  match (build_quality_report "equity/ACME" as_of "r.json" clean_quality reconciliation [] None
           (Sys 0 0 ∅)).2 with
  | inr r => Some (dq_readiness_status r)
  | inl _ => None
  end.
Example readiness_by_age :
  map (λ t, readiness t "reconciled")
    ["2026-07-12T13:04:06Z"; "2026-07-12T13:04:05Z"; "2026-06-17T13:04:06Z";
     "2026-06-17T13:04:05Z"; "2026-07-19T00:00:00Z"; "2026-07-18T00:00:00"; "yesterday"]
  = [Some Usable; Some UsableWithWarnings; Some UsableWithWarnings;
     Some NotReady; Some NotReady; Some NotReady; Some NotReady].
Proof. vm_compute. reflexivity. Qed.
